(** * Aggregation-pipeline compiler of pg_helio_api: nested and output stages

    A shallow embedding of
    [src/pg_helio_api/src/aggregation/bson_aggregation_nested_pipeline.c]
    ($lookup, $graphLookup, $facet, $unionWith, $documents) and of
    [src/pg_helio_api/src/aggregation/bson_aggregation_output_pipeline.c]
    ($merge: the compiler and the functions its plans call per row), with
    the name checks of [src/pg_helio_api/src/metadata/collection.c],
    followed by the properties proved about them.

    Conventions.
    - C [int]/[int32_t]/[Index]/[AttrNumber] values are [Z]; list lengths
      are [nat].
    - A [StringView] is a [string]; the zeroed view (length 0) is [""].
      UTF8 values are taken without embedded NUL, so [strcmp] and the
      length-aware comparisons agree.
    - [ereport(ERROR, ...)] is the [Err] result; it carries the error code
      and the message format with its arguments.
    - Code that reads or changes state outside its arguments (feature
      counters, catalog, clock, GUCs, nested compilation) runs in the monad
      [M] over [World]. *)

From Stdlib Require Import ZArith List String Ascii Bool Lia DecimalString.
From stdpp Require Import base decidable option gmap strings list sorting.

Set Warnings "-register-all".

Open Scope string_scope.
Open Scope Z_scope.

(** ** BSON values *)

Module Bson.

Inductive bson_type_t : Type :=
| BSON_TYPE_EOD
| BSON_TYPE_UTF8
| BSON_TYPE_DOCUMENT
| BSON_TYPE_ARRAY
| BSON_TYPE_BOOL
| BSON_TYPE_NULL
| BSON_TYPE_INT32
| BSON_TYPE_INT64.

(** [bson_value_t]: the tagged union of libbson, restricted to the types the
    stage parsers distinguish.  [BsonEod] is the zeroed value
    ([value_type == BSON_TYPE_EOD]). *)
Inductive bson_value_t : Type :=
| BsonEod
| BsonUtf8 (str : string)
| BsonDocument (fields : list (string * bson_value_t))
| BsonArray (items : list bson_value_t)
| BsonBool (b : bool)
| BsonNull
| BsonInt32 (v_int32 : Z)
| BsonInt64 (v_int64 : Z).

(** A [pgbson] is a top-level document. *)
Definition pgbson : Type := list (string * bson_value_t).

Definition value_type (v : bson_value_t) : bson_type_t :=
  match v with
  | BsonEod => BSON_TYPE_EOD
  | BsonUtf8 _ => BSON_TYPE_UTF8
  | BsonDocument _ => BSON_TYPE_DOCUMENT
  | BsonArray _ => BSON_TYPE_ARRAY
  | BsonBool _ => BSON_TYPE_BOOL
  | BsonNull => BSON_TYPE_NULL
  | BsonInt32 _ => BSON_TYPE_INT32
  | BsonInt64 _ => BSON_TYPE_INT64
  end.

Definition bson_type_eqb (a b : bson_type_t) : bool :=
  match a, b with
  | BSON_TYPE_EOD, BSON_TYPE_EOD
  | BSON_TYPE_UTF8, BSON_TYPE_UTF8
  | BSON_TYPE_DOCUMENT, BSON_TYPE_DOCUMENT
  | BSON_TYPE_ARRAY, BSON_TYPE_ARRAY
  | BSON_TYPE_BOOL, BSON_TYPE_BOOL
  | BSON_TYPE_NULL, BSON_TYPE_NULL
  | BSON_TYPE_INT32, BSON_TYPE_INT32
  | BSON_TYPE_INT64, BSON_TYPE_INT64 => true
  | _, _ => false
  end.

(** [BsonValueInitIterator] followed by [bson_iter_next]/[bson_iter_value]:
    the values visited, in document (or array) order. *)
Definition bson_iter_values (v : bson_value_t) : list bson_value_t :=
  match v with
  | BsonDocument fields => List.map snd fields
  | BsonArray items => items
  | _ => []
  end.

(** The same walk with [bson_iter_key]; only documents are walked by key in
    the code below. *)
Definition bson_iter_fields (v : bson_value_t) : list (string * bson_value_t) :=
  match v with
  | BsonDocument fields => fields
  | _ => []
  end.

(** [BsonDocumentValueCountKeys]: the number of entries of a document or
    array value. *)
Definition BsonDocumentValueCountKeys (v : bson_value_t) : Z :=
  Z.of_nat (length (bson_iter_values v)).

(** [TryGetBsonValueToPgbsonElement] / [TryGetSinglePgbsonElementFromPgbson]:
    succeeds exactly on a document with a single field. *)
Definition TryGetBsonValueToPgbsonElement (v : bson_value_t)
  : option (string * bson_value_t) :=
  match v with
  | BsonDocument [el] => Some el
  | _ => None
  end.

Definition TryGetSinglePgbsonElementFromPgbson (doc : pgbson)
  : option (string * bson_value_t) :=
  match doc with
  | [el] => Some el
  | _ => None
  end.

Definition INT32_MAX : Z := 2147483647.

(** [(int32_t)] conversion of a 64-bit value: wrap-around modulo 2^32. *)
Definition wrap_int32 (z : Z) : Z :=
  ((z + 2147483648) mod 4294967296) - 2147483648.

Definition BsonValueIsNumber (v : bson_value_t) : bool :=
  match v with
  | BsonInt32 _ | BsonInt64 _ => true
  | _ => false
  end.

(** [IsBsonValueFixedInteger]: the integer types of this model always hold
    an integral value. *)
Definition IsBsonValueFixedInteger (v : bson_value_t) : bool :=
  BsonValueIsNumber v.

Definition BsonValueAsInt32 (v : bson_value_t) : Z :=
  match v with
  | BsonInt32 z => z
  | BsonInt64 z => wrap_int32 z
  | _ => 0
  end.

End Bson.
Export Bson.

(** ** String views *)

(** [StringViewStartsWithStringView(source, prefix)]. *)
Definition StringViewStartsWithStringView (source prefix : string) : bool :=
  String.prefix prefix source.

(** The characters of [s] before the first occurrence of [c], if [c] occurs
    ([memchr]). *)
Fixpoint string_before (c : ascii) (s : string) : option string :=
  match s with
  | EmptyString => None
  | String a rest =>
      if Ascii.eqb a c then Some EmptyString
      else match string_before c rest with
           | Some p => Some (String a p)
           | None => None
           end
  end.

(** [StringViewFindPrefix(source, character)]: the view up to the first
    [character]; the empty view when [character] does not occur. *)
Definition StringViewFindPrefix (source : string) (character : ascii) : string :=
  match string_before character source with
  | Some p => p
  | None => ""
  end.

Definition StringViewEquals (a b : string) : bool := String.eqb a b.

Definition IdFieldStringView : string := "_id".

(** [appendStringInfo(s, "%d", n)]. *)
Definition string_of_Z (z : Z) : string := NilZero.string_of_int (Z.to_int z).

(** ** Errors *)

Inductive ErrorCode : Type :=
| MongoBadValue
| MongoFailedToParse
| MongoTypeMismatch
| MongoCommandNotSupported
| MongoCommandNotSupportedOnView
| MongoUnknownBsonField
| MongoInvalidNamespace
| MongoInternalError
| MongoMaxSubPipelineDepthExceeded
| MongoOperationNotSupportedInTransaction
| MongoLocation15947
| MongoLocation16410
| MongoLocation31441
| MongoLocation40100
| MongoLocation40101
| MongoLocation40102
| MongoLocation40103
| MongoLocation40104
| MongoLocation40105
| MongoLocation40169
| MongoLocation40185
| MongoLocation40319
| MongoLocation40321
| MongoLocation40323
| MongoLocation40414
| MongoLocation40415
| MongoLocation40600
| MongoLocation51047
| MongoLocation51134
| MongoLocation51178
| MongoLocation51183
| MongoLocation51186
| MongoLocation51187
| MongoLocation51191
| MongoLocation5858203
| ERRCODE_INTERNAL_ERROR.

(** The names the specification gives to the codes it mentions. *)
Definition LimitExceeded : ErrorCode := MongoMaxSubPipelineDepthExceeded.
Definition StageNotAllowedInFacet : ErrorCode := MongoLocation40600.
Definition MissingUniqueIndex : ErrorCode := MongoLocation51183.

(** Arguments of an [errmsg] format string. *)
Inductive MsgArg : Type :=
| ArgStr (s : string)
| ArgType (t : bson_type_t)
| ArgInt (n : Z).

Inductive Res (A : Type) : Type :=
| Ok (a : A)
| Err (code : ErrorCode) (fmt : string) (args : list MsgArg).
Arguments Ok {A} a.
Arguments Err {A} code fmt args.

Definition bindR {A B : Type} (m : Res A) (k : A -> Res B) : Res B :=
  match m with
  | Ok a => k a
  | Err c f a => Err c f a
  end.

Definition is_ok {A : Type} (r : Res A) : bool :=
  match r with Ok _ => true | Err _ _ _ => false end.

Definition err_code {A : Type} (r : Res A) : option ErrorCode :=
  match r with Ok _ => None | Err c _ _ => Some c end.

Declare Scope res_scope.
Delimit Scope res_scope with R.
Notation "x <- m ;; k" := (bindR m (fun x => k))
  (at level 20, m at level 99, k at level 200) : res_scope.
Notation "'check' m ;; k" := (bindR m (fun _ => k))
  (at level 20, m at level 99, k at level 200) : res_scope.

(** ** Stage validation and parsing (bson_aggregation_nested_pipeline.c) *)

(** [EnsureTopLevelFieldValueType] / [EnsureTopLevelFieldType]
    (commands/parse_error.h): raises when the value does not have the
    expected type. *)
Definition EnsureTopLevelFieldValueType (fieldName : string)
    (value : bson_value_t) (expected : bson_type_t) : Res unit :=
  if bson_type_eqb (value_type value) expected then Ok tt
  else Err MongoTypeMismatch
         "BSON field '%s' is the wrong type '%s', expected type '%s'"
         [ArgStr fieldName; ArgType (value_type value); ArgType expected].

(** [GetPipelineStage]: validates and returns one pipeline stage, as the
    (name, argument) element of its single-field document. *)
Definition GetPipelineStage (pipelineStage : bson_value_t)
    (parentStage pipelineKey : string) : Res (string * bson_value_t) :=
  match pipelineStage with
  | BsonDocument _ =>
      match TryGetBsonValueToPgbsonElement pipelineStage with
      | Some stageElement => Ok stageElement
      | None =>
          Err MongoLocation40323
            "A pipeline stage specification object must contain exactly one field."
            []
      end
  | _ =>
      Err MongoBadValue "Pipeline stage for %s %s must be a document"
        [ArgStr parentStage; ArgStr pipelineKey]
  end.

(** The stage names [ValidateFacet] refuses inside a branch. *)
Definition facet_forbidden (nestedPipelineStage : string) : bool :=
  String.eqb nestedPipelineStage "$collStats" ||
  String.eqb nestedPipelineStage "$facet" ||
  String.eqb nestedPipelineStage "$geoNear" ||
  String.eqb nestedPipelineStage "$indexStats" ||
  String.eqb nestedPipelineStage "$out" ||
  String.eqb nestedPipelineStage "$merge" ||
  String.eqb nestedPipelineStage "$planCacheStats" ||
  String.eqb nestedPipelineStage "$search".

(** Inner loop of [ValidateFacet]: the stages of the branch [key]. *)
Fixpoint ValidateFacet_pipeline (key : string) (pipelineArray : list bson_value_t)
  : Res unit :=
  match pipelineArray with
  | [] => Ok tt
  | stage :: rest =>
      (stageElement <- GetPipelineStage stage "facet" key ;;
       let nestedPipelineStage := fst stageElement in
       if facet_forbidden nestedPipelineStage
       then Err MongoLocation40600
              "%s is not allowed to be used within a $facet stage"
              [ArgStr nestedPipelineStage]
       else ValidateFacet_pipeline key rest)%R
  end.

(** Outer loop of [ValidateFacet]: the branches, counting them. *)
Fixpoint ValidateFacet_branches (facetIter : list (string * bson_value_t))
    (numStages : Z) : Res Z :=
  match facetIter with
  | [] => Ok numStages
  | (key, pipeline) :: rest =>
      (check EnsureTopLevelFieldValueType "$facet.pipeline" pipeline BSON_TYPE_ARRAY ;;
       check ValidateFacet_pipeline key (bson_iter_values pipeline) ;;
       ValidateFacet_branches rest (numStages + 1))%R
  end.

Definition ValidateFacet (facetValue : bson_value_t) : Res Z :=
  match facetValue with
  | BsonDocument _ =>
      (numStages <- ValidateFacet_branches (bson_iter_fields facetValue) 0 ;;
       if Z.eqb numStages 0
       then Err MongoLocation40169
              "the $facet specification must be a non-empty object" []
       else Ok numStages)%R
  | _ =>
      Err MongoLocation15947 "a facet's fields must be specified in an object" []
  end.

(** *** $lookup *)

Record LookupArgs : Type := mkLookupArgs {
  from : string;
  lookupAs : string;
  foreignField : string;
  localField : string;
  pipeline : bson_value_t;
  hasLookupMatch : bool
}.

(** [memset(&lookupArgs, 0, sizeof(LookupArgs))]. *)
Definition LookupArgs_zero : LookupArgs :=
  mkLookupArgs "" "" "" "" BsonEod false.

(** The stages of a $lookup [pipeline] argument. *)
Fixpoint ParseLookupStage_pipeline (pipelineArray : list bson_value_t) : Res unit :=
  match pipelineArray with
  | [] => Ok tt
  | stage :: rest =>
      (stageElement <- GetPipelineStage stage "lookup" "pipeline" ;;
       let nestedPipelineStage := fst stageElement in
       if String.eqb nestedPipelineStage "$out" ||
          String.eqb nestedPipelineStage "$merge"
       then Err MongoLocation51047
              "%s is not allowed to be used within a $lookup stage"
              [ArgStr nestedPipelineStage]
       else ParseLookupStage_pipeline rest)%R
  end.

(** The [while (bson_iter_next(&lookupIter))] loop of [ParseLookupStage]. *)
Fixpoint ParseLookupStage_fields (lookupIter : list (string * bson_value_t))
    (args : LookupArgs) : Res LookupArgs :=
  match lookupIter with
  | [] => Ok args
  | (key, value) :: rest =>
      if String.eqb key "as" then
        match value with
        | BsonUtf8 s =>
            ParseLookupStage_fields rest
              (mkLookupArgs (from args) s (foreignField args) (localField args)
                 (pipeline args) (hasLookupMatch args))
        | _ => Err MongoFailedToParse
                 "lookup argument 'as' must be a string, is type %s"
                 [ArgType (value_type value)]
        end
      else if String.eqb key "foreignField" then
        match value with
        | BsonUtf8 s =>
            ParseLookupStage_fields rest
              (mkLookupArgs (from args) (lookupAs args) s (localField args)
                 (pipeline args) (hasLookupMatch args))
        | _ => Err MongoFailedToParse
                 "lookup argument 'foreignField' must be a string, is type %s"
                 [ArgType (value_type value)]
        end
      else if String.eqb key "from" then
        match value with
        | BsonUtf8 s =>
            ParseLookupStage_fields rest
              (mkLookupArgs s (lookupAs args) (foreignField args) (localField args)
                 (pipeline args) (hasLookupMatch args))
        | _ => Err MongoLocation40321
                 "lookup argument 'from' must be a string, is type %s"
                 [ArgType (value_type value)]
        end
      else if String.eqb key "let" then
        Err MongoCommandNotSupported "let not supported" []
      else if String.eqb key "localField" then
        match value with
        | BsonUtf8 s =>
            ParseLookupStage_fields rest
              (mkLookupArgs (from args) (lookupAs args) (foreignField args) s
                 (pipeline args) (hasLookupMatch args))
        | _ => Err MongoFailedToParse
                 "lookup argument 'localField' must be a string, is type %s"
                 [ArgType (value_type value)]
        end
      else if String.eqb key "pipeline" then
        (check EnsureTopLevelFieldValueType "$lookup.pipeline" value BSON_TYPE_ARRAY ;;
         check ParseLookupStage_pipeline (bson_iter_values value) ;;
         ParseLookupStage_fields rest
           (mkLookupArgs (from args) (lookupAs args) (foreignField args)
              (localField args) value (hasLookupMatch args)))%R
      else
        Err MongoFailedToParse "unknown argument to $lookup: %s" [ArgStr key]
  end.

(** The checks of [ParseLookupStage] after the loop. *)
Definition ParseLookupStage_finish (args : LookupArgs) : Res LookupArgs :=
  if String.eqb (lookupAs args) "" then
    Err MongoFailedToParse "must specify 'as' field for a $lookup" []
  else
    let isPipelineLookup := negb (bson_type_eqb (value_type (pipeline args)) BSON_TYPE_EOD) in
    if String.eqb (from args) "" && negb isPipelineLookup then
      Err MongoFailedToParse "must specify 'from' field for a $lookup" []
    else if negb isPipelineLookup &&
            (String.eqb (foreignField args) "" || String.eqb (localField args) "") then
      Err MongoFailedToParse
        "$lookup requires either 'pipeline' or both 'localField' and 'foreignField' to be specified"
        []
    else if xorb (String.eqb (foreignField args) "") (String.eqb (localField args) "") then
      Err MongoFailedToParse
        "$lookup requires both or neither of 'localField' and 'foreignField' to be specified"
        []
    else if negb (String.eqb (foreignField args) "") then
      Ok (mkLookupArgs (from args) (lookupAs args) (foreignField args)
            (localField args) (pipeline args) true)
    else Ok args.

(** [ParseLookupStage(existingValue, args)] on zeroed [args]. *)
Definition ParseLookupStage (existingValue : bson_value_t) : Res LookupArgs :=
  match existingValue with
  | BsonDocument _ =>
      (args <- ParseLookupStage_fields (bson_iter_fields existingValue) LookupArgs_zero ;;
       ParseLookupStage_finish args)%R
  | _ =>
      Err MongoLocation40319
        "the $lookup stage specification must be an object, but found %s"
        [ArgType (value_type existingValue)]
  end.

(** [LookupExtractCollectionAndPipeline]. *)
Definition LookupExtractCollectionAndPipeline (lookupValue : bson_value_t)
  : Res (string * bson_value_t) :=
  (args <- ParseLookupStage lookupValue ;; Ok (from args, pipeline args))%R.

(** [CanInlineLookupStageLookup]: a nested $lookup stage can be inlined as
    long as its [as] does not intersect the looked-up path. *)
Definition CanInlineLookupStageLookup (lookupStage : bson_value_t)
    (lookupPath : string) : Res bool :=
  (nestedLookupArgs <- ParseLookupStage lookupStage ;;
   if StringViewStartsWithStringView (lookupAs nestedLookupArgs) lookupPath ||
      StringViewStartsWithStringView lookupPath (lookupAs nestedLookupArgs)
   then Ok false
   else Ok true)%R.

(** *** $unionWith *)

(** The document form of [ParseUnionWith]: the loop over its fields, with
    the out-parameters [collectionFrom] and [pipeline] as accumulators. *)
Fixpoint ParseUnionWith_fields (pipelineIterator : list (string * bson_value_t))
    (collectionFrom : string) (pipelineValue : bson_value_t)
  : Res (string * bson_value_t) :=
  match pipelineIterator with
  | [] => Ok (collectionFrom, pipelineValue)
  | (key, value) :: rest =>
      if String.eqb key "coll" then
        (check EnsureTopLevelFieldValueType "$unionWith.coll" value BSON_TYPE_UTF8 ;;
         match value with
         | BsonUtf8 s => ParseUnionWith_fields rest s pipelineValue
         | _ => ParseUnionWith_fields rest collectionFrom pipelineValue
         end)%R
      else if String.eqb key "pipeline" then
        (check EnsureTopLevelFieldValueType "$unionWith.pipeline" value BSON_TYPE_ARRAY ;;
         ParseUnionWith_fields rest collectionFrom value)%R
      else
        Err MongoUnknownBsonField "BSON field '$unionWith.%s' is an unknown field."
          [ArgStr key]
  end.

(** [ParseUnionWith] on zeroed out-parameters. *)
Definition ParseUnionWith (existingValue : bson_value_t)
  : Res (string * bson_value_t) :=
  match existingValue with
  | BsonUtf8 s => Ok (s, BsonEod)
  | BsonDocument fields =>
      (r <- ParseUnionWith_fields fields "" BsonEod ;;
       if String.eqb (fst r) ""
       then Err MongoCommandNotSupported
              "$unionWith without explicit collection not supported yet" []
       else Ok r)%R
  | _ =>
      Err MongoFailedToParse
        "the $unionWith stage specification must be an object or string, but found %s"
        [ArgType (value_type existingValue)]
  end.

Fixpoint ValidateUnionWithPipeline_stages (pipelineIter : list bson_value_t)
  : Res unit :=
  match pipelineIter with
  | [] => Ok tt
  | stage :: rest =>
      (stageElement <- GetPipelineStage stage "unionWith" "pipeline" ;;
       if String.eqb (fst stageElement) "$out" then
         Err MongoLocation31441
           "$out is not allowed within a $unionWith's sub-pipeline" []
       else if String.eqb (fst stageElement) "$merge" then
         Err MongoLocation31441
           "$merge is not allowed within a $unionWith's sub-pipeline" []
       else ValidateUnionWithPipeline_stages rest)%R
  end.

Definition ValidateUnionWithPipeline (pipelineValue : bson_value_t) : Res unit :=
  ValidateUnionWithPipeline_stages (bson_iter_values pipelineValue).

(** *** $graphLookup *)

Record GraphLookupArgs : Type := mkGraphLookupArgs {
  inputExpression : bson_value_t;
  fromCollection : string;
  connectFromField : string;
  connectToField : string;
  asField : string;
  maxDepth : Z;
  depthField : string;
  restrictSearch : bson_value_t;
  connectFromFieldExpression : bson_value_t
}.

Definition GraphLookupArgs_zero : GraphLookupArgs :=
  mkGraphLookupArgs BsonEod "" "" "" "" 0 "" BsonEod BsonEod.

Definition set_inputExpression (v : bson_value_t) (a : GraphLookupArgs) :=
  mkGraphLookupArgs v (fromCollection a) (connectFromField a) (connectToField a)
    (asField a) (maxDepth a) (depthField a) (restrictSearch a)
    (connectFromFieldExpression a).
Definition set_fromCollection (v : string) (a : GraphLookupArgs) :=
  mkGraphLookupArgs (inputExpression a) v (connectFromField a) (connectToField a)
    (asField a) (maxDepth a) (depthField a) (restrictSearch a)
    (connectFromFieldExpression a).
Definition set_connectFromField (v : string) (a : GraphLookupArgs) :=
  mkGraphLookupArgs (inputExpression a) (fromCollection a) v (connectToField a)
    (asField a) (maxDepth a) (depthField a) (restrictSearch a)
    (connectFromFieldExpression a).
Definition set_connectToField (v : string) (a : GraphLookupArgs) :=
  mkGraphLookupArgs (inputExpression a) (fromCollection a) (connectFromField a) v
    (asField a) (maxDepth a) (depthField a) (restrictSearch a)
    (connectFromFieldExpression a).
Definition set_asField (v : string) (a : GraphLookupArgs) :=
  mkGraphLookupArgs (inputExpression a) (fromCollection a) (connectFromField a)
    (connectToField a) v (maxDepth a) (depthField a) (restrictSearch a)
    (connectFromFieldExpression a).
Definition set_maxDepth (v : Z) (a : GraphLookupArgs) :=
  mkGraphLookupArgs (inputExpression a) (fromCollection a) (connectFromField a)
    (connectToField a) (asField a) v (depthField a) (restrictSearch a)
    (connectFromFieldExpression a).
Definition set_depthField (v : string) (a : GraphLookupArgs) :=
  mkGraphLookupArgs (inputExpression a) (fromCollection a) (connectFromField a)
    (connectToField a) (asField a) (maxDepth a) v (restrictSearch a)
    (connectFromFieldExpression a).
Definition set_restrictSearch (v : bson_value_t) (a : GraphLookupArgs) :=
  mkGraphLookupArgs (inputExpression a) (fromCollection a) (connectFromField a)
    (connectToField a) (asField a) (maxDepth a) (depthField a) v
    (connectFromFieldExpression a).
Definition set_connectFromFieldExpression (v : bson_value_t) (a : GraphLookupArgs) :=
  mkGraphLookupArgs (inputExpression a) (fromCollection a) (connectFromField a)
    (connectToField a) (asField a) (maxDepth a) (depthField a) (restrictSearch a) v.

(** [length > 0 && string[0] == '$']. *)
Definition starts_with_dollar (s : string) : bool :=
  match s with
  | String c _ => Ascii.eqb c "$"%char
  | EmptyString => false
  end.

(** A string-typed $graphLookup argument that names a field path. *)
Definition graphLookup_field (name : string) (value : bson_value_t) : Res string :=
  match value with
  | BsonUtf8 s =>
      if starts_with_dollar s
      then Err MongoLocation16410 "%s: FieldPath field names may not start with '$'"
             [ArgStr name]
      else Ok s
  | _ => Err MongoLocation40103
           "graphlookup argument '%s' must be a string, is type %s"
           [ArgStr name; ArgType (value_type value)]
  end.

(** The loop of [ParseGraphLookupStage]; [fromSpecified] is its local flag. *)
Fixpoint ParseGraphLookupStage_fields (lookupIter : list (string * bson_value_t))
    (args : GraphLookupArgs) (fromSpecified : bool)
  : Res (GraphLookupArgs * bool) :=
  match lookupIter with
  | [] => Ok (args, fromSpecified)
  | (key, value) :: rest =>
      if String.eqb key "as" then
        (s <- graphLookup_field "as" value ;;
         ParseGraphLookupStage_fields rest (set_asField s args) fromSpecified)%R
      else if String.eqb key "startWith" then
        ParseGraphLookupStage_fields rest (set_inputExpression value args) fromSpecified
      else if String.eqb key "connectFromField" then
        (s <- graphLookup_field "connectFromField" value ;;
         ParseGraphLookupStage_fields rest (set_connectFromField s args) fromSpecified)%R
      else if String.eqb key "connectToField" then
        (s <- graphLookup_field "connectToField" value ;;
         ParseGraphLookupStage_fields rest (set_connectToField s args) fromSpecified)%R
      else if String.eqb key "from" then
        match value with
        | BsonUtf8 s =>
            ParseGraphLookupStage_fields rest (set_fromCollection s args) true
        | _ => Err MongoFailedToParse
                 "graphlookup argument 'from' must be a string, is type %s"
                 [ArgType (value_type value)]
        end
      else if String.eqb key "maxDepth" then
        if negb (BsonValueIsNumber value) then
          Err MongoLocation40100
            "graphlookup argument 'maxDepth' must be a number, is type %s"
            [ArgType (value_type value)]
        else if negb (IsBsonValueFixedInteger value) then
          Err MongoLocation40102
            "graphlookup.maxDepth must be a non-negative integer." []
        else if BsonValueAsInt32 value <? 0 then
          Err MongoLocation40101
            "graphlookup.maxDepth must be a non-negative integer." []
        else
          ParseGraphLookupStage_fields rest
            (set_maxDepth (BsonValueAsInt32 value) args) fromSpecified
      else if String.eqb key "depthField" then
        (s <- graphLookup_field "depthField" value ;;
         ParseGraphLookupStage_fields rest (set_depthField s args) fromSpecified)%R
      else if String.eqb key "restrictSearchWithMatch" then
        match value with
        | BsonDocument _ =>
            ParseGraphLookupStage_fields rest (set_restrictSearch value args) fromSpecified
        | _ => Err MongoLocation40185
                 "graphlookup argument 'restrictSearchWithMatch' must be a document, is type %s"
                 [ArgType (value_type value)]
        end
      else
        Err MongoLocation40104 "unknown argument to $graphlookup: %s" [ArgStr key]
  end.

Definition ParseGraphLookupStage_finish (args : GraphLookupArgs)
    (fromSpecified : bool) : Res GraphLookupArgs :=
  if String.eqb (asField args) "" then
    Err MongoLocation40105 "must specify 'as' field for a $graphLookup" []
  else if negb fromSpecified then
    Err MongoFailedToParse "must specify 'from' field for a $graphLookup" []
  else if String.eqb (fromCollection args) "" then
    Err MongoInvalidNamespace "must specify 'from' field for a $graphLookup" []
  else if bson_type_eqb (value_type (inputExpression args)) BSON_TYPE_EOD then
    Err MongoLocation40105 "must specify 'startWith' for a $graphLookup" []
  else if String.eqb (connectFromField args) "" ||
          String.eqb (connectToField args) "" then
    Err MongoLocation40105
      "must specify both 'connectFrom' and 'connectTo' for a $graphLookup" []
  else
    Ok (set_connectFromFieldExpression
          (BsonUtf8 (String.append "$" (connectFromField args))) args).

(** [ParseGraphLookupStage] on zeroed [args]; [maxDepth] starts at
    [INT32_MAX]. *)
Definition ParseGraphLookupStage (existingValue : bson_value_t)
  : Res GraphLookupArgs :=
  match existingValue with
  | BsonDocument fields =>
      (r <- ParseGraphLookupStage_fields fields
              (set_maxDepth INT32_MAX GraphLookupArgs_zero) false ;;
       ParseGraphLookupStage_finish (fst r) (snd r))%R
  | _ =>
      Err MongoFailedToParse
        "the $graphLookup stage specification must be an object, but found %s"
        [ArgType (value_type existingValue)]
  end.

(** ** The plan IR: PostgreSQL query trees *)

(** Object identifiers: types, functions and operators the compiler refers
    to, by the name of the accessor that yields them in the C code. *)
Inductive Oid : Type :=
| InvalidOid
| BsonTypeId
| BsonArrayTypeId          (* get_array_type(BsonTypeId()) *)
| BsonQueryTypeId
| TEXTOID
| BOOLOID
| INT4OID
| INT8OID
| TIMESTAMPTZOID
| RECORDARRAYOID
| BsonLookupUnwindFunctionOid
| BsonArrayAggregateFunctionOid
| BsonObjectAggregateFunctionOid
| BsonLookupExtractFilterArrayFunctionOid
| HelioApiInternalBsonLookupExtractFilterExpressionFunctionOid
| BsonDollarLookupJoinFilterFunctionOid
| GetMergeDocumentsFunctionOid
| BsonExpressionGetFunctionOid
| BsonInMatchFunctionId
| BsonDollarAddFieldsFunctionOid
| BsonDollarMergeHandleWhenMatchedFunctionOid
| BsonDollarMergeAddObjectIdFunctionOid
| BsonDollarMergeFailWhenNotMatchedFunctionOid
| BsonDollarMergeJoinFunctionOid
| BsonGetValueFunctionOid
| BsonEqualOperatorId
| BsonLessThanOperatorId
| BsonLessThanMatchRuntimeOperatorId
| BsonLessThanMatchRuntimeFunctionId
| PostgresInt4EqualOperatorOid
| BooleanNotEqualOperator
| RelationOid (schemaName tableName : string).   (* RangeVarGetRelid *)

Inductive Datum : Type :=
| DatumBson (doc : pgbson)
| DatumText (s : string)
| DatumBool (b : bool)
| DatumInt32 (z : Z)
| DatumInt64 (z : Z)
| DatumTimestampTz (t : Z).

Inductive CmdType : Type :=
| CMD_UNKNOWN | CMD_SELECT | CMD_UPDATE | CMD_INSERT | CMD_MERGE | CMD_NOTHING.

Inductive QuerySource : Type :=
| QSRC_ORIGINAL | QSRC_PARSER | QSRC_INSTEAD_RULE.

Inductive JoinType : Type := JOIN_INNER | JOIN_LEFT.

Inductive CTEMaterialize : Type :=
| CTEMaterializeDefault | CTEMaterializeAlways | CTEMaterializeNever.

Inductive SubLinkType : Type := EXISTS_SUBLINK | EXPR_SUBLINK.

Inductive SetOperation : Type := SETOP_NONE | SETOP_UNION.

Inductive LockMode : Type := NoLock | RowExclusiveLock.

Record Alias : Type := makeAlias { aliasname : string; colnames : list string }.

Record SortGroupClause : Type := mkSortGroupClause {
  tleSortGroupRef : Z;
  eqop : Oid;
  sortop : Oid;
  hashable : bool
}.

Record CTECycleClause : Type := mkCTECycleClause {
  cycle_col_list : list string;
  cycle_mark_column : string;
  cycle_path_column : string;
  cycle_mark_value : Oid * Datum;
  cycle_mark_default : Oid * Datum;
  cycle_mark_type : Oid;
  cycle_mark_typmod : Z;
  cycle_mark_collation : Oid;
  cycle_mark_neop : Oid
}.

(** The [setOperations] tree: leaves are [RangeTblRef]s.  The arguments of a
    statement are optional because [BuildFacetUnionAllQuery] fills them in
    one at a time. *)
Inductive SetOpNode : Type :=
| SetOpRangeTblRef (rtindex : Z)
| SetOperationStmt (op : SetOperation) (all : bool)
    (larg rarg : option SetOpNode)
    (colTypes : list Oid) (colTypmods : list Z) (colCollations : list Oid).

(** The fields every kind of range-table entry has. *)
Record RteCommon : Type := mkRteCommon {
  alias : option Alias;
  eref : option Alias;
  lateral : bool;
  inh : bool;
  inFromCl : bool;
  requiredPerms : Z
}.

(** Expressions, queries and their parts.  A [RangeTblEntry] is the tagged
    union selected by [rtekind], with the fields that kind uses.
    [searchCycleRewrite] stands for the outcome of PostgreSQL's
    [rewriteSearchAndCycle] on the UNION ALL query of a recursive CTE: both
    branches compute the mark and path columns of the recorded clause, and
    the recursive branch only expands rows that are not marked. *)
Inductive Expr : Type :=
| Var (varno varattno : Z) (vartype : Oid) (vartypmod : Z) (varcollid : Oid)
    (varlevelsup : Z)
| Const (consttype : Oid) (constvalue : Datum)
| FuncExpr (funcid funcresulttype : Oid) (args : list Expr) (funcretset : bool)
| Aggref (aggfnoid : Oid) (aggargs : list Expr) (aggargtypes : list Oid)
| CoalesceExpr (coalescetype : Oid) (coalesceargs : list Expr)
| ScalarArrayOpExpr (opno : Oid) (useOr : bool) (saopargs : list Expr)
| OpExpr (opno opfuncid opresulttype : Oid) (opargs : list Expr)
| BoolExprAnd (boolargs : list Expr)
| SubLink (subLinkType : SubLinkType) (subLinkId : Z) (subselect : Query)
with Query : Type :=
| mkQuery (commandType : CmdType) (querySource : QuerySource)
    (canSetTag : bool) (resultRelation : Z)
    (hasAggs hasSubLinks hasDistinctOn hasRecursive : bool)
    (cteList : list CommonTableExpr) (rtable : list RangeTblEntry)
    (jointree : option FromExpr) (mergeActionList : list MergeAction)
    (targetList : list TargetEntry)
    (distinctClause sortClause : list SortGroupClause)
    (setOperations : option SetOpNode)
    (searchCycleRewrite : option CTECycleClause)
with TargetEntry : Type :=
| mkTargetEntry (expr : Expr) (resno : Z) (resname : option string)
    (ressortgroupref : Z) (resjunk : bool)
with RangeTblEntry : Type :=
| RTE_RELATION (relid : Oid) (rellockmode : LockMode) (c : RteCommon)
| RTE_SUBQUERY (subquery : Query) (c : RteCommon)
| RTE_JOIN (jointype : JoinType) (joinmergedcols : Z) (joinaliasvars : list Expr)
    (joinleftcols joinrightcols : list Z) (c : RteCommon)
| RTE_FUNCTION (functions : list RangeTblFunction) (c : RteCommon)
| RTE_CTE (rte_ctename : string) (ctelevelsup : Z) (self_reference : bool)
    (c : RteCommon)
with RangeTblFunction : Type :=
| mkRangeTblFunction (funcexpr : Expr) (funccolcount : Z)
    (funccoltypes : list Oid) (funccoltypmods : list Z)
    (funccolcollations : list Oid)
with CommonTableExpr : Type :=
| mkCommonTableExpr (ctename : string) (ctematerialized : CTEMaterialize)
    (ctequery : option Query) (cterecursive : bool) (cterefcount : Z)
    (ctecolnames : list string) (ctecoltypes : list Oid)
    (ctecoltypmods : list Z) (ctecolcollations : list Oid)
    (cycle_clause : option CTECycleClause)
with FromExpr : Type :=
| mkFromExpr (fromlist : list JoinTreeNode) (quals : option Expr)
with JoinTreeNode : Type :=
| RangeTblRef (rtindex : Z)
| JoinExpr (jointype : JoinType) (larg rarg : JoinTreeNode)
    (joinquals : option Expr) (rtindex : Z)
with MergeAction : Type :=
| mkMergeAction (matched : bool) (ma_commandType : CmdType)
    (ma_targetList : list TargetEntry).

(** Field access and field assignment ([x->f] and [x->f = v]). *)
Definition commandType (x : Query) : CmdType :=
  match x with mkQuery commandType _ _ _ _ _ _ _ _ _ _ _ _ _ _ _ _ => commandType end.
Definition querySource (x : Query) : QuerySource :=
  match x with mkQuery _ querySource _ _ _ _ _ _ _ _ _ _ _ _ _ _ _ => querySource end.
Definition canSetTag (x : Query) : bool :=
  match x with mkQuery _ _ canSetTag _ _ _ _ _ _ _ _ _ _ _ _ _ _ => canSetTag end.
Definition resultRelation (x : Query) : Z :=
  match x with mkQuery _ _ _ resultRelation _ _ _ _ _ _ _ _ _ _ _ _ _ => resultRelation end.
Definition hasAggs (x : Query) : bool :=
  match x with mkQuery _ _ _ _ hasAggs _ _ _ _ _ _ _ _ _ _ _ _ => hasAggs end.
Definition hasSubLinks (x : Query) : bool :=
  match x with mkQuery _ _ _ _ _ hasSubLinks _ _ _ _ _ _ _ _ _ _ _ => hasSubLinks end.
Definition hasDistinctOn (x : Query) : bool :=
  match x with mkQuery _ _ _ _ _ _ hasDistinctOn _ _ _ _ _ _ _ _ _ _ => hasDistinctOn end.
Definition hasRecursive (x : Query) : bool :=
  match x with mkQuery _ _ _ _ _ _ _ hasRecursive _ _ _ _ _ _ _ _ _ => hasRecursive end.
Definition cteList (x : Query) : list CommonTableExpr :=
  match x with mkQuery _ _ _ _ _ _ _ _ cteList _ _ _ _ _ _ _ _ => cteList end.
Definition rtable (x : Query) : list RangeTblEntry :=
  match x with mkQuery _ _ _ _ _ _ _ _ _ rtable _ _ _ _ _ _ _ => rtable end.
Definition jointree (x : Query) : option FromExpr :=
  match x with mkQuery _ _ _ _ _ _ _ _ _ _ jointree _ _ _ _ _ _ => jointree end.
Definition mergeActionList (x : Query) : list MergeAction :=
  match x with mkQuery _ _ _ _ _ _ _ _ _ _ _ mergeActionList _ _ _ _ _ => mergeActionList end.
Definition targetList (x : Query) : list TargetEntry :=
  match x with mkQuery _ _ _ _ _ _ _ _ _ _ _ _ targetList _ _ _ _ => targetList end.
Definition distinctClause (x : Query) : list SortGroupClause :=
  match x with mkQuery _ _ _ _ _ _ _ _ _ _ _ _ _ distinctClause _ _ _ => distinctClause end.
Definition sortClause (x : Query) : list SortGroupClause :=
  match x with mkQuery _ _ _ _ _ _ _ _ _ _ _ _ _ _ sortClause _ _ => sortClause end.
Definition setOperations (x : Query) : option SetOpNode :=
  match x with mkQuery _ _ _ _ _ _ _ _ _ _ _ _ _ _ _ setOperations _ => setOperations end.
Definition searchCycleRewrite (x : Query) : option CTECycleClause :=
  match x with mkQuery _ _ _ _ _ _ _ _ _ _ _ _ _ _ _ _ searchCycleRewrite => searchCycleRewrite end.
Definition set_commandType (v : CmdType) (x : Query) : Query :=
  match x with mkQuery _ querySource canSetTag resultRelation hasAggs hasSubLinks hasDistinctOn hasRecursive cteList rtable jointree mergeActionList targetList distinctClause sortClause setOperations searchCycleRewrite => mkQuery v querySource canSetTag resultRelation hasAggs hasSubLinks hasDistinctOn hasRecursive cteList rtable jointree mergeActionList targetList distinctClause sortClause setOperations searchCycleRewrite end.
Definition set_querySource (v : QuerySource) (x : Query) : Query :=
  match x with mkQuery commandType _ canSetTag resultRelation hasAggs hasSubLinks hasDistinctOn hasRecursive cteList rtable jointree mergeActionList targetList distinctClause sortClause setOperations searchCycleRewrite => mkQuery commandType v canSetTag resultRelation hasAggs hasSubLinks hasDistinctOn hasRecursive cteList rtable jointree mergeActionList targetList distinctClause sortClause setOperations searchCycleRewrite end.
Definition set_canSetTag (v : bool) (x : Query) : Query :=
  match x with mkQuery commandType querySource _ resultRelation hasAggs hasSubLinks hasDistinctOn hasRecursive cteList rtable jointree mergeActionList targetList distinctClause sortClause setOperations searchCycleRewrite => mkQuery commandType querySource v resultRelation hasAggs hasSubLinks hasDistinctOn hasRecursive cteList rtable jointree mergeActionList targetList distinctClause sortClause setOperations searchCycleRewrite end.
Definition set_resultRelation (v : Z) (x : Query) : Query :=
  match x with mkQuery commandType querySource canSetTag _ hasAggs hasSubLinks hasDistinctOn hasRecursive cteList rtable jointree mergeActionList targetList distinctClause sortClause setOperations searchCycleRewrite => mkQuery commandType querySource canSetTag v hasAggs hasSubLinks hasDistinctOn hasRecursive cteList rtable jointree mergeActionList targetList distinctClause sortClause setOperations searchCycleRewrite end.
Definition set_hasAggs (v : bool) (x : Query) : Query :=
  match x with mkQuery commandType querySource canSetTag resultRelation _ hasSubLinks hasDistinctOn hasRecursive cteList rtable jointree mergeActionList targetList distinctClause sortClause setOperations searchCycleRewrite => mkQuery commandType querySource canSetTag resultRelation v hasSubLinks hasDistinctOn hasRecursive cteList rtable jointree mergeActionList targetList distinctClause sortClause setOperations searchCycleRewrite end.
Definition set_hasSubLinks (v : bool) (x : Query) : Query :=
  match x with mkQuery commandType querySource canSetTag resultRelation hasAggs _ hasDistinctOn hasRecursive cteList rtable jointree mergeActionList targetList distinctClause sortClause setOperations searchCycleRewrite => mkQuery commandType querySource canSetTag resultRelation hasAggs v hasDistinctOn hasRecursive cteList rtable jointree mergeActionList targetList distinctClause sortClause setOperations searchCycleRewrite end.
Definition set_hasDistinctOn (v : bool) (x : Query) : Query :=
  match x with mkQuery commandType querySource canSetTag resultRelation hasAggs hasSubLinks _ hasRecursive cteList rtable jointree mergeActionList targetList distinctClause sortClause setOperations searchCycleRewrite => mkQuery commandType querySource canSetTag resultRelation hasAggs hasSubLinks v hasRecursive cteList rtable jointree mergeActionList targetList distinctClause sortClause setOperations searchCycleRewrite end.
Definition set_hasRecursive (v : bool) (x : Query) : Query :=
  match x with mkQuery commandType querySource canSetTag resultRelation hasAggs hasSubLinks hasDistinctOn _ cteList rtable jointree mergeActionList targetList distinctClause sortClause setOperations searchCycleRewrite => mkQuery commandType querySource canSetTag resultRelation hasAggs hasSubLinks hasDistinctOn v cteList rtable jointree mergeActionList targetList distinctClause sortClause setOperations searchCycleRewrite end.
Definition set_cteList (v : list CommonTableExpr) (x : Query) : Query :=
  match x with mkQuery commandType querySource canSetTag resultRelation hasAggs hasSubLinks hasDistinctOn hasRecursive _ rtable jointree mergeActionList targetList distinctClause sortClause setOperations searchCycleRewrite => mkQuery commandType querySource canSetTag resultRelation hasAggs hasSubLinks hasDistinctOn hasRecursive v rtable jointree mergeActionList targetList distinctClause sortClause setOperations searchCycleRewrite end.
Definition set_rtable (v : list RangeTblEntry) (x : Query) : Query :=
  match x with mkQuery commandType querySource canSetTag resultRelation hasAggs hasSubLinks hasDistinctOn hasRecursive cteList _ jointree mergeActionList targetList distinctClause sortClause setOperations searchCycleRewrite => mkQuery commandType querySource canSetTag resultRelation hasAggs hasSubLinks hasDistinctOn hasRecursive cteList v jointree mergeActionList targetList distinctClause sortClause setOperations searchCycleRewrite end.
Definition set_jointree (v : option FromExpr) (x : Query) : Query :=
  match x with mkQuery commandType querySource canSetTag resultRelation hasAggs hasSubLinks hasDistinctOn hasRecursive cteList rtable _ mergeActionList targetList distinctClause sortClause setOperations searchCycleRewrite => mkQuery commandType querySource canSetTag resultRelation hasAggs hasSubLinks hasDistinctOn hasRecursive cteList rtable v mergeActionList targetList distinctClause sortClause setOperations searchCycleRewrite end.
Definition set_mergeActionList (v : list MergeAction) (x : Query) : Query :=
  match x with mkQuery commandType querySource canSetTag resultRelation hasAggs hasSubLinks hasDistinctOn hasRecursive cteList rtable jointree _ targetList distinctClause sortClause setOperations searchCycleRewrite => mkQuery commandType querySource canSetTag resultRelation hasAggs hasSubLinks hasDistinctOn hasRecursive cteList rtable jointree v targetList distinctClause sortClause setOperations searchCycleRewrite end.
Definition set_targetList (v : list TargetEntry) (x : Query) : Query :=
  match x with mkQuery commandType querySource canSetTag resultRelation hasAggs hasSubLinks hasDistinctOn hasRecursive cteList rtable jointree mergeActionList _ distinctClause sortClause setOperations searchCycleRewrite => mkQuery commandType querySource canSetTag resultRelation hasAggs hasSubLinks hasDistinctOn hasRecursive cteList rtable jointree mergeActionList v distinctClause sortClause setOperations searchCycleRewrite end.
Definition set_distinctClause (v : list SortGroupClause) (x : Query) : Query :=
  match x with mkQuery commandType querySource canSetTag resultRelation hasAggs hasSubLinks hasDistinctOn hasRecursive cteList rtable jointree mergeActionList targetList _ sortClause setOperations searchCycleRewrite => mkQuery commandType querySource canSetTag resultRelation hasAggs hasSubLinks hasDistinctOn hasRecursive cteList rtable jointree mergeActionList targetList v sortClause setOperations searchCycleRewrite end.
Definition set_sortClause (v : list SortGroupClause) (x : Query) : Query :=
  match x with mkQuery commandType querySource canSetTag resultRelation hasAggs hasSubLinks hasDistinctOn hasRecursive cteList rtable jointree mergeActionList targetList distinctClause _ setOperations searchCycleRewrite => mkQuery commandType querySource canSetTag resultRelation hasAggs hasSubLinks hasDistinctOn hasRecursive cteList rtable jointree mergeActionList targetList distinctClause v setOperations searchCycleRewrite end.
Definition set_setOperations (v : option SetOpNode) (x : Query) : Query :=
  match x with mkQuery commandType querySource canSetTag resultRelation hasAggs hasSubLinks hasDistinctOn hasRecursive cteList rtable jointree mergeActionList targetList distinctClause sortClause _ searchCycleRewrite => mkQuery commandType querySource canSetTag resultRelation hasAggs hasSubLinks hasDistinctOn hasRecursive cteList rtable jointree mergeActionList targetList distinctClause sortClause v searchCycleRewrite end.
Definition set_searchCycleRewrite (v : option CTECycleClause) (x : Query) : Query :=
  match x with mkQuery commandType querySource canSetTag resultRelation hasAggs hasSubLinks hasDistinctOn hasRecursive cteList rtable jointree mergeActionList targetList distinctClause sortClause setOperations _ => mkQuery commandType querySource canSetTag resultRelation hasAggs hasSubLinks hasDistinctOn hasRecursive cteList rtable jointree mergeActionList targetList distinctClause sortClause setOperations v end.
Definition expr (x : TargetEntry) : Expr :=
  match x with mkTargetEntry expr _ _ _ _ => expr end.
Definition resno (x : TargetEntry) : Z :=
  match x with mkTargetEntry _ resno _ _ _ => resno end.
Definition resname (x : TargetEntry) : option string :=
  match x with mkTargetEntry _ _ resname _ _ => resname end.
Definition ressortgroupref (x : TargetEntry) : Z :=
  match x with mkTargetEntry _ _ _ ressortgroupref _ => ressortgroupref end.
Definition resjunk (x : TargetEntry) : bool :=
  match x with mkTargetEntry _ _ _ _ resjunk => resjunk end.
Definition set_expr (v : Expr) (x : TargetEntry) : TargetEntry :=
  match x with mkTargetEntry _ resno resname ressortgroupref resjunk => mkTargetEntry v resno resname ressortgroupref resjunk end.
Definition set_resno (v : Z) (x : TargetEntry) : TargetEntry :=
  match x with mkTargetEntry expr _ resname ressortgroupref resjunk => mkTargetEntry expr v resname ressortgroupref resjunk end.
Definition set_resname (v : option string) (x : TargetEntry) : TargetEntry :=
  match x with mkTargetEntry expr resno _ ressortgroupref resjunk => mkTargetEntry expr resno v ressortgroupref resjunk end.
Definition set_ressortgroupref (v : Z) (x : TargetEntry) : TargetEntry :=
  match x with mkTargetEntry expr resno resname _ resjunk => mkTargetEntry expr resno resname v resjunk end.
Definition set_resjunk (v : bool) (x : TargetEntry) : TargetEntry :=
  match x with mkTargetEntry expr resno resname ressortgroupref _ => mkTargetEntry expr resno resname ressortgroupref v end.
Definition ctename (x : CommonTableExpr) : string :=
  match x with mkCommonTableExpr ctename _ _ _ _ _ _ _ _ _ => ctename end.
Definition ctematerialized (x : CommonTableExpr) : CTEMaterialize :=
  match x with mkCommonTableExpr _ ctematerialized _ _ _ _ _ _ _ _ => ctematerialized end.
Definition ctequery (x : CommonTableExpr) : option Query :=
  match x with mkCommonTableExpr _ _ ctequery _ _ _ _ _ _ _ => ctequery end.
Definition cterecursive (x : CommonTableExpr) : bool :=
  match x with mkCommonTableExpr _ _ _ cterecursive _ _ _ _ _ _ => cterecursive end.
Definition cterefcount (x : CommonTableExpr) : Z :=
  match x with mkCommonTableExpr _ _ _ _ cterefcount _ _ _ _ _ => cterefcount end.
Definition ctecolnames (x : CommonTableExpr) : list string :=
  match x with mkCommonTableExpr _ _ _ _ _ ctecolnames _ _ _ _ => ctecolnames end.
Definition ctecoltypes (x : CommonTableExpr) : list Oid :=
  match x with mkCommonTableExpr _ _ _ _ _ _ ctecoltypes _ _ _ => ctecoltypes end.
Definition ctecoltypmods (x : CommonTableExpr) : list Z :=
  match x with mkCommonTableExpr _ _ _ _ _ _ _ ctecoltypmods _ _ => ctecoltypmods end.
Definition ctecolcollations (x : CommonTableExpr) : list Oid :=
  match x with mkCommonTableExpr _ _ _ _ _ _ _ _ ctecolcollations _ => ctecolcollations end.
Definition cycle_clause (x : CommonTableExpr) : option CTECycleClause :=
  match x with mkCommonTableExpr _ _ _ _ _ _ _ _ _ cycle_clause => cycle_clause end.
Definition set_ctename (v : string) (x : CommonTableExpr) : CommonTableExpr :=
  match x with mkCommonTableExpr _ ctematerialized ctequery cterecursive cterefcount ctecolnames ctecoltypes ctecoltypmods ctecolcollations cycle_clause => mkCommonTableExpr v ctematerialized ctequery cterecursive cterefcount ctecolnames ctecoltypes ctecoltypmods ctecolcollations cycle_clause end.
Definition set_ctematerialized (v : CTEMaterialize) (x : CommonTableExpr) : CommonTableExpr :=
  match x with mkCommonTableExpr ctename _ ctequery cterecursive cterefcount ctecolnames ctecoltypes ctecoltypmods ctecolcollations cycle_clause => mkCommonTableExpr ctename v ctequery cterecursive cterefcount ctecolnames ctecoltypes ctecoltypmods ctecolcollations cycle_clause end.
Definition set_ctequery (v : option Query) (x : CommonTableExpr) : CommonTableExpr :=
  match x with mkCommonTableExpr ctename ctematerialized _ cterecursive cterefcount ctecolnames ctecoltypes ctecoltypmods ctecolcollations cycle_clause => mkCommonTableExpr ctename ctematerialized v cterecursive cterefcount ctecolnames ctecoltypes ctecoltypmods ctecolcollations cycle_clause end.
Definition set_cterecursive (v : bool) (x : CommonTableExpr) : CommonTableExpr :=
  match x with mkCommonTableExpr ctename ctematerialized ctequery _ cterefcount ctecolnames ctecoltypes ctecoltypmods ctecolcollations cycle_clause => mkCommonTableExpr ctename ctematerialized ctequery v cterefcount ctecolnames ctecoltypes ctecoltypmods ctecolcollations cycle_clause end.
Definition set_cterefcount (v : Z) (x : CommonTableExpr) : CommonTableExpr :=
  match x with mkCommonTableExpr ctename ctematerialized ctequery cterecursive _ ctecolnames ctecoltypes ctecoltypmods ctecolcollations cycle_clause => mkCommonTableExpr ctename ctematerialized ctequery cterecursive v ctecolnames ctecoltypes ctecoltypmods ctecolcollations cycle_clause end.
Definition set_ctecolnames (v : list string) (x : CommonTableExpr) : CommonTableExpr :=
  match x with mkCommonTableExpr ctename ctematerialized ctequery cterecursive cterefcount _ ctecoltypes ctecoltypmods ctecolcollations cycle_clause => mkCommonTableExpr ctename ctematerialized ctequery cterecursive cterefcount v ctecoltypes ctecoltypmods ctecolcollations cycle_clause end.
Definition set_ctecoltypes (v : list Oid) (x : CommonTableExpr) : CommonTableExpr :=
  match x with mkCommonTableExpr ctename ctematerialized ctequery cterecursive cterefcount ctecolnames _ ctecoltypmods ctecolcollations cycle_clause => mkCommonTableExpr ctename ctematerialized ctequery cterecursive cterefcount ctecolnames v ctecoltypmods ctecolcollations cycle_clause end.
Definition set_ctecoltypmods (v : list Z) (x : CommonTableExpr) : CommonTableExpr :=
  match x with mkCommonTableExpr ctename ctematerialized ctequery cterecursive cterefcount ctecolnames ctecoltypes _ ctecolcollations cycle_clause => mkCommonTableExpr ctename ctematerialized ctequery cterecursive cterefcount ctecolnames ctecoltypes v ctecolcollations cycle_clause end.
Definition set_ctecolcollations (v : list Oid) (x : CommonTableExpr) : CommonTableExpr :=
  match x with mkCommonTableExpr ctename ctematerialized ctequery cterecursive cterefcount ctecolnames ctecoltypes ctecoltypmods _ cycle_clause => mkCommonTableExpr ctename ctematerialized ctequery cterecursive cterefcount ctecolnames ctecoltypes ctecoltypmods v cycle_clause end.
Definition set_cycle_clause (v : option CTECycleClause) (x : CommonTableExpr) : CommonTableExpr :=
  match x with mkCommonTableExpr ctename ctematerialized ctequery cterecursive cterefcount ctecolnames ctecoltypes ctecoltypmods ctecolcollations _ => mkCommonTableExpr ctename ctematerialized ctequery cterecursive cterefcount ctecolnames ctecoltypes ctecoltypmods ctecolcollations v end.
Definition fromlist (x : FromExpr) : list JoinTreeNode :=
  match x with mkFromExpr fromlist _ => fromlist end.
Definition quals (x : FromExpr) : option Expr :=
  match x with mkFromExpr _ quals => quals end.
Definition set_fromlist (v : list JoinTreeNode) (x : FromExpr) : FromExpr :=
  match x with mkFromExpr _ quals => mkFromExpr v quals end.
Definition set_quals (v : option Expr) (x : FromExpr) : FromExpr :=
  match x with mkFromExpr fromlist _ => mkFromExpr fromlist v end.
Definition matched (x : MergeAction) : bool :=
  match x with mkMergeAction matched _ _ => matched end.
Definition ma_commandType (x : MergeAction) : CmdType :=
  match x with mkMergeAction _ ma_commandType _ => ma_commandType end.
Definition ma_targetList (x : MergeAction) : list TargetEntry :=
  match x with mkMergeAction _ _ ma_targetList => ma_targetList end.

Definition rte_common (rte : RangeTblEntry) : RteCommon :=
  match rte with
  | RTE_RELATION _ _ c | RTE_SUBQUERY _ c | RTE_JOIN _ _ _ _ _ c
  | RTE_FUNCTION _ c | RTE_CTE _ _ _ c => c
  end.

Definition set_rte_common (c : RteCommon) (rte : RangeTblEntry) : RangeTblEntry :=
  match rte with
  | RTE_RELATION a b _ => RTE_RELATION a b c
  | RTE_SUBQUERY q _ => RTE_SUBQUERY q c
  | RTE_JOIN a b d e f _ => RTE_JOIN a b d e f c
  | RTE_FUNCTION f _ => RTE_FUNCTION f c
  | RTE_CTE a b d _ => RTE_CTE a b d c
  end.

Definition set_lateral (v : bool) (rte : RangeTblEntry) : RangeTblEntry :=
  let c := rte_common rte in
  set_rte_common (mkRteCommon (alias c) (eref c) v (inh c) (inFromCl c)
                    (requiredPerms c)) rte.

Definition set_inFromCl (v : bool) (rte : RangeTblEntry) : RangeTblEntry :=
  let c := rte_common rte in
  set_rte_common (mkRteCommon (alias c) (eref c) (lateral c) (inh c) v
                    (requiredPerms c)) rte.

(** [makeNode(Query)]: every field zeroed. *)
Definition makeNode_Query : Query :=
  mkQuery CMD_UNKNOWN QSRC_ORIGINAL false 0 false false false false
    [] [] None [] [] [] [] None None.

(** [makeNode(CommonTableExpr)]. *)
Definition makeNode_CommonTableExpr : CommonTableExpr :=
  mkCommonTableExpr "" CTEMaterializeDefault None false 0 [] [] [] [] None.

(** [makeNode(FromExpr)] and [makeFromExpr]. *)
Definition makeNode_FromExpr : FromExpr := mkFromExpr [] None.
Definition makeFromExpr (fromlist : list JoinTreeNode) (quals : option Expr)
  : FromExpr := mkFromExpr fromlist quals.

(** [makeVar(varno, varattno, vartype, vartypmod, varcollid, varlevelsup)]. *)
Definition makeVar (varno varattno : Z) (vartype : Oid) (vartypmod : Z)
    (varcollid : Oid) (varlevelsup : Z) : Expr :=
  Var varno varattno vartype vartypmod varcollid varlevelsup.

(** [makeTargetEntry(expr, resno, resname, resjunk)]. *)
Definition makeTargetEntry (e : Expr) (resno : Z) (resname : option string)
    (resjunk : bool) : TargetEntry :=
  mkTargetEntry e resno resname 0 resjunk.

(** [makeFuncExpr(funcid, rettype, args, ...)]: [funcretset] starts false. *)
Definition makeFuncExpr (funcid rettype : Oid) (args : list Expr) : Expr :=
  FuncExpr funcid rettype args false.

Definition MakeTextConst (s : string) : Expr := Const TEXTOID (DatumText s).
Definition MakeBsonConst (doc : pgbson) : Expr := Const BsonTypeId (DatumBson doc).
Definition MakeBoolValueConst (b : bool) : Expr := Const BOOLOID (DatumBool b).

(** [make_ands_implicit] and [make_ands_explicit] of PostgreSQL. *)
Definition make_ands_implicit (clause : option Expr) : list Expr :=
  match clause with
  | None => []
  | Some (BoolExprAnd args) => args
  | Some (Const BOOLOID (DatumBool true)) => []
  | Some e => [e]
  end.

Definition make_ands_explicit (andclauses : list Expr) : Expr :=
  match andclauses with
  | [] => Const BOOLOID (DatumBool true)
  | [e] => e
  | _ => BoolExprAnd andclauses
  end.

(** ** Catalog, build context and the compilation monad *)

Inductive BoolIndexOption : Type :=
| BoolIndexOption_Undefined | BoolIndexOption_False | BoolIndexOption_True.

Record IndexSpec : Type := mkIndexSpec {
  indexKeyDocument : pgbson;
  indexPFEDocument : option pgbson;
  indexUnique : BoolIndexOption
}.

Record IndexDetails : Type := mkIndexDetails {
  indexId : Z;
  index_collectionId : Z;
  indexSpec : IndexSpec
}.

Record MongoCollection : Type := mkMongoCollection {
  databaseName : string;
  collectionName : string;
  collectionId : Z;
  tableName : string;
  shardKey : option pgbson;
  viewDefinition : option pgbson;
  mongoDataCreationTimeVarAttrNumber : Z
}.

(** [AggregationPipelineBuildContext]. *)
Record AggregationPipelineBuildContext : Type := mkContext {
  stageNum : Z;
  nestedPipelineLevel : Z;
  numNestedLevels : Z;
  databaseNameDatum : string;
  namespaceName : string;
  mongoCollection : option MongoCollection;
  sortSpec : bson_value_t;
  requiresSubQuery : bool;
  requiresSubQueryAfterProject : bool;
  expandTargetList : bool
}.

(** [AggregationPipelineBuildContext ctx = { 0 }]. *)
Definition Context_zero : AggregationPipelineBuildContext :=
  mkContext 0 0 0 "" "" None BsonEod false false false.

Definition set_nestedPipelineLevel (v : Z) (c : AggregationPipelineBuildContext) :=
  mkContext (stageNum c) v (numNestedLevels c) (databaseNameDatum c)
    (namespaceName c) (mongoCollection c) (sortSpec c) (requiresSubQuery c)
    (requiresSubQueryAfterProject c) (expandTargetList c).
Definition set_numNestedLevels (v : Z) (c : AggregationPipelineBuildContext) :=
  mkContext (stageNum c) (nestedPipelineLevel c) v (databaseNameDatum c)
    (namespaceName c) (mongoCollection c) (sortSpec c) (requiresSubQuery c)
    (requiresSubQueryAfterProject c) (expandTargetList c).
Definition set_databaseNameDatum (v : string) (c : AggregationPipelineBuildContext) :=
  mkContext (stageNum c) (nestedPipelineLevel c) (numNestedLevels c) v
    (namespaceName c) (mongoCollection c) (sortSpec c) (requiresSubQuery c)
    (requiresSubQueryAfterProject c) (expandTargetList c).
Definition set_mongoCollection (v : option MongoCollection)
    (c : AggregationPipelineBuildContext) :=
  mkContext (stageNum c) (nestedPipelineLevel c) (numNestedLevels c)
    (databaseNameDatum c) (namespaceName c) v (sortSpec c) (requiresSubQuery c)
    (requiresSubQueryAfterProject c) (expandTargetList c).
Definition set_sortSpec (v : bson_value_t) (c : AggregationPipelineBuildContext) :=
  mkContext (stageNum c) (nestedPipelineLevel c) (numNestedLevels c)
    (databaseNameDatum c) (namespaceName c) (mongoCollection c) v
    (requiresSubQuery c) (requiresSubQueryAfterProject c) (expandTargetList c).
Definition set_requiresSubQuery (v : bool) (c : AggregationPipelineBuildContext) :=
  mkContext (stageNum c) (nestedPipelineLevel c) (numNestedLevels c)
    (databaseNameDatum c) (namespaceName c) (mongoCollection c) (sortSpec c) v
    (requiresSubQueryAfterProject c) (expandTargetList c).
Definition set_expandTargetList (v : bool) (c : AggregationPipelineBuildContext) :=
  mkContext (stageNum c) (nestedPipelineLevel c) (numNestedLevels c)
    (databaseNameDatum c) (namespaceName c) (mongoCollection c) (sortSpec c)
    (requiresSubQuery c) (requiresSubQueryAfterProject c) v.

Inductive FeatureType : Type :=
| FEATURE_STAGE_DOCUMENTS
| FEATURE_STAGE_FACET
| FEATURE_STAGE_GRAPH_LOOKUP
| FEATURE_STAGE_LOOKUP
| FEATURE_STAGE_MERGE
| FEATURE_STAGE_UNIONWITH.

(** Calls that leave the two translated files: the catalog, the base-query
    builders, the stage dispatcher and the expression evaluator. *)
Inductive Call : Type :=
| CallGetMongoCollection (db coll : string)
| CallCreateCollectionForInsert (db coll : string)
| CallCollectionIdGetIndexes (collectionId : Z)
| CallGenerateBaseTableQuery (db coll : string)
| CallGenerateBaseAgnosticQuery (db : string)
| CallMutateQueryWithPipeline (pipelineValue : bson_value_t) (level : Z)
| CallHandleMatch (matchValue : bson_value_t)
| CallEvaluateExpression (expression : bson_value_t).

(** What a compilation can observe or change outside its arguments. *)
Record World : Type := mkWorld {
  featureCounters : list FeatureType;
  catalogCollections : list MongoCollection;
  catalogIndexes : list IndexDetails;
  currentTimestamp : Z;
  inTransactionBlock : bool;
  clusterVersion : Z * Z * Z;
  EnableMergeStage : bool;
  EnableMergeTargetCreation : bool;
  calls : list Call
}.

Definition M (A : Type) : Type := World -> Res A * World.

Definition retM {A : Type} (a : A) : M A := fun w => (Ok a, w).

Definition bindM {A B : Type} (m : M A) (k : A -> M B) : M B :=
  fun w =>
    match m w with
    | (Ok a, w') => k a w'
    | (Err c f args, w') => (Err c f args, w')
    end.

(** [ereport(ERROR, (errcode(code), errmsg(fmt, args)))]. *)
Definition ereport {A : Type} (code : ErrorCode) (fmt : string)
    (args : list MsgArg) : M A :=
  fun w => (Err code fmt args, w).

Definition liftR {A : Type} (r : Res A) : M A := fun w => (r, w).

Declare Scope m_scope.
Delimit Scope m_scope with M.
Notation "x <- m ;; k" := (bindM m (fun x => k))
  (at level 20, m at level 99, k at level 200) : m_scope.
Notation "' pat <- m ;; k" := (bindM m (fun x => match x with pat => k end))
  (at level 20, pat pattern, m at level 99, k at level 200) : m_scope.
Notation "'check' m ;; k" := (bindM m (fun _ => k))
  (at level 20, m at level 99, k at level 200) : m_scope.

(** [ReportFeatureUsage(feature)]: counts one more use of [feature]. *)
Definition ReportFeatureUsage (feature : FeatureType) : M unit :=
  fun w =>
    (Ok tt,
     mkWorld (feature :: featureCounters w) (catalogCollections w)
       (catalogIndexes w) (currentTimestamp w) (inTransactionBlock w)
       (clusterVersion w) (EnableMergeStage w) (EnableMergeTargetCreation w)
       (calls w)).

(** The world after one more call that leaves the translated files. *)
Definition logged (c : Call) (w : World) : World :=
  mkWorld (featureCounters w) (catalogCollections w) (catalogIndexes w)
    (currentTimestamp w) (inTransactionBlock w) (clusterVersion w)
    (EnableMergeStage w) (EnableMergeTargetCreation w) (c :: calls w).

(** Records a call that leaves the translated files, then makes it. *)
Definition traced {A : Type} (c : Call) (m : M A) : M A :=
  fun w => m (logged c w).

(** [GetCurrentTimestamp()]. *)
Definition GetCurrentTimestamp : M Z := fun w => (Ok (currentTimestamp w), w).

(** [IsInTransactionBlock(isTopLevel)]. *)
Definition IsInTransactionBlock : M bool := fun w => (Ok (inTransactionBlock w), w).

(** Modelled from the spec: [IsClusterVersionAtleastThis] (version_utils.h
    is not among the sources), the comparison of the deployed version with
    a (major, minor, patch) triple that gates $merge. *)
Definition IsClusterVersionAtleastThis (major minor patch : Z) : M bool :=
  fun w =>
    let '(a, b, c) := clusterVersion w in
    (Ok ((major <? a) || ((major =? a) && ((minor <? b) ||
          ((minor =? b) && (patch <=? c))))), w).

Definition read_EnableMergeStage : M bool := fun w => (Ok (EnableMergeStage w), w).
Definition read_EnableMergeTargetCreation : M bool :=
  fun w => (Ok (EnableMergeTargetCreation w), w).

(** Modelled from the spec: the catalog service of section 6,
    [resolve(db, name) -> CollectionBinding | NotFound]
    ([GetMongoCollectionOrViewByNameDatumWithLocalShard]; the catalog
    queries are not among the sources). *)
Definition GetMongoCollectionOrViewByNameDatumWithLocalShard
    (db coll : string) (lockMode : LockMode) : M (option MongoCollection) :=
  traced (CallGetMongoCollection db coll)
    (fun w =>
       (Ok (List.find (fun c => String.eqb (databaseName c) db &&
                                String.eqb (collectionName c) coll)
              (catalogCollections w)), w)).

(** Modelled from the spec: target creation of section 4.6 ("if absent,
    create it"), [CreateCollectionForInsert] of commands/insert.c: a new
    unsharded collection under the next free collection id. *)
Definition CreateCollectionForInsert (db coll : string) : M MongoCollection :=
  traced (CallCreateCollectionForInsert db coll)
    (fun w =>
       let newId :=
         1 + List.fold_right (fun c acc => Z.max (collectionId c) acc) 0
               (catalogCollections w) in
       let created :=
         mkMongoCollection db coll newId
           (String.append "documents_" (string_of_Z newId)) None None 4 in
       (Ok created,
        mkWorld (featureCounters w) (catalogCollections w ++ [created])
          (catalogIndexes w) (currentTimestamp w) (inTransactionBlock w)
          (clusterVersion w) (EnableMergeStage w) (EnableMergeTargetCreation w)
          (calls w))).

(** Modelled from the spec: the declared indexes of a collection binding
    ([CollectionIdGetIndexes] of metadata/index.c). *)
Definition CollectionIdGetIndexes (collId : Z) : M (list IndexDetails) :=
  traced (CallCollectionIdGetIndexes collId)
    (fun w =>
       (Ok (List.filter (fun ix => index_collectionId ix =? collId)
              (catalogIndexes w)), w)).

(** The parts of the compiler the two files call but do not define: the
    base-query builders, the stage dispatcher with the $match compiler, and
    the scalar expression evaluator (section 6 of the specification). *)
Class Collaborators : Type := {
  GenerateBaseTableQuery :
    string -> string -> AggregationPipelineBuildContext ->
    M (Query * AggregationPipelineBuildContext);
  GenerateBaseAgnosticQuery :
    string -> AggregationPipelineBuildContext ->
    M (Query * AggregationPipelineBuildContext);
  MutateQueryWithPipeline :
    Query -> bson_value_t -> AggregationPipelineBuildContext ->
    M (Query * AggregationPipelineBuildContext);
  HandleMatch :
    bson_value_t -> Query -> AggregationPipelineBuildContext ->
    M (Query * AggregationPipelineBuildContext);
  (** what the writer holds after [EvaluateExpressionToWriter(document,
      element, writer, ...)] *)
  EvaluateExpressionToWriter : pgbson -> string * bson_value_t -> Res pgbson;
  (** "does this stage write field path P" *)
  StageWritesPath : string -> bson_value_t -> string -> bool
}.

(** ** Helpers shared by the stage compilers *)

(** A node that is shared in the C query tree and updated in place after it
    has been linked in is updated here wherever it occurs in the tree:
    [Query_map_rte f] applies [f] to every range-table entry of a query,
    at every depth. *)
Fixpoint Expr_map_rte (f : RangeTblEntry -> RangeTblEntry) (e : Expr) : Expr :=
  match e with
  | Var _ _ _ _ _ _ => e
  | Const _ _ => e
  | FuncExpr fid rt args rs => FuncExpr fid rt (List.map (Expr_map_rte f) args) rs
  | Aggref fid args tys => Aggref fid (List.map (Expr_map_rte f) args) tys
  | CoalesceExpr t args => CoalesceExpr t (List.map (Expr_map_rte f) args)
  | ScalarArrayOpExpr o u args => ScalarArrayOpExpr o u (List.map (Expr_map_rte f) args)
  | OpExpr o fo rt args => OpExpr o fo rt (List.map (Expr_map_rte f) args)
  | BoolExprAnd args => BoolExprAnd (List.map (Expr_map_rte f) args)
  | SubLink t i q => SubLink t i (Query_map_rte f q)
  end
with Query_map_rte (f : RangeTblEntry -> RangeTblEntry) (q : Query) : Query :=
  match q with
  | mkQuery ct qs cst rr ha hs hd hr ctes rt jt mal tl dc sc so scr =>
      mkQuery ct qs cst rr ha hs hd hr
        (List.map (CommonTableExpr_map_rte f) ctes)
        (List.map (RangeTblEntry_map_rte f) rt)
        (option_map (FromExpr_map_rte f) jt)
        (List.map (MergeAction_map_rte f) mal)
        (List.map (TargetEntry_map_rte f) tl)
        dc sc so scr
  end
with TargetEntry_map_rte (f : RangeTblEntry -> RangeTblEntry) (t : TargetEntry)
  : TargetEntry :=
  match t with
  | mkTargetEntry e no name ref junk =>
      mkTargetEntry (Expr_map_rte f e) no name ref junk
  end
with RangeTblEntry_map_rte (f : RangeTblEntry -> RangeTblEntry)
    (rte : RangeTblEntry) : RangeTblEntry :=
  match rte with
  | RTE_RELATION _ _ _ => f rte
  | RTE_SUBQUERY q c => f (RTE_SUBQUERY (Query_map_rte f q) c)
  | RTE_JOIN jt m vars l r c =>
      f (RTE_JOIN jt m (List.map (Expr_map_rte f) vars) l r c)
  | RTE_FUNCTION fs c => f (RTE_FUNCTION (List.map (RangeTblFunction_map_rte f) fs) c)
  | RTE_CTE _ _ _ _ => f rte
  end
with RangeTblFunction_map_rte (f : RangeTblEntry -> RangeTblEntry)
    (rtf : RangeTblFunction) : RangeTblFunction :=
  match rtf with
  | mkRangeTblFunction e n tys mods colls =>
      mkRangeTblFunction (Expr_map_rte f e) n tys mods colls
  end
with CommonTableExpr_map_rte (f : RangeTblEntry -> RangeTblEntry)
    (cte : CommonTableExpr) : CommonTableExpr :=
  match cte with
  | mkCommonTableExpr n m q r cnt names tys mods colls cyc =>
      mkCommonTableExpr n m (option_map (Query_map_rte f) q) r cnt names tys
        mods colls cyc
  end
with FromExpr_map_rte (f : RangeTblEntry -> RangeTblEntry) (fe : FromExpr)
  : FromExpr :=
  match fe with
  | mkFromExpr l q =>
      mkFromExpr (List.map (JoinTreeNode_map_rte f) l) (option_map (Expr_map_rte f) q)
  end
with JoinTreeNode_map_rte (f : RangeTblEntry -> RangeTblEntry) (n : JoinTreeNode)
  : JoinTreeNode :=
  match n with
  | RangeTblRef _ => n
  | JoinExpr jt l r q i =>
      JoinExpr jt (JoinTreeNode_map_rte f l) (JoinTreeNode_map_rte f r)
        (option_map (Expr_map_rte f) q) i
  end
with MergeAction_map_rte (f : RangeTblEntry -> RangeTblEntry) (a : MergeAction)
  : MergeAction :=
  match a with
  | mkMergeAction m ct tl => mkMergeAction m ct (List.map (TargetEntry_map_rte f) tl)
  end.

Definition rte_aliasname (rte : RangeTblEntry) : string :=
  match alias (rte_common rte) with
  | Some a => aliasname a
  | None => ""
  end.

(** Is [rte] the scan of the CTE [name] created under the alias [aliasName]? *)
Definition is_cte_scan (name aliasName : string) (rte : RangeTblEntry) : bool :=
  match rte with
  | RTE_CTE n _ _ _ => String.eqb n name && String.eqb (rte_aliasname rte) aliasName
  | _ => false
  end.

(** [rte->ctelevelsup = g(rte->ctelevelsup)] on the scan of CTE [name]
    created under [aliasName]. *)
Definition update_ctelevelsup (name aliasName : string) (g : Z -> Z)
    (rte : RangeTblEntry) : RangeTblEntry :=
  match rte with
  | RTE_CTE n lv self c =>
      if is_cte_scan name aliasName rte then RTE_CTE n (g lv) self c else rte
  | _ => rte
  end.

(** [MakeBsonSetOpStatement]: a UNION ALL that returns a single BSON
    column. *)
Definition MakeBsonSetOpStatement : SetOpNode :=
  SetOperationStmt SETOP_UNION true None None [BsonTypeId] [-1] [InvalidOid].

Definition resname_or_empty (tle : TargetEntry) : string :=
  match resname tle with
  | Some n => n
  | None => ""
  end.

(** Modelled from the spec: [MakeSubQueryRte] (bson_aggregation_pipeline.c
    is not among the sources), the range-table entry of a [Select] that
    wraps a child plan.  Its alias follows [CreateCteRte]; it exposes the
    columns of the child, or only the first when [includeAllColumns] is
    unset. *)
Definition MakeSubQueryRte (subQuery : Query) (stageNumber pipelineDepth : Z)
    (prefix : string) (includeAllColumns : bool) : RangeTblEntry :=
  let name :=
    if 0 <? pipelineDepth
    then String.append prefix
           (String.append "_stage_sub_"
              (String.append (string_of_Z pipelineDepth)
                 (String.append "_" (string_of_Z stageNumber))))
    else String.append prefix (String.append "_stage_" (string_of_Z stageNumber)) in
  let cols := List.map resname_or_empty (targetList subQuery) in
  let a := makeAlias name (if includeAllColumns then cols else firstn 1 cols) in
  RTE_SUBQUERY subQuery (mkRteCommon (Some a) (Some a) false false true 0).

(** Modelled from the spec: [MigrateQueryToSubQuery]
    (bson_aggregation_pipeline.c is not among the sources), the wrapping
    step of [wrap_as_single_column] in section 4.1: "wraps it in a Select
    that re-projects its first output column only, discarding the rest".
    The wrap adds one plan scope, which the context reports in
    [numNestedLevels] (the spec's [added_scope_levels]). *)
Definition MigrateQueryToSubQuery (parse : Query)
    (context : AggregationPipelineBuildContext)
  : M (Query * AggregationPipelineBuildContext) :=
  match targetList parse with
  | [] => ereport ERRCODE_INTERNAL_ERROR "query without output column" []
  | tle :: _ =>
      let rte := MakeSubQueryRte parse (stageNum context) 0 "agg"
                   (expandTargetList context) in
      let newQueryOutput := makeVar 1 (resno tle) BsonTypeId (-1) InvalidOid 0 in
      let upperEntry := makeTargetEntry newQueryOutput 1 (resname tle) (resjunk tle) in
      let newquery :=
        set_jointree (Some (makeFromExpr [RangeTblRef 1] None))
          (set_rtable [rte]
             (set_targetList [upperEntry]
                (set_canSetTag true
                   (set_querySource (querySource parse)
                      (set_commandType CMD_SELECT makeNode_Query))))) in
      retM (newquery,
            set_expandTargetList false
              (set_numNestedLevels (numNestedLevels context + 1) context))
  end.

(** Modelled from the spec: [CreateMultiArgAggregate]
    (bson_aggregation_pipeline.c is not among the sources), the aggregate
    node behind the spec's [array_agg] and [object_agg]. *)
Definition CreateMultiArgAggregate (aggregateFunctionId : Oid)
    (aggregateArgs : list Expr) (argTypesList : list Oid) : Expr :=
  Aggref aggregateFunctionId aggregateArgs argTypesList.

(** [GetArrayAggCoalesce]: COALESCE(innerExpr, '{ "field": [] }'::bson). *)
Definition GetArrayAggCoalesce (innerExpr : Expr) (fieldPath : string) : Expr :=
  let bson : pgbson := [(fieldPath, BsonArray [])] in
  CoalesceExpr BsonTypeId [innerExpr; MakeBsonConst bson].

(** [firstEntry->expr = e] for [firstEntry = linitial(query->targetList)]. *)
Definition set_first_expr (e : Expr) (q : Query) : Query :=
  match targetList q with
  | [] => q
  | firstEntry :: rest => set_targetList (set_expr e firstEntry :: rest) q
  end.

(** [AddBsonArrayAggFunction]; the aggregate handed back through
    [aggrefPtr] is not read by any caller. *)
Definition AddBsonArrayAggFunction (baseQuery : Query)
    (context : AggregationPipelineBuildContext) (fieldPath : string)
    (migrateToSubQuery : bool)
  : M (Query * AggregationPipelineBuildContext) :=
  ('(modifiedQuery, context) <-
     (if migrateToSubQuery then MigrateQueryToSubQuery baseQuery context
      else retM (baseQuery, context)) ;;
   match targetList modifiedQuery with
   | [] => ereport ERRCODE_INTERNAL_ERROR "query without output column" []
   | firstEntry :: _ =>
       let aggregateArgs := [expr firstEntry; MakeTextConst fieldPath] in
       let argTypesList := [BsonTypeId; TEXTOID] in
       let aggref := CreateMultiArgAggregate BsonArrayAggregateFunctionOid
                       aggregateArgs argTypesList in
       retM (set_hasAggs true
               (set_first_expr (GetArrayAggCoalesce aggref fieldPath) modifiedQuery),
             context)
   end)%M.

(** [AddBsonObjectAggFunction]. *)
Definition AddBsonObjectAggFunction (baseQuery : Query)
    (context : AggregationPipelineBuildContext)
  : M (Query * AggregationPipelineBuildContext) :=
  ('(modifiedQuery, context) <- MigrateQueryToSubQuery baseQuery context ;;
   match targetList modifiedQuery with
   | [] => ereport ERRCODE_INTERNAL_ERROR "query without output column" []
   | firstEntry :: _ =>
       let aggref := CreateMultiArgAggregate BsonObjectAggregateFunctionOid
                       [expr firstEntry] [BsonTypeId] in
       retM (set_hasAggs true (set_first_expr aggref modifiedQuery), context)
   end)%M.

(** [UpdateCteRte]: updates an RTE with the CTE information. *)
Definition UpdateCteRte (rte : RangeTblEntry) (baseCte : CommonTableExpr)
  : RangeTblEntry :=
  match rte with
  | RTE_CTE _ levelsUp selfRef c =>
      let cols :=
        match ctequery baseCte with
        | Some baseQuery => List.map resname_or_empty (targetList baseQuery)
        | None => []
        end in
      RTE_CTE (ctename baseCte) levelsUp selfRef
        (mkRteCommon (Some (makeAlias (rte_aliasname rte) []))
           (Some (makeAlias (rte_aliasname rte) cols))
           false false true (requiredPerms c))
  | _ => rte
  end.

(** [CreateCteRte]: the entry, and the CTE with its reference count
    raised. *)
Definition CreateCteRte (baseCte : CommonTableExpr) (prefix : string)
    (stageNumber levelsUp : Z) : RangeTblEntry * CommonTableExpr :=
  let s := String.append prefix (String.append "_stage_" (string_of_Z stageNumber)) in
  let rte := RTE_CTE "" levelsUp false
               (mkRteCommon (Some (makeAlias s [])) None false false false 0) in
  let baseCte := set_cterefcount (cterefcount baseCte + 1) baseCte in
  (UpdateCteRte rte baseCte, baseCte).

(** [CreateFunctionSelectorQuery]: a base query that selects from a given
    set-returning function call. *)
Definition CreateFunctionSelectorQuery (funcExpr : Expr) (prefix : string)
    (subStageNum : Z) (source : QuerySource) : Query :=
  let s := String.append prefix (String.append "_substage_" (string_of_Z subStageNum)) in
  let tblFunction := mkRangeTblFunction funcExpr 1 [BsonTypeId] [-1] [InvalidOid] in
  let rte := RTE_FUNCTION [tblFunction]
               (mkRteCommon (Some (makeAlias s []))
                  (Some (makeAlias s ["lookup_unwind"])) false false true 0) in
  let resulttype :=
    match funcExpr with
    | FuncExpr _ rt _ _ => rt
    | _ => InvalidOid
    end in
  let queryOutput := makeVar 1 1 resulttype (-1) InvalidOid 0 in
  let upperEntry := makeTargetEntry queryOutput 1 (Some "funcName") false in
  set_jointree (Some (makeFromExpr [RangeTblRef 1] None))
    (set_rtable [rte]
       (set_targetList [upperEntry]
          (set_canSetTag true
             (set_querySource source
                (set_commandType CMD_SELECT makeNode_Query))))).

(** [CreateCteSelectQuery]: a base query that selects every column of a
    given CTE; also the CTE with its reference count raised. *)
Definition CreateCteSelectQuery (baseCte : CommonTableExpr) (prefix : string)
    (stageNumber levelsUp : Z) : Query * CommonTableExpr :=
  let '(rte, baseCte') := CreateCteRte baseCte prefix stageNumber levelsUp in
  let baseTargets :=
    match ctequery baseCte with
    | Some baseQuery => targetList baseQuery
    | None => []
    end in
  let baseSource :=
    match ctequery baseCte with
    | Some baseQuery => querySource baseQuery
    | None => QSRC_ORIGINAL
    end in
  let upperTargetList :=
    List.map (fun tle =>
                makeTargetEntry (makeVar 1 (resno tle) BsonTypeId (-1) InvalidOid 0)
                  (resno tle) (resname tle) false)
      baseTargets in
  (set_jointree (Some (makeFromExpr [RangeTblRef 1] None))
     (set_rtable [rte]
        (set_targetList upperTargetList
           (set_canSetTag true
              (set_querySource baseSource
                 (set_commandType CMD_SELECT makeNode_Query))))),
   baseCte').

(** [list_length(query->targetList) > 1]. *)
Definition has_multiple_projectors (query : Query) : bool :=
  Nat.ltb 1 (length (targetList query)).

(** The UNION ALL tree of [BuildFacetUnionAllQuery]: the loop over the
    range-table references, on the fields [larg], [rarg] of the root
    statement and the flag [insertLeft]. *)
Fixpoint facet_setop_loop (refs : list SetOpNode)
    (rootLarg rootRarg : option SetOpNode) (insertLeft : bool)
  : option SetOpNode * option SetOpNode :=
  match refs with
  | [] => (rootLarg, rootRarg)
  | ref :: rest =>
      match rootLarg, rootRarg with
      | None, _ => facet_setop_loop rest (Some ref) rootRarg insertLeft
      | Some _, None => facet_setop_loop rest rootLarg (Some ref) insertLeft
      | Some _, Some _ =>
          if insertLeft then
            let newStatement :=
              SetOperationStmt SETOP_UNION true rootLarg (Some ref)
                [BsonTypeId] [-1] [InvalidOid] in
            facet_setop_loop rest (Some newStatement) rootRarg false
          else
            let newStatement :=
              SetOperationStmt SETOP_UNION true rootRarg (Some ref)
                [BsonTypeId] [-1] [InvalidOid] in
            facet_setop_loop rest rootLarg (Some newStatement) true
      end
  end.

Definition facet_setop_tree (refs : list SetOpNode) : SetOpNode :=
  let '(l, r) := facet_setop_loop refs None None false in
  SetOperationStmt SETOP_UNION true l r [BsonTypeId] [-1] [InvalidOid].

Section Compiler.

Context `{Collaborators}.

(** [HandleInternalInhibitOptimization]: moves the current query into a
    CTE that is always materialized. *)
Definition HandleInternalInhibitOptimization (existingValue : bson_value_t)
    (query : Query) (context : AggregationPipelineBuildContext) : Query :=
  let baseCte :=
    set_ctematerialized CTEMaterializeAlways
      (set_ctequery (Some query)
         (set_ctename "internalinhibitoptimization" makeNode_CommonTableExpr)) in
  let levelsUp := 0 in
  let '(query', baseCte') :=
    CreateCteSelectQuery baseCte "inhibit" (stageNum context) levelsUp in
  set_cteList [baseCte'] query'.

(** *** $facet *)

(** The context of one $facet branch. *)
Definition facet_nestedContext (db : string) (sort : bson_value_t)
  : AggregationPipelineBuildContext :=
  set_sortSpec sort (set_databaseNameDatum db (set_nestedPipelineLevel 1 Context_zero)).

(** One iteration of the branch loop of [BuildFacetUnionAllQuery] (the
    [numStages > 1] path): compiles the branch [pathView] against its own
    scan of the shared CTE and returns the range-table entry of the
    aggregated branch, the inner query and the CTE. *)
Definition facet_branch (baseCte : CommonTableExpr) (db : string)
    (sort : bson_value_t) (nestedStage : Z) (pathView : string)
    (branchPipeline : bson_value_t)
  : M (RangeTblEntry * Query * CommonTableExpr) :=
  (let baseLevelsUp := 2 in
   let '(baseQuery, baseCte) :=
     CreateCteSelectQuery baseCte "facetsub" nestedStage baseLevelsUp in
   let nestedContext := facet_nestedContext db sort in
   '(innerQuery, nestedContext) <-
     traced (CallMutateQueryWithPipeline branchPipeline 1)
       (MutateQueryWithPipeline baseQuery branchPipeline nestedContext) ;;
   '(innerQuery, nestedContext) <-
     AddBsonArrayAggFunction innerQuery nestedContext pathView true ;;
   let innerQuery :=
     Query_map_rte
       (update_ctelevelsup "facet_base"
          (String.append "facetsub_stage_" (string_of_Z nestedStage))
          (fun _ => numNestedLevels nestedContext + baseLevelsUp))
       innerQuery in
   let entry := MakeSubQueryRte innerQuery nestedStage 0 "facetinput" false in
   retM (entry, innerQuery, baseCte))%M.

(** The [while (bson_iter_next(&facetIterator))] loop. *)
Fixpoint facet_branches (facetIterator : list (string * bson_value_t))
    (baseCte : CommonTableExpr) (db : string) (sort : bson_value_t)
    (nestedStage : Z) (rtableAcc : list RangeTblEntry)
    (rangeTableReferences : list SetOpNode)
    (firstInner : option (Query * Z))
  : M (list RangeTblEntry * list SetOpNode * option (Query * Z) * CommonTableExpr) :=
  match facetIterator with
  | [] => retM (rtableAcc, rangeTableReferences, firstInner, baseCte)
  | (pathView, branchPipeline) :: rest =>
      ('(entry, innerQuery, baseCte) <-
         facet_branch baseCte db sort nestedStage pathView branchPipeline ;;
       let rtableAcc := (rtableAcc ++ [entry])%list in
       let rtindex := Z.of_nat (length rtableAcc) in
       let firstInner :=
         match firstInner with
         | None => Some (innerQuery, rtindex)
         | Some _ => firstInner
         end in
       facet_branches rest baseCte db sort (nestedStage + 1) rtableAcc
         (rangeTableReferences ++ [SetOpRangeTblRef rtindex])%list firstInner)%M
  end.

(** [BuildFacetUnionAllQuery]; also returns the shared CTE, whose reference
    count the branch scans raise. *)
Definition BuildFacetUnionAllQuery (numStages : Z) (facetValue : bson_value_t)
    (baseCte : CommonTableExpr) (source : QuerySource) (db : string)
    (sort : bson_value_t) : M (Query * CommonTableExpr) :=
  if numStages =? 1 then
    match TryGetBsonValueToPgbsonElement facetValue with
    | None => ereport ERRCODE_INTERNAL_ERROR "facet is not a single element" []
    | Some (path, branchPipeline) =>
        (let levelsUpUnused := 0 in
         let '(baseQuery, baseCte) :=
           CreateCteSelectQuery baseCte "facetsub" numStages levelsUpUnused in
         let nestedContext := facet_nestedContext db sort in
         '(modifiedQuery, nestedContext) <-
           traced (CallMutateQueryWithPipeline branchPipeline 1)
             (MutateQueryWithPipeline baseQuery branchPipeline nestedContext) ;;
         '(modifiedQuery, nestedContext) <-
           AddBsonArrayAggFunction modifiedQuery nestedContext path true ;;
         retM (Query_map_rte
                 (update_ctelevelsup "facet_base"
                    (String.append "facetsub_stage_" (string_of_Z numStages))
                    (fun _ => numNestedLevels nestedContext + 1))
                 modifiedQuery,
               baseCte))%M
    end
  else
    (let modifiedQuery :=
       set_hasAggs true
         (set_jointree (Some makeNode_FromExpr)
            (set_canSetTag true
               (set_querySource source
                  (set_commandType CMD_SELECT makeNode_Query)))) in
     '(rt, rangeTableReferences, firstInner, baseCte) <-
       facet_branches (bson_iter_fields facetValue) baseCte db sort 1 [] [] None ;;
     match firstInner with
     | None => ereport ERRCODE_INTERNAL_ERROR "facet without branches" []
     | Some (firstInnerQuery, firstRangeTableIndex) =>
         match targetList firstInnerQuery with
         | [] => ereport ERRCODE_INTERNAL_ERROR "query without output column" []
         | leftMostTargetEntry :: _ =>
             let var := makeVar firstRangeTableIndex (resno leftMostTargetEntry)
                          BsonTypeId (-1) InvalidOid 0 in
             let restle := makeTargetEntry var (resno leftMostTargetEntry)
                             (resname leftMostTargetEntry) false in
             retM (set_targetList [restle]
                     (set_setOperations (Some (facet_setop_tree rangeTableReferences))
                        (set_rtable rt modifiedQuery)),
                   baseCte)
         end
     end)%M.

(** [HandleFacet]. *)
Definition HandleFacet (existingValue : bson_value_t) (query : Query)
    (context : AggregationPipelineBuildContext)
  : M (Query * AggregationPipelineBuildContext) :=
  (check ReportFeatureUsage FEATURE_STAGE_FACET ;;
   if 0 <? nestedPipelineLevel context then
     ereport ERRCODE_INTERNAL_ERROR
       "Unexpected, facet should not be called in a nested pipeline" []
   else
     '(query, context) <-
       (if has_multiple_projectors query then MigrateQueryToSubQuery query context
        else retM (query, context)) ;;
     numStages <- liftR (ValidateFacet existingValue) ;;
     let baseCte :=
       set_ctequery (Some query) (set_ctename "facet_base" makeNode_CommonTableExpr) in
     '(finalQuery, baseCte) <-
       BuildFacetUnionAllQuery numStages existingValue baseCte (querySource query)
         (databaseNameDatum context) (sortSpec context) ;;
     '(finalQuery, context) <- AddBsonObjectAggFunction finalQuery context ;;
     retM (set_cteList [baseCte] finalQuery, context))%M.

(** *** $documents *)

(** [HandleDocumentsStage]. *)
Definition HandleDocumentsStage (existingValue : bson_value_t) (query : Query)
    (context : AggregationPipelineBuildContext)
  : M (Query * AggregationPipelineBuildContext) :=
  (check ReportFeatureUsage FEATURE_STAGE_DOCUMENTS ;;
   if negb (Nat.eqb (length (rtable query)) 0) || negb (stageNum context =? 0) then
     ereport MongoBadValue
       "$documents is only valid as the first stage in a pipeline" []
   else
     let documentsElement := ("$documents", existingValue) in
     targetBson <-
       traced (CallEvaluateExpression existingValue)
         (liftR (EvaluateExpressionToWriter [] documentsElement)) ;;
     match TryGetSinglePgbsonElementFromPgbson targetBson with
     | Some (_, BsonArray _) =>
         let unwindValue := MakeTextConst (fst documentsElement) in
         let resultExpr :=
           FuncExpr BsonLookupUnwindFunctionOid BsonTypeId
             [MakeBsonConst targetBson; unwindValue] true in
         let tblFunction :=
           mkRangeTblFunction resultExpr 1 [BsonTypeId] [-1] [InvalidOid] in
         let rte :=
           RTE_FUNCTION [tblFunction]
             (mkRteCommon (Some (makeAlias "documents" []))
                (Some (makeAlias "documents" ["documents"])) false false true 0) in
         let queryOutput := makeVar 1 1 BsonTypeId (-1) InvalidOid 0 in
         let upperEntry :=
           makeTargetEntry queryOutput 1 (Some "documents_aggregate") false in
         retM (set_jointree (Some (makeFromExpr [RangeTblRef 1] None))
                 (set_rtable [rte] (set_targetList [upperEntry] query)),
               set_requiresSubQuery true context)
     | _ =>
         ereport MongoLocation5858203
           "error during aggregation :: caused by :: an array is expected" []
     end)%M.

(** *** $unionWith *)

(** The context of a nested pipeline one level below [context]. *)
Definition derived_context (context : AggregationPipelineBuildContext) (delta : Z)
  : AggregationPipelineBuildContext :=
  set_databaseNameDatum (databaseNameDatum context)
    (set_nestedPipelineLevel (nestedPipelineLevel context + delta) Context_zero).

(** [HandleUnionWith]. *)
Definition HandleUnionWith (existingValue : bson_value_t) (query : Query)
    (context : AggregationPipelineBuildContext)
  : M (Query * AggregationPipelineBuildContext) :=
  (check ReportFeatureUsage FEATURE_STAGE_UNIONWITH ;;
   let leftQuery := query in
   '(collectionFrom, pipelineValue) <- liftR (ParseUnionWith existingValue) ;;
   rightQuery <-
     (if bson_type_eqb (value_type pipelineValue) BSON_TYPE_EOD then
        let subPipelineContext := derived_context context 1 in
        '(rightQuery, _) <-
          traced (CallGenerateBaseTableQuery (databaseNameDatum context) collectionFrom)
            (GenerateBaseTableQuery (databaseNameDatum context) collectionFrom
               subPipelineContext) ;;
        retM rightQuery
      else
        let subPipelineContext := derived_context context 1 in
        '(rightQuery, subPipelineContext) <-
          traced (CallGenerateBaseTableQuery (databaseNameDatum context) collectionFrom)
            (GenerateBaseTableQuery (databaseNameDatum context) collectionFrom
               subPipelineContext) ;;
        if negb (bson_type_eqb (value_type pipelineValue) BSON_TYPE_EOD) then
          check liftR (ValidateUnionWithPipeline pipelineValue) ;;
          '(rightQuery, _) <-
            traced (CallMutateQueryWithPipeline pipelineValue
                      (nestedPipelineLevel subPipelineContext))
              (MutateQueryWithPipeline rightQuery pipelineValue subPipelineContext) ;;
          retM rightQuery
        else retM rightQuery) ;;
   let includeAllColumns := false in
   let leftRte := MakeSubQueryRte leftQuery (stageNum context) 0 "unionLeft"
                    includeAllColumns in
   let rightRte := MakeSubQueryRte rightQuery (stageNum context) 0 "unionRight"
                     includeAllColumns in
   let setOpStatement :=
     SetOperationStmt SETOP_UNION true (Some (SetOpRangeTblRef 1))
       (Some (SetOpRangeTblRef 2)) [BsonTypeId] [-1] [InvalidOid] in
   let modifiedQuery :=
     set_setOperations (Some setOpStatement)
       (set_rtable [leftRte; rightRte]
          (set_jointree (Some makeNode_FromExpr)
             (set_canSetTag true
                (set_querySource (querySource query)
                   (set_commandType CMD_SELECT makeNode_Query))))) in
   match targetList leftQuery with
   | [] => ereport ERRCODE_INTERNAL_ERROR "query without output column" []
   | leftMostTargetEntry :: _ =>
       let var := makeVar 1 (resno leftMostTargetEntry) BsonTypeId (-1) InvalidOid 0 in
       let restle := makeTargetEntry var (resno leftMostTargetEntry)
                       (resname leftMostTargetEntry) false in
       MigrateQueryToSubQuery (set_targetList [restle] modifiedQuery) context
   end)%M.

(** *** $lookup *)

Definition MaximumLookupPipelineDepth : Z := 20.

(** Column numbers of a data table (api_hooks / metadata headers). *)
Definition MONGO_DATA_TABLE_SHARD_KEY_VALUE_VAR_ATTR_NUMBER : Z := 1.
Definition MONGO_DATA_TABLE_OBJECT_ID_VAR_ATTR_NUMBER : Z := 2.
Definition MONGO_DATA_TABLE_DOCUMENT_VAR_ATTR_NUMBER : Z := 3.

(** Modelled from the spec: [CanInlineLookupPipeline]
    (bson_aggregation_pipeline.c is not among the sources), the "static,
    syntactic check over the nested stage list" of section 4.3: true only
    if no stage of the pipeline writes to the path.  A nested $lookup
    stage is answered by [CanInlineLookupStageLookup]; any other stage by
    the evaluator's syntactic property; a malformed stage is not inlined. *)
Fixpoint CanInlineLookupPipeline_stages (stages : list bson_value_t)
    (lookupPath : string) : Res bool :=
  match stages with
  | [] => Ok true
  | stage :: rest =>
      match TryGetBsonValueToPgbsonElement stage with
      | None => Ok false
      | Some (stageName, stageValue) =>
          (canInline <-
             (if String.eqb stageName "$lookup"
              then CanInlineLookupStageLookup stageValue lookupPath
              else Ok (negb (StageWritesPath stageName stageValue lookupPath))) ;;
           if canInline then CanInlineLookupPipeline_stages rest lookupPath
           else Ok false)%R
      end
  end.

Definition CanInlineLookupPipeline (pipelineValue : bson_value_t)
    (lookupPath : string) : Res bool :=
  CanInlineLookupPipeline_stages (bson_iter_values pipelineValue) lookupPath.

(** [CanInlineInnerLookupPipeline]: all of the pipeline is inlined or none
    of it is. *)
Definition CanInlineInnerLookupPipeline (lookupArgs : LookupArgs) : Res bool :=
  if String.eqb (from lookupArgs) "" then Ok true
  else if negb (hasLookupMatch lookupArgs) then Ok true
  else if bson_type_eqb (value_type (pipeline lookupArgs)) BSON_TYPE_EOD then Ok false
  else
    let localFieldValue := localField lookupArgs in
    let prefix := StringViewFindPrefix localFieldValue "."%char in
    let localFieldValue :=
      if negb (Nat.eqb (String.length prefix) 0) then prefix else localFieldValue in
    CanInlineLookupPipeline (pipeline lookupArgs) localFieldValue.

(** [MakeLookupJoinRte]. *)
Definition MakeLookupJoinRte (joinVars : list Expr) (colNames : list string)
    (joinLeftCols joinRightCols : list Z) : RangeTblEntry :=
  let a := makeAlias "lookup_join" colNames in
  RTE_JOIN JOIN_LEFT 0 joinVars joinLeftCols joinRightCols
    (mkRteCommon (Some a) (Some a) false false true 0).

(** [MakeBsonJoinVarsFromQuery]: the three lists it appends to. *)
Definition MakeBsonJoinVarsFromQuery (queryIndex : Z) (query : Query)
  : list Expr * list string * list Z :=
  (List.map (fun entry => makeVar queryIndex (resno entry) BsonTypeId (-1) InvalidOid 0)
     (targetList query),
   List.map resname_or_empty (targetList query),
   List.map resno (targetList query)).

Definition set_jointree_quals (q : option Expr) (query : Query) : Query :=
  match jointree query with
  | Some fe => set_jointree (Some (set_quals q fe)) query
  | None => query
  end.

Definition jointree_quals (query : Query) : option Expr :=
  match jointree query with
  | Some fe => quals fe
  | None => None
  end.

(** The object-id fast path of [ProcessLookupCore]: the right query gets
    the object_id column when it is an unprojected scan of an unsharded
    table.  Returns the right query with the updated flags
    [canInlineInnerPipeline] and [canProcessForeignFieldAsDocumentId]. *)
Definition lookup_objectid_fastpath (rightQuery : Query)
    (subPipelineContext : AggregationPipelineBuildContext)
    (canProcessForeignFieldAsDocumentId canInlineInnerPipeline : bool)
  : Query * bool * bool :=
  if canProcessForeignFieldAsDocumentId &&
     Nat.eqb (length (rtable rightQuery)) 1 &&
     Nat.eqb (length (targetList rightQuery)) 1 &&
     match mongoCollection subPipelineContext with
     | Some coll => match shardKey coll with None => true | Some _ => false end
     | None => false
     end
  then
    match rtable rightQuery, targetList rightQuery with
    | RTE_RELATION _ _ _ :: _, firstEntry :: _ =>
        match expr firstEntry with
        | Var _ _ _ _ _ _ =>
            let objectIdVar :=
              makeVar 1 MONGO_DATA_TABLE_OBJECT_ID_VAR_ATTR_NUMBER BsonTypeId (-1)
                InvalidOid 0 in
            let objectEntry :=
              makeTargetEntry objectIdVar
                (Z.of_nat (length (targetList rightQuery)) + 1)
                (Some "objectId") false in
            (set_targetList (targetList rightQuery ++ [objectEntry])%list rightQuery,
             false, true)
        | _ => (rightQuery, canInlineInnerPipeline, false)
        end
    | _, _ => (rightQuery, canInlineInnerPipeline, false)
    end
  else (rightQuery, canInlineInnerPipeline, false).

(** The join branch of [ProcessLookupCore] ([hasLookupMatch]): returns the
    left query with the filter projector, the aggregated right query and
    the flag [canInlineInnerPipeline]. *)
Definition ProcessLookupCore_join (context : AggregationPipelineBuildContext)
    (lookupArgs : LookupArgs) (leftQuery rightQuery : Query)
    (subPipelineContext : AggregationPipelineBuildContext)
    (isRightQueryAgnostic canInlineInnerPipeline : bool)
  : M (Query * Query * AggregationPipelineBuildContext * bool) :=
  ('(rightQuery, subPipelineContext) <-
     (if isRightQueryAgnostic then
        traced (CallMutateQueryWithPipeline (pipeline lookupArgs)
                  (nestedPipelineLevel subPipelineContext))
          (MutateQueryWithPipeline rightQuery (pipeline lookupArgs) subPipelineContext)
      else retM (rightQuery, subPipelineContext)) ;;
   let canProcessForeignFieldAsDocumentId :=
     StringViewEquals (foreignField lookupArgs) IdFieldStringView &&
     negb isRightQueryAgnostic in
   let '(rightQuery, canInlineInnerPipeline, canProcessForeignFieldAsDocumentId) :=
     lookup_objectid_fastpath rightQuery subPipelineContext
       canProcessForeignFieldAsDocumentId canInlineInnerPipeline in
   let rightTableExpr :=
     set_ctequery (Some rightQuery)
       (set_ctename "lookup_right_query" makeNode_CommonTableExpr) in
   let '(rightQuery, rightTableExpr) :=
     CreateCteSelectQuery rightTableExpr "lookup_right_query"
       (nestedPipelineLevel context) 0 in
   '(rightQuery, subPipelineContext) <-
     (if canInlineInnerPipeline && negb isRightQueryAgnostic &&
         negb canProcessForeignFieldAsDocumentId
      then
        '(rightQuery, subPipelineContext) <-
          traced (CallMutateQueryWithPipeline (pipeline lookupArgs)
                    (nestedPipelineLevel subPipelineContext))
            (MutateQueryWithPipeline rightQuery (pipeline lookupArgs)
               subPipelineContext) ;;
        if requiresSubQuery subPipelineContext
        then MigrateQueryToSubQuery rightQuery subPipelineContext
        else retM (rightQuery, subPipelineContext)
      else retM (rightQuery, subPipelineContext)) ;;
   match targetList leftQuery, targetList rightQuery with
   | currentEntry :: _, currentRightEntry :: rightRest =>
       let filterBson : pgbson :=
         [(foreignField lookupArgs, BsonUtf8 (localField lookupArgs))] in
       let extractFilterArgs := [expr currentEntry; MakeBsonConst filterBson] in
       let projectorFunc :=
         if canProcessForeignFieldAsDocumentId
         then makeFuncExpr BsonLookupExtractFilterArrayFunctionOid BsonArrayTypeId
                extractFilterArgs
         else makeFuncExpr HelioApiInternalBsonLookupExtractFilterExpressionFunctionOid
                BsonTypeId extractFilterArgs in
       let newProjectorAttrNum := Z.of_nat (length (targetList leftQuery)) + 1 in
       let extractFilterProjector :=
         makeTargetEntry projectorFunc newProjectorAttrNum (Some "lookup_filter") false in
       let leftQuery :=
         set_targetList (targetList leftQuery ++ [extractFilterProjector])%list
           leftQuery in
       let rightQuals :=
         match jointree_quals rightQuery with
         | Some q => make_ands_implicit (Some q)
         | None => []
         end in
       let rightVar := expr currentRightEntry in
       let leftQueryRteIndex := 1 in
       let matchLevelsUp := 1 in
       '(rightQuery, inClause) <-
         (if canProcessForeignFieldAsDocumentId then
            match rightRest with
            | rightObjectIdEntry :: _ =>
                let matchVar :=
                  makeVar leftQueryRteIndex newProjectorAttrNum BsonArrayTypeId (-1)
                    InvalidOid matchLevelsUp in
                retM (set_targetList [currentRightEntry] rightQuery,
                      ScalarArrayOpExpr BsonEqualOperatorId true
                        [expr rightObjectIdEntry; matchVar])
            | [] => ereport ERRCODE_INTERNAL_ERROR "object id column missing" []
            end
          else
            let matchVar :=
              makeVar leftQueryRteIndex newProjectorAttrNum BsonTypeId (-1)
                InvalidOid matchLevelsUp in
            let textConst := MakeTextConst (foreignField lookupArgs) in
            retM (rightQuery,
                  makeFuncExpr BsonDollarLookupJoinFilterFunctionOid BOOLOID
                    [rightVar; matchVar; textConst])) ;;
       let rightQuery :=
         match rightQuals with
         | [] => set_jointree_quals (Some inClause) rightQuery
         | _ => set_jointree_quals
                  (Some (make_ands_explicit (rightQuals ++ [inClause])%list))
                  rightQuery
         end in
       '(rightQuery, subPipelineContext) <-
         AddBsonArrayAggFunction rightQuery subPipelineContext
           (lookupAs lookupArgs) false ;;
       let rightQuery := set_cteList [rightTableExpr] rightQuery in
       let rightQuery :=
         Query_map_rte
           (update_ctelevelsup "lookup_right_query"
              (String.append "lookup_right_query_stage_"
                 (string_of_Z (nestedPipelineLevel context)))
              (fun levelsUp => levelsUp + numNestedLevels subPipelineContext))
           rightQuery in
       retM (leftQuery, rightQuery, subPipelineContext, canInlineInnerPipeline)
   | _, _ => ereport ERRCODE_INTERNAL_ERROR "query without output column" []
   end)%M.

(** [rightOutput->varlevelsup += delta] for the variable handed to the
    unwind function of the post-join sub-select: the function scan is found
    by its alias. *)
Definition bump_unwind_varlevelsup (aliasName : string) (delta : Z)
    (rte : RangeTblEntry) : RangeTblEntry :=
  match rte with
  | RTE_FUNCTION
      [mkRangeTblFunction
         (FuncExpr fid rt (Var no att ty tm coll lv :: rest) rs) n tys mods colls] c =>
      if String.eqb (rte_aliasname rte) aliasName then
        RTE_FUNCTION
          [mkRangeTblFunction
             (FuncExpr fid rt (Var no att ty tm coll (lv + delta) :: rest) rs)
             n tys mods colls] c
      else rte
  | _ => rte
  end.

(** [ProcessLookupCore]: the core JOIN building logic for $lookup. *)
Definition ProcessLookupCore (query : Query)
    (context : AggregationPipelineBuildContext) (lookupArgs : LookupArgs)
  : M (Query * AggregationPipelineBuildContext) :=
  ('(query, context) <-
     (if has_multiple_projectors query then MigrateQueryToSubQuery query context
      else retM (query, context)) ;;
   let lookupQuery :=
     set_jointree (Some makeNode_FromExpr)
       (set_canSetTag true
          (set_querySource (querySource query)
             (set_commandType CMD_SELECT makeNode_Query))) in
   let context := set_numNestedLevels (numNestedLevels context + 1) context in
   let leftQueryRteIndex := 1 in
   let rightQueryRteIndex := 2 in
   let joinQueryRteIndex := 3 in
   let leftQuery := query in
   let subPipelineContext := derived_context context 1 in
   let isRightQueryAgnostic := String.eqb (from lookupArgs) "" in
   '(rightQuery, subPipelineContext) <-
     (if isRightQueryAgnostic
      then traced (CallGenerateBaseAgnosticQuery (databaseNameDatum context))
             (GenerateBaseAgnosticQuery (databaseNameDatum context) subPipelineContext)
      else traced (CallGenerateBaseTableQuery (databaseNameDatum context)
                     (from lookupArgs))
             (GenerateBaseTableQuery (databaseNameDatum context) (from lookupArgs)
                subPipelineContext)) ;;
   canInlineInnerPipeline <- liftR (CanInlineInnerLookupPipeline lookupArgs) ;;
   '(leftQuery, rightQuery, subPipelineContext, canInlineInnerPipeline) <-
     (if negb (hasLookupMatch lookupArgs) then
        '(rightQuery, subPipelineContext) <-
          traced (CallMutateQueryWithPipeline (pipeline lookupArgs)
                    (nestedPipelineLevel subPipelineContext))
            (MutateQueryWithPipeline rightQuery (pipeline lookupArgs)
               subPipelineContext) ;;
        '(rightQuery, subPipelineContext) <-
          AddBsonArrayAggFunction rightQuery subPipelineContext (lookupAs lookupArgs)
            (requiresSubQuery subPipelineContext ||
             requiresSubQueryAfterProject subPipelineContext) ;;
        retM (leftQuery, rightQuery, subPipelineContext, canInlineInnerPipeline)
      else
        ProcessLookupCore_join context lookupArgs leftQuery rightQuery
          subPipelineContext isRightQueryAgnostic canInlineInnerPipeline) ;;
   let cteStr :=
     String.append "lookupLeftCte_" (string_of_Z (nestedPipelineLevel context)) in
   let cteExpr :=
     set_ctequery (Some leftQuery) (set_ctename cteStr makeNode_CommonTableExpr) in
   let '(leftTree, cteExpr) := CreateCteRte cteExpr "lookup" 1 0 in
   let lookupQuery := set_cteList (cteList lookupQuery ++ [cteExpr])%list lookupQuery in
   let includeAllColumns := true in
   let rightTree :=
     set_lateral true
       (MakeSubQueryRte rightQuery 1 (nestedPipelineLevel context) "lookupRight"
          includeAllColumns) in
   let '(leftVars, leftNames, leftJoinCols) :=
     MakeBsonJoinVarsFromQuery leftQueryRteIndex leftQuery in
   let '(rightVars, rightNames, rightJoinCols) :=
     MakeBsonJoinVarsFromQuery rightQueryRteIndex rightQuery in
   let joinRte :=
     MakeLookupJoinRte (leftVars ++ rightVars)%list (leftNames ++ rightNames)%list
       leftJoinCols rightJoinCols in
   let lookupQuery := set_rtable [leftTree; rightTree; joinRte] lookupQuery in
   let joinExpr :=
     JoinExpr JOIN_LEFT (RangeTblRef leftQueryRteIndex) (RangeTblRef rightQueryRteIndex)
       (Some (Const BOOLOID (DatumBool true))) joinQueryRteIndex in
   let lookupQuery :=
     set_jointree (Some (mkFromExpr [joinExpr] None)) lookupQuery in
   let leftOutput := makeVar leftQueryRteIndex 1 BsonTypeId (-1) InvalidOid 0 in
   let rightOutput := makeVar rightQueryRteIndex 1 BsonTypeId (-1) InvalidOid 0 in
   '(rightOutputExpr, lookupQuery) <-
     (if negb (bson_type_eqb (value_type (pipeline lookupArgs)) BSON_TYPE_EOD) &&
         negb canInlineInnerPipeline
      then
        let unwindArgs := [rightOutput; MakeTextConst (lookupAs lookupArgs)] in
        let funcExpr :=
          FuncExpr BsonLookupUnwindFunctionOid BsonTypeId unwindArgs true in
        let subSelectQuery :=
          CreateFunctionSelectorQuery funcExpr "lookup_subpipeline"
            (nestedPipelineLevel context) (querySource query) in
        let projectorQueryContext :=
          set_mongoCollection (mongoCollection subPipelineContext)
            (set_databaseNameDatum (databaseNameDatum subPipelineContext)
               (set_nestedPipelineLevel (nestedPipelineLevel context + 1)
                  Context_zero)) in
        '(subSelectQuery, projectorQueryContext) <-
          traced (CallMutateQueryWithPipeline (pipeline lookupArgs)
                    (nestedPipelineLevel projectorQueryContext))
            (MutateQueryWithPipeline subSelectQuery (pipeline lookupArgs)
               projectorQueryContext) ;;
        let projectorQueryContext :=
          if has_multiple_projectors subSelectQuery
          then set_requiresSubQuery true projectorQueryContext
          else projectorQueryContext in
        '(subSelectQuery, projectorQueryContext) <-
          AddBsonArrayAggFunction subSelectQuery projectorQueryContext
            (lookupAs lookupArgs) (requiresSubQuery projectorQueryContext) ;;
        let subSelectQuery :=
          Query_map_rte
            (bump_unwind_varlevelsup
               (String.append "lookup_subpipeline_substage_"
                  (string_of_Z (nestedPipelineLevel context)))
               (numNestedLevels projectorQueryContext + 1))
            subSelectQuery in
        retM (SubLink EXPR_SUBLINK 0 subSelectQuery, set_hasSubLinks true lookupQuery)
      else retM (rightOutput, lookupQuery)) ;;
   let addFields :=
     makeFuncExpr GetMergeDocumentsFunctionOid BsonTypeId [leftOutput; rightOutputExpr] in
   let topTargetEntry := makeTargetEntry addFields 1 (Some "document") false in
   retM (set_targetList [topTargetEntry] lookupQuery,
         set_requiresSubQuery true context))%M.

(** [HandleLookup]: top level method handling the $lookup stage. *)
Definition HandleLookup (existingValue : bson_value_t) (query : Query)
    (context : AggregationPipelineBuildContext)
  : M (Query * AggregationPipelineBuildContext) :=
  (check ReportFeatureUsage FEATURE_STAGE_LOOKUP ;;
   if MaximumLookupPipelineDepth <? nestedPipelineLevel context then
     ereport MongoMaxSubPipelineDepthExceeded
       "Maximum number of nested sub-pipelines exceeded. Limit is %d"
       [ArgInt MaximumLookupPipelineDepth]
   else
     lookupArgs <- liftR (ParseLookupStage existingValue) ;;
     ProcessLookupCore query context lookupArgs)%M.

(** *** $graphLookup *)

(** [BuildInputExpressionForQuery]:
    bson_expression_get(document,
      '{ "connectToField": { "$makeArray": inputExpression } }', false). *)
Definition BuildInputExpressionForQuery (origExpr : Expr) (connectTo : string)
    (inputExpr : bson_value_t) : Expr :=
  let doc : pgbson := [(connectTo, BsonDocument [("$makeArray", inputExpr)])] in
  makeFuncExpr BsonExpressionGetFunctionOid BsonTypeId
    [origExpr; MakeBsonConst doc; MakeBoolValueConst false].

(** [AddInputExpressionToQuery]: adds the start expression as the second
    projector of the input query. *)
Definition AddInputExpressionToQuery (query : Query) (fieldName : string)
    (inputExpr : bson_value_t) : M Query :=
  match targetList query with
  | [] => ereport ERRCODE_INTERNAL_ERROR "query without output column" []
  | origEntry :: _ =>
      let inputFuncExpr :=
        BuildInputExpressionForQuery (expr origEntry) fieldName inputExpr in
      let expressionResultNumber := 2 in
      let entry :=
        makeTargetEntry inputFuncExpr expressionResultNumber (Some "inputExpr") false in
      retM (set_targetList (targetList query ++ [entry])%list query)
  end.

(** [CreateIdProjectionExpr]:
    bson_expression_get(document, '{ "_id": "$_id" }'). *)
Definition CreateIdProjectionExpr (baseExpr : Expr) : Expr :=
  makeFuncExpr BsonExpressionGetFunctionOid BsonTypeId
    [baseExpr; MakeBsonConst [("_id", BsonUtf8 "$_id")]].

(** The scan of the [from] collection both branches start from, restricted
    by [restrictSearchWithMatch] when given. *)
Definition graphLookup_from_query (parentContext : AggregationPipelineBuildContext)
    (args : GraphLookupArgs) (rejectSharded : bool)
  : M (Query * AggregationPipelineBuildContext) :=
  (let subPipelineContext := derived_context parentContext 2 in
   '(fromQuery, subPipelineContext) <-
     traced (CallGenerateBaseTableQuery (databaseNameDatum parentContext)
               (fromCollection args))
       (GenerateBaseTableQuery (databaseNameDatum parentContext)
          (fromCollection args) subPipelineContext) ;;
   if rejectSharded &&
      match mongoCollection subPipelineContext with
      | Some coll => match shardKey coll with Some _ => true | None => false end
      | None => false
      end
   then
     ereport MongoCommandNotSupported
       "$graphLookup with 'from' on a sharded collection is not supported" []
   else if negb (bson_type_eqb (value_type (restrictSearch args)) BSON_TYPE_EOD) then
     traced (CallHandleMatch (restrictSearch args))
       (HandleMatch (restrictSearch args) fromQuery subPipelineContext)
   else retM (fromQuery, subPipelineContext))%M.

Definition depth_path (args : GraphLookupArgs) : string :=
  if 0 <? Z.of_nat (String.length (depthField args)) then depthField args
  else "depth".

(** [GenerateBaseCaseQuery]: the anchor member of the recursive CTE. *)
Definition GenerateBaseCaseQuery (parentContext : AggregationPipelineBuildContext)
    (args : GraphLookupArgs) (baseCteLevelsUp : Z) : M Query :=
  ('(baseCaseQuery, _) <- graphLookup_from_query parentContext args true ;;
   let baseQuals :=
     match jointree_quals baseCaseQuery with
     | Some q => make_ands_implicit (Some q)
     | None => []
     end in
   match targetList baseCaseQuery with
   | [] => ereport ERRCODE_INTERNAL_ERROR "query without output column" []
   | firstEntry :: _ =>
       let rightVar := makeVar 1 2 BsonTypeId (-1) InvalidOid baseCteLevelsUp in
       let initialMatchFunc :=
         makeFuncExpr BsonInMatchFunctionId BOOLOID [expr firstEntry; rightVar] in
       let baseQuals := (baseQuals ++ [initialMatchFunc])%list in
       let baseCaseQuery :=
         set_jointree_quals (Some (make_ands_explicit baseQuals)) baseCaseQuery in
       let depthConst := MakeBsonConst [(depth_path args, BsonInt32 0)] in
       retM (set_targetList
               (targetList baseCaseQuery ++
                [makeTargetEntry depthConst 2 (Some "depth") false;
                 makeTargetEntry (CreateIdProjectionExpr (expr firstEntry)) 3
                   (Some "baseDocId") false])%list
               baseCaseQuery)
   end)%M.

Definition append_fromlist (n : JoinTreeNode) (query : Query) : Query :=
  match jointree query with
  | Some fe => set_jointree (Some (set_fromlist (fromlist fe ++ [n])%list fe)) query
  | None => query
  end.

(** [GenerateRecursiveCaseQuery]: the recursive term; also the recursive
    CTE with its reference count raised. *)
Definition GenerateRecursiveCaseQuery
    (parentContext : AggregationPipelineBuildContext)
    (recursiveCte : CommonTableExpr) (args : GraphLookupArgs) (levelsUp : Z)
  : M (Query * CommonTableExpr) :=
  ('(recursiveQuery, _) <- graphLookup_from_query parentContext args false ;;
   let baseQuals :=
     match jointree_quals recursiveQuery with
     | Some q => make_ands_implicit (Some q)
     | None => []
     end in
   let '(entry, recursiveCte) :=
     CreateCteRte recursiveCte "lookupRecursive" 1 levelsUp in
   let entry :=
     match entry with
     | RTE_CTE n lv _ c => RTE_CTE n lv true c
     | other => other
     end in
   let recursiveQuery :=
     set_rtable (rtable recursiveQuery ++ [entry])%list recursiveQuery in
   let rangeTblRef_rtindex := 2 in
   let recursiveQuery := append_fromlist (RangeTblRef rangeTblRef_rtindex) recursiveQuery in
   match targetList recursiveQuery with
   | [] => ereport ERRCODE_INTERNAL_ERROR "query without output column" []
   | firstEntry :: _ =>
       let leftDocVar := makeVar rangeTblRef_rtindex 1 BsonTypeId (-1) InvalidOid 0 in
       let inputExpr :=
         BuildInputExpressionForQuery leftDocVar (connectToField args)
           (connectFromFieldExpression args) in
       let initialMatchFunc :=
         makeFuncExpr BsonInMatchFunctionId BOOLOID [expr firstEntry; inputExpr] in
       let baseQuals := (baseQuals ++ [initialMatchFunc])%list in
       let depthPath := depth_path args in
       let priorDepthValue :=
         makeVar rangeTblRef_rtindex 2 BsonTypeId (-1) InvalidOid 0 in
       let baseQuals :=
         if (0 <=? maxDepth args) && negb (maxDepth args =? INT32_MAX) then
           let depthConst :=
             Const BsonQueryTypeId (DatumBson [(depthPath, BsonInt32 (maxDepth args))]) in
           let depthMatchFunc :=
             OpExpr BsonLessThanMatchRuntimeOperatorId
               BsonLessThanMatchRuntimeFunctionId BOOLOID
               [priorDepthValue; depthConst] in
           (baseQuals ++ [depthMatchFunc])%list
         else baseQuals in
       let recursiveQuery :=
         set_jointree_quals (Some (make_ands_explicit baseQuals)) recursiveQuery in
       let depthAddConst :=
         MakeBsonConst
           [(depthPath,
             BsonDocument
               [("$add", BsonArray [BsonUtf8 (String.append "$" depthPath);
                                    BsonInt32 1])])] in
       let newDepthFuncExpr :=
         makeFuncExpr BsonDollarAddFieldsFunctionOid BsonTypeId
           [priorDepthValue; depthAddConst] in
       retM (set_targetList
               (targetList recursiveQuery ++
                [makeTargetEntry newDepthFuncExpr 2 (Some "depth") false;
                 makeTargetEntry (CreateIdProjectionExpr (expr firstEntry)) 3
                   (Some "baseDocId") false])%list
               recursiveQuery,
             recursiveCte)
   end)%M.

(** PostgreSQL's [rewriteSearchAndCycle] (rewrite/rewriteSearchCycle.c,
    outside this repository) for a CYCLE clause: both branches of the
    UNION ALL query get the mark column and the path column, the recursive
    branch only expands rows whose mark is the default, and the CTE lists
    the two columns after its own.  The rewritten branches are recorded in
    [searchCycleRewrite]. *)
Definition rewriteSearchAndCycle (cte : CommonTableExpr) : CommonTableExpr :=
  match cycle_clause cte, ctequery cte with
  | Some clause, Some unionQuery =>
      let n := Z.of_nat (length (targetList unionQuery)) in
      let markEntry :=
        makeTargetEntry (makeVar 1 (n + 1) (cycle_mark_type clause)
                           (cycle_mark_typmod clause) (cycle_mark_collation clause) 0)
          (n + 1) (Some (cycle_mark_column clause)) false in
      let pathEntry :=
        makeTargetEntry (makeVar 1 (n + 2) RECORDARRAYOID (-1) InvalidOid 0)
          (n + 2) (Some (cycle_path_column clause)) false in
      let setOps :=
        match setOperations unionQuery with
        | Some (SetOperationStmt op all l r tys mods colls) =>
            Some (SetOperationStmt op all l r
                    (tys ++ [cycle_mark_type clause; RECORDARRAYOID])%list
                    (mods ++ [cycle_mark_typmod clause; -1])%list
                    (colls ++ [cycle_mark_collation clause; InvalidOid])%list)
        | other => other
        end in
      let rewritten :=
        set_searchCycleRewrite (Some clause)
          (set_setOperations setOps
             (set_targetList (targetList unionQuery ++ [markEntry; pathEntry])%list
                unionQuery)) in
      set_ctecolcollations
        (ctecolcollations cte ++ [cycle_mark_collation clause; InvalidOid])%list
        (set_ctecoltypmods (ctecoltypmods cte ++ [cycle_mark_typmod clause; -1])%list
           (set_ctecoltypes
              (ctecoltypes cte ++ [cycle_mark_type clause; RECORDARRAYOID])%list
              (set_ctecolnames
                 (ctecolnames cte ++
                  [cycle_mark_column clause; cycle_path_column clause])%list
                 (set_ctequery (Some rewritten) cte))))
  | _, _ => cte
  end.

(** [RewriteGraphLookupRecursiveCteExprWalker] under [query_tree_walker]:
    the references to the recursive graph CTE get its columns after the
    cycle rewrite. *)
Definition RewriteGraphLookupRecursiveCteExpr (graphRecursiveCte : CommonTableExpr)
    (rte : RangeTblEntry) : RangeTblEntry :=
  match rte with
  | RTE_CTE n _ _ _ =>
      if String.eqb n (ctename graphRecursiveCte)
      then UpdateCteRte rte graphRecursiveCte
      else rte
  | _ => rte
  end.

(** [BuildRecursiveGraphLookupQuery]: the core recursive CTE of a
    $graphLookup and the query that de-duplicates and aggregates it. *)
Definition BuildRecursiveGraphLookupQuery (parentSource : QuerySource)
    (args : GraphLookupArgs) (parentContext : AggregationPipelineBuildContext)
    (baseCteExpr : CommonTableExpr) (baseCteLevelsUp : Z) : M Query :=
  (let subPipelineContext := derived_context parentContext 1 in
   let graphCteExpr :=
     set_cterecursive true
       (set_ctename "graphLookupRecurseStage" makeNode_CommonTableExpr) in
   let unionAllQuery :=
     set_jointree (Some (makeFromExpr [] None))
       (set_canSetTag true
          (set_querySource parentSource
             (set_commandType CMD_SELECT makeNode_Query))) in
   let docEntry :=
     makeTargetEntry (makeVar 1 1 BsonTypeId (-1) InvalidOid 0) 1 (Some "document") false in
   let depthEntry :=
     makeTargetEntry (makeVar 1 2 BsonTypeId (-1) InvalidOid 0) 2 (Some "depth") false in
   let baseDocEntry :=
     makeTargetEntry (makeVar 1 3 BsonTypeId (-1) InvalidOid 0) 3 (Some "baseDocId") false in
   let unionAllQuery := set_targetList [docEntry; depthEntry; baseDocEntry] unionAllQuery in
   let graphCteExpr := set_ctequery (Some unionAllQuery) graphCteExpr in
   let cteCycleClause :=
     mkCTECycleClause ["baseDocId"] "is_cycle" "path"
       (BOOLOID, DatumBool true) (BOOLOID, DatumBool false)
       BOOLOID (-1) InvalidOid BooleanNotEqualOperator in
   let graphCteExpr := set_cycle_clause (Some cteCycleClause) graphCteExpr in
   let baseCteLevelsUp := baseCteLevelsUp + 2 in
   baseSubQuery <- GenerateBaseCaseQuery parentContext args baseCteLevelsUp ;;
   let graphCteLevelsUp := 2 in
   '(recursiveSubQuery, graphCteExpr) <-
     GenerateRecursiveCaseQuery parentContext graphCteExpr args graphCteLevelsUp ;;
   let includeAllColumns := true in
   let depth := 2 in
   let baseQuery :=
     set_inFromCl false
       (MakeSubQueryRte baseSubQuery 1 depth "baseQuery" includeAllColumns) in
   let recursiveQuery :=
     set_inFromCl false
       (MakeSubQueryRte recursiveSubQuery 2 depth "recursiveQuery" includeAllColumns) in
   let unionAllQuery := set_rtable [baseQuery; recursiveQuery] unionAllQuery in
   let colTypes := [BsonTypeId; BsonTypeId; BsonTypeId] in
   let colTypmods := [-1; -1; -1] in
   let colCollations := [InvalidOid; InvalidOid; InvalidOid] in
   let setOpStatement :=
     SetOperationStmt SETOP_UNION true (Some (SetOpRangeTblRef 1))
       (Some (SetOpRangeTblRef 2)) colTypes colTypmods colCollations in
   let graphCteExpr :=
     set_ctecolcollations colCollations
       (set_ctecoltypmods colTypmods
          (set_ctecoltypes colTypes
             (set_ctecolnames ["document"; "depth"; "baseDocId"] graphCteExpr))) in
   let unionAllQuery := set_setOperations (Some setOpStatement) unionAllQuery in
   let graphCteExpr := set_ctequery (Some unionAllQuery) graphCteExpr in
   let graphCteExpr := rewriteSearchAndCycle graphCteExpr in
   let graphCteExpr := set_cycle_clause None graphCteExpr in
   let graphCteExpr :=
     set_ctequery
       (option_map (Query_map_rte (RewriteGraphLookupRecursiveCteExpr graphCteExpr))
          (ctequery graphCteExpr))
       graphCteExpr in
   let graphLookupQuery :=
     set_hasRecursive true
       (set_canSetTag true
          (set_querySource parentSource
             (set_commandType CMD_SELECT makeNode_Query))) in
   let '(rte, graphCteExpr) := CreateCteRte graphCteExpr "graphLookup" 2 0 in
   let graphLookupQuery := set_cteList [graphCteExpr] graphLookupQuery in
   let graphLookupQuery :=
     set_jointree (Some (makeFromExpr [RangeTblRef 1] None))
       (set_rtable [rte] graphLookupQuery) in
   let simpleVar := makeVar 1 1 BsonTypeId (-1) InvalidOid 0 in
   let distinctVar := makeVar 1 3 BsonTypeId (-1) InvalidOid 0 in
   let distinctEntry :=
     set_ressortgroupref 1 (makeTargetEntry distinctVar 2 (Some "distinctOn") true) in
   let finalDepthVar := makeVar 1 2 BsonTypeId (-1) InvalidOid 0 in
   let finalDepthEntry :=
     set_ressortgroupref 2 (makeTargetEntry finalDepthVar 3 (Some "depthVar") true) in
   let simpleTargetEntry :=
     makeTargetEntry
       (if 0 <? Z.of_nat (String.length (depthField args))
        then makeFuncExpr GetMergeDocumentsFunctionOid BsonTypeId
               [simpleVar; finalDepthVar]
        else simpleVar)
       1 (Some "document") false in
   let graphLookupQuery :=
     set_targetList [simpleTargetEntry; distinctEntry; finalDepthEntry] graphLookupQuery in
   let distinctonSortGroup :=
     mkSortGroupClause 1 BsonEqualOperatorId BsonLessThanOperatorId false in
   let graphLookupQuery :=
     set_hasDistinctOn true (set_distinctClause [distinctonSortGroup] graphLookupQuery) in
   let sortOnDepthGroup :=
     mkSortGroupClause 2 BsonEqualOperatorId BsonLessThanOperatorId false in
   let graphLookupQuery :=
     set_sortClause [distinctonSortGroup; sortOnDepthGroup] graphLookupQuery in
   let migrateToSubQuery := true in
   '(graphLookupQuery, _) <-
     AddBsonArrayAggFunction graphLookupQuery subPipelineContext (asField args)
       migrateToSubQuery ;;
   retM graphLookupQuery)%M.

(** [BuildGraphLookupCteQuery]: the caller of the recursive CTE; also the
    base CTE with its reference count raised. *)
Definition BuildGraphLookupCteQuery (parentSource : QuerySource)
    (baseCteExpr : CommonTableExpr) (args : GraphLookupArgs)
    (parentContext : AggregationPipelineBuildContext)
  : M (Query * CommonTableExpr) :=
  (let graphLookupQuery :=
     set_canSetTag true
       (set_querySource parentSource
          (set_commandType CMD_SELECT makeNode_Query)) in
   let stageNumber := 1 in
   let levelsUp := 1 in
   let '(graphLookupStageRte, baseCteExpr) :=
     CreateCteRte baseCteExpr "graphLookupBase" stageNumber levelsUp in
   let graphLookupQuery :=
     set_jointree (Some (makeFromExpr [RangeTblRef 1] None))
       (set_rtable [graphLookupStageRte] graphLookupQuery) in
   let firstVar := makeVar 1 1 BsonTypeId (-1) InvalidOid 0 in
   let firstEntry := makeTargetEntry firstVar 1 (Some "document") false in
   let ctelevelsUp := 2 in
   recursiveSelectQuery <-
     BuildRecursiveGraphLookupQuery parentSource args parentContext baseCteExpr
       ctelevelsUp ;;
   let subLink := SubLink EXPR_SUBLINK 0 recursiveSelectQuery in
   let graphLookupQuery := set_hasSubLinks true graphLookupQuery in
   let coalesceExpr := GetArrayAggCoalesce subLink (asField args) in
   let secondEntry := makeTargetEntry coalesceExpr 2 (Some "addFields") false in
   retM (set_targetList [firstEntry; secondEntry] graphLookupQuery, baseCteExpr))%M.

(** [ProcessGraphLookupCore]. *)
Definition ProcessGraphLookupCore (query : Query)
    (context : AggregationPipelineBuildContext) (lookupArgs : GraphLookupArgs)
  : M (Query * AggregationPipelineBuildContext) :=
  ('(query, context) <-
     (if has_multiple_projectors query then MigrateQueryToSubQuery query context
      else retM (query, context)) ;;
   query <- AddInputExpressionToQuery query (connectToField lookupArgs)
              (inputExpression lookupArgs) ;;
   let context := set_numNestedLevels (numNestedLevels context + 1) context in
   let graphLookupQuery :=
     set_canSetTag true
       (set_querySource (querySource query)
          (set_commandType CMD_SELECT makeNode_Query)) in
   let cteStr :=
     String.append "graphLookupBase_" (string_of_Z (nestedPipelineLevel context)) in
   let baseCteExpr :=
     set_ctequery (Some query) (set_ctename cteStr makeNode_CommonTableExpr) in
   let secondCteStr :=
     String.append "graphLookupStage_" (string_of_Z (nestedPipelineLevel context)) in
   '(stageQuery, baseCteExpr) <-
     BuildGraphLookupCteQuery (querySource query) baseCteExpr lookupArgs context ;;
   let graphCteExpr :=
     set_ctequery (Some stageQuery)
       (set_ctename secondCteStr makeNode_CommonTableExpr) in
   let stageNumber := 1 in
   let '(graphLookupStageRte, graphCteExpr) :=
     CreateCteRte graphCteExpr "graphLookup" stageNumber 0 in
   let graphLookupQuery := set_cteList [baseCteExpr; graphCteExpr] graphLookupQuery in
   let graphLookupQuery :=
     set_jointree (Some (makeFromExpr [RangeTblRef 1] None))
       (set_rtable [graphLookupStageRte] graphLookupQuery) in
   let documentVar := makeVar 1 1 BsonTypeId (-1) InvalidOid 0 in
   let addFieldsVar := makeVar 1 2 BsonTypeId (-1) InvalidOid 0 in
   let addFieldsExpr :=
     makeFuncExpr GetMergeDocumentsFunctionOid BsonTypeId [documentVar; addFieldsVar] in
   let finalTargetEntry := makeTargetEntry addFieldsExpr 1 (Some "document") false in
   retM (set_targetList [finalTargetEntry] graphLookupQuery, context))%M.

(** [HandleGraphLookup]. *)
Definition HandleGraphLookup (existingValue : bson_value_t) (query : Query)
    (context : AggregationPipelineBuildContext)
  : M (Query * AggregationPipelineBuildContext) :=
  (check ReportFeatureUsage FEATURE_STAGE_GRAPH_LOOKUP ;;
   graphArgs <- liftR (ParseGraphLookupStage existingValue) ;;
   ProcessGraphLookupCore query context graphArgs)%M.

(** ** $merge (bson_aggregation_output_pipeline.c) *)

Inductive WhenMatchedAction : Type :=
| WhenMatched_REPLACE
| WhenMatched_KEEPEXISTING
| WhenMatched_MERGE
| WhenMatched_FAIL
| WhenMatched_PIPELINE
| WhenMatched_LET.

Definition WhenMatchedAction_value (a : WhenMatchedAction) : Z :=
  match a with
  | WhenMatched_REPLACE => 0
  | WhenMatched_KEEPEXISTING => 1
  | WhenMatched_MERGE => 2
  | WhenMatched_FAIL => 3
  | WhenMatched_PIPELINE => 4
  | WhenMatched_LET => 5
  end.

Inductive WhenNotMatchedAction : Type :=
| WhenNotMatched_INSERT
| WhenNotMatched_DISCARD
| WhenNotMatched_FAIL.

Record MergeArgs : Type := mkMergeArgs {
  targetDB : string;
  targetCollection : string;
  on : bson_value_t;
  whenMatched : WhenMatchedAction;
  whenNotMatched : WhenNotMatchedAction
}.

(** [memset(&mergeArgs, 0, sizeof(mergeArgs))]. *)
Definition MergeArgs_zero : MergeArgs :=
  mkMergeArgs "" "" BsonEod WhenMatched_REPLACE WhenNotMatched_INSERT.

(** The fields of an [into] document. *)
Fixpoint ParseMergeStage_into (intoIter : list (string * bson_value_t))
    (outerType : bson_type_t) (args : MergeArgs) : Res MergeArgs :=
  match intoIter with
  | [] => Ok args
  | (innerKey, innerValue) :: rest =>
      match innerValue with
      | BsonUtf8 s =>
          if String.eqb innerKey "db" then
            ParseMergeStage_into rest outerType
              (mkMergeArgs s (targetCollection args) (on args) (whenMatched args)
                 (whenNotMatched args))
          else if String.eqb innerKey "coll" then
            ParseMergeStage_into rest outerType
              (mkMergeArgs (targetDB args) s (on args) (whenMatched args)
                 (whenNotMatched args))
          else
            Err MongoLocation40415 "BSON field 'into.%s' is an unknown field"
              [ArgStr innerKey]
      | _ =>
          Err MongoFailedToParse
            "BSON field 'into.%s' is the wrong type '%s', expected type 'string"
            [ArgStr innerKey; ArgType outerType]
      end
  end.

(** The elements of an [on] array: all strings, at least one. *)
Fixpoint ParseMergeStage_on (onValuesIter : list bson_value_t)
    (atLeastOneElement : bool) : Res unit :=
  match onValuesIter with
  | [] =>
      if atLeastOneElement then Ok tt
      else Err MongoLocation51187
             "If explicitly specifying $merge 'on', must include at least one field" []
  | onValuesElement :: rest =>
      match onValuesElement with
      | BsonUtf8 _ => ParseMergeStage_on rest true
      | _ => Err MongoLocation51134
               "$merge 'on' array elements must be strings, but found %s"
               [ArgType (value_type onValuesElement)]
      end
  end.

(** The database part of [currentNameSpace] ("db.collection"). *)
Definition namespace_database (currentNameSpace : string) : string :=
  match string_before "."%char currentNameSpace with
  | Some db => db
  | None => currentNameSpace
  end.

(** The loop of [ParseMergeStage] over a document argument;
    [isOnSpecified] is its local flag. *)
Fixpoint ParseMergeStage_fields (mergeIter : list (string * bson_value_t))
    (currentNameSpace : string) (args : MergeArgs) (isOnSpecified : bool)
  : Res (MergeArgs * bool) :=
  match mergeIter with
  | [] => Ok (args, isOnSpecified)
  | (key, value) :: rest =>
      if String.eqb key "into" then
        (args <-
           match value with
           | BsonUtf8 s =>
               Ok (mkMergeArgs (targetDB args) s (on args) (whenMatched args)
                     (whenNotMatched args))
           | BsonDocument intoFields =>
               (args <- ParseMergeStage_into intoFields (value_type value) args ;;
                if String.eqb (targetCollection args) "" then
                  Err MongoLocation51178
                    "$merge 'into' field must specify a 'coll' that is not empty, null or undefined"
                    []
                else Ok args)
           | _ =>
               Err MongoLocation51178
                 "$merge 'into' field  must be either a string or an object, but found %s"
                 [ArgType (value_type value)]
           end ;;
         let args :=
           if String.eqb (targetDB args) "" then
             mkMergeArgs (namespace_database currentNameSpace) (targetCollection args)
               (on args) (whenMatched args) (whenNotMatched args)
           else args in
         ParseMergeStage_fields rest currentNameSpace args isOnSpecified)%R
      else if String.eqb key "on" then
        match value with
        | BsonUtf8 _ =>
            ParseMergeStage_fields rest currentNameSpace
              (mkMergeArgs (targetDB args) (targetCollection args) value
                 (whenMatched args) (whenNotMatched args)) true
        | BsonArray items =>
            (check ParseMergeStage_on items false ;;
             ParseMergeStage_fields rest currentNameSpace
               (mkMergeArgs (targetDB args) (targetCollection args) value
                  (whenMatched args) (whenNotMatched args)) true)%R
        | _ =>
            Err MongoLocation51186
              "$merge 'on' field  must be either a string or an array of strings, but found %s"
              [ArgType (value_type value)]
        end
      else if String.eqb key "let" then
        Err MongoCommandNotSupported "let option is not supported" []
      else if String.eqb key "whenMatched" then
        match value with
        | BsonArray _ =>
            Err MongoCommandNotSupported
              "$merge 'whenMatched' with 'pipeline' not supported yet" []
        | BsonUtf8 s =>
            if String.eqb s "replace" then
              ParseMergeStage_fields rest currentNameSpace
                (mkMergeArgs (targetDB args) (targetCollection args) (on args)
                   WhenMatched_REPLACE (whenNotMatched args)) isOnSpecified
            else if String.eqb s "keepExisting" then
              ParseMergeStage_fields rest currentNameSpace
                (mkMergeArgs (targetDB args) (targetCollection args) (on args)
                   WhenMatched_KEEPEXISTING (whenNotMatched args)) isOnSpecified
            else if String.eqb s "merge" then
              Err MongoCommandNotSupported
                "$merge 'whenMatched' with 'merge' option not supported yet" []
            else if String.eqb s "fail" then
              ParseMergeStage_fields rest currentNameSpace
                (mkMergeArgs (targetDB args) (targetCollection args) (on args)
                   WhenMatched_FAIL (whenNotMatched args)) isOnSpecified
            else
              Err MongoBadValue
                "Enumeration value '%s' for field 'whenMatched' is not a valid value."
                [ArgStr s]
        | _ =>
            Err MongoLocation51191
              "$merge 'whenMatched' field  must be string, but found %s"
              [ArgType (value_type value)]
        end
      else if String.eqb key "whenNotMatched" then
        match value with
        | BsonUtf8 s =>
            if String.eqb s "insert" then
              ParseMergeStage_fields rest currentNameSpace
                (mkMergeArgs (targetDB args) (targetCollection args) (on args)
                   (whenMatched args) WhenNotMatched_INSERT) isOnSpecified
            else if String.eqb s "discard" then
              ParseMergeStage_fields rest currentNameSpace
                (mkMergeArgs (targetDB args) (targetCollection args) (on args)
                   (whenMatched args) WhenNotMatched_DISCARD) isOnSpecified
            else if String.eqb s "fail" then
              ParseMergeStage_fields rest currentNameSpace
                (mkMergeArgs (targetDB args) (targetCollection args) (on args)
                   (whenMatched args) WhenNotMatched_FAIL) isOnSpecified
            else
              Err MongoBadValue
                "Enumeration value '%s' for field '$merge.whenNotMatched' is not a valid value"
                [ArgStr s]
        | _ =>
            Err MongoTypeMismatch
              "BSON field '$merge.whenNotMatched' is the wrong type '%s', expected type 'string'"
              [ArgType (value_type value)]
        end
      else
        Err MongoFailedToParse "BSON field '$merge.%s' is an unknown field"
          [ArgStr key]
  end.

(** [ParseMergeStage] on zeroed [args]. *)
Definition ParseMergeStage (existingValue : bson_value_t)
    (currentNameSpace : string) : Res MergeArgs :=
  match existingValue with
  | BsonUtf8 s =>
      Ok (mkMergeArgs "" s (BsonUtf8 "_id") WhenMatched_REPLACE WhenNotMatched_INSERT)
  | BsonDocument fields =>
      (r <- ParseMergeStage_fields fields currentNameSpace MergeArgs_zero false ;;
       let '(args, isOnSpecified) := r in
       if String.eqb (targetCollection args) "" then
         Err MongoLocation40414
           "BSON field '$merge.into' is missing but a required field" []
       else if negb isOnSpecified then
         Ok (mkMergeArgs (targetDB args) (targetCollection args) (BsonUtf8 "_id")
               (whenMatched args) (whenNotMatched args))
       else Ok args)%R
  | _ =>
      Err MongoTypeMismatch
        "$merge requires a string or object argument, but found %s"
        [ArgType (value_type existingValue)]
  end.

(** [value.v_utf8.str] of a value the parser has checked to be a string. *)
Definition utf8_str (v : bson_value_t) : string :=
  match v with
  | BsonUtf8 s => s
  | _ => ""
  end.

(** [IsSingleUniqueIndexPresent]: the index key document has exactly one
    key, equal to [onValue]. *)
Definition IsSingleUniqueIndexPresent (onValue : string)
    (indexKeyDocumnetIter : pgbson) : bool :=
  match TryGetSinglePgbsonElementFromPgbson indexKeyDocumnetIter with
  | Some uniqueIndexElement => String.eqb (fst uniqueIndexElement) onValue
  | None => false
  end.

(** [InitHashTableFromStringArray]: the hash set of the strings of an
    array. *)
Definition InitHashTableFromStringArray (inputKeyArray : bson_value_t)
  : gset string :=
  List.fold_left (fun hashTable el => {[utf8_str el]} ∪ hashTable)
    (bson_iter_values inputKeyArray) ∅.

(** The [while (bson_iter_next(indexKeyDocumnetIter))] loop of
    [IsCompoundUniqueIndexPresent]: counts index keys found in the hash
    set and leaves the loop at the first key that is not. *)
Fixpoint IsCompoundUniqueIndexPresent_loop (onValueHashTable : gset string)
    (indexKeys : list string) (foundCount : Z) : Z :=
  match indexKeys with
  | [] => foundCount
  | currentKey :: rest =>
      if bool_decide (currentKey ∈ onValueHashTable)
      then IsCompoundUniqueIndexPresent_loop onValueHashTable rest (foundCount + 1)
      else foundCount
  end.

(** [IsCompoundUniqueIndexPresent]. *)
Definition IsCompoundUniqueIndexPresent (onValues : bson_value_t)
    (indexKeyDocumnetIter : pgbson) (totalIndexKeys : Z) : bool :=
  let onValueHashTable := InitHashTableFromStringArray onValues in
  let foundCount :=
    IsCompoundUniqueIndexPresent_loop onValueHashTable
      (List.map fst indexKeyDocumnetIter) 0 in
  foundCount =? totalIndexKeys.

(** The [foreach(indexDetailCell, indexesDetailList)] loop of
    [VaildateMergeOnFieldValues]; the result is [foundRequiredIndex]. *)
Fixpoint VaildateMergeOnFieldValues_loop (indexesDetailList : list IndexDetails)
    (onValues : bson_value_t) (keyNameIfSingleKeyJoin : option string)
    (numKeysOnField : Z) : bool :=
  match indexesDetailList with
  | [] => false
  | indexDetail :: rest =>
      let spec := indexSpec indexDetail in
      if negb (match indexUnique spec with BoolIndexOption_True => true | _ => false end)
         || match indexPFEDocument spec with Some _ => true | None => false end
      then VaildateMergeOnFieldValues_loop rest onValues keyNameIfSingleKeyJoin
             numKeysOnField
      else
        let found :=
          match keyNameIfSingleKeyJoin with
          | Some key => IsSingleUniqueIndexPresent key (indexKeyDocument spec)
          | None =>
              IsCompoundUniqueIndexPresent onValues (indexKeyDocument spec)
                numKeysOnField
          end in
        if found then true
        else VaildateMergeOnFieldValues_loop rest onValues keyNameIfSingleKeyJoin
               numKeysOnField
  end.

(** [VaildateMergeOnFieldValues]: fails unless the [on] fields are [_id] or
    have a unique index in the target collection. *)
Definition VaildateMergeOnFieldValues (onValues : bson_value_t) (collId : Z)
  : M unit :=
  let numKeysOnField :=
    match onValues with
    | BsonArray _ => BsonDocumentValueCountKeys onValues
    | _ => 1
    end in
  let keyNameIfSingleKeyJoin :=
    if numKeysOnField =? 1 then
      match onValues with
      | BsonArray (onValue :: _) => Some (utf8_str onValue)
      | BsonUtf8 s => Some s
      | _ => None
      end
    else None in
  if (numKeysOnField =? 1) &&
     match keyNameIfSingleKeyJoin with
     | Some key => String.eqb key "_id"
     | None => false
     end
  then retM tt
  else
    (indexesDetailList <-
       (if negb (collId =? 0) then CollectionIdGetIndexes collId else retM []) ;;
     let foundRequiredIndex :=
       VaildateMergeOnFieldValues_loop indexesDetailList onValues
         keyNameIfSingleKeyJoin numKeysOnField in
     if negb foundRequiredIndex then
       ereport MongoLocation51183
         "Cannot find index to verify that join fields will be unique" []
     else retM tt)%M.

(** [MergeQueryCTEWalker] under [query_tree_walker]: is there a query
    below this node that has a recursive CTE ([hasRecursive])? *)
Fixpoint Expr_has_recursive (e : Expr) : bool :=
  match e with
  | Var _ _ _ _ _ _ => false
  | Const _ _ => false
  | FuncExpr _ _ args _ => List.existsb Expr_has_recursive args
  | Aggref _ args _ => List.existsb Expr_has_recursive args
  | CoalesceExpr _ args => List.existsb Expr_has_recursive args
  | ScalarArrayOpExpr _ _ args => List.existsb Expr_has_recursive args
  | OpExpr _ _ _ args => List.existsb Expr_has_recursive args
  | BoolExprAnd args => List.existsb Expr_has_recursive args
  | SubLink _ _ q => hasRecursive q || Query_has_recursive_below q
  end
with Query_has_recursive_below (q : Query) : bool :=
  match q with
  | mkQuery _ _ _ _ _ _ _ _ ctes rt jt mal tl _ _ _ _ =>
      List.existsb TargetEntry_has_recursive tl ||
      List.existsb MergeAction_has_recursive mal ||
      match jt with
      | Some fe => FromExpr_has_recursive fe
      | None => false
      end ||
      List.existsb CommonTableExpr_has_recursive ctes ||
      List.existsb RangeTblEntry_has_recursive rt
  end
with TargetEntry_has_recursive (t : TargetEntry) : bool :=
  match t with
  | mkTargetEntry e _ _ _ _ => Expr_has_recursive e
  end
with RangeTblEntry_has_recursive (rte : RangeTblEntry) : bool :=
  match rte with
  | RTE_RELATION _ _ _ => false
  | RTE_SUBQUERY q _ => hasRecursive q || Query_has_recursive_below q
  | RTE_JOIN _ _ vars _ _ _ => List.existsb Expr_has_recursive vars
  | RTE_FUNCTION fs _ => List.existsb RangeTblFunction_has_recursive fs
  | RTE_CTE _ _ _ _ => false
  end
with RangeTblFunction_has_recursive (rtf : RangeTblFunction) : bool :=
  match rtf with
  | mkRangeTblFunction e _ _ _ _ => Expr_has_recursive e
  end
with CommonTableExpr_has_recursive (cte : CommonTableExpr) : bool :=
  match cte with
  | mkCommonTableExpr _ _ q _ _ _ _ _ _ _ =>
      match q with
      | Some q' => hasRecursive q' || Query_has_recursive_below q'
      | None => false
      end
  end
with FromExpr_has_recursive (fe : FromExpr) : bool :=
  match fe with
  | mkFromExpr l q =>
      List.existsb JoinTreeNode_has_recursive l ||
      match q with
      | Some e => Expr_has_recursive e
      | None => false
      end
  end
with JoinTreeNode_has_recursive (n : JoinTreeNode) : bool :=
  match n with
  | RangeTblRef _ => false
  | JoinExpr _ l r q _ =>
      JoinTreeNode_has_recursive l || JoinTreeNode_has_recursive r ||
      match q with
      | Some e => Expr_has_recursive e
      | None => false
      end
  end
with MergeAction_has_recursive (a : MergeAction) : bool :=
  match a with
  | mkMergeAction _ _ tl => List.existsb TargetEntry_has_recursive tl
  end.

(** [ValidatePreviousStagesOfDollarMerge]: fails early if $merge is used
    with $graphLookup. *)
Definition ValidatePreviousStagesOfDollarMerge (query : Query) : M unit :=
  if Query_has_recursive_below query then
    ereport MongoCommandNotSupported
      "$graphLookup is not supported with $merge stage yet." []
  else retM tt.

(** The [foreach(cell, query->targetList)] loop of
    [RearrangeTargetListForMerge]: shifts the junk columns by one and
    counts the real columns before them. *)
Fixpoint RearrangeTargetListForMerge_loop (entries : list TargetEntry)
    (indexToInsertShardKeyColumn : nat) (foundResJunk : bool)
  : Res (list TargetEntry * nat) :=
  match entries with
  | [] => Ok ([], indexToInsertShardKeyColumn)
  | entry :: rest =>
      if foundResJunk && negb (resjunk entry) then
        Err MongoInternalError
          "$merge stage internal error occurred while query construction" []
      else
        let foundResJunk := foundResJunk || resjunk entry in
        if foundResJunk then
          (r <- RearrangeTargetListForMerge_loop rest indexToInsertShardKeyColumn
                  foundResJunk ;;
           Ok (set_resname None (set_resno (resno entry + 1) entry) :: fst r, snd r))%R
        else
          (r <- RearrangeTargetListForMerge_loop rest
                  (S indexToInsertShardKeyColumn) foundResJunk ;;
           Ok (entry :: fst r, snd r))%R
  end.

(** [list_insert_nth(list, pos, datum)]. *)
Definition list_insert_nth {A : Type} (l : list A) (pos : nat) (datum : A) : list A :=
  (firstn pos l ++ datum :: skipn pos l)%list.

(** [RearrangeTargetListForMerge]: returns the query and
    [*sourceShardKeyValueAttrNo]. *)
Definition RearrangeTargetListForMerge (query : Query)
    (targetColl : MongoCollection) (isSourceAndTargetAreSame : bool)
  : M (Query * Z) :=
  match targetList query with
  | [] => ereport ERRCODE_INTERNAL_ERROR "query without output column" []
  | sourceDocTE :: restTL =>
      let sourceDocVar := expr sourceDocTE in
      let addObjectIdFuncExpr :=
        makeFuncExpr BsonDollarMergeAddObjectIdFunctionOid BsonTypeId [sourceDocVar] in
      let entries := set_expr addObjectIdFuncExpr sourceDocTE :: restTL in
      if isSourceAndTargetAreSame then
        ereport MongoCommandNotSupported
          "The source and target tables cannot be the same, as this functionality is not yet supported."
          []
      else
        (r <- liftR (RearrangeTargetListForMerge_loop entries 0 false) ;;
         let '(entries, indexToInsertShardKeyColumn) := r in
         let sourceShardKeyValueAttrNo := Z.of_nat indexToInsertShardKeyColumn + 1 in
         let exprShardKeyValueCol :=
           Const INT8OID (DatumInt64 (collectionId targetColl)) in
         let dummySourceShardKeyValueTE :=
           makeTargetEntry exprShardKeyValueCol sourceShardKeyValueAttrNo
             (Some "target_shard_key_value") false in
         retM (set_targetList
                 (list_insert_nth entries indexToInsertShardKeyColumn
                    dummySourceShardKeyValueTE)
                 query,
               sourceShardKeyValueAttrNo))%M
  end.

(** The schema of the data tables ([ApiDataSchemaName]). *)
Definition ApiDataSchemaName : string := "helio_data".
Definition ACL_SELECT : Z := 2.

(** [AddTargetCollectionRTEDollarMerge]: the target table becomes the first
    range-table entry and the result relation. *)
Definition AddTargetCollectionRTEDollarMerge (query : Query)
    (targetColl : MongoCollection) : M Query :=
  let a := makeAlias (tableName targetColl) ["shard_key_value"; "document"] in
  let rte :=
    RTE_RELATION (RelationOid ApiDataSchemaName (tableName targetColl))
      RowExclusiveLock
      (mkRteCommon (Some a) (Some a) false false true ACL_SELECT) in
  match rtable query with
  | [] => ereport ERRCODE_INTERNAL_ERROR "query without range table" []
  | existingrte :: _ =>
      retM (set_resultRelation 1 (set_rtable [rte; existingrte] query))
  end.

(** One [bson_dollar_merge_join(target.document, source.document, 'f')]. *)
Definition merge_on_condition (sourceDocVar targetDocVar : Expr) (onField : string)
  : Expr :=
  makeFuncExpr BsonDollarMergeJoinFunctionOid BOOLOID
    [targetDocVar; sourceDocVar; MakeTextConst onField].

(** [WriteJoinConditionToQueryDollarMerge]. *)
Definition WriteJoinConditionToQueryDollarMerge (query : Query)
    (sourceDocVar targetDocVar sourceShardKeyValueVar targetShardKeyValueVar : Expr)
    (mergeArgs : MergeArgs) : M Query :=
  let opexpr :=
    OpExpr PostgresInt4EqualOperatorOid InvalidOid BOOLOID
      [targetShardKeyValueVar; sourceShardKeyValueVar] in
  let query := set_jointree (Some (makeFromExpr [RangeTblRef 2] None)) query in
  let joinFilterList := [opexpr] in
  match on mergeArgs with
  | BsonUtf8 onField =>
      retM (set_jointree_quals
              (Some (make_ands_explicit
                       (joinFilterList ++
                        [merge_on_condition sourceDocVar targetDocVar onField])%list))
              query)
  | BsonArray onValues =>
      retM (set_jointree_quals
              (Some (make_ands_explicit
                       (joinFilterList ++
                        List.map (fun onValuesElement =>
                                    merge_on_condition sourceDocVar targetDocVar
                                      (utf8_str onValuesElement))
                          onValues)%list))
              query)
  | other =>
      ereport MongoFailedToParse
        "on field in $merge stage must be either a string or an array of strings, but found %s"
        [ArgType (value_type other)]
  end.

(** [MakeActionWhenMatched]. *)
Definition MakeActionWhenMatched (whenMatchedAction : WhenMatchedAction)
    (sourceDocVar targetDocVar : Expr) : MergeAction :=
  match whenMatchedAction with
  | WhenMatched_KEEPEXISTING => mkMergeAction true CMD_NOTHING []
  | _ =>
      let inputActionForWhenMathced :=
        Const INT4OID (DatumInt32 (WhenMatchedAction_value whenMatchedAction)) in
      let resultExpr :=
        makeFuncExpr BsonDollarMergeHandleWhenMatchedFunctionOid BsonTypeId
          [sourceDocVar; targetDocVar; inputActionForWhenMathced] in
      mkMergeAction true CMD_UPDATE
        [makeTargetEntry resultExpr MONGO_DATA_TABLE_DOCUMENT_VAR_ATTR_NUMBER
           (Some "document") false]
  end.

(** [MakeActionWhenNotMatched]: the insert action carries the time of its
    construction as the value of the creation_time column. *)
Definition MakeActionWhenNotMatched (whenNotMatchedAction : WhenNotMatchedAction)
    (sourceDocVar sourceShardKeyVar : Expr) (targetColl : MongoCollection)
  : M MergeAction :=
  match whenNotMatchedAction with
  | WhenNotMatched_DISCARD => retM (mkMergeAction false CMD_NOTHING [])
  | _ =>
      (nowValueTime <- GetCurrentTimestamp ;;
       let nowValue := Const TIMESTAMPTZOID (DatumTimestampTz nowValueTime) in
       let objectIdConst := MakeTextConst "_id" in
       let argsforObjectIdExtractionForInsertion := [sourceDocVar; objectIdConst] in
       let functionOid :=
         match whenNotMatchedAction with
         | WhenNotMatched_INSERT => BsonGetValueFunctionOid
         | _ => BsonDollarMergeFailWhenNotMatchedFunctionOid
         end in
       let addObjectIdExtractFuncExpr :=
         makeFuncExpr functionOid BsonTypeId argsforObjectIdExtractionForInsertion in
       retM (mkMergeAction false CMD_INSERT
               [makeTargetEntry sourceShardKeyVar
                  MONGO_DATA_TABLE_SHARD_KEY_VALUE_VAR_ATTR_NUMBER
                  (Some "target_shard_key_value") false;
                makeTargetEntry addObjectIdExtractFuncExpr
                  MONGO_DATA_TABLE_OBJECT_ID_VAR_ATTR_NUMBER (Some "object_id") false;
                makeTargetEntry sourceDocVar
                  MONGO_DATA_TABLE_DOCUMENT_VAR_ATTR_NUMBER (Some "document") false;
                makeTargetEntry nowValue
                  (mongoDataCreationTimeVarAttrNumber targetColl)
                  (Some "creation_time") false]))%M
  end.

(** The target resolution of [HandleMerge]: the existing collection after
    its checks, or a newly created one. *)
Definition HandleMerge_target (mergeArgs : MergeArgs) : M MongoCollection :=
  (found <-
     GetMongoCollectionOrViewByNameDatumWithLocalShard (targetDB mergeArgs)
       (targetCollection mergeArgs) RowExclusiveLock ;;
   match found with
   | None =>
       enabled <- read_EnableMergeTargetCreation ;;
       if enabled then
         let ignoreCollectionID := 0 in
         check VaildateMergeOnFieldValues (on mergeArgs) ignoreCollectionID ;;
         CreateCollectionForInsert (targetDB mergeArgs) (targetCollection mergeArgs)
       else
         ereport MongoCommandNotSupported
           "$merge target collection create not supported yet, Please create target collection first and try again"
           []
   | Some targetColl =>
       match viewDefinition targetColl, shardKey targetColl with
       | Some _, _ =>
           ereport MongoCommandNotSupportedOnView
             "Namespace %s.%s is a view, not a collection"
             [ArgStr (databaseName targetColl); ArgStr (collectionName targetColl)]
       | None, Some _ =>
           ereport MongoCommandNotSupported
             "$merge for sharded output collection not supported yet" []
       | None, None =>
           check VaildateMergeOnFieldValues (on mergeArgs) (collectionId targetColl) ;;
           retM targetColl
       end
   end)%M.

(** [HandleMerge]: mutates the query for the $merge stage. *)
Definition HandleMerge (existingValue : bson_value_t) (query : Query)
    (context : AggregationPipelineBuildContext)
  : M (Query * AggregationPipelineBuildContext) :=
  (check ReportFeatureUsage FEATURE_STAGE_MERGE ;;
   versionOk <- IsClusterVersionAtleastThis 1 19 0 ;;
   enabled <- read_EnableMergeStage ;;
   if negb (versionOk && enabled) then
     ereport MongoCommandNotSupported
       "Stage $merge is not supported yet in native pipeline" []
   else
     inTransaction <- IsInTransactionBlock ;;
     if inTransaction then
       ereport MongoOperationNotSupportedInTransaction
         "$merge cannot be used in a transaction" []
     else
       match mongoCollection context with
       | None => retM (query, context)
       | Some sourceCollection =>
           check ValidatePreviousStagesOfDollarMerge query ;;
           mergeArgs <- liftR (ParseMergeStage existingValue (namespaceName context)) ;;
           targetColl <- HandleMerge_target mergeArgs ;;
           let isSourceAndTargetAreSame :=
             collectionId targetColl =? collectionId sourceCollection in
           let targetCollectionVarNo := 1 in
           let targetShardKeyValueAttrNo := 1 in
           let targetDocAttrNo := 2 in
           let sourceCollectionVarNo := 2 in
           let sourceDocAttrNo := 1 in
           '(query, sourceShardKeyValueAttrNo) <-
             match shardKey targetColl with
             | None => RearrangeTargetListForMerge query targetColl
                         isSourceAndTargetAreSame
             | Some _ => retM (query, 2)
             end ;;
           let context := set_expandTargetList true context in
           '(query, context) <- MigrateQueryToSubQuery query context ;;
           let query := set_commandType CMD_MERGE query in
           query <- AddTargetCollectionRTEDollarMerge query targetColl ;;
           let sourceDocVar :=
             makeVar sourceCollectionVarNo sourceDocAttrNo BsonTypeId (-1) InvalidOid 0 in
           let targetDocVar :=
             makeVar targetCollectionVarNo targetDocAttrNo BsonTypeId (-1) InvalidOid 0 in
           let targetShardKeyValueVar :=
             makeVar targetCollectionVarNo targetShardKeyValueAttrNo INT8OID (-1)
               InvalidOid 0 in
           let sourceShardKeyValueVar :=
             makeVar sourceCollectionVarNo sourceShardKeyValueAttrNo INT8OID (-1)
               InvalidOid 0 in
           let matchedAction :=
             MakeActionWhenMatched (whenMatched mergeArgs) sourceDocVar targetDocVar in
           notMatchedAction <-
             MakeActionWhenNotMatched (whenNotMatched mergeArgs) sourceDocVar
               sourceShardKeyValueVar targetColl ;;
           let query := set_mergeActionList [matchedAction; notMatchedAction] query in
           query <-
             WriteJoinConditionToQueryDollarMerge query sourceDocVar targetDocVar
               sourceShardKeyValueVar targetShardKeyValueVar mergeArgs ;;
           retM (query, context)
       end)%M.

End Compiler.

(** ** A reference instance of the collaborators

    Used to run the stage compilers on concrete pipelines: base scans read
    the catalog of the [World], and the dispatcher routes the stages of
    the two translated files. *)

Definition set_stageNum (v : Z) (c : AggregationPipelineBuildContext) :=
  mkContext v (nestedPipelineLevel c) (numNestedLevels c) (databaseNameDatum c)
    (namespaceName c) (mongoCollection c) (sortSpec c) (requiresSubQuery c)
    (requiresSubQueryAfterProject c) (expandTargetList c).

(** Modelled from the spec: [BaseRelation] of section 3 for a bound
    collection ([GenerateBaseTableQuery] is not among the sources): the
    scan of the collection's data table, exposing its document column. *)
Definition base_table_query (coll : MongoCollection) : Query :=
  let a := makeAlias "collection" [] in
  let rte :=
    RTE_RELATION (RelationOid ApiDataSchemaName (tableName coll)) NoLock
      (mkRteCommon (Some a) (Some a) false false true ACL_SELECT) in
  let documentEntry :=
    makeTargetEntry
      (makeVar 1 MONGO_DATA_TABLE_DOCUMENT_VAR_ATTR_NUMBER BsonTypeId (-1) InvalidOid 0)
      1 (Some "document") false in
  set_jointree (Some (makeFromExpr [RangeTblRef 1] None))
    (set_rtable [rte]
       (set_targetList [documentEntry]
          (set_canSetTag true (set_commandType CMD_SELECT makeNode_Query)))).

(** Modelled from the spec: [BaseRelation] for an absent collection or an
    agnostic pipeline: a scan that yields no row, with one document
    column. *)
Definition empty_base_query : Query :=
  let a := makeAlias "collection" ["document"] in
  let tblFunction :=
    mkRangeTblFunction (FuncExpr BsonLookupUnwindFunctionOid BsonTypeId
                          [MakeBsonConst []; MakeTextConst ""] true)
      1 [BsonTypeId] [-1] [InvalidOid] in
  let rte := RTE_FUNCTION [tblFunction] (mkRteCommon (Some a) (Some a) false false true 0) in
  let documentEntry :=
    makeTargetEntry (makeVar 1 1 BsonTypeId (-1) InvalidOid 0) 1 (Some "document") false in
  set_jointree (Some (makeFromExpr [RangeTblRef 1] None))
    (set_rtable [rte]
       (set_targetList [documentEntry]
          (set_canSetTag true (set_commandType CMD_SELECT makeNode_Query)))).

Definition ref_GenerateBaseTableQuery (db coll : string)
    (context : AggregationPipelineBuildContext)
  : M (Query * AggregationPipelineBuildContext) :=
  fun w =>
    match List.find (fun c => String.eqb (databaseName c) db &&
                              String.eqb (collectionName c) coll)
            (catalogCollections w) with
    | Some c => (Ok (base_table_query c, set_mongoCollection (Some c) context), w)
    | None => (Ok (empty_base_query, context), w)
    end.

Definition ref_GenerateBaseAgnosticQuery (db : string)
    (context : AggregationPipelineBuildContext)
  : M (Query * AggregationPipelineBuildContext) :=
  retM (empty_base_query, context).

(** $match adds its filter to the WHERE clause of the scan. *)
Definition ref_HandleMatch (matchValue : bson_value_t) (query : Query)
    (context : AggregationPipelineBuildContext)
  : M (Query * AggregationPipelineBuildContext) :=
  match targetList query with
  | [] => ereport ERRCODE_INTERNAL_ERROR "query without output column" []
  | firstEntry :: _ =>
      let filter :=
        OpExpr BsonEqualOperatorId InvalidOid BOOLOID
          [expr firstEntry;
           Const BsonQueryTypeId (DatumBson (bson_iter_fields matchValue))] in
      retM (set_jointree_quals
              (Some (make_ands_explicit
                       (make_ands_implicit (jointree_quals query) ++ [filter])%list))
              query,
            context)
  end.

(** Constant expressions evaluate to themselves; a field path read from the
    empty document is missing and writes nothing. *)
Definition ref_EvaluateExpressionToWriter (document : pgbson)
    (element : string * bson_value_t) : Res pgbson :=
  match snd element with
  | BsonUtf8 s => if starts_with_dollar s then Ok [] else Ok [element]
  | _ => Ok [element]
  end.

(** A projection stage writes the paths that overlap one of its keys; the
    stages that only filter or cut write nothing; any other stage is
    taken to write. *)
Definition ref_StageWritesPath (stageName : string) (stageValue : bson_value_t)
    (path : string) : bool :=
  if String.eqb stageName "$addFields" || String.eqb stageName "$set" ||
     String.eqb stageName "$project"
  then List.existsb (fun key => String.prefix key path || String.prefix path key)
         (List.map fst (bson_iter_fields stageValue))
  else negb (String.eqb stageName "$match" || String.eqb stageName "$limit" ||
             String.eqb stageName "$skip").

(** Modelled from the spec: the stage dispatcher [compile_pipeline] of
    section 4.2 ([MutateQueryWithPipeline] is not among the sources):
    "iterates stages in array order; for stage i, sets ctx.stage_num = i,
    calls the matching compiler", and "fails fast on the first error".  It
    routes the stages whose compilers are translated above, and $match. *)
Definition dispatch_stage (C : Collaborators) (stageName : string)
    (stageValue : bson_value_t) (query : Query)
    (context : AggregationPipelineBuildContext)
  : M (Query * AggregationPipelineBuildContext) :=
  if String.eqb stageName "$lookup" then HandleLookup stageValue query context
  else if String.eqb stageName "$graphLookup" then
    HandleGraphLookup stageValue query context
  else if String.eqb stageName "$facet" then HandleFacet stageValue query context
  else if String.eqb stageName "$unionWith" then
    HandleUnionWith stageValue query context
  else if String.eqb stageName "$documents" then
    HandleDocumentsStage stageValue query context
  else if String.eqb stageName "$merge" then HandleMerge stageValue query context
  else if String.eqb stageName "$_internalInhibitOptimization" then
    retM (HandleInternalInhibitOptimization stageValue query context, context)
  else if String.eqb stageName "$match" then
    @HandleMatch C stageValue query context
  else
    ereport MongoFailedToParse "Unrecognized pipeline stage name: %s"
      [ArgStr stageName].

Fixpoint compile_stages (C : Collaborators) (stages : list bson_value_t)
    (stageIndex : Z) (query : Query) (context : AggregationPipelineBuildContext)
  : M (Query * AggregationPipelineBuildContext) :=
  match stages with
  | [] => retM (query, context)
  | stage :: rest =>
      (stageElement <- liftR (GetPipelineStage stage "aggregate" "pipeline") ;;
       let context := set_stageNum stageIndex context in
       '(query, context) <-
         dispatch_stage C (fst stageElement) (snd stageElement) query context ;;
       compile_stages C rest (stageIndex + 1) query context)%M
  end.

(** The reference collaborators: nested pipelines are compiled by the
    dispatcher over collaborators with one unit of [fuel] less. *)
Fixpoint RefCollaborators (fuel : nat) : Collaborators :=
  {| GenerateBaseTableQuery := ref_GenerateBaseTableQuery;
     GenerateBaseAgnosticQuery := ref_GenerateBaseAgnosticQuery;
     MutateQueryWithPipeline :=
       match fuel with
       | O => fun _ _ _ => ereport ERRCODE_INTERNAL_ERROR "out of fuel" []
       | S n => fun query pipelineValue context =>
                  compile_stages (RefCollaborators n) (bson_iter_values pipelineValue)
                    0 query context
       end;
     HandleMatch := ref_HandleMatch;
     EvaluateExpressionToWriter := ref_EvaluateExpressionToWriter;
     StageWritesPath := ref_StageWritesPath |}.

(** Compiles [pipelineValue] over the collection [coll] of database [db]. *)
Definition compile_pipeline (fuel : nat) (db coll : string)
    (pipelineValue : bson_value_t) : M (Query * AggregationPipelineBuildContext) :=
  (let context :=
     mkContext 0 0 0 db (String.append db (String.append "." coll)) None BsonEod
       false false false in
   '(query, context) <-
     @GenerateBaseTableQuery (RefCollaborators fuel) db coll context ;;
   @MutateQueryWithPipeline (RefCollaborators (S fuel)) query pipelineValue context)%M.

(** A world with two unsharded collections, [orders] with a unique index on
    [sku] and a unique compound index on ([a], [b], [c]), and [items]. *)
Definition demo_orders : MongoCollection :=
  mkMongoCollection "db" "orders" 1 "documents_1" None None 4.
Definition demo_items : MongoCollection :=
  mkMongoCollection "db" "items" 2 "documents_2" None None 4.
Definition demo_world : World :=
  mkWorld [] [demo_orders; demo_items]
    [mkIndexDetails 1 1 (mkIndexSpec [("_id", BsonInt32 1)] None BoolIndexOption_True);
     mkIndexDetails 2 1 (mkIndexSpec [("sku", BsonInt32 1)] None BoolIndexOption_True);
     mkIndexDetails 3 1
       (mkIndexSpec [("a", BsonInt32 1); ("b", BsonInt32 1); ("c", BsonInt32 1)]
          None BoolIndexOption_True)]
    1000 false (1, 19, 0) true true [].

(** [{ $lookup: { from, localField, foreignField, as } }]. *)
Definition lookup_fields (fromColl local foreign asName : string) : bson_value_t :=
  BsonDocument [("from", BsonUtf8 fromColl); ("localField", BsonUtf8 local);
                ("foreignField", BsonUtf8 foreign); ("as", BsonUtf8 asName)].

(** A $lookup whose pipeline holds a $lookup, [depth] times over. *)
Fixpoint nested_lookup (depth : nat) : bson_value_t :=
  match depth with
  | O => lookup_fields "items" "sku" "sku" "found"
  | S n =>
      BsonDocument [("from", BsonUtf8 "items"); ("as", BsonUtf8 "found");
                    ("pipeline", BsonArray [BsonDocument [("$lookup", nested_lookup n)]])]
  end.

(** ** Predicates used to state the properties *)

(** A well-formed pipeline stage: a document with exactly one field. *)
Definition single_field_stage (stage : bson_value_t) : bool :=
  match stage with
  | BsonDocument [_] => true
  | _ => false
  end.

(** The name of a stage, when it is well formed. *)
Definition stage_name (stage : bson_value_t) : option string :=
  match stage with
  | BsonDocument [(name, _)] => Some name
  | _ => None
  end.

(** Does the pipeline hold a stage whose name satisfies [p]? *)
Definition has_stage (p : string -> bool) (stages : list bson_value_t) : bool :=
  List.existsb (fun stage => match stage_name stage with
                             | Some name => p name
                             | None => false
                             end) stages.

(** Every branch of a $facet document is an array of well-formed stages. *)
Definition facet_well_formed (fields : list (string * bson_value_t)) : bool :=
  List.forallb (fun field => match snd field with
                             | BsonArray stages => List.forallb single_field_stage stages
                             | _ => false
                             end) fields.

(** Some branch of a $facet document holds a stage [ValidateFacet]
    refuses. *)
Definition facet_has_forbidden_stage (fields : list (string * bson_value_t)) : bool :=
  List.existsb (fun field => has_stage facet_forbidden (bson_iter_values (snd field)))
    fields.

(** The stage names [ParseLookupStage] refuses inside a pipeline. *)
Definition lookup_forbidden (nestedPipelineStage : string) : bool :=
  String.eqb nestedPipelineStage "$out" || String.eqb nestedPipelineStage "$merge".

(** The world after [ReportFeatureUsage(feature)] and nothing else. *)
Definition counted (feature : FeatureType) (w : World) : World :=
  snd (ReportFeatureUsage feature w).

(** The pipeline [[ { $lookup: nested_lookup depth } ]]: [depth] nested
    sub-pipelines below the outermost $lookup. *)
Definition lookup_pipeline (depth : nat) : bson_value_t :=
  BsonArray [BsonDocument [("$lookup", nested_lookup depth)]].

(** [w] with its clock set to [t]. *)
Definition set_currentTimestamp (t : Z) (w : World) : World :=
  mkWorld (featureCounters w) (catalogCollections w) (catalogIndexes w) t
    (inTransactionBlock w) (clusterVersion w) (EnableMergeStage w)
    (EnableMergeTargetCreation w) (calls w).

(** [w] inside a transaction block. *)
Definition set_inTransactionBlock (b : bool) (w : World) : World :=
  mkWorld (featureCounters w) (catalogCollections w) (catalogIndexes w)
    (currentTimestamp w) b (clusterVersion w) (EnableMergeStage w)
    (EnableMergeTargetCreation w) (calls w).

(** The build context of a pipeline over [db.coll], bound to [binding]. *)
Definition top_context (db coll : string) (binding : option MongoCollection)
  : AggregationPipelineBuildContext :=
  mkContext 0 0 0 db (String.append db (String.append "." coll)) binding BsonEod
    false false false.

(** [p] is a dotted prefix of the field path [f]: [f] is [p.rest]. *)
Definition dotted_prefix (p f : string) : Prop :=
  exists rest, f = String.append p (String "."%char rest).

(** The path [CanInlineInnerLookupPipeline] hands to the stage walk: the
    part of [localField] before its first dot, when there is one. *)
Definition inline_lookup_path (localFieldValue : string) : string :=
  let prefix := StringViewFindPrefix localFieldValue "."%char in
  if negb (Nat.eqb (String.length prefix) 0) then prefix else localFieldValue.

(** [{ $lookup: { from: "items", localField: "a.b", foreignField: "sku",
       as: "found", pipeline: [ { $lookup: ... as: "c" }, { $match: {} } ] } }]. *)
Definition demo_inline_lookup : LookupArgs :=
  mkLookupArgs "items" "found" "sku" "a.b"
    (BsonArray
       [BsonDocument
          [("$lookup",
            BsonDocument [("from", BsonUtf8 "orders"); ("as", BsonUtf8 "c");
                          ("pipeline", BsonArray [])])];
        BsonDocument [("$match", BsonDocument [])]])
    true.

(** [{ $graphLookup: { from: "items", startWith: "$parent",
       connectFromField: "parent", connectToField: "name", as: "chain" } }]. *)
Definition demo_graphLookup : bson_value_t :=
  BsonDocument [("from", BsonUtf8 "items"); ("startWith", BsonUtf8 "$parent");
                ("connectFromField", BsonUtf8 "parent");
                ("connectToField", BsonUtf8 "name"); ("as", BsonUtf8 "chain")].

(** [{ $facet: { a: [], b: [ { $match: {} } ] } }]. *)
Definition demo_facet : bson_value_t :=
  BsonDocument [("a", BsonArray []);
                ("b", BsonArray [BsonDocument [("$match", BsonDocument [])]])].

(** ** Dependence of a compilation on the clock *)

(** [m] neither reads nor sets the clock: under another clock reading it
    gives the same result and changes the rest of the world the same way. *)
Definition clock_independent {A : Type} (m : M A) : Prop :=
  forall t w, m (set_currentTimestamp t w) =
              (fst (m w), set_currentTimestamp t (snd (m w))).

(** Collaborators that do not read the clock. *)
Definition Collaborators_clock_independent (C : Collaborators) : Prop :=
  (forall db coll ctx, clock_independent (@GenerateBaseTableQuery C db coll ctx)) /\
  (forall db ctx, clock_independent (@GenerateBaseAgnosticQuery C db ctx)) /\
  (forall q v ctx, clock_independent (@MutateQueryWithPipeline C q v ctx)) /\
  (forall v q ctx, clock_independent (@HandleMatch C v q ctx)).

(** The result [r] with [f] applied to its value. *)
Definition mapR {A B : Type} (f : A -> B) (r : Res A) : Res B :=
  match r with
  | Ok a => Ok (f a)
  | Err c fmt args => Err c fmt args
  end.

(** [te] with the epoch for its value when it fills the creation_time
    column. *)
Definition without_creation_time_entry (te : TargetEntry) : TargetEntry :=
  match te with
  | mkTargetEntry e no (Some name) ref junk =>
      if String.eqb name "creation_time" then
        mkTargetEntry (Const TIMESTAMPTZOID (DatumTimestampTz 0)) no (Some name) ref junk
      else te
  | _ => te
  end.

Definition without_creation_time_action (a : MergeAction) : MergeAction :=
  match a with
  | mkMergeAction m c tl => mkMergeAction m c (List.map without_creation_time_entry tl)
  end.

(** [plan] with the creation_time values of its merge actions set to the
    epoch. *)
Definition without_creation_time (plan : Query) : Query :=
  set_mergeActionList
    (List.map without_creation_time_action (mergeActionList plan)) plan.

(** The result of a stage handler with the creation_time values of the
    plan set to the epoch. *)
Definition plan_without_creation_time
    (r : Res (Query * AggregationPipelineBuildContext))
  : Res (Query * AggregationPipelineBuildContext) :=
  mapR (fun pc => (without_creation_time (fst pc), snd pc)) r.

(** The result of [m], seen through [e], does not depend on the clock. *)
Definition clock_erasable {A : Type} (e : A -> A) (m : M A) : Prop :=
  forall t w, mapR e (fst (m (set_currentTimestamp t w))) = mapR e (fst (m w)).

(** A $merge into the [items] collection with every option at its default. *)
Definition demo_merge : bson_value_t := BsonDocument [("into", BsonUtf8 "items")].

(** ** What the plan of a $graphLookup asks the executor for *)

(** The recursive computation and the post-processing of a $graphLookup,
    by the names of the columns of the recursive CTE. *)
Record GraphTraversal : Type := mkGraphTraversal {
  cycle_columns : option (list string);
  distinct_on : list string;
  order_by : list string;
  array_field : string;
  empty_array : pgbson
}.

Fixpoint all_some {A : Type} (l : list (option A)) : option (list A) :=
  match l with
  | [] => Some []
  | Some a :: rest => option_map (cons a) (all_some rest)
  | None :: _ => None
  end.

(** The column of [cte] a variable of the scan of [cte] reads. *)
Definition cte_column (cte : CommonTableExpr) (e : Expr) : option string :=
  match e with
  | Var varno varattno _ _ _ varlevelsup =>
      if (varno =? 1) && (varlevelsup =? 0) && (1 <=? varattno)
      then nth_error (ctecolnames cte) (Z.to_nat (varattno - 1))
      else None
  | _ => None
  end.

(** The column of [cte] a sort or distinct clause of [q] refers to. *)
Definition sort_column (q : Query) (cte : CommonTableExpr) (c : SortGroupClause)
  : option string :=
  match List.find (fun te => ressortgroupref te =? tleSortGroupRef c) (targetList q) with
  | Some te => cte_column cte (expr te)
  | None => None
  end.

(** Reads the traversal off the query [BuildRecursiveGraphLookupQuery]
    builds: the aggregate over the DISTINCT ON query over the recursive
    CTE. *)
Definition graphLookup_traversal (recursiveSelectQuery : Query)
  : option GraphTraversal :=
  match rtable recursiveSelectQuery, targetList recursiveSelectQuery with
  | [RTE_SUBQUERY distinctQuery _], [aggEntry] =>
      match cteList distinctQuery, expr aggEntry with
      | [graphCte],
        CoalesceExpr _
          [Aggref BsonArrayAggregateFunctionOid [_; Const _ (DatumText field)] _;
           Const _ (DatumBson empty)] =>
          match all_some (List.map (sort_column distinctQuery graphCte)
                            (distinctClause distinctQuery)),
                all_some (List.map (sort_column distinctQuery graphCte)
                            (sortClause distinctQuery)) with
          | Some distinctColumns, Some sortColumns =>
              if hasDistinctOn distinctQuery && hasRecursive distinctQuery &&
                 cterecursive graphCte
              then
                Some (mkGraphTraversal
                        match ctequery graphCte with
                        | Some unionQuery =>
                            option_map cycle_col_list (searchCycleRewrite unionQuery)
                        | None => None
                        end
                        distinctColumns sortColumns field empty)
              else None
          | _, _ => None
          end
      | _, _ => None
      end
  | _, _ => None
  end.

(** The query of the correlated sub-select of the plan [HandleGraphLookup]
    returns, with the value that stands in for an absent result. *)
Definition graphLookup_subselect (plan : Query) : option (Query * pgbson) :=
  match cteList plan with
  | [_; stageCte] =>
      match ctequery stageCte with
      | Some stageQuery =>
          match targetList stageQuery with
          | [_; addFields] =>
              match expr addFields with
              | CoalesceExpr _ [SubLink EXPR_SUBLINK _ recursiveSelectQuery;
                                Const _ (DatumBson empty)] =>
                  Some (recursiveSelectQuery, empty)
              | _ => None
              end
          | _ => None
          end
      | None => None
      end
  | _ => None
  end.

(** The traversal every $graphLookup plan asks for. *)
Definition graphLookup_traversal_of (args : GraphLookupArgs) : GraphTraversal :=
  mkGraphTraversal (Some ["baseDocId"]) ["baseDocId"] ["baseDocId"; "depth"]
    (asField args) [(asField args, BsonArray [])].

(** ** PostgreSQL's evaluation of the traversal

    The executor is outside this repository.  What follows is the
    evaluation PostgreSQL documents for WITH RECURSIVE ... UNION ALL with a
    CYCLE clause, and for DISTINCT ON under ORDER BY, on the rows a
    $graphLookup produces. *)

(** A document of the [from] collection, by what the traversal reads of
    it: its _id, its values at connectToField and its values at
    connectFromField (one value, or the elements of an array). *)
Record Doc : Type := mkDoc {
  doc_id : Z;
  doc_connectTo : list Z;
  doc_connectFrom : list Z
}.

(** A row of the recursive CTE: the columns document and depth (baseDocId
    is the _id of the document), and the mark and path columns of the
    cycle clause. *)
Record Row : Type := mkRow {
  row_document : Doc;
  row_depth : Z;
  row_is_cycle : bool;
  row_path : list (list Z)
}.

Definition column_value (column : string) (document : Doc) (depth : Z) : Z :=
  if String.eqb column "depth" then depth
  else if String.eqb column "baseDocId" then doc_id document
  else if String.eqb column "document" then doc_id document
  else 0.

Definition row_values (columns : list string) (document : Doc) (depth : Z)
  : list Z :=
  List.map (fun column => column_value column document depth) columns.

(** [bson_dollar_in(document, values)] on the connectToField of
    [document]: one of its values is among [values]. *)
Definition in_match (values : list Z) (document : Doc) : bool :=
  List.existsb (fun v => List.existsb (Z.eqb v) values) (doc_connectTo document).


(** The rows of the non-recursive term: the documents the start values
    select, at depth 0, unmarked, on a path of their own. *)
Definition base_case (tr : GraphTraversal) (coll : list Doc) (startWith : list Z)
  : list Row :=
  List.map (fun d =>
              mkRow d 0 false
                match cycle_columns tr with
                | Some columns => [row_values columns d 0]
                | None => []
                end)
    (List.filter (in_match startWith) coll).

(** The rows the recursive term derives from one row of the working
    table: none from a marked row or from a row at the depth bound;
    otherwise one per document the row connects to, marked when its cycle
    columns occur on the path of the row. *)
Definition recursive_case (tr : GraphTraversal) (limit : option Z)
    (coll : list Doc) (prior : Row) : list Row :=
  if row_is_cycle prior then []
  else if match limit with
          | Some m => negb (row_depth prior <? m)
          | None => false
          end then []
  else
    List.map (fun d =>
                let depth := row_depth prior + 1 in
                match cycle_columns tr with
                | Some columns =>
                    let key := row_values columns d depth in
                    mkRow d depth (bool_decide (key ∈ row_path prior))
                      (row_path prior ++ [key])
                | None => mkRow d depth false []
                end)
      (List.filter (in_match (doc_connectFrom (row_document prior))) coll).


Fixpoint lex_leb (a b : list Z) : bool :=
  match a, b with
  | [], _ => true
  | _ :: _, [] => false
  | x :: a', y :: b' => (x <? y) || ((x =? y) && lex_leb a' b')
  end.

(** The order of ORDER BY [columns], ascending. *)
Definition sort_le (columns : list string) (r1 r2 : Row) : Prop :=
  lex_leb (row_values columns (row_document r1) (row_depth r1))
          (row_values columns (row_document r2) (row_depth r2)) = true.

#[global] Instance sort_le_dec (columns : list string) (r1 r2 : Row) :
  Decision (sort_le columns r1 r2).
Proof. unfold sort_le. apply _. Defined.




(** The [k]-th working table of the recursive union. *)
Definition level (tr : GraphTraversal) (limit : option Z) (coll : list Doc)
    (startWith : list Z) (k : nat) : list Row :=
  Nat.iter k (List.flat_map (recursive_case tr limit coll))
    (base_case tr coll startWith).



(** * Readings of arguments and plans, the run-time functions of $merge,
      and the names of collections *)

(** ** Predicates on $merge arguments *)

(** An [on] value the parser lets through: a string, or a non-empty array
    of strings. *)
Definition on_is_field_list (v : bson_value_t) : bool :=
  match v with
  | BsonUtf8 _ => true
  | BsonArray (first :: rest) =>
      List.forallb (fun el => bson_type_eqb (value_type el) BSON_TYPE_UTF8)
        (first :: rest)
  | _ => false
  end.

(** The keys [ParseMergeStage] goes on after. *)
Definition merge_known_key (key : string) : bool :=
  String.eqb key "into" || String.eqb key "on" || String.eqb key "whenMatched" ||
  String.eqb key "whenNotMatched".

(** The [whenMatched] values [ParseMergeStage] goes on after. *)
Definition merge_whenMatched_supported (v : bson_value_t) : bool :=
  match v with
  | BsonUtf8 s =>
      String.eqb s "replace" || String.eqb s "keepExisting" || String.eqb s "fail"
  | _ => false
  end.

(** What the field loop of [ParseMergeStage] keeps true of the arguments
    it has read so far ([isOn] is its flag [isOnSpecified]). *)
Definition merge_args_invariant (ns : string) (args : MergeArgs) (isOn : bool) : Prop :=
  (isOn = true -> on_is_field_list (on args) = true) /\
  (whenMatched args = WhenMatched_REPLACE \/
   whenMatched args = WhenMatched_KEEPEXISTING \/
   whenMatched args = WhenMatched_FAIL) /\
  (targetCollection args <> "" -> targetDB args = "" -> namespace_database ns = "").

(** An [on] value that names the field _id alone. *)
Definition on_is_id (v : bson_value_t) : bool :=
  match v with
  | BsonUtf8 s => String.eqb s "_id"
  | BsonArray [BsonUtf8 s] => String.eqb s "_id"
  | _ => false
  end.

(** The single field an [on] value names, if it names one. *)
Definition on_single_field (v : bson_value_t) : option string :=
  match v with
  | BsonUtf8 s => Some s
  | BsonArray [BsonUtf8 s] => Some s
  | _ => None
  end.

(** The fields an [on] value names, in its order. *)
Definition on_field_names (v : bson_value_t) : list string :=
  match v with
  | BsonUtf8 s => [s]
  | BsonArray items => List.map utf8_str items
  | _ => []
  end.

(** An index [VaildateMergeOnFieldValues] looks at for the collection
    [collId]: unique, and without a partial filter expression. *)
Definition usable_unique_index (collId : Z) (ix : IndexDetails) : Prop :=
  index_collectionId ix = collId /\
  indexUnique (indexSpec ix) = BoolIndexOption_True /\
  indexPFEDocument (indexSpec ix) = None.

(** The keys of an index, in order. *)
Definition index_keys (ix : IndexDetails) : list string :=
  List.map fst (indexKeyDocument (indexSpec ix)).

(** The column [RearrangeTargetListForMerge] adds to the source query: the
    collection id of the target under the name target_shard_key_value. *)
Definition target_shard_key_entry (targetColl : MongoCollection) (attrNo : Z)
  : TargetEntry :=
  makeTargetEntry (Const INT8OID (DatumInt64 (collectionId targetColl))) attrNo
    (Some "target_shard_key_value") false.

(** A junk column moved one place to the right, its name dropped. *)
Definition shifted_junk_entry (entry : TargetEntry) : TargetEntry :=
  set_resname None (set_resno (resno entry + 1) entry).

(** The column numbers 1, 2, ..., [n]. *)
Definition column_numbers (n : nat) : list Z := List.map Z.of_nat (seq 1 n).

(** ** The functions a MERGE plan calls per row
    (bson_aggregation_output_pipeline.c) *)

(** The error codes these functions raise: those of the compiler, three
    more, and whatever a check outside the file raises. *)
Inductive RuntimeErrorCode : Type :=
| CompilerCode (code : ErrorCode)
| MongoNotSingleValueField
| MongoDuplicateKey
| MongoBsonObjectTooLarge
| RaisedBy (callee : string).

Inductive Run (A : Type) : Type :=
| Done (a : A)
| Raised (code : RuntimeErrorCode) (fmt : string).
Arguments Done {A} a.
Arguments Raised {A} code fmt.

(** The document checks the file calls but does not define: whether
    [ValidateIdField] and [PgbsonValidateInputBson] return, the size
    [PgbsonGetBsonSize] reports, and the bound [BSON_MAX_ALLOWED_SIZE]. *)
Class DocumentChecks : Type := {
  ValidateIdField : bson_value_t -> bool;
  PgbsonValidateInputBson : option pgbson -> bool;
  PgbsonGetBsonSize : pgbson -> Z;
  BSON_MAX_ALLOWED_SIZE : Z
}.

(** [PgbsonInitIteratorAtPath(document, "_id", &iterator)] followed by
    [bson_iter_value]: the value of the first field named _id. *)
Definition PgbsonInitIteratorAtPath_id (document : pgbson) : option bson_value_t :=
  option_map snd (List.find (fun field => String.eqb (fst field) "_id") document).

Section MergeRuntime.
Context `{DocumentChecks}.

(** [ValidateFinalPgbsonBeforeWriting]. *)
Definition ValidateFinalPgbsonBeforeWriting (finalBson : option pgbson) : Run unit :=
  if negb (PgbsonValidateInputBson finalBson) then
    Raised (RaisedBy "PgbsonValidateInputBson") ""
  else
    match finalBson with
    | Some document =>
        let size := PgbsonGetBsonSize document in
        if BSON_MAX_ALLOWED_SIZE <? size then
          Raised MongoBsonObjectTooLarge "Size %u is larger than MaxDocumentSize %u"
        else Done tt
    | None => Done tt
    end.

(** The [WhenMatched_REPLACE] case of
    [command_bson_dollar_merge_handle_when_matched]: the _id of the target
    document, then the fields of the source document other than _id. *)
Definition merge_replace (sourceDocument targetDocument : pgbson) : Run pgbson :=
  let found := PgbsonInitIteratorAtPath_id targetDocument in
  let idFromTargetDocument :=
    match found with
    | Some v => v
    | None => BsonEod
    end in
  let writer :=
    (("_id", idFromTargetDocument) ::
     List.filter (fun field => negb (String.eqb (fst field) "_id")) sourceDocument) in
  match found with
  | Some (BsonArray _) =>
      Raised MongoNotSingleValueField
        "After applying the update to the document, the (immutable) field '_id' was found to be an array or array descendant."
  | Some v =>
      if negb (ValidateIdField v) then Raised (RaisedBy "ValidateIdField") ""
      else Done writer
  | None => Done writer
  end.

(** [command_bson_dollar_merge_handle_when_matched(source, target,
    action)]. *)
Definition command_bson_dollar_merge_handle_when_matched
    (sourceDocument targetDocument : pgbson) (action : Z) : Run pgbson :=
  let unsupported :=
    Raised (CompilerCode MongoCommandNotSupported)
      "merge, pipeline and Let option not supported yet in whenMatched field of $merge aggreagtion stage" in
  if action =? WhenMatchedAction_value WhenMatched_REPLACE then
    match merge_replace sourceDocument targetDocument with
    | Done finalDocument =>
        match ValidateFinalPgbsonBeforeWriting (Some finalDocument) with
        | Done _ => Done finalDocument
        | Raised code fmt => Raised code fmt
        end
    | Raised code fmt => Raised code fmt
    end
  else if action =? WhenMatchedAction_value WhenMatched_KEEPEXISTING then
    Raised (CompilerCode MongoInternalError)
      "whenMathed KeepEXISTING should not reach here"
  else if action =? WhenMatchedAction_value WhenMatched_FAIL then
    Raised MongoDuplicateKey
      "$merge with whenMatched: fail found an existing document with the same values for the 'on' fields"
  else if (action =? WhenMatchedAction_value WhenMatched_PIPELINE) ||
          (action =? WhenMatchedAction_value WhenMatched_LET) ||
          (action =? WhenMatchedAction_value WhenMatched_MERGE) then unsupported
  else
    Raised (CompilerCode MongoInternalError) "Unrecognized WhenMatched value".

End MergeRuntime.

(** The action code a matched action hands to the function it calls, if it
    calls one. *)
Definition matched_action_code (action : MergeAction) : option Z :=
  match ma_targetList action with
  | [entry] =>
      match expr entry with
      | FuncExpr BsonDollarMergeHandleWhenMatchedFunctionOid _
          [_; _; Const _ (DatumInt32 code)] _ => Some code
      | _ => None
      end
  | _ => None
  end.

(** Document checks that let everything through and count fields for the
    size, with the 16 MB bound of the server. *)
Definition lenient_checks : DocumentChecks :=
  {| ValidateIdField := fun _ => true;
     PgbsonValidateInputBson := fun _ => true;
     PgbsonGetBsonSize := fun document => Z.of_nat (List.length document);
     BSON_MAX_ALLOWED_SIZE := 16 * 1024 * 1024 |}.

(** ** Predicates on $graphLookup and $lookup arguments *)

(** The keys [ParseGraphLookupStage] goes on after. *)
Definition graphLookup_known_key (key : string) : bool :=
  String.eqb key "as" || String.eqb key "startWith" ||
  String.eqb key "connectFromField" || String.eqb key "connectToField" ||
  String.eqb key "from" || String.eqb key "maxDepth" ||
  String.eqb key "depthField" || String.eqb key "restrictSearchWithMatch".

(** The keys a $graphLookup cannot do without. *)
Definition graphLookup_required_keys : list string :=
  ["as"; "from"; "startWith"; "connectFromField"; "connectToField"].

(** What the field loop of [ParseGraphLookupStage] keeps true of the
    arguments it has read so far. *)
Definition graphLookup_args_invariant (args : GraphLookupArgs) (fromSpecified : bool)
  : Prop :=
  starts_with_dollar (asField args) = false /\
  starts_with_dollar (connectFromField args) = false /\
  starts_with_dollar (connectToField args) = false /\
  starts_with_dollar (depthField args) = false /\
  0 <= maxDepth args /\
  (restrictSearch args = BsonEod \/ exists d, restrictSearch args = BsonDocument d) /\
  (fromSpecified = false -> fromCollection args = "").

(** The arguments the keys of [keys] do not touch are the same in [args]
    and [args']. *)
Definition graphLookup_args_frame (keys : list string)
    (args : GraphLookupArgs) (fromSpecified : bool)
    (args' : GraphLookupArgs) (fromSpecified' : bool) : Prop :=
  (~ List.In "as" keys -> asField args' = asField args) /\
  (~ List.In "startWith" keys -> inputExpression args' = inputExpression args) /\
  (~ List.In "connectFromField" keys -> connectFromField args' = connectFromField args) /\
  (~ List.In "connectToField" keys -> connectToField args' = connectToField args) /\
  (~ List.In "from" keys ->
   fromCollection args' = fromCollection args /\ fromSpecified' = fromSpecified) /\
  (~ List.In "maxDepth" keys -> maxDepth args' = maxDepth args) /\
  (~ List.In "depthField" keys -> depthField args' = depthField args) /\
  (~ List.In "restrictSearchWithMatch" keys -> restrictSearch args' = restrictSearch args) /\
  connectFromFieldExpression args' = connectFromFieldExpression args.

(** The keys [ParseLookupStage] goes on after. *)
Definition lookup_known_key (key : string) : bool :=
  String.eqb key "as" || String.eqb key "foreignField" || String.eqb key "from" ||
  String.eqb key "localField" || String.eqb key "pipeline".

(** A [pipeline] argument the $lookup parser lets through: none, or an
    array of single-field stage documents without $out and $merge. *)
Definition lookup_pipeline_accepted (pipelineValue : bson_value_t) : bool :=
  match pipelineValue with
  | BsonEod => true
  | BsonArray stages =>
      List.forallb single_field_stage stages && negb (has_stage lookup_forbidden stages)
  | _ => false
  end.

(** The stage names [ValidateUnionWithPipeline] refuses. *)
Definition unionWith_forbidden (stageName : string) : bool :=
  String.eqb stageName "$out" || String.eqb stageName "$merge".

(** ** Reading a set-operation tree *)

(** The range-table indexes at the leaves of a tree, left to right. *)
Fixpoint setop_leaves (node : SetOpNode) : list Z :=
  match node with
  | SetOpRangeTblRef rtindex => [rtindex]
  | SetOperationStmt _ _ larg rarg _ _ _ =>
      (match larg with Some l => setop_leaves l | None => [] end ++
       match rarg with Some r => setop_leaves r | None => [] end)%list
  end.

(** Every statement of the tree is a UNION ALL of two present arguments
    over one bson column. *)
Fixpoint setop_union_all (node : SetOpNode) : bool :=
  match node with
  | SetOpRangeTblRef _ => true
  | SetOperationStmt op all larg rarg colTypes colTypmods colCollations =>
      match op, larg, rarg, colTypes with
      | SETOP_UNION, Some l, Some r, [BsonTypeId] =>
          all && setop_union_all l && setop_union_all r
      | _, _, _, _ => false
      end
  end.

(** The references to the range-table entries [first + 1 .. first + count]. *)
Definition range_table_refs (first : nat) (count : nat) : list SetOpNode :=
  List.map (fun i => SetOpRangeTblRef (Z.of_nat i)) (List.seq (S first) count).

(** ** Names of databases and collections (metadata/collection.c) *)

(** [StringViewContains] and [StringViewStartsWith] (utils/string_view.h):
    does the character occur in the view, is it the first one. *)
Definition StringViewContains (source : string) (character : ascii) : bool :=
  List.existsb (Ascii.eqb character) (list_ascii_of_string source).

Definition StringViewStartsWith (source : string) (character : ascii) : bool :=
  match source with
  | String first _ => Ascii.eqb first character
  | EmptyString => false
  end.

(** [CreateStringFromStringView]: the C string of a view ends at the first
    NUL of the view, if it has one. *)
Definition CreateStringFromStringView (view : string) : string :=
  match string_before "000"%char view with
  | Some before => before
  | None => view
  end.

Definition CharactersNotAllowedInDatabaseNames : list ascii :=
  ["/"%char; "\"%char; "."%char; " "%char; Ascii.ascii_of_nat 34; "$"%char;
   "000"%char].

Definition CharactersNotAllowedInCollectionNames : list ascii :=
  ["$"%char; "000"%char].

Definition ValidSystemCollectionNames : list string :=
  ["system.users"; "system.js"; "system.views"; "system.profile"].

Definition NonWritableSystemCollectionNames : list string :=
  ["system.users"; "system.js"; "system.views"; "system.profile"].

Definition MaxDatabaseCollectionLength : nat := 235.

Definition SystemPrefix : string := "system.".

(** [ValidateCollectionNameForUnauthorizedSystemNs]: the loop over the
    names that cannot be written to. *)
Fixpoint ValidateCollectionNameForUnauthorizedSystemNs_loop (names : list string)
    (collectionName databaseName : string) : Res unit :=
  match names with
  | [] => Ok tt
  | name :: rest =>
      if String.eqb collectionName name then
        Err MongoInvalidNamespace "cannot write to %.*s.%s"
          [ArgStr databaseName; ArgStr name]
      else
        ValidateCollectionNameForUnauthorizedSystemNs_loop rest collectionName
          databaseName
  end.

Definition ValidateCollectionNameForUnauthorizedSystemNs
    (collectionName databaseName : string) : Res unit :=
  ValidateCollectionNameForUnauthorizedSystemNs_loop NonWritableSystemCollectionNames
    collectionName databaseName.

(** The loop of [ValidateCollectionNameForValidSystemNamespace]; it
    returns [found]. *)
Fixpoint ValidateCollectionNameForValidSystemNamespace_loop (names : list string)
    (collectionView databaseName : string) : Res bool :=
  match names with
  | [] => Ok false
  | name :: rest =>
      let collectionName := CreateStringFromStringView collectionView in
      if String.eqb collectionName name then
        (check ValidateCollectionNameForUnauthorizedSystemNs collectionName
                 databaseName ;;
         Ok true)%R
      else
        ValidateCollectionNameForValidSystemNamespace_loop rest collectionView
          databaseName
  end.

(** [ValidateCollectionNameForValidSystemNamespace]. *)
Definition ValidateCollectionNameForValidSystemNamespace
    (collectionView databaseName : string) : Res unit :=
  if StringViewStartsWithStringView collectionView SystemPrefix then
    (found <- ValidateCollectionNameForValidSystemNamespace_loop
                ValidSystemCollectionNames collectionView databaseName ;;
     if negb found then
       Err MongoInvalidNamespace "Invalid system namespace: %.*s.%.*s"
         [ArgStr databaseName; ArgStr collectionView]
     else Ok tt)%R
  else Ok tt.

(** The two loops of [ValidateDatabaseCollection] over the characters a
    name may not hold. *)
Fixpoint ValidateDatabaseCollection_database_characters (characters : list ascii)
    (databaseView : string) : Res unit :=
  match characters with
  | [] => Ok tt
  | character :: rest =>
      if StringViewContains databaseView character then
        Err MongoInvalidNamespace "Database %.*s has an invalid character %c"
          [ArgStr databaseView; ArgStr (String character EmptyString)]
      else ValidateDatabaseCollection_database_characters rest databaseView
  end.

Fixpoint ValidateDatabaseCollection_collection_characters (characters : list ascii)
    (collectionView : string) : Res unit :=
  match characters with
  | [] => Ok tt
  | character :: rest =>
      if StringViewContains collectionView character then
        Err MongoInvalidNamespace "Invalid collection name: %.*s"
          [ArgStr collectionView]
      else ValidateDatabaseCollection_collection_characters rest collectionView
  end.

Section DatabaseNames.

(** [MAX_DATABASE_NAME_LENGTH]: its header is not among the sources (the
    message of the check says 64). *)
Variable MAX_DATABASE_NAME_LENGTH : nat.

(** [ValidateDatabaseCollection]. *)
Definition ValidateDatabaseCollection (databaseView collectionView : string)
  : Res unit :=
  if Nat.leb MAX_DATABASE_NAME_LENGTH (String.length databaseView) then
    Err MongoInvalidNamespace "Database %.*s must be less than 64 characters"
      [ArgStr databaseView]
  else
    (check ValidateDatabaseCollection_database_characters
             CharactersNotAllowedInDatabaseNames databaseView ;;
     if Nat.eqb (String.length collectionView) 0 then
       Err MongoInvalidNamespace "Invalid namespace specified '%.*s.'"
         [ArgStr databaseView]
     else if StringViewStartsWith collectionView "."%char then
       Err MongoInvalidNamespace "Collection names cannot start with '.': %.*s"
         [ArgStr collectionView]
     else
       (check ValidateDatabaseCollection_collection_characters
                CharactersNotAllowedInCollectionNames collectionView ;;
        if Nat.ltb MaxDatabaseCollectionLength
             (String.length databaseView + String.length collectionView + 1)
        then
          Err MongoInvalidNamespace "Full namespace must not exceed %u bytes."
            [ArgInt (Z.of_nat MaxDatabaseCollectionLength)]
        else
          ValidateCollectionNameForValidSystemNamespace collectionView databaseView))%R.

End DatabaseNames.

(** * Verified properties *)

(** ** Monad and accessor lemmas *)

Lemma bindM_ok_inv {A B : Type} (m : M A) (k : A -> M B) (w w' : World) (b : B) :
  bindM m k w = (Ok b, w') ->
  exists a w1, m w = (Ok a, w1) /\ k a w1 = (Ok b, w').
Proof.
  unfold bindM. destruct (m w) as [[a | c f args] w1]; intros Hk.
  - exists a, w1. split; [reflexivity | exact Hk].
  - discriminate Hk.
Qed.

Lemma bindM_err {A B : Type} (m : M A) (k : A -> M B) (w w' : World) c f args :
  m w = (Err c f args, w') -> bindM m k w = (Err c f args, w').
Proof. unfold bindM. intros ->. reflexivity. Qed.

Lemma bindM_ok {A B : Type} (m : M A) (k : A -> M B) (w w' : World) (a : A) :
  m w = (Ok a, w') -> bindM m k w = k a w'.
Proof. unfold bindM. intros ->. reflexivity. Qed.

Lemma bindR_ok_inv {A B : Type} (m : Res A) (k : A -> Res B) (b : B) :
  bindR m k = Ok b -> exists a, m = Ok a /\ k a = Ok b.
Proof.
  destruct m as [a | c f args]; simpl; intros Hk.
  - exists a. split; [reflexivity | exact Hk].
  - discriminate Hk.
Qed.

Lemma is_ok_bindR_false {A B : Type} (m : Res A) (k : A -> Res B) :
  is_ok m = false -> is_ok (bindR m k) = false.
Proof. destruct m; simpl; [discriminate | reflexivity]. Qed.

Lemma is_ok_false_err {A : Type} (r : Res A) :
  is_ok r = false -> exists c f args, r = Err c f args.
Proof. destruct r as [a | c f args]; [discriminate | eauto]. Qed.

Lemma targetList_set_targetList tl q : targetList (set_targetList tl q) = tl.
Proof. destruct q; reflexivity. Qed.



Lemma targetList_set_jointree v q : targetList (set_jointree v q) = targetList q.
Proof. destruct q; reflexivity. Qed.

Lemma targetList_set_rtable v q : targetList (set_rtable v q) = targetList q.
Proof. destruct q; reflexivity. Qed.


(** ** $facet validation *)

Lemma facet_forbidden_names name :
  facet_forbidden name = true <->
  List.In name ["$facet"; "$out"; "$merge"; "$geoNear"; "$indexStats";
                "$collStats"; "$planCacheStats"; "$search"].
Proof.
  unfold facet_forbidden. rewrite !orb_true_iff, !String.eqb_eq. simpl.
  intuition (subst; auto).
Qed.

Lemma ValidateFacet_pipeline_rejects key stages :
  has_stage facet_forbidden stages = true ->
  is_ok (ValidateFacet_pipeline key stages) = false.
Proof.
  induction stages as [| stage rest IH]; simpl; [discriminate |].
  intros Hex. unfold GetPipelineStage.
  destruct stage as [| s | fields | items | b | | z | z]; simpl in *; try reflexivity.
  destruct fields as [| [name arg] [| f2 more]]; simpl in *; try reflexivity.
  destruct (facet_forbidden name); simpl in *; [reflexivity | auto].
Qed.

Lemma ValidateFacet_pipeline_code key stages :
  List.forallb single_field_stage stages = true ->
  has_stage facet_forbidden stages = true ->
  exists name,
    facet_forbidden name = true /\
    ValidateFacet_pipeline key stages =
    Err StageNotAllowedInFacet "%s is not allowed to be used within a $facet stage"
      [ArgStr name].
Proof.
  induction stages as [| stage rest IH]; simpl; [discriminate |].
  intros Hwf Hex. apply andb_true_iff in Hwf as [Hst Hrest].
  destruct stage as [| s | fields | items | b | | z | z]; try discriminate Hst.
  destruct fields as [| [name arg] [| f2 more]]; try discriminate Hst.
  simpl in *. destruct (facet_forbidden name) eqn:Hf.
  - exists name. split; [exact Hf | reflexivity].
  - simpl in Hex. apply IH; assumption.
Qed.

Lemma ValidateFacet_pipeline_ok key stages :
  List.forallb single_field_stage stages = true ->
  has_stage facet_forbidden stages = false ->
  ValidateFacet_pipeline key stages = Ok tt.
Proof.
  induction stages as [| stage rest IH]; simpl; [reflexivity |].
  intros Hwf Hex. apply andb_true_iff in Hwf as [Hst Hrest].
  destruct stage as [| s | fields | items | b | | z | z]; try discriminate Hst.
  destruct fields as [| [name arg] [| f2 more]]; try discriminate Hst.
  simpl in *. apply orb_false_iff in Hex as [Hf Hex]. rewrite Hf. auto.
Qed.

Lemma ValidateFacet_branches_rejects fields n :
  facet_has_forbidden_stage fields = true ->
  is_ok (ValidateFacet_branches fields n) = false.
Proof.
  revert n. induction fields as [| [key pipelineValue] rest IH]; simpl;
    [discriminate |].
  intros n Hex. unfold EnsureTopLevelFieldValueType.
  destruct pipelineValue as [| s | fs | items | b | | z | z]; simpl in *;
    try reflexivity.
  apply orb_true_iff in Hex as [Hex | Hex].
  - pose proof (ValidateFacet_pipeline_rejects key items Hex) as Hr.
    destruct (ValidateFacet_pipeline key items); simpl in *;
      [discriminate Hr | reflexivity].
  - destruct (ValidateFacet_pipeline key items); simpl; [apply IH, Hex | reflexivity].
Qed.

Lemma ValidateFacet_branches_not_array fields n :
  List.existsb (fun field => negb (bson_type_eqb (value_type (snd field)) BSON_TYPE_ARRAY))
    fields = true ->
  is_ok (ValidateFacet_branches fields n) = false.
Proof.
  revert n. induction fields as [| [key pipelineValue] rest IH]; simpl;
    [discriminate |].
  intros n Hex. unfold EnsureTopLevelFieldValueType.
  destruct (bson_type_eqb (value_type pipelineValue) BSON_TYPE_ARRAY); simpl in *;
    [| reflexivity].
  destruct (ValidateFacet_pipeline key (bson_iter_values pipelineValue)); simpl;
    [apply IH, Hex | reflexivity].
Qed.

Lemma ValidateFacet_branches_code fields n :
  facet_well_formed fields = true ->
  facet_has_forbidden_stage fields = true ->
  exists name,
    facet_forbidden name = true /\
    ValidateFacet_branches fields n =
    Err StageNotAllowedInFacet "%s is not allowed to be used within a $facet stage"
      [ArgStr name].
Proof.
  revert n. induction fields as [| [key pipelineValue] rest IH]; simpl;
    [discriminate |].
  intros n Hwf Hex. apply andb_true_iff in Hwf as [Hbranch Hrest].
  destruct pipelineValue as [| s | fs | items | b | | z | z]; try discriminate Hbranch.
  simpl in *. destruct (has_stage facet_forbidden items) eqn:Hhere.
  - destruct (ValidateFacet_pipeline_code key items Hbranch Hhere) as (name & Hf & ->).
    exists name. split; [exact Hf | reflexivity].
  - rewrite (ValidateFacet_pipeline_ok key items Hbranch Hhere). simpl.
    apply IH; assumption.
Qed.

(** [HandleFacet] stops at a validation error: only the feature counter and
    the wrap of a multi-column input precede [ValidateFacet]. *)
Lemma HandleFacet_invalid `{Collaborators} v q ctx w :
  is_ok (ValidateFacet v) = false ->
  is_ok (fst (HandleFacet v q ctx w)) = false /\
  calls (snd (HandleFacet v q ctx w)) = calls w.
Proof.
  intros Hinv. unfold HandleFacet, bindM at 1. simpl.
  destruct (0 <? nestedPipelineLevel ctx); [split; reflexivity |].
  unfold bindM at 1.
  destruct (has_multiple_projectors q).
  - unfold MigrateQueryToSubQuery. destruct (targetList q) as [| tle rest];
      [split; reflexivity |].
    simpl. unfold bindM at 1, liftR.
    destruct (ValidateFacet v); [discriminate Hinv | split; reflexivity].
  - simpl. unfold bindM at 1, liftR.
    destruct (ValidateFacet v); [discriminate Hinv | split; reflexivity].
Qed.

(** C7. $facet validation: a specification that is not a document, or is an
    empty document, is rejected; a branch that is not an array is rejected;
    a branch holding $facet, $out, $merge, $geoNear, $indexStats,
    $collStats, $planCacheStats or $search is always rejected, with
    StageNotAllowedInFacet (location 40600) when the branches are arrays of
    stage documents; and [HandleFacet] reports the rejection before any
    branch is compiled (no call leaves the compiler). *)
Theorem facet_validation `{Collaborators} :
  (forall v, value_type v <> BSON_TYPE_DOCUMENT ->
     ValidateFacet v =
     Err MongoLocation15947 "a facet's fields must be specified in an object" []) /\
  ValidateFacet (BsonDocument []) =
    Err MongoLocation40169 "the $facet specification must be a non-empty object" [] /\
  (forall fields key branch,
     List.In (key, branch) fields -> value_type branch <> BSON_TYPE_ARRAY ->
     is_ok (ValidateFacet (BsonDocument fields)) = false) /\
  (forall name, facet_forbidden name = true <->
     List.In name ["$facet"; "$out"; "$merge"; "$geoNear"; "$indexStats";
                   "$collStats"; "$planCacheStats"; "$search"]) /\
  (forall fields,
     facet_has_forbidden_stage fields = true ->
     is_ok (ValidateFacet (BsonDocument fields)) = false /\
     (facet_well_formed fields = true ->
      exists name,
        facet_forbidden name = true /\
        ValidateFacet (BsonDocument fields) =
        Err StageNotAllowedInFacet
          "%s is not allowed to be used within a $facet stage" [ArgStr name])) /\
  (forall v q ctx w,
     is_ok (ValidateFacet v) = false ->
     is_ok (fst (HandleFacet v q ctx w)) = false /\
     calls (snd (HandleFacet v q ctx w)) = calls w).
Proof.
  repeat split.
  - intros v Hty. destruct v; simpl in *; try reflexivity. contradiction.
  - intros fields key branch Hin Hty. simpl.
    apply is_ok_bindR_false, ValidateFacet_branches_not_array.
    apply existsb_exists. exists (key, branch). split; [exact Hin |].
    simpl. destruct branch; simpl in *; try reflexivity. contradiction.
  - apply facet_forbidden_names.
  - apply facet_forbidden_names.
  - simpl. apply is_ok_bindR_false, ValidateFacet_branches_rejects. assumption.
  - intros Hwf. simpl.
    destruct (ValidateFacet_branches_code fields 0 Hwf H0) as (name & Hf & ->).
    exists name. split; [exact Hf | reflexivity].
  - apply HandleFacet_invalid. assumption.
  - apply HandleFacet_invalid. assumption.
Qed.

(** A $facet whose second branch holds $out, after a single-column scan. *)
Lemma facet_validation_witness :
  let v := BsonDocument [("a", BsonArray [BsonDocument [("$match", BsonDocument [])]]);
                         ("b", BsonArray [BsonDocument [("$out", BsonUtf8 "x")]])] in
  err_code (ValidateFacet v) = Some StageNotAllowedInFacet /\
  is_ok (fst (@HandleFacet (RefCollaborators 3) v (base_table_query demo_orders)
                Context_zero demo_world)) = false /\
  calls (snd (@HandleFacet (RefCollaborators 3) v (base_table_query demo_orders)
                Context_zero demo_world)) = [].
Proof.
  pose proof (@facet_validation (RefCollaborators 3)) as (_ & _ & _ & _ & Hforb & Hhandle).
  split; [vm_compute; reflexivity |].
  apply (Hhandle _ (base_table_query demo_orders) Context_zero demo_world).
  apply (Hforb [("a", BsonArray [BsonDocument [("$match", BsonDocument [])]]);
                ("b", BsonArray [BsonDocument [("$out", BsonUtf8 "x")]])]).
  vm_compute. reflexivity.
Defined.

(** ** $lookup parsing *)

Lemma ParseLookupStage_pipeline_rejects stages :
  has_stage lookup_forbidden stages = true ->
  is_ok (ParseLookupStage_pipeline stages) = false.
Proof.
  induction stages as [| stage rest IH]; simpl; [discriminate |].
  intros Hex. unfold GetPipelineStage.
  destruct stage as [| s | fields | items | b | | z | z]; simpl in *; try reflexivity.
  destruct fields as [| [name arg] [| f2 more]]; simpl in *; try reflexivity.
  fold (lookup_forbidden name).
  destruct (lookup_forbidden name); simpl in *; [reflexivity | auto].
Qed.

Lemma ParseLookupStage_pipeline_code stages :
  List.forallb single_field_stage stages = true ->
  has_stage lookup_forbidden stages = true ->
  exists name,
    lookup_forbidden name = true /\
    ParseLookupStage_pipeline stages =
    Err MongoLocation51047 "%s is not allowed to be used within a $lookup stage"
      [ArgStr name].
Proof.
  induction stages as [| stage rest IH]; simpl; [discriminate |].
  intros Hwf Hex. apply andb_true_iff in Hwf as [Hst Hrest].
  destruct stage as [| s | fields | items | b | | z | z]; try discriminate Hst.
  destruct fields as [| [name arg] [| f2 more]]; try discriminate Hst.
  simpl in *. fold (lookup_forbidden name). destruct (lookup_forbidden name) eqn:Hf.
  - exists name. split; [exact Hf | reflexivity].
  - simpl in Hex. apply IH; assumption.
Qed.

(** Case analysis on one iteration of the field loop of [ParseLookupStage]. *)
Ltac lookup_field_cases :=
  repeat match goal with
         | |- context [String.eqb ?k ?s] => destruct (String.eqb k s) eqn:?
         end.

Lemma ParseLookupStage_fields_rejects fields args value :
  List.In ("pipeline", value) fields ->
  has_stage lookup_forbidden (bson_iter_values value) = true ->
  is_ok (ParseLookupStage_fields fields args) = false.
Proof.
  revert args. induction fields as [| [key v] rest IH]; intros args Hin Hex;
    [destruct Hin |].
  destruct Hin as [Heq | Hin].
  - inversion Heq; subst. simpl. unfold EnsureTopLevelFieldValueType.
    destruct (bson_type_eqb (value_type value) BSON_TYPE_ARRAY); [| reflexivity].
    simpl. pose proof (ParseLookupStage_pipeline_rejects _ Hex) as Hr.
    destruct (ParseLookupStage_pipeline (bson_iter_values value));
      [discriminate Hr | reflexivity].
  - simpl. lookup_field_cases; try reflexivity;
      try (destruct v; simpl; solve [reflexivity | eapply IH; eauto]).
    unfold EnsureTopLevelFieldValueType.
    destruct (bson_type_eqb (value_type v) BSON_TYPE_ARRAY); [| reflexivity].
    simpl. destruct (ParseLookupStage_pipeline (bson_iter_values v)); simpl;
      [eapply IH; eauto | reflexivity].
Qed.

Lemma ParseLookupStage_fields_app pre post args :
  ParseLookupStage_fields (pre ++ post) args =
  bindR (ParseLookupStage_fields pre args) (ParseLookupStage_fields post).
Proof.
  revert args. induction pre as [| [key v] rest IH]; intros args; [reflexivity |].
  simpl. lookup_field_cases; try reflexivity;
    try (destruct v; simpl; solve [reflexivity | apply IH]).
  destruct (EnsureTopLevelFieldValueType "$lookup.pipeline" v BSON_TYPE_ARRAY);
    [| reflexivity].
  simpl. destruct (ParseLookupStage_pipeline (bson_iter_values v)); simpl;
    [apply IH | reflexivity].
Qed.

(** [HandleLookup] stops at a parse error: only the feature counter
    precedes the depth guard and [ParseLookupStage]. *)
Lemma HandleLookup_invalid `{Collaborators} v q ctx w :
  is_ok (ParseLookupStage v) = false ->
  is_ok (fst (HandleLookup v q ctx w)) = false /\
  snd (HandleLookup v q ctx w) = counted FEATURE_STAGE_LOOKUP w.
Proof.
  intros Hinv. unfold HandleLookup, bindM at 1. simpl.
  destruct (MaximumLookupPipelineDepth <? nestedPipelineLevel ctx);
    [split; reflexivity |].
  unfold bindM at 1, liftR.
  destruct (ParseLookupStage v); [discriminate Hinv | split; reflexivity].
Qed.

(** C9. A $lookup whose [pipeline] argument holds a $out or $merge stage is
    always rejected by [ParseLookupStage]; the error is location 51047
    ("not allowed to be used within a $lookup stage") when the stages are
    stage documents and the fields before [pipeline] parse; and
    [HandleLookup] then fails with the world unchanged but for the feature
    counter, so no plan construction has taken place. *)
Theorem lookup_rejects_output_stages `{Collaborators} :
  (forall fields value,
     List.In ("pipeline", value) fields ->
     has_stage lookup_forbidden (bson_iter_values value) = true ->
     is_ok (ParseLookupStage (BsonDocument fields)) = false) /\
  (forall pre post stages args,
     ParseLookupStage_fields pre LookupArgs_zero = Ok args ->
     List.forallb single_field_stage stages = true ->
     has_stage lookup_forbidden stages = true ->
     exists name,
       (name = "$out" \/ name = "$merge") /\
       ParseLookupStage (BsonDocument (pre ++ ("pipeline", BsonArray stages) :: post)) =
       Err MongoLocation51047 "%s is not allowed to be used within a $lookup stage"
         [ArgStr name]) /\
  (forall v q ctx w,
     is_ok (ParseLookupStage v) = false ->
     is_ok (fst (HandleLookup v q ctx w)) = false /\
     snd (HandleLookup v q ctx w) = counted FEATURE_STAGE_LOOKUP w).
Proof.
  split; [| split].
  - intros fields value Hin Hex. simpl.
    apply is_ok_bindR_false. eapply ParseLookupStage_fields_rejects; eauto.
  - intros pre post stages args Hpre Hwf Hex.
    destruct (ParseLookupStage_pipeline_code stages Hwf Hex) as (name & Hf & Hcode).
    exists name. split.
    + unfold lookup_forbidden in Hf. apply orb_true_iff in Hf.
      rewrite !String.eqb_eq in Hf. exact Hf.
    + simpl. rewrite ParseLookupStage_fields_app, Hpre. simpl.
      rewrite Hcode. reflexivity.
  - intros v q ctx w. apply HandleLookup_invalid.
Qed.

(** A $lookup whose pipeline ends in $merge, compiled over a scan. *)
Lemma lookup_rejects_output_stages_witness :
  let stages := [BsonDocument [("$match", BsonDocument [])];
                 BsonDocument [("$merge", BsonUtf8 "other")]] in
  let pre := [("from", BsonUtf8 "items"); ("as", BsonUtf8 "found")] in
  let v := BsonDocument (pre ++ [("pipeline", BsonArray stages)]) in
  (exists name,
     (name = "$out" \/ name = "$merge") /\
     ParseLookupStage v =
     Err MongoLocation51047 "%s is not allowed to be used within a $lookup stage"
       [ArgStr name]) /\
  is_ok (fst (@HandleLookup (RefCollaborators 3) v (base_table_query demo_orders)
                Context_zero demo_world)) = false /\
  snd (@HandleLookup (RefCollaborators 3) v (base_table_query demo_orders)
         Context_zero demo_world) = counted FEATURE_STAGE_LOOKUP demo_world.
Proof.
  pose proof (@lookup_rejects_output_stages (RefCollaborators 3))
    as (Hany & Hcode & Hhandle).
  split.
  - apply (Hcode [("from", BsonUtf8 "items"); ("as", BsonUtf8 "found")] []
             [BsonDocument [("$match", BsonDocument [])];
              BsonDocument [("$merge", BsonUtf8 "other")]]
             (mkLookupArgs "items" "found" "" "" BsonEod false));
      vm_compute; reflexivity.
  - apply Hhandle.
    apply (Hany _ (BsonArray [BsonDocument [("$match", BsonDocument [])];
                              BsonDocument [("$merge", BsonUtf8 "other")]]));
      [simpl; auto | vm_compute; reflexivity].
Defined.

(** ** $documents *)

(** C8. The $documents stage is accepted only as the very first stage
    (stage number 0 and an empty range table), otherwise compilation fails
    with BadValue; and its argument, evaluated as an expression, must yield
    an array, otherwise compilation fails (location 5858203, or the
    evaluator's own error).  When it is accepted the plan has the single
    column of the unwound array. *)
Theorem documents_stage_requirements `{Collaborators} :
  forall v q ctx w,
    (rtable q <> [] \/ stageNum ctx <> 0 ->
     fst (HandleDocumentsStage v q ctx w) =
     Err MongoBadValue "$documents is only valid as the first stage in a pipeline" []) /\
    (rtable q = [] -> stageNum ctx = 0 ->
     forall c f args,
       EvaluateExpressionToWriter [] ("$documents", v) = Err c f args ->
       fst (HandleDocumentsStage v q ctx w) = Err c f args) /\
    (rtable q = [] -> stageNum ctx = 0 ->
     forall doc,
       EvaluateExpressionToWriter [] ("$documents", v) = Ok doc ->
       (forall name items, doc <> [(name, BsonArray items)]) ->
       fst (HandleDocumentsStage v q ctx w) =
       Err MongoLocation5858203
         "error during aggregation :: caused by :: an array is expected" []) /\
    (rtable q = [] -> stageNum ctx = 0 ->
     forall name items,
       EvaluateExpressionToWriter [] ("$documents", v) = Ok [(name, BsonArray items)] ->
       exists plan,
         fst (HandleDocumentsStage v q ctx w) = Ok (plan, set_requiresSubQuery true ctx) /\
         length (targetList plan) = 1%nat /\ length (rtable plan) = 1%nat).
Proof.
  intros v q ctx w. unfold HandleDocumentsStage, bindM at 1. simpl.
  repeat split.
  - intros [Hrt | Hst].
    + destruct (rtable q); [contradiction | reflexivity].
    + destruct (stageNum ctx =? 0) eqn:E; [apply Z.eqb_eq in E; contradiction |].
      rewrite orb_true_r. reflexivity.
  - intros Hrt Hst c f args Hev. rewrite Hrt, Hst. simpl.
    unfold bindM, traced, liftR. rewrite Hev. reflexivity.
  - intros Hrt Hst doc Hev Hno. rewrite Hrt, Hst. simpl.
    unfold bindM, traced, liftR. rewrite Hev.
    destruct doc as [| [name value] [| e2 more]]; try reflexivity.
    destruct value; try reflexivity. exfalso. eapply Hno. reflexivity.
  - intros Hrt Hst name items Hev. rewrite Hrt, Hst. simpl.
    unfold bindM, traced, liftR. rewrite Hev. simpl.
    eexists. split; [reflexivity |].
    rewrite targetList_set_jointree, targetList_set_rtable, targetList_set_targetList.
    split; [reflexivity |]. destruct q; reflexivity.
Qed.

(** $documents with a literal array as the first stage, and after a scan. *)
Lemma documents_stage_requirements_witness :
  let v := BsonArray [BsonDocument [("x", BsonInt32 1)]] in
  (exists plan,
     fst (@HandleDocumentsStage (RefCollaborators 1) v makeNode_Query Context_zero
            demo_world) = Ok (plan, set_requiresSubQuery true Context_zero) /\
     length (targetList plan) = 1%nat /\ length (rtable plan) = 1%nat) /\
  fst (@HandleDocumentsStage (RefCollaborators 1) v (base_table_query demo_orders)
         Context_zero demo_world) =
  Err MongoBadValue "$documents is only valid as the first stage in a pipeline" [] /\
  fst (@HandleDocumentsStage (RefCollaborators 1) (BsonInt32 5) makeNode_Query
         Context_zero demo_world) =
  Err MongoLocation5858203
    "error during aggregation :: caused by :: an array is expected" [].
Proof.
  split; [| split].
  - apply (proj2 (proj2 (proj2
             (@documents_stage_requirements (RefCollaborators 1)
                (BsonArray [BsonDocument [("x", BsonInt32 1)]]) makeNode_Query
                Context_zero demo_world)))
             eq_refl eq_refl "$documents" [BsonDocument [("x", BsonInt32 1)]]).
    reflexivity.
  - apply (proj1 (@documents_stage_requirements (RefCollaborators 1)
                    (BsonArray [BsonDocument [("x", BsonInt32 1)]])
                    (base_table_query demo_orders) Context_zero demo_world)).
    left. discriminate.
  - apply (proj1 (proj2 (proj2
             (@documents_stage_requirements (RefCollaborators 1) (BsonInt32 5)
                makeNode_Query Context_zero demo_world)))
             eq_refl eq_refl [("$documents", BsonInt32 5)] eq_refl).
    intros name items. discriminate.
Defined.

(** ** Nesting depth of $lookup *)

Lemma HandleLookup_run `{Collaborators} v q ctx w :
  HandleLookup v q ctx w =
  if MaximumLookupPipelineDepth <? nestedPipelineLevel ctx then
    (Err MongoMaxSubPipelineDepthExceeded
       "Maximum number of nested sub-pipelines exceeded. Limit is %d"
       [ArgInt MaximumLookupPipelineDepth], counted FEATURE_STAGE_LOOKUP w)
  else
    match ParseLookupStage v with
    | Ok args => ProcessLookupCore q ctx args (counted FEATURE_STAGE_LOOKUP w)
    | Err c f a => (Err c f a, counted FEATURE_STAGE_LOOKUP w)
    end.
Proof.
  unfold HandleLookup, bindM at 1. cbn [ReportFeatureUsage].
  fold (counted FEATURE_STAGE_LOOKUP w).
  destruct (MaximumLookupPipelineDepth <? nestedPipelineLevel ctx); [reflexivity |].
  unfold bindM at 1, liftR. destruct (ParseLookupStage v); reflexivity.
Qed.

(** C6. Nesting depth bound: [HandleLookup] at a nesting level above the
    maximum (20) fails with LimitExceeded before it parses its argument or
    calls anything; at a level up to the maximum the guard lets it through
    to parsing and plan construction; a nested pipeline is compiled one
    level deeper.  End to end, a $lookup nested through up to 20
    sub-pipelines compiles, and one nested through more than 20 fails with
    LimitExceeded whatever lies deeper, within a fuel bound that does not
    depend on the nesting. *)
Theorem lookup_depth_bound :
  MaximumLookupPipelineDepth = 20 /\
  (forall (C : Collaborators) v q ctx w,
     MaximumLookupPipelineDepth < nestedPipelineLevel ctx ->
     HandleLookup v q ctx w =
     (Err LimitExceeded "Maximum number of nested sub-pipelines exceeded. Limit is %d"
        [ArgInt 20], counted FEATURE_STAGE_LOOKUP w)) /\
  (forall (C : Collaborators) v q ctx w,
     nestedPipelineLevel ctx <= MaximumLookupPipelineDepth ->
     HandleLookup v q ctx w =
     match ParseLookupStage v with
     | Ok args => ProcessLookupCore q ctx args (counted FEATURE_STAGE_LOOKUP w)
     | Err c f a => (Err c f a, counted FEATURE_STAGE_LOOKUP w)
     end) /\
  (forall ctx, nestedPipelineLevel (derived_context ctx 1) = nestedPipelineLevel ctx + 1) /\
  (forall depth, (depth <= 20)%nat ->
     is_ok (fst (compile_pipeline 21 "db" "orders" (lookup_pipeline depth) demo_world))
     = true) /\
  (forall extra fuel,
     err_code (fst (compile_pipeline (21 + fuel) "db" "orders"
                      (lookup_pipeline (21 + extra)) demo_world))
     = Some LimitExceeded).
Proof.
  split; [reflexivity |]. split; [| split; [| split; [| split]]].
  - intros C v q ctx w Hdeep. rewrite HandleLookup_run.
    apply Z.ltb_lt in Hdeep. rewrite Hdeep. reflexivity.
  - intros C v q ctx w Hlevel. rewrite HandleLookup_run.
    apply Z.ltb_ge in Hlevel. rewrite Hlevel. reflexivity.
  - intros ctx. reflexivity.
  - intros depth Hd.
    do 21 (destruct depth as [| depth]; [vm_compute; reflexivity |]).
    lia.
  - intros extra fuel. vm_compute. reflexivity.
Qed.

(** [HandleLookup] at levels 21 and 20 over the reference collaborators. *)
Lemma lookup_depth_bound_witness :
  let v := lookup_fields "items" "sku" "sku" "found" in
  let q := base_table_query demo_orders in
  let deep := set_nestedPipelineLevel 21 (top_context "db" "orders" (Some demo_orders)) in
  let edge := set_nestedPipelineLevel 20 (top_context "db" "orders" (Some demo_orders)) in
  @HandleLookup (RefCollaborators 1) v q deep demo_world =
    (Err LimitExceeded "Maximum number of nested sub-pipelines exceeded. Limit is %d"
       [ArgInt 20], counted FEATURE_STAGE_LOOKUP demo_world) /\
  is_ok (fst (@HandleLookup (RefCollaborators 1) v q edge demo_world)) = true /\
  is_ok (fst (compile_pipeline 21 "db" "orders" (lookup_pipeline 20) demo_world)) = true.
Proof.
  destruct lookup_depth_bound as (_ & Hdeep & Hedge & _ & Hok & _).
  split; [| split].
  - apply Hdeep. vm_compute. reflexivity.
  - rewrite Hedge by (vm_compute; discriminate). vm_compute. reflexivity.
  - apply Hok. lia.
Defined.

(** ** $merge on an absent source *)

Lemma bindM_ReportFeatureUsage {B : Type} feature (k : unit -> M B) w :
  bindM (ReportFeatureUsage feature) k w = k tt (counted feature w).
Proof. reflexivity. Qed.

(** C10 (as stated, refuted). With the source collection binding absent,
    [HandleMerge] inside a transaction block does not return the plan: it
    fails with OperationNotSupportedInTransaction. *)
Lemma merge_absent_source_in_transaction :
  let ctx := top_context "db" "missing" None in
  let q := empty_base_query in
  mongoCollection ctx = None /\
  fst (HandleMerge (BsonUtf8 "items") q ctx (set_inTransactionBlock true demo_world)) =
  Err MongoOperationNotSupportedInTransaction "$merge cannot be used in a transaction" [].
Proof. split; vm_compute; reflexivity. Qed.

(** C10 (amended). When $merge is enabled (cluster version at least 1.19.0
    and the stage switched on) and the compilation is not inside a
    transaction block, [HandleMerge] on an absent source collection
    binding returns the input plan and context unchanged without error;
    the world only counts the feature: nothing is resolved, validated or
    created, and the plan gets no merge action. *)
Theorem merge_absent_source_is_noop :
  forall v q ctx w,
    mongoCollection ctx = None ->
    fst (IsClusterVersionAtleastThis 1 19 0 w) = Ok true ->
    EnableMergeStage w = true ->
    inTransactionBlock w = false ->
    HandleMerge v q ctx w = (Ok (q, ctx), counted FEATURE_STAGE_MERGE w) /\
    calls (counted FEATURE_STAGE_MERGE w) = calls w /\
    catalogCollections (counted FEATURE_STAGE_MERGE w) = catalogCollections w.
Proof.
  intros v q ctx w Hsrc Hver Hen Htx.
  split; [| split; reflexivity].
  unfold HandleMerge. rewrite bindM_ReportFeatureUsage.
  unfold bindM at 1.
  assert (Hv : IsClusterVersionAtleastThis 1 19 0 (counted FEATURE_STAGE_MERGE w) =
               (Ok true, counted FEATURE_STAGE_MERGE w)).
  { rewrite <- Hver. unfold IsClusterVersionAtleastThis.
    cbn [counted ReportFeatureUsage snd clusterVersion].
    destruct (clusterVersion w) as [[a b] c]. reflexivity. }
  rewrite Hv. unfold bindM at 1, read_EnableMergeStage.
  cbn [counted ReportFeatureUsage snd EnableMergeStage]. rewrite Hen.
  cbn [andb negb]. unfold bindM at 1, IsInTransactionBlock.
  cbn [inTransactionBlock]. rewrite Htx, Hsrc. reflexivity.
Qed.

(** [HandleMerge] on an absent source in the demonstration world. *)
Lemma merge_absent_source_is_noop_witness :
  let ctx := top_context "db" "missing" None in
  HandleMerge (BsonUtf8 "items") empty_base_query ctx demo_world =
  (Ok (empty_base_query, ctx), counted FEATURE_STAGE_MERGE demo_world).
Proof.
  apply (merge_absent_source_is_noop (BsonUtf8 "items") empty_base_query
           (top_context "db" "missing" None) demo_world);
    vm_compute; reflexivity.
Defined.

(** ** $merge uniqueness validation *)

(** Two sets of field names differ when a name is in one only. *)
Lemma gset_differ_by_member (s1 s2 : gset string) (x : string) :
  bool_decide (x ∈ s1) = false -> bool_decide (x ∈ s2) = true -> s1 <> s2.
Proof.
  intros H1 H2 Heq. subst s2. rewrite H1 in H2. discriminate H2.
Qed.

(** C5 (code defect). [on: ["a", "b"]] against a target whose only unique
    indexes are on [_id], on [sku] and on ([a], [b], [c]): no index has the
    key set {a, b}, yet [IsCompoundUniqueIndexPresent] accepts the index on
    (a, b, c) - its loop leaves at the key [c] with the count already 2 -
    and [VaildateMergeOnFieldValues] succeeds instead of failing with
    MissingUniqueIndex. *)
Theorem merge_on_accepts_longer_index :
  let onValues := BsonArray [BsonUtf8 "a"; BsonUtf8 "b"] in
  let indexKeys : pgbson := [("a", BsonInt32 1); ("b", BsonInt32 1); ("c", BsonInt32 1)] in
  IsCompoundUniqueIndexPresent_loop (InitHashTableFromStringArray onValues)
    (List.map fst indexKeys) 0 = 2 /\
  IsCompoundUniqueIndexPresent onValues indexKeys 2 = true /\
  fst (VaildateMergeOnFieldValues onValues (collectionId demo_orders) demo_world) = Ok tt /\
  (list_to_set (List.map fst indexKeys) : gset string) <>
  list_to_set (List.map utf8_str (bson_iter_values onValues)) /\
  List.Forall
    (fun ix => (list_to_set (List.map fst (indexKeyDocument (indexSpec ix))) : gset string)
               <> list_to_set ["a"; "b"])
    (catalogIndexes demo_world).
Proof.
  split; [vm_compute; reflexivity |].
  split; [vm_compute; reflexivity |].
  split; [vm_compute; reflexivity |].
  split; [apply not_eq_sym, (gset_differ_by_member _ _ "c"); vm_compute; reflexivity |].
  repeat constructor.
  - apply not_eq_sym, (gset_differ_by_member _ _ "_id"); vm_compute; reflexivity.
  - apply not_eq_sym, (gset_differ_by_member _ _ "sku"); vm_compute; reflexivity.
  - apply not_eq_sym, (gset_differ_by_member _ _ "c"); vm_compute; reflexivity.
Qed.

(** ** The $lookup inline decision *)

Lemma prefix_append p r : String.prefix p (String.append p r) = true.
Proof.
  induction p as [| a p IH]; simpl; [destruct r; reflexivity |].
  destruct (ascii_dec a a) as [_ | Hne]; [exact IH | contradiction].
Qed.

Lemma prefix_refl s : String.prefix s s = true.
Proof.
  induction s as [| a s IH]; simpl; [reflexivity |].
  destruct (ascii_dec a a) as [_ | Hne]; [exact IH | contradiction].
Qed.

Lemma prefix_comparable a b s :
  String.prefix a s = true -> String.prefix b s = true ->
  String.prefix a b || String.prefix b a = true.
Proof.
  revert a b. induction s as [| c s IH]; intros a b Ha Hb.
  - destruct a; [| discriminate Ha]. destruct b; reflexivity.
  - destruct a as [| x a]; [destruct b; reflexivity |].
    destruct b as [| y b]; [reflexivity |].
    simpl in *.
    destruct (ascii_dec x c) as [-> | _]; [| discriminate Ha].
    destruct (ascii_dec y c) as [-> | _]; [| discriminate Hb].
    destruct (ascii_dec c c) as [_ | Hne]; [| contradiction].
    apply IH; assumption.
Qed.

Lemma string_before_append c s p :
  string_before c s = Some p -> exists r, s = String.append p (String c r).
Proof.
  revert p. induction s as [| a s IH]; intros p; simpl; [discriminate |].
  destruct (Ascii.eqb a c) eqn:Hac.
  - intros [= <-]. apply Ascii.eqb_eq in Hac. subst. exists s. reflexivity.
  - destruct (string_before c s) as [p' |]; [| discriminate].
    intros [= <-]. destruct (IH p' eq_refl) as [r ->]. exists r. reflexivity.
Qed.

Lemma inline_lookup_path_prefix f : String.prefix (inline_lookup_path f) f = true.
Proof.
  unfold inline_lookup_path, StringViewFindPrefix.
  destruct (string_before "."%char f) as [p |] eqn:Hb.
  - destruct (negb (Nat.eqb (String.length p) 0)).
    + destruct (string_before_append _ _ _ Hb) as [r ->]. apply prefix_append.
    + apply prefix_refl.
  - simpl. apply prefix_refl.
Qed.

Lemma path_or_dotted_prefix_is_prefix p f :
  p = f \/ dotted_prefix p f -> String.prefix p f = true.
Proof.
  intros [-> | [rest ->]].
  - apply prefix_refl.
  - apply prefix_append.
Qed.

Lemma CanInlineLookupStageLookup_true value path :
  CanInlineLookupStageLookup value path = Ok true ->
  exists nested,
    ParseLookupStage value = Ok nested /\
    String.prefix path (lookupAs nested) = false /\
    String.prefix (lookupAs nested) path = false.
Proof.
  unfold CanInlineLookupStageLookup, StringViewStartsWithStringView.
  destruct (ParseLookupStage value) as [nested | c f a]; simpl; [| discriminate].
  destruct (String.prefix path (lookupAs nested)) eqn:Hp1; simpl; [discriminate |].
  destruct (String.prefix (lookupAs nested) path) eqn:Hp2; simpl; [discriminate |].
  intros _. exists nested. split; [reflexivity |]. split; assumption.
Qed.

Lemma CanInlineLookupPipeline_stages_true `{Collaborators} stages path :
  CanInlineLookupPipeline_stages stages path = Ok true ->
  forall stage, List.In stage stages ->
    exists name value,
      stage = BsonDocument [(name, value)] /\
      (name = "$lookup" -> CanInlineLookupStageLookup value path = Ok true) /\
      (name <> "$lookup" -> StageWritesPath name value path = false).
Proof.
  induction stages as [| st rest IH]; intros Hok stage Hin; [destruct Hin |].
  simpl in Hok.
  destruct st as [| s | fields | items | b | | z | z]; try discriminate Hok.
  destruct fields as [| [name value] [| f2 more]]; try discriminate Hok.
  simpl in Hok.
  destruct (String.eqb name "$lookup") eqn:Hname.
  - destruct (CanInlineLookupStageLookup value path) as [[|] | c f a] eqn:Hstage;
      simpl in Hok; try discriminate Hok.
    destruct Hin as [<- | Hin]; [| apply IH; assumption].
    exists name, value. split; [reflexivity |]. split; [auto |].
    apply String.eqb_eq in Hname. intros Hne. contradiction.
  - simpl in Hok. destruct (StageWritesPath name value path) eqn:Hw;
      simpl in Hok; try discriminate Hok.
    destruct Hin as [<- | Hin]; [| apply IH; assumption].
    exists name, value. split; [reflexivity |].
    apply String.eqb_neq in Hname. split; [intros Heq; contradiction | auto].
Qed.

(** C4. The $lookup inline decision [CanInlineInnerLookupPipeline] is true
    when [from] is absent and when there is no localField/foreignField
    join; otherwise it is true only if a pipeline is given and no stage of
    it writes to the local field or to a dotted prefix of it: a nested
    $lookup stage does not write its [as] there, and every other stage is
    answered "does not write" by the expression evaluator for the leading
    component of the local field. *)
Theorem lookup_inline_decision `{Collaborators} :
  forall args,
    (from args = "" -> CanInlineInnerLookupPipeline args = Ok true) /\
    (hasLookupMatch args = false -> CanInlineInnerLookupPipeline args = Ok true) /\
    (from args <> "" -> hasLookupMatch args = true ->
     CanInlineInnerLookupPipeline args = Ok true ->
     value_type (pipeline args) <> BSON_TYPE_EOD /\
     forall stage, List.In stage (bson_iter_values (pipeline args)) ->
       exists name value,
         stage = BsonDocument [(name, value)] /\
         (name = "$lookup" ->
          exists nested,
            ParseLookupStage value = Ok nested /\
            forall p, p = localField args \/ dotted_prefix p (localField args) ->
                      lookupAs nested <> p) /\
         (name <> "$lookup" ->
          StageWritesPath name value (inline_lookup_path (localField args)) = false)).
Proof.
  intros args. unfold CanInlineInnerLookupPipeline.
  split; [| split].
  - intros ->. reflexivity.
  - intros ->. destruct (String.eqb (from args) ""); reflexivity.
  - intros Hfrom Hmatch. rewrite (proj2 (String.eqb_neq _ _) Hfrom), Hmatch.
    cbn [negb].
    destruct (bson_type_eqb (value_type (pipeline args)) BSON_TYPE_EOD) eqn:Heod;
      [discriminate |].
    fold (inline_lookup_path (localField args)). unfold CanInlineLookupPipeline.
    intros Hok. split.
    + intros Hty. rewrite Hty in Heod. discriminate Heod.
    + intros stage Hin.
      destruct (CanInlineLookupPipeline_stages_true _ _ Hok stage Hin)
        as (name & value & -> & Hlookup & Hother).
      exists name, value. split; [reflexivity |]. split; [| exact Hother].
      intros Hname.
      destruct (CanInlineLookupStageLookup_true _ _ (Hlookup Hname))
        as (nested & Hparse & Hp1 & Hp2).
      exists nested. split; [exact Hparse |].
      intros p Hp Has. subst p.
      pose proof (prefix_comparable _ _ _
                    (inline_lookup_path_prefix (localField args))
                    (path_or_dotted_prefix_is_prefix _ _ Hp)) as Hcmp.
      rewrite Hp1, Hp2 in Hcmp. discriminate Hcmp.
Qed.

(** A join on [a.b] whose pipeline holds a nested $lookup into [c] and a
    $match can be inlined; the nested stage writes neither [a.b] nor [a]. *)
Lemma lookup_inline_decision_witness :
  @CanInlineInnerLookupPipeline (RefCollaborators 1) demo_inline_lookup = Ok true /\
  forall stage, List.In stage (bson_iter_values (pipeline demo_inline_lookup)) ->
    exists name value,
      stage = BsonDocument [(name, value)] /\
      (name = "$lookup" ->
       exists nested,
         ParseLookupStage value = Ok nested /\
         forall p, p = "a.b" \/ dotted_prefix p "a.b" -> lookupAs nested <> p) /\
      (name <> "$lookup" ->
       @StageWritesPath (RefCollaborators 1) name value "a" = false).
Proof.
  split; [vm_compute; reflexivity |].
  apply (proj2 (proj2 (@lookup_inline_decision (RefCollaborators 1) demo_inline_lookup))).
  - discriminate.
  - reflexivity.
  - vm_compute. reflexivity.
Defined.

(** ** Single-output invariant *)

(** Inversion of a successful run of a monadic computation, one bind,
    branch or pair at a time. *)
Ltac minv H :=
  repeat first
    [ apply bindM_ok_inv in H as (? & ? & ? & H)
    | match type of H with
      | (match ?x with _ => _ end) _ = (Ok _, _) => destruct x eqn:?
      | (if ?b then _ else _) _ = (Ok _, _) => destruct b eqn:?
      | (let (_, _) := ?x in _) _ = (Ok _, _) => destruct x eqn:?
      | ereport _ _ _ _ = (Ok _, _) => discriminate H
      end ].










(** ** Determinism of a compilation *)

Lemma clock_independent_ret {A : Type} (a : A) : clock_independent (retM a).
Proof. intros t w. reflexivity. Qed.

Lemma clock_independent_ereport {A : Type} c f args :
  clock_independent (@ereport A c f args).
Proof. intros t w. reflexivity. Qed.

Lemma clock_independent_liftR {A : Type} (r : Res A) : clock_independent (liftR r).
Proof. intros t w. reflexivity. Qed.

Lemma clock_independent_bind {A B : Type} (m : M A) (k : A -> M B) :
  clock_independent m -> (forall a, clock_independent (k a)) ->
  clock_independent (bindM m k).
Proof.
  intros Hm Hk t w. unfold bindM. rewrite Hm.
  destruct (m w) as [[a | c f args] w']; cbn [fst snd]; [apply Hk | reflexivity].
Qed.

Lemma clock_independent_traced {A : Type} (c : Call) (m : M A) :
  clock_independent m -> clock_independent (traced c m).
Proof. intros Hm t w. unfold traced. apply (Hm t (logged c w)). Qed.

Lemma clock_independent_ReportFeatureUsage f :
  clock_independent (ReportFeatureUsage f).
Proof. intros t w. reflexivity. Qed.

Lemma clock_independent_IsInTransactionBlock : clock_independent IsInTransactionBlock.
Proof. intros t w. reflexivity. Qed.

Lemma clock_independent_IsClusterVersionAtleastThis a b c :
  clock_independent (IsClusterVersionAtleastThis a b c).
Proof.
  intros t w. unfold IsClusterVersionAtleastThis. cbn [set_currentTimestamp clusterVersion].
  destruct (clusterVersion w) as [[x y] z]. reflexivity.
Qed.

Lemma clock_independent_read_EnableMergeStage : clock_independent read_EnableMergeStage.
Proof. intros t w. reflexivity. Qed.

Lemma clock_independent_read_EnableMergeTargetCreation :
  clock_independent read_EnableMergeTargetCreation.
Proof. intros t w. reflexivity. Qed.

Lemma clock_independent_GetMongoCollection db coll lockMode :
  clock_independent (GetMongoCollectionOrViewByNameDatumWithLocalShard db coll lockMode).
Proof. intros t w. reflexivity. Qed.

Lemma clock_independent_CreateCollectionForInsert db coll :
  clock_independent (CreateCollectionForInsert db coll).
Proof. intros t w. reflexivity. Qed.

Lemma clock_independent_CollectionIdGetIndexes collId :
  clock_independent (CollectionIdGetIndexes collId).
Proof. intros t w. reflexivity. Qed.

Create HintDb clock.
#[export] Hint Resolve clock_independent_ret clock_independent_ereport
  clock_independent_liftR clock_independent_traced
  clock_independent_ReportFeatureUsage clock_independent_IsInTransactionBlock
  clock_independent_IsClusterVersionAtleastThis
  clock_independent_read_EnableMergeStage
  clock_independent_read_EnableMergeTargetCreation
  clock_independent_GetMongoCollection clock_independent_CreateCollectionForInsert
  clock_independent_CollectionIdGetIndexes : clock.

Ltac clk :=
  repeat first
    [ progress intros
    | apply clock_independent_bind
    | solve [auto with clock]
    | progress cbv beta zeta
    | match goal with
      | |- clock_independent (match ?x with _ => _ end) => destruct x
      end ].

Section ClockIndependence.
Context `{C : Collaborators}.
Hypothesis HC : Collaborators_clock_independent C.

Lemma clock_independent_GenerateBaseTableQuery db coll ctx :
  clock_independent (GenerateBaseTableQuery db coll ctx).
Proof. apply HC. Qed.
Lemma clock_independent_GenerateBaseAgnosticQuery db ctx :
  clock_independent (GenerateBaseAgnosticQuery db ctx).
Proof. apply HC. Qed.
Lemma clock_independent_MutateQueryWithPipeline q v ctx :
  clock_independent (MutateQueryWithPipeline q v ctx).
Proof. apply HC. Qed.
Lemma clock_independent_HandleMatch v q ctx :
  clock_independent (HandleMatch v q ctx).
Proof. apply HC. Qed.
Hint Resolve clock_independent_GenerateBaseTableQuery
  clock_independent_GenerateBaseAgnosticQuery
  clock_independent_MutateQueryWithPipeline clock_independent_HandleMatch : clock.

Lemma clock_independent_MigrateQueryToSubQuery q ctx :
  clock_independent (MigrateQueryToSubQuery q ctx).
Proof. unfold MigrateQueryToSubQuery. clk. Qed.
Hint Resolve clock_independent_MigrateQueryToSubQuery : clock.

Lemma clock_independent_AddBsonArrayAggFunction q ctx p b :
  clock_independent (AddBsonArrayAggFunction q ctx p b).
Proof. unfold AddBsonArrayAggFunction. clk. Qed.
Hint Resolve clock_independent_AddBsonArrayAggFunction : clock.

Lemma clock_independent_AddBsonObjectAggFunction q ctx :
  clock_independent (AddBsonObjectAggFunction q ctx).
Proof. unfold AddBsonObjectAggFunction. clk. Qed.
Hint Resolve clock_independent_AddBsonObjectAggFunction : clock.

Lemma clock_independent_facet_branch cte db sort n p v :
  clock_independent (facet_branch cte db sort n p v).
Proof. unfold facet_branch. clk. Qed.
Hint Resolve clock_independent_facet_branch : clock.

Lemma clock_independent_facet_branches it cte db sort n acc refs first :
  clock_independent (facet_branches it cte db sort n acc refs first).
Proof.
  revert cte db sort n acc refs first.
  induction it as [| [pathView branch] rest IH]; intros; cbn [facet_branches]; clk.
Qed.
Hint Resolve clock_independent_facet_branches : clock.

Lemma clock_independent_BuildFacetUnionAllQuery n v cte src db sort :
  clock_independent (BuildFacetUnionAllQuery n v cte src db sort).
Proof. unfold BuildFacetUnionAllQuery. clk. Qed.
Hint Resolve clock_independent_BuildFacetUnionAllQuery : clock.

Lemma clock_independent_HandleFacet v q ctx :
  clock_independent (HandleFacet v q ctx).
Proof. unfold HandleFacet. clk. Qed.
Hint Resolve clock_independent_HandleFacet : clock.

Lemma clock_independent_HandleDocumentsStage v q ctx :
  clock_independent (HandleDocumentsStage v q ctx).
Proof. unfold HandleDocumentsStage. clk. Qed.
Hint Resolve clock_independent_HandleDocumentsStage : clock.

Lemma clock_independent_HandleUnionWith v q ctx :
  clock_independent (HandleUnionWith v q ctx).
Proof. unfold HandleUnionWith. clk. Qed.
Hint Resolve clock_independent_HandleUnionWith : clock.

Lemma clock_independent_ProcessLookupCore_join ctx args l r sub a b :
  clock_independent (ProcessLookupCore_join ctx args l r sub a b).
Proof. unfold ProcessLookupCore_join. clk. Qed.
Hint Resolve clock_independent_ProcessLookupCore_join : clock.

Lemma clock_independent_ProcessLookupCore q ctx args :
  clock_independent (ProcessLookupCore q ctx args).
Proof. unfold ProcessLookupCore. clk. Qed.
Hint Resolve clock_independent_ProcessLookupCore : clock.

Lemma clock_independent_HandleLookup v q ctx :
  clock_independent (HandleLookup v q ctx).
Proof. unfold HandleLookup. clk. Qed.
Hint Resolve clock_independent_HandleLookup : clock.

Lemma clock_independent_AddInputExpressionToQuery q f e :
  clock_independent (AddInputExpressionToQuery q f e).
Proof. unfold AddInputExpressionToQuery. clk. Qed.
Hint Resolve clock_independent_AddInputExpressionToQuery : clock.

Lemma clock_independent_graphLookup_from_query ctx args b :
  clock_independent (graphLookup_from_query ctx args b).
Proof. unfold graphLookup_from_query. clk. Qed.
Hint Resolve clock_independent_graphLookup_from_query : clock.

Lemma clock_independent_GenerateBaseCaseQuery ctx args n :
  clock_independent (GenerateBaseCaseQuery ctx args n).
Proof. unfold GenerateBaseCaseQuery. clk. Qed.
Hint Resolve clock_independent_GenerateBaseCaseQuery : clock.

Lemma clock_independent_GenerateRecursiveCaseQuery ctx cte args n :
  clock_independent (GenerateRecursiveCaseQuery ctx cte args n).
Proof. unfold GenerateRecursiveCaseQuery. clk. Qed.
Hint Resolve clock_independent_GenerateRecursiveCaseQuery : clock.

Lemma clock_independent_BuildRecursiveGraphLookupQuery src args ctx cte n :
  clock_independent (BuildRecursiveGraphLookupQuery src args ctx cte n).
Proof. unfold BuildRecursiveGraphLookupQuery. clk. Qed.
Hint Resolve clock_independent_BuildRecursiveGraphLookupQuery : clock.

Lemma clock_independent_BuildGraphLookupCteQuery src cte args ctx :
  clock_independent (BuildGraphLookupCteQuery src cte args ctx).
Proof. unfold BuildGraphLookupCteQuery. clk. Qed.
Hint Resolve clock_independent_BuildGraphLookupCteQuery : clock.

Lemma clock_independent_ProcessGraphLookupCore q ctx args :
  clock_independent (ProcessGraphLookupCore q ctx args).
Proof. unfold ProcessGraphLookupCore. clk. Qed.
Hint Resolve clock_independent_ProcessGraphLookupCore : clock.

Lemma clock_independent_HandleGraphLookup v q ctx :
  clock_independent (HandleGraphLookup v q ctx).
Proof. unfold HandleGraphLookup. clk. Qed.
Hint Resolve clock_independent_HandleGraphLookup : clock.

End ClockIndependence.

Lemma clock_erasable_bind {A B : Type} (e : B -> B) (m : M A) (k : A -> M B) :
  clock_independent m -> (forall a, clock_erasable e (k a)) ->
  clock_erasable e (bindM m k).
Proof.
  intros Hm Hk t w. unfold bindM. rewrite Hm.
  destruct (m w) as [[a | c f args] w']; cbn [fst snd]; [apply Hk | reflexivity].
Qed.

Lemma clock_independent_erasable {A : Type} (e : A -> A) (m : M A) :
  clock_independent m -> clock_erasable e m.
Proof. intros Hm t w. rewrite Hm. reflexivity. Qed.

Lemma clock_independent_VaildateMergeOnFieldValues v collId :
  clock_independent (VaildateMergeOnFieldValues v collId).
Proof. unfold VaildateMergeOnFieldValues. clk. Qed.
#[export] Hint Resolve clock_independent_VaildateMergeOnFieldValues : clock.

Lemma clock_independent_ValidatePreviousStagesOfDollarMerge q :
  clock_independent (ValidatePreviousStagesOfDollarMerge q).
Proof. unfold ValidatePreviousStagesOfDollarMerge. clk. Qed.

Lemma clock_independent_RearrangeTargetListForMerge q coll b :
  clock_independent (RearrangeTargetListForMerge q coll b).
Proof. unfold RearrangeTargetListForMerge. clk. Qed.

Lemma clock_independent_AddTargetCollectionRTEDollarMerge q coll :
  clock_independent (AddTargetCollectionRTEDollarMerge q coll).
Proof. unfold AddTargetCollectionRTEDollarMerge. clk. Qed.

Lemma clock_independent_WriteJoinConditionToQueryDollarMerge q a b c d args :
  clock_independent (WriteJoinConditionToQueryDollarMerge q a b c d args).
Proof. unfold WriteJoinConditionToQueryDollarMerge. clk. Qed.

Lemma clock_independent_HandleMerge_target args :
  clock_independent (HandleMerge_target args).
Proof. unfold HandleMerge_target. clk. Qed.

#[export] Hint Resolve clock_independent_ValidatePreviousStagesOfDollarMerge
  clock_independent_RearrangeTargetListForMerge
  clock_independent_AddTargetCollectionRTEDollarMerge
  clock_independent_WriteJoinConditionToQueryDollarMerge
  clock_independent_HandleMerge_target clock_independent_MigrateQueryToSubQuery : clock.

Lemma clock_independent_MakeActionWhenNotMatched_discard a b coll :
  clock_independent (MakeActionWhenNotMatched WhenNotMatched_DISCARD a b coll).
Proof. intros t w. reflexivity. Qed.

(** The tail of [HandleMerge] from the construction of the not-matched
    action on depends on the clock through the creation_time value only. *)
Lemma HandleMerge_actions_erasable (q : Query) (ctx : AggregationPipelineBuildContext)
    (args : MergeArgs) (coll : MongoCollection) (matchedAction : MergeAction)
    (sd td ss ts : Expr) :
  clock_erasable (fun pc => (without_creation_time (fst pc), snd pc))
    (notMatchedAction <- MakeActionWhenNotMatched (whenNotMatched args) sd ss coll ;;
     let query := set_mergeActionList [matchedAction; notMatchedAction] q in
     query <- WriteJoinConditionToQueryDollarMerge query sd td ss ts args ;;
     retM (query, ctx))%M.
Proof.
  intros t w. destruct q.
  unfold bindM, MakeActionWhenNotMatched, GetCurrentTimestamp,
    WriteJoinConditionToQueryDollarMerge, retM, ereport.
  destruct (whenNotMatched args); destruct (on args); reflexivity.
Qed.

Ltac clke :=
  repeat first
    [ progress intros
    | apply HandleMerge_actions_erasable
    | apply clock_erasable_bind; [solve [clk] |]
    | apply clock_independent_erasable; solve [clk]
    | progress cbv beta zeta
    | match goal with
      | |- clock_erasable _ (match ?x with _ => _ end) => destruct x
      end ].

Lemma HandleMerge_erasable `{C : Collaborators} v q ctx :
  clock_erasable (fun pc => (without_creation_time (fst pc), snd pc))
    (HandleMerge v q ctx).
Proof. unfold HandleMerge. clke. Qed.

Lemma clock_independent_bind_Ok {A B : Type} (a : A) (k : A -> M B) :
  clock_independent (k a) -> clock_independent (bindM (liftR (Ok a)) k).
Proof. intros Hk t w. exact (Hk t w). Qed.

Lemma HandleMerge_discard_independent `{C : Collaborators} v q ctx args :
  ParseMergeStage v (namespaceName ctx) = Ok args ->
  whenNotMatched args = WhenNotMatched_DISCARD ->
  clock_independent (HandleMerge v q ctx).
Proof.
  intros Hparse Hdiscard.
  unfold HandleMerge. rewrite Hparse.
  repeat first
    [ progress intros
    | match goal with
      | |- clock_independent (bindM (liftR (Ok _)) _) =>
          apply clock_independent_bind_Ok
      end
    | progress rewrite Hdiscard
    | apply clock_independent_MakeActionWhenNotMatched_discard
    | apply clock_independent_bind
    | solve [auto with clock]
    | progress cbv beta zeta
    | match goal with
      | |- clock_independent (match ?x with _ => _ end) => destruct x
      end ].
Qed.

Lemma RefCollaborators_0_clock_independent :
  Collaborators_clock_independent (RefCollaborators 0).
Proof.
  unfold Collaborators_clock_independent.
  split; [| split; [| split]]; intros;
    cbn [RefCollaborators GenerateBaseTableQuery GenerateBaseAgnosticQuery
         MutateQueryWithPipeline HandleMatch].
  - intros t w. unfold ref_GenerateBaseTableQuery.
    cbn [set_currentTimestamp catalogCollections].
    destruct (List.find _ (catalogCollections w)); reflexivity.
  - unfold ref_GenerateBaseAgnosticQuery. clk.
  - clk.
  - unfold ref_HandleMatch. clk.
Qed.

(** C3, as stated, fails for $merge: the same one-stage pipeline over the
    same binding of [orders], compiled in two worlds that differ in the
    reading of the clock only, gives two different plans. *)
Lemma merge_plan_depends_on_clock :
  let pipeline := BsonArray [BsonDocument [("$merge", demo_merge)]] in
  let q := base_table_query demo_orders in
  let ctx := top_context "db" "orders" (Some demo_orders) in
  (exists plan1 plan2 ctx1 ctx2 w1 w2,
     compile_pipeline 1 "db" "orders" pipeline (set_currentTimestamp 1000 demo_world) =
     (Ok (plan1, ctx1), w1) /\
     compile_pipeline 1 "db" "orders" pipeline (set_currentTimestamp 2000 demo_world) =
     (Ok (plan2, ctx2), w2) /\
     plan1 <> plan2) /\
  (exists plan1 plan2 ctx1 ctx2 w1 w2,
     HandleMerge demo_merge q ctx (set_currentTimestamp 1000 demo_world) =
     (Ok (plan1, ctx1), w1) /\
     HandleMerge demo_merge q ctx (set_currentTimestamp 2000 demo_world) =
     (Ok (plan2, ctx2), w2) /\
     plan1 <> plan2 /\
     without_creation_time plan1 = without_creation_time plan2).
Proof.
  cbv zeta. split.
  - do 6 eexists.
    split; [vm_compute; reflexivity |].
    split; [vm_compute; reflexivity |].
    intros Heq. apply (f_equal mergeActionList) in Heq.
    cbn [mergeActionList] in Heq. discriminate Heq.
  - do 6 eexists.
    split; [vm_compute; reflexivity |].
    split; [vm_compute; reflexivity |].
    split; [| vm_compute; reflexivity].
    intros Heq. apply (f_equal mergeActionList) in Heq.
    cbn [mergeActionList] in Heq. discriminate Heq.
Qed.

(** C3, amended. Two compilations of a stage that differ in the reading of
    the clock only: [HandleLookup], [HandleGraphLookup], [HandleFacet],
    [HandleUnionWith] and [HandleDocumentsStage] return the same result
    (given collaborators that do not read the clock); [HandleMerge]
    returns the same result up to the creation_time value of its
    not-matched action, and the same result when whenNotMatched is
    "discard". *)
Theorem compilation_deterministic_up_to_clock `{C : Collaborators} :
  Collaborators_clock_independent C ->
  forall v q ctx t w,
    fst (HandleLookup v q ctx (set_currentTimestamp t w)) =
    fst (HandleLookup v q ctx w) /\
    fst (HandleGraphLookup v q ctx (set_currentTimestamp t w)) =
    fst (HandleGraphLookup v q ctx w) /\
    fst (HandleFacet v q ctx (set_currentTimestamp t w)) =
    fst (HandleFacet v q ctx w) /\
    fst (HandleUnionWith v q ctx (set_currentTimestamp t w)) =
    fst (HandleUnionWith v q ctx w) /\
    fst (HandleDocumentsStage v q ctx (set_currentTimestamp t w)) =
    fst (HandleDocumentsStage v q ctx w) /\
    plan_without_creation_time (fst (HandleMerge v q ctx (set_currentTimestamp t w))) =
    plan_without_creation_time (fst (HandleMerge v q ctx w)) /\
    (forall args,
       ParseMergeStage v (namespaceName ctx) = Ok args ->
       whenNotMatched args = WhenNotMatched_DISCARD ->
       fst (HandleMerge v q ctx (set_currentTimestamp t w)) =
       fst (HandleMerge v q ctx w)).
Proof.
  intros HC v q ctx t w.
  repeat match goal with |- _ /\ _ => split end.
  - first [rewrite (clock_independent_HandleLookup HC) | rewrite clock_independent_HandleLookup]; reflexivity.
  - first [rewrite (clock_independent_HandleGraphLookup HC) | rewrite clock_independent_HandleGraphLookup]; reflexivity.
  - first [rewrite (clock_independent_HandleFacet HC) | rewrite clock_independent_HandleFacet]; reflexivity.
  - first [rewrite (clock_independent_HandleUnionWith HC) | rewrite clock_independent_HandleUnionWith]; reflexivity.
  - first [rewrite (clock_independent_HandleDocumentsStage HC) | rewrite clock_independent_HandleDocumentsStage]; reflexivity.
  - apply HandleMerge_erasable.
  - intros args Hparse Hdiscard.
    rewrite (HandleMerge_discard_independent v q ctx args Hparse Hdiscard).
    reflexivity.
Qed.

(** The $merge of the example above, compiled at clock readings 1000 and
    2000: both compilations succeed and agree up to the creation_time. *)
Lemma compilation_deterministic_up_to_clock_witness :
  let q := base_table_query demo_orders in
  let ctx := top_context "db" "orders" (Some demo_orders) in
  Collaborators_clock_independent (RefCollaborators 0) /\
  is_ok (fst (HandleMerge demo_merge q ctx demo_world)) = true /\
  plan_without_creation_time
    (fst (HandleMerge demo_merge q ctx (set_currentTimestamp 2000 demo_world))) =
  plan_without_creation_time (fst (HandleMerge demo_merge q ctx demo_world)).
Proof.
  cbv zeta.
  split; [exact RefCollaborators_0_clock_independent |].
  split; [vm_compute; reflexivity |].
  exact (proj1 (proj2 (proj2 (proj2 (proj2 (proj2
           (@compilation_deterministic_up_to_clock (RefCollaborators 0)
              RefCollaborators_0_clock_independent demo_merge
              (base_table_query demo_orders)
              (top_context "db" "orders" (Some demo_orders)) 2000 demo_world))))))).
Defined.

(** ** The traversal of $graphLookup *)

Lemma GenerateRecursiveCaseQuery_cte `{Collaborators} ctx cte args lv w rq cte' w' :
  GenerateRecursiveCaseQuery ctx cte args lv w = (Ok (rq, cte'), w') ->
  cte' = set_cterefcount (cterefcount cte + 1) cte.
Proof.
  unfold GenerateRecursiveCaseQuery, CreateCteRte. intros Hrun. minv Hrun.
  injection Hrun as <- <- <-. congruence.
Qed.

Lemma BuildRecursiveGraphLookupQuery_traversal `{Collaborators}
    src args ctx baseCte lv w rq w' :
  BuildRecursiveGraphLookupQuery src args ctx baseCte lv w = (Ok rq, w') ->
  graphLookup_traversal rq = Some (graphLookup_traversal_of args).
Proof.
  unfold BuildRecursiveGraphLookupQuery. intros Hrun.
  apply bindM_ok_inv in Hrun as (baseSubQuery & w1 & _ & Hrun).
  apply bindM_ok_inv in Hrun as ([recursiveSubQuery graphCteExpr] & w2 & Hrec & Hrun).
  apply GenerateRecursiveCaseQuery_cte in Hrec. subst graphCteExpr.
  vm_compute in Hrun. injection Hrun as <- <-.
  vm_compute. reflexivity.
Qed.

Lemma HandleGraphLookup_traversal `{Collaborators} v q ctx w plan ctx' w' :
  HandleGraphLookup v q ctx w = (Ok (plan, ctx'), w') ->
  exists args recursiveSelectQuery,
    ParseGraphLookupStage v = Ok args /\
    graphLookup_subselect plan =
    Some (recursiveSelectQuery, [(asField args, BsonArray [])]) /\
    graphLookup_traversal recursiveSelectQuery = Some (graphLookup_traversal_of args).
Proof.
  unfold HandleGraphLookup. intros Hrun.
  apply bindM_ok_inv in Hrun as (? & ? & _ & Hrun).
  apply bindM_ok_inv in Hrun as (args & w1 & Hparse & Hrun).
  assert (Hargs : ParseGraphLookupStage v = Ok args).
  { unfold liftR in Hparse. injection Hparse as Hparse _. exact Hparse. }
  unfold ProcessGraphLookupCore in Hrun.
  apply bindM_ok_inv in Hrun as ([q1 ctx1] & w2 & _ & Hrun).
  apply bindM_ok_inv in Hrun as (q2 & w3 & _ & Hrun).
  apply bindM_ok_inv in Hrun as ([stageQuery baseCteExpr] & w4 & Hstage & Hrun).
  unfold BuildGraphLookupCteQuery in Hstage.
  destruct (CreateCteRte _ "graphLookupBase" 1 1) as [rte0 baseCte0].
  apply bindM_ok_inv in Hstage as (rq & w5 & Hrec & Hstage).
  apply BuildRecursiveGraphLookupQuery_traversal in Hrec.
  injection Hstage as <- <- <-.
  exists args, rq. split; [exact Hargs |]. split; [| exact Hrec].
  unfold CreateCteRte in Hrun. injection Hrun as <- <- <-.
  reflexivity.
Qed.
(** ** The recursive union under the cycle clause on baseDocId *)


Section Traversal.
Variable tr : GraphTraversal.
Variable limit : option Z.
Variable coll : list Doc.
Variable startWith : list Z.
Hypothesis Hcycle : cycle_columns tr = Some ["baseDocId"].
Hypothesis Hids : NoDup (List.map doc_id coll).











End Traversal.

(** ** DISTINCT ON (baseDocId) under ORDER BY baseDocId, depth *)

Lemma sort_le_spec (r1 r2 : Row) :
  sort_le ["baseDocId"; "depth"] r1 r2 <->
  doc_id (row_document r1) < doc_id (row_document r2) \/
  (doc_id (row_document r1) = doc_id (row_document r2) /\
   row_depth r1 <= row_depth r2).
Proof.
  unfold sort_le. cbn.
  destruct (Z.ltb_spec (doc_id (row_document r1)) (doc_id (row_document r2)));
    destruct (Z.eqb_spec (doc_id (row_document r1)) (doc_id (row_document r2)));
    destruct (Z.ltb_spec (row_depth r1) (row_depth r2));
    destruct (Z.eqb_spec (row_depth r1) (row_depth r2));
    cbn; split; intros; try lia; try reflexivity; try discriminate.
Qed.

#[local] Instance sort_le_trans : Transitive (sort_le ["baseDocId"; "depth"]).
Proof. intros r1 r2 r3. rewrite !sort_le_spec. lia. Qed.

#[local] Instance sort_le_total : Total (sort_le ["baseDocId"; "depth"]).
Proof. intros r1 r2. rewrite !sort_le_spec. lia. Qed.




(** ** The traversal of a $graphLookup plan *)




(** * Further properties *)

(** ** The $merge parser *)

Lemma ParseMergeStage_on_ok items seen :
  ParseMergeStage_on items seen = Ok tt ->
  List.forallb (fun el => bson_type_eqb (value_type el) BSON_TYPE_UTF8) items = true /\
  (seen = false -> items <> []).
Proof.
  revert seen. induction items as [| el rest IH]; intros seen Hok; cbn in *.
  - split; [reflexivity |]. intros ->. discriminate Hok.
  - destruct el as [| s | flds | more | b | | z | z]; try discriminate Hok.
    destruct (IH true Hok) as [Hall _]. cbn. split; [exact Hall |].
    intros _ [=].
Qed.

Lemma ParseMergeStage_into_fields intoFields t args args' :
  ParseMergeStage_into intoFields t args = Ok args' ->
  on args' = on args /\ whenMatched args' = whenMatched args /\
  whenNotMatched args' = whenNotMatched args.
Proof.
  revert args. induction intoFields as [| [innerKey innerValue] rest IH];
    intros args Hok; cbn in Hok.
  - injection Hok as <-. auto.
  - destruct innerValue as [| s | flds | items | b | | z | z]; try discriminate Hok.
    destruct (String.eqb innerKey "db");
      [apply IH in Hok; cbn in Hok; exact Hok |].
    destruct (String.eqb innerKey "coll"); [| discriminate Hok].
    apply IH in Hok. cbn in Hok. exact Hok.
Qed.

Lemma ParseMergeStage_fields_invariant fields ns args isOn args' isOn' :
  ParseMergeStage_fields fields ns args isOn = Ok (args', isOn') ->
  merge_args_invariant ns args isOn -> merge_args_invariant ns args' isOn'.
Proof.
  revert args isOn. induction fields as [| [key value] rest IH];
    intros args isOn Hok Hinv; cbn [ParseMergeStage_fields] in Hok.
  - injection Hok as <- <-. exact Hinv.
  - destruct Hinv as (Hon & Hwm & Hdb).
    destruct (String.eqb key "into").
    { apply bindR_ok_inv in Hok as (args1 & Hinto & Hok).
      apply (IH _ _ Hok). clear IH Hok.
      assert (Hsame : on args1 = on args /\ whenMatched args1 = whenMatched args).
      { destruct value as [| s | flds | items | b | | z | z]; try discriminate Hinto.
        - injection Hinto as <-. auto.
        - apply bindR_ok_inv in Hinto as (args2 & Hinto & Hcheck).
          apply ParseMergeStage_into_fields in Hinto as (Ho & Hw & _).
          destruct (String.eqb (targetCollection args2) ""); [discriminate Hcheck |].
          injection Hcheck as <-. auto. }
      destruct Hsame as [Ho Hw].
      destruct (String.eqb (targetDB args1) "") eqn:Hempty; cbn.
      - repeat split; [rewrite <- Ho in Hon; exact Hon | rewrite <- Hw in Hwm; exact Hwm |].
        cbn. intros _ Hns. exact Hns.
      - repeat split; [rewrite Ho; exact Hon | rewrite Hw; exact Hwm |].
        intros _ Hns. rewrite Hns in Hempty. discriminate Hempty. }
    destruct (String.eqb key "on").
    { destruct value as [| s | flds | items | b | | z | z]; try discriminate Hok.
      - apply (IH _ _ Hok). repeat split; auto.
      - apply bindR_ok_inv in Hok as ([] & Hitems & Hok).
        apply (IH _ _ Hok). repeat split; auto.
        intros _. cbn. apply ParseMergeStage_on_ok in Hitems as [Hall Hne].
        destruct items as [| first more]; [exfalso; apply Hne; reflexivity |].
        exact Hall. }
    destruct (String.eqb key "let"); [discriminate Hok |].
    destruct (String.eqb key "whenMatched").
    { destruct value as [| s | flds | items | b | | z | z]; try discriminate Hok.
      destruct (String.eqb s "replace");
        [apply (IH _ _ Hok); repeat split; auto |].
      destruct (String.eqb s "keepExisting");
        [apply (IH _ _ Hok); repeat split; auto |].
      destruct (String.eqb s "merge"); [discriminate Hok |].
      destruct (String.eqb s "fail"); [| discriminate Hok].
      apply (IH _ _ Hok); repeat split; auto. }
    destruct (String.eqb key "whenNotMatched"); [| discriminate Hok].
    destruct value as [| s | flds | items | b | | z | z]; try discriminate Hok.
    destruct (String.eqb s "insert");
      [apply (IH _ _ Hok); repeat split; auto |].
    destruct (String.eqb s "discard");
      [apply (IH _ _ Hok); repeat split; auto |].
    destruct (String.eqb s "fail"); [| discriminate Hok].
    apply (IH _ _ Hok); repeat split; auto.
Qed.



Lemma ParseMergeStage_fields_unsupported fields ns args isOn :
  List.existsb
    (fun field =>
       negb (merge_known_key (fst field)) ||
       (String.eqb (fst field) "whenMatched" &&
        negb (merge_whenMatched_supported (snd field)))) fields = true ->
  is_ok (ParseMergeStage_fields fields ns args isOn) = false.
Proof.
  revert args isOn. induction fields as [| [key value] rest IH];
    intros args isOn Hex; [discriminate Hex |].
  cbn [List.existsb fst snd] in Hex. cbn [ParseMergeStage_fields].
  unfold merge_known_key in Hex.
  destruct (String.eqb key "into") eqn:Hinto.
  { apply String.eqb_eq in Hinto. subst key. cbn in Hex.
    destruct (_ : Res MergeArgs) as [args1 | c f a]; [| reflexivity].
    cbn [bindR]. apply IH. exact Hex. }
  destruct (String.eqb key "on") eqn:Hon.
  { apply String.eqb_eq in Hon. subst key. cbn in Hex.
    destruct value as [| s | flds | items | b | | z | z]; try reflexivity.
    - apply IH. exact Hex.
    - destruct (ParseMergeStage_on items false) as [[] | c f a]; [| reflexivity].
      cbn [bindR]. apply IH. exact Hex. }
  destruct (String.eqb key "let"); [reflexivity |].
  destruct (String.eqb key "whenMatched") eqn:Hwm.
  { cbn in Hex.
    destruct value as [| s | flds | items | b | | z | z]; try reflexivity.
    cbn in Hex.
    destruct (String.eqb s "replace"); [apply IH; exact Hex |].
    destruct (String.eqb s "keepExisting"); [apply IH; exact Hex |].
    destruct (String.eqb s "merge"); [reflexivity |].
    destruct (String.eqb s "fail"); [apply IH; exact Hex | reflexivity]. }
  destruct (String.eqb key "whenNotMatched") eqn:Hwnm; [| reflexivity].
  cbn in Hex.
  destruct value as [| s | flds | items | b | | z | z]; try reflexivity.
  destruct (String.eqb s "insert"); [apply IH; exact Hex |].
  destruct (String.eqb s "discard"); [apply IH; exact Hex |].
  destruct (String.eqb s "fail"); [apply IH; exact Hex | reflexivity].
Qed.

(** X2. [ParseMergeStage] accepts no document that has, anywhere, a key
    other than into, on, whenMatched and whenNotMatched (so none with let),
    or a whenMatched other than the strings replace, keepExisting and fail
    (so neither "merge" nor a pipeline). *)
Theorem ParseMergeStage_unsupported (fields : list (string * bson_value_t))
    (ns : string) (key : string) (value : bson_value_t) :
  List.In (key, value) fields ->
  merge_known_key key = false \/
  (key = "whenMatched" /\ merge_whenMatched_supported value = false) ->
  is_ok (ParseMergeStage (BsonDocument fields) ns) = false.
Proof.
  intros Hin Hbad. unfold ParseMergeStage.
  apply is_ok_bindR_false, ParseMergeStage_fields_unsupported.
  apply List.existsb_exists. exists (key, value). split; [exact Hin |].
  cbn [fst snd]. destruct Hbad as [Hkey | [-> Hval]].
  - rewrite Hkey. reflexivity.
  - rewrite Hval. reflexivity.
Qed.

Lemma ParseMergeStage_unsupported_witness :
  is_ok (ParseMergeStage
           (BsonDocument [("into", BsonUtf8 "items");
                          ("whenMatched", BsonUtf8 "merge")]) "db.orders") = false /\
  is_ok (ParseMergeStage
           (BsonDocument [("into", BsonUtf8 "items");
                          ("let", BsonDocument [])]) "db.orders") = false.
Proof.
  split.
  - apply (ParseMergeStage_unsupported _ _ "whenMatched" (BsonUtf8 "merge"));
      [right; left; reflexivity | right; split; reflexivity].
  - apply (ParseMergeStage_unsupported _ _ "let" (BsonDocument []));
      [right; left; reflexivity | left; reflexivity].
Defined.

(** ** The uniqueness check of the $merge [on] fields *)

Lemma ParseMergeStage_fields_on_flag fields ns args isOn args' isOn' :
  ParseMergeStage_fields fields ns args isOn = Ok (args', isOn') ->
  (forall value, ~ List.In ("on", value) fields) ->
  isOn' = isOn.
Proof.
  revert args isOn. induction fields as [| [key value] rest IH];
    intros args isOn Hok Hno; cbn [ParseMergeStage_fields] in Hok.
  - injection Hok as _ <-. reflexivity.
  - assert (Hrest : forall value', ~ List.In ("on", value') rest)
      by (intros value' Hin; apply (Hno value'); right; exact Hin).
    destruct (String.eqb key "into").
    { apply bindR_ok_inv in Hok as (args1 & _ & Hok). eapply IH; eauto. }
    destruct (String.eqb key "on") eqn:Hon.
    { apply String.eqb_eq in Hon. subst key. exfalso.
      apply (Hno value). left. reflexivity. }
    destruct (String.eqb key "let"); [discriminate Hok |].
    destruct (String.eqb key "whenMatched").
    { destruct value as [| s | flds | items | b | | z | z]; try discriminate Hok.
      destruct (String.eqb s "replace"); [eapply IH; eauto |].
      destruct (String.eqb s "keepExisting"); [eapply IH; eauto |].
      destruct (String.eqb s "merge"); [discriminate Hok |].
      destruct (String.eqb s "fail"); [eapply IH; eauto | discriminate Hok]. }
    destruct (String.eqb key "whenNotMatched"); [| discriminate Hok].
    destruct value as [| s | flds | items | b | | z | z]; try discriminate Hok.
    destruct (String.eqb s "insert"); [eapply IH; eauto |].
    destruct (String.eqb s "discard"); [eapply IH; eauto |].
    destruct (String.eqb s "fail"); [eapply IH; eauto | discriminate Hok].
Qed.

Lemma VaildateMergeOnFieldValues_id onValues collId w :
  on_is_id onValues = true ->
  VaildateMergeOnFieldValues onValues collId w = (Ok tt, w).
Proof.
  unfold on_is_id, VaildateMergeOnFieldValues. intros Hid.
  destruct onValues as [| s | flds | items | b | | z | z]; try discriminate Hid.
  - apply String.eqb_eq in Hid. subst s. reflexivity.
  - destruct items as [| [| s | flds | items | b | | z | z] [| second more]];
      try discriminate Hid.
    apply String.eqb_eq in Hid. subst s. reflexivity.
Qed.

(** X3. When a $merge specification leaves [on] out, the parsed [on] is
    the string "_id"; and an [on] that names _id alone passes
    [VaildateMergeOnFieldValues] for every target collection, whatever its
    indexes, without the catalog being read. *)
Theorem merge_on_defaults_to_id (v : bson_value_t) (ns : string) (args : MergeArgs) :
  ParseMergeStage v ns = Ok args ->
  (forall fields value, v = BsonDocument fields -> ~ List.In ("on", value) fields) ->
  on args = BsonUtf8 "_id" /\
  forall onValues collId w,
    on_is_id onValues = true ->
    VaildateMergeOnFieldValues onValues collId w = (Ok tt, w).
Proof.
  intros Hok Hno. split; [| intros; apply VaildateMergeOnFieldValues_id; assumption].
  unfold ParseMergeStage in Hok.
  destruct v as [| s | fields | items | b | | z | z]; try discriminate Hok.
  - injection Hok as <-. reflexivity.
  - apply bindR_ok_inv in Hok as ([args1 isOn] & Hfields & Hok).
    apply ParseMergeStage_fields_on_flag in Hfields;
      [| intros value; apply (Hno fields value eq_refl)].
    subst isOn. cbn beta iota in Hok.
    destruct (String.eqb (targetCollection args1) ""); [discriminate Hok |].
    cbn in Hok. injection Hok as <-. reflexivity.
Qed.

Lemma merge_on_defaults_to_id_witness :
  ParseMergeStage demo_merge "db.orders" =
  Ok (mkMergeArgs "db" "items" (BsonUtf8 "_id") WhenMatched_REPLACE
        WhenNotMatched_INSERT) /\
  VaildateMergeOnFieldValues (BsonUtf8 "_id") 2 demo_world = (Ok tt, demo_world).
Proof.
  split; [reflexivity |].
  refine (proj2 (merge_on_defaults_to_id demo_merge "db.orders" _ eq_refl _)
            (BsonUtf8 "_id") 2 demo_world eq_refl).
  intros fields value [= <-] [[=] | []].
Defined.

Lemma IsSingleUniqueIndexPresent_spec (f : string) (keyDocument : pgbson) :
  IsSingleUniqueIndexPresent f keyDocument = true <-> List.map fst keyDocument = [f].
Proof.
  unfold IsSingleUniqueIndexPresent, TryGetSinglePgbsonElementFromPgbson.
  destruct keyDocument as [| [k v] [| second more]]; cbn.
  - split; discriminate.
  - rewrite String.eqb_eq. split; [intros ->; reflexivity | intros [= ->]; reflexivity].
  - split; discriminate.
Qed.

(** The index loop finds an index exactly when the list holds a unique
    index without partial filter that the per-index test accepts. *)
Lemma VaildateMergeOnFieldValues_loop_spec indexes onValues keyName numKeys :
  VaildateMergeOnFieldValues_loop indexes onValues keyName numKeys = true <->
  exists ix,
    List.In ix indexes /\
    indexUnique (indexSpec ix) = BoolIndexOption_True /\
    indexPFEDocument (indexSpec ix) = None /\
    match keyName with
    | Some key => IsSingleUniqueIndexPresent key (indexKeyDocument (indexSpec ix))
    | None => IsCompoundUniqueIndexPresent onValues (indexKeyDocument (indexSpec ix))
                numKeys
    end = true.
Proof.
  induction indexes as [| ix rest IH]; cbn [VaildateMergeOnFieldValues_loop].
  - split; [discriminate | intros (ix & [] & _)].
  - destruct (indexUnique (indexSpec ix)) eqn:Hu;
      destruct (indexPFEDocument (indexSpec ix)) eqn:Hp; cbn [negb orb];
      try (rewrite IH; split;
           [ intros (ix' & Hin & H'); exists ix'; split; [right; exact Hin | exact H']
           | intros (ix' & [<- | Hin] & Hu' & Hp' & H');
             [congruence | exists ix'; auto] ]).
    destruct (match keyName with
              | Some key => IsSingleUniqueIndexPresent key (indexKeyDocument (indexSpec ix))
              | None => IsCompoundUniqueIndexPresent onValues
                          (indexKeyDocument (indexSpec ix)) numKeys
              end) eqn:Hfound.
    + split; [| reflexivity]. intros _. exists ix. split; [left; reflexivity |]. auto.
    + rewrite IH. split.
      * intros (ix' & Hin & H'). exists ix'. split; [right; exact Hin | exact H'].
      * intros (ix' & [<- | Hin] & Hu' & Hp' & H'); [congruence |].
        exists ix'. auto.
Qed.

Lemma in_CollectionIdGetIndexes collId w ix :
  List.In ix (List.filter (fun ix => index_collectionId ix =? collId) (catalogIndexes w)) <->
  List.In ix (catalogIndexes w) /\ index_collectionId ix = collId.
Proof. rewrite filter_In, Z.eqb_eq. reflexivity. Qed.

(** The outcome of the check off the [_id] fast path. *)
Lemma VaildateMergeOnFieldValues_run onValues collId w :
  on_is_field_list onValues = true ->
  on_is_id onValues = false ->
  let numKeys :=
    match onValues with
    | BsonArray _ => BsonDocumentValueCountKeys onValues
    | _ => 1
    end in
  let found :=
    VaildateMergeOnFieldValues_loop
      (if collId =? 0 then []
       else List.filter (fun ix => index_collectionId ix =? collId) (catalogIndexes w))
      onValues (on_single_field onValues) numKeys in
  fst (VaildateMergeOnFieldValues onValues collId w) =
  if found then Ok tt
  else Err MongoLocation51183
         "Cannot find index to verify that join fields will be unique" [].
Proof.
  intros Hwf Hid. cbv zeta. unfold VaildateMergeOnFieldValues.
  assert (Hkey :
    (if (match onValues with
         | BsonArray _ => BsonDocumentValueCountKeys onValues
         | _ => 1
         end =? 1)
     then match onValues with
          | BsonArray (onValue :: _) => Some (utf8_str onValue)
          | BsonUtf8 s => Some s
          | _ => None
          end
     else None) = on_single_field onValues).
  { destruct onValues as [| s | flds | items | b | | z | z]; try discriminate Hwf;
      [reflexivity |].
    destruct items as [| first [| second more]]; [discriminate Hwf | |].
    - cbn in Hwf. destruct first; try discriminate Hwf. reflexivity.
    - unfold BsonDocumentValueCountKeys. cbn [bson_iter_values length].
      destruct (Z.eqb_spec (Z.of_nat (S (S (length more)))) 1) as [Heq | _]; [lia |].
      cbn in Hwf. destruct first; try discriminate Hwf; reflexivity. }
  rewrite Hkey.
  assert (Hfast :
    (match onValues with
     | BsonArray _ => BsonDocumentValueCountKeys onValues
     | _ => 1
     end =? 1) &&
    match on_single_field onValues with
    | Some key => String.eqb key "_id"
    | None => false
    end = false).
  { destruct onValues as [| s | flds | items | b | | z | z]; try discriminate Hwf.
    - cbn in *. exact Hid.
    - destruct items as [| [| s | flds | items | b | | z | z] [| second more]];
        cbn in *; try discriminate Hwf; try exact Hid; apply andb_false_r. }
  rewrite Hfast. unfold bindM, CollectionIdGetIndexes, traced, retM, ereport, logged.
  destruct (collId =? 0); cbn [negb catalogIndexes];
    match goal with
    | |- context [VaildateMergeOnFieldValues_loop ?l ?o ?k ?n] =>
        destruct (VaildateMergeOnFieldValues_loop l o k n)
    end; reflexivity.
Qed.

(** X4. For an [on] that names one field other than _id,
    [VaildateMergeOnFieldValues] succeeds exactly when the target
    collection exists and has a unique index without partial filter whose
    only key is that field; otherwise it raises location 51183. *)
Theorem merge_on_single_field (onValues : bson_value_t) (f : string) (collId : Z)
    (w : World) :
  on_single_field onValues = Some f ->
  f <> "_id" ->
  (fst (VaildateMergeOnFieldValues onValues collId w) = Ok tt <->
   collId <> 0 /\
   exists ix, List.In ix (catalogIndexes w) /\ usable_unique_index collId ix /\
              index_keys ix = [f]) /\
  (fst (VaildateMergeOnFieldValues onValues collId w) = Ok tt \/
   fst (VaildateMergeOnFieldValues onValues collId w) =
   Err MongoLocation51183
     "Cannot find index to verify that join fields will be unique" []).
Proof.
  intros Hsingle Hf.
  assert (Hwf : on_is_field_list onValues = true).
  { destruct onValues as [| s | flds | items | b | | z | z]; try discriminate Hsingle;
      [reflexivity |].
    destruct items as [| [| s | flds | items | b | | z | z] [| second more]];
      try discriminate Hsingle. reflexivity. }
  assert (Hid : on_is_id onValues = false).
  { apply String.eqb_neq in Hf.
    destruct onValues as [| s | flds | items | b | | z | z]; try discriminate Hsingle.
    - injection Hsingle as ->. exact Hf.
    - destruct items as [| [| s | flds | items | b | | z | z] [| second more]];
        try discriminate Hsingle.
      injection Hsingle as ->. exact Hf. }
  rewrite (VaildateMergeOnFieldValues_run onValues collId w Hwf Hid), Hsingle.
  match goal with
  | |- context [VaildateMergeOnFieldValues_loop ?l ?o ?k ?n] =>
      pose proof (VaildateMergeOnFieldValues_loop_spec l o k n) as Hspec;
      destruct (VaildateMergeOnFieldValues_loop l o k n)
  end.
  - split; [| left; reflexivity]. split; [intros _ | reflexivity].
    destruct (proj1 Hspec eq_refl) as (ix & Hin & Hu & Hp & Hkeys).
    destruct (Z.eqb_spec collId 0) as [-> | Hne]; [destruct Hin |].
    apply in_CollectionIdGetIndexes in Hin as [Hin Hcoll].
    split; [exact Hne |]. exists ix. split; [exact Hin |].
    split; [split; [exact Hcoll | split; assumption] |].
    apply IsSingleUniqueIndexPresent_spec. exact Hkeys.
  - split; [| right; reflexivity]. split; [discriminate |].
    intros (Hne & ix & Hin & (Hcoll & Hu & Hp) & Hkeys). exfalso.
    enough (false = true) by discriminate. apply Hspec.
    exists ix. destruct (Z.eqb_spec collId 0) as [-> | _]; [contradiction |].
    split; [apply in_CollectionIdGetIndexes; auto |].
    split; [exact Hu |]. split; [exact Hp |].
    apply IsSingleUniqueIndexPresent_spec. exact Hkeys.
Qed.

Lemma merge_on_single_field_witness :
  let r := VaildateMergeOnFieldValues (BsonUtf8 "sku") 1 demo_world in
  fst r = Ok tt /\
  (fst r = Ok tt <->
   1 <> 0 /\
   exists ix, List.In ix (catalogIndexes demo_world) /\ usable_unique_index 1 ix /\
              index_keys ix = ["sku"]).
Proof.
  cbv zeta. split; [reflexivity |].
  refine (proj1 (merge_on_single_field (BsonUtf8 "sku") "sku" 1 demo_world eq_refl _)).
  discriminate.
Defined.

Lemma elem_of_fold_hash (items : list bson_value_t) (acc : gset string) (x : string) :
  x ∈ List.fold_left (fun hashTable el => {[utf8_str el]} ∪ hashTable) items acc <->
  x ∈ acc \/ x ∈ List.map utf8_str items.
Proof.
  revert acc. induction items as [| el rest IH]; intros acc; cbn [List.fold_left List.map].
  - rewrite elem_of_nil. tauto.
  - rewrite IH, elem_of_union, elem_of_singleton, elem_of_cons. tauto.
Qed.

Lemma elem_of_InitHashTableFromStringArray (names : list string) (x : string) :
  x ∈ InitHashTableFromStringArray (BsonArray (List.map BsonUtf8 names)) <-> x ∈ names.
Proof.
  unfold InitHashTableFromStringArray. cbn [bson_iter_values].
  rewrite elem_of_fold_hash, List.map_map. cbn [utf8_str]. rewrite List.map_id.
  rewrite elem_of_empty. tauto.
Qed.

(** The key loop counts the keys of the longest run of leading index keys
    that are in the hash set. *)
Lemma IsCompoundUniqueIndexPresent_loop_spec (hashTable : gset string)
    (keys : list string) (foundCount : Z) :
  exists m : nat,
    (m <= length keys)%nat /\
    IsCompoundUniqueIndexPresent_loop hashTable keys foundCount =
    foundCount + Z.of_nat m /\
    (forall k, k ∈ firstn m keys -> k ∈ hashTable) /\
    (forall k, nth_error keys m = Some k -> k ∉ hashTable).
Proof.
  revert foundCount. induction keys as [| key rest IH]; intros foundCount;
    cbn [IsCompoundUniqueIndexPresent_loop].
  - exists 0%nat. cbn. split; [lia |]. split; [lia |].
    split; [intros k Hk; apply elem_of_nil in Hk; destruct Hk | discriminate].
  - destruct (bool_decide (key ∈ hashTable)) eqn:Hin.
    + apply bool_decide_eq_true in Hin.
      destruct (IH (foundCount + 1)) as (m & Hm & Hcount & Hall & Hstop).
      exists (S m). cbn [length firstn nth_error]. split; [lia |].
      split; [rewrite Hcount; lia |]. split; [| exact Hstop].
      intros k Hk. apply elem_of_cons in Hk as [-> | Hk]; auto.
    + apply bool_decide_eq_false in Hin. exists 0%nat. cbn.
      split; [lia |]. split; [lia |].
      split; [intros k Hk; apply elem_of_nil in Hk; destruct Hk |].
      intros k [= <-]. exact Hin.
Qed.

(** With distinct [on] fields and distinct index keys, the compound test
    accepts an index exactly when its first keys, as many as there are
    [on] fields, are the [on] fields in some order. *)
Lemma IsCompoundUniqueIndexPresent_spec (names : list string) (keyDocument : pgbson) :
  NoDup names -> NoDup (List.map fst keyDocument) ->
  IsCompoundUniqueIndexPresent (BsonArray (List.map BsonUtf8 names)) keyDocument
    (Z.of_nat (length names)) = true <->
  firstn (length names) (List.map fst keyDocument) ≡ₚ names.
Proof.
  intros Hnames Hkeys. unfold IsCompoundUniqueIndexPresent.
  set (keys := List.map fst keyDocument) in *.
  set (hashTable := InitHashTableFromStringArray (BsonArray (List.map BsonUtf8 names))).
  destruct (IsCompoundUniqueIndexPresent_loop_spec hashTable keys 0)
    as (m & Hm & Hcount & Hall & Hstop).
  rewrite Hcount, Z.eqb_eq.
  assert (Hhash : forall k, k ∈ hashTable <-> k ∈ names)
    by (intros k; apply elem_of_InitHashTableFromStringArray).
  split.
  - intros Heq. assert (m = length names) by lia. subst m.
    apply submseteq_length_Permutation.
    + apply NoDup_submseteq.
      * rewrite <- (firstn_skipn (length names) keys) in Hkeys.
        apply NoDup_app in Hkeys. tauto.
      * intros k Hk. apply Hhash, Hall, Hk.
    + rewrite List.length_firstn. lia.
  - intros Hperm.
    assert (Hlen : (length names <= length keys)%nat).
    { apply Permutation_length in Hperm. rewrite List.length_firstn in Hperm. lia. }
    destruct (Nat.lt_trichotomy m (length names)) as [Hlt | [-> | Hgt]]; [| lia |]; exfalso.
    + destruct (nth_error keys m) as [k |] eqn:Hk;
        [| apply nth_error_None in Hk; lia].
      apply (Hstop k eq_refl), Hhash. rewrite <- Hperm.
      apply list_elem_of_In. rewrite <- (firstn_skipn m keys) in Hk.
      assert (Hidx : nth_error (firstn (length names) keys) m = Some k).
      { rewrite nth_error_firstn.
        destruct (Nat.ltb_spec m (length names)); [| lia].
        rewrite firstn_skipn in Hk. exact Hk. }
      eapply nth_error_In. exact Hidx.
    + destruct (nth_error keys (length names)) as [k |] eqn:Hk;
        [| apply nth_error_None in Hk; lia].
      assert (Hin_m : k ∈ firstn m keys).
      { apply list_elem_of_In. apply (nth_error_In _ (length names)).
        rewrite nth_error_firstn.
        destruct (Nat.ltb_spec (length names) m); [exact Hk | lia]. }
      assert (Hin_names : k ∈ firstn (length names) keys)
        by (rewrite Hperm; apply Hhash, Hall, Hin_m).
      rewrite <- (firstn_skipn (length names) keys) in Hkeys.
      apply NoDup_app in Hkeys as (_ & Hdisj & _).
      apply (Hdisj k Hin_names). apply list_elem_of_In.
      apply (nth_error_In _ 0). rewrite nth_error_skipn, Nat.add_0_r. exact Hk.
Qed.

(** X5. For two or more distinct [on] fields, over a catalog whose indexes
    have distinct keys, [VaildateMergeOnFieldValues] succeeds exactly when
    the target collection exists and has a unique index without partial
    filter whose first keys, as many as there are [on] fields, are the [on]
    fields in some order: the order of the fields does not matter, and
    keys that follow them in the index are not looked at. *)
Theorem merge_on_compound (names : list string) (collId : Z) (w : World) :
  (2 <= length names)%nat ->
  NoDup names ->
  (forall ix, List.In ix (catalogIndexes w) -> NoDup (index_keys ix)) ->
  fst (VaildateMergeOnFieldValues (BsonArray (List.map BsonUtf8 names)) collId w) =
  Ok tt <->
  collId <> 0 /\
  exists ix, List.In ix (catalogIndexes w) /\ usable_unique_index collId ix /\
             firstn (length names) (index_keys ix) ≡ₚ names.
Proof.
  intros Hlen Hnames Hkeys.
  destruct names as [| n1 [| n2 more]]; cbn [length] in Hlen; try lia.
  set (names := n1 :: n2 :: more) in *.
  assert (Hwf : on_is_field_list (BsonArray (List.map BsonUtf8 names)) = true).
  { cbn. clear. induction more as [| n rest IH]; [reflexivity | exact IH]. }
  assert (Hid : on_is_id (BsonArray (List.map BsonUtf8 names)) = false) by reflexivity.
  rewrite (VaildateMergeOnFieldValues_run _ collId w Hwf Hid).
  change (on_single_field (BsonArray (List.map BsonUtf8 names))) with (@None string).
  assert (Hcount : BsonDocumentValueCountKeys (BsonArray (List.map BsonUtf8 names)) =
                   Z.of_nat (length names)).
  { unfold BsonDocumentValueCountKeys. cbn [bson_iter_values].
    rewrite List.length_map. reflexivity. }
  rewrite Hcount.
  match goal with
  | |- context [VaildateMergeOnFieldValues_loop ?l ?o ?k ?n] =>
      pose proof (VaildateMergeOnFieldValues_loop_spec l o k n) as Hspec;
      destruct (VaildateMergeOnFieldValues_loop l o k n)
  end.
  - split; [intros _ | reflexivity].
    destruct (proj1 Hspec eq_refl) as (ix & Hin & Hu & Hp & Hfound).
    destruct (Z.eqb_spec collId 0) as [-> | Hne]; [destruct Hin |].
    apply in_CollectionIdGetIndexes in Hin as [Hin Hcoll].
    split; [exact Hne |]. exists ix. split; [exact Hin |].
    split; [split; [exact Hcoll | split; assumption] |].
    apply IsCompoundUniqueIndexPresent_spec in Hfound; auto.
    apply Hkeys. exact Hin.
  - split; [discriminate |].
    intros (Hne & ix & Hin & (Hcoll & Hu & Hp) & Hperm). exfalso.
    enough (false = true) by discriminate. apply Hspec.
    exists ix. destruct (Z.eqb_spec collId 0) as [-> | _]; [contradiction |].
    split; [apply in_CollectionIdGetIndexes; auto |].
    split; [exact Hu |]. split; [exact Hp |].
    apply IsCompoundUniqueIndexPresent_spec; auto. apply Hkeys. exact Hin.
Qed.

(** [on: ["b", "a"]] against the unique index on (a, b, c) of [orders]. *)
Lemma merge_on_compound_witness :
  fst (VaildateMergeOnFieldValues (BsonArray [BsonUtf8 "b"; BsonUtf8 "a"]) 1 demo_world) =
  Ok tt /\
  (fst (VaildateMergeOnFieldValues (BsonArray (List.map BsonUtf8 ["b"; "a"])) 1
          demo_world) = Ok tt <->
   1 <> 0 /\
   exists ix, List.In ix (catalogIndexes demo_world) /\ usable_unique_index 1 ix /\
              firstn (length ["b"; "a"]) (index_keys ix) ≡ₚ ["b"; "a"]).
Proof.
  split; [vm_compute; reflexivity |].
  apply (merge_on_compound ["b"; "a"] 1 demo_world).
  - cbn. lia.
  - apply (bool_decide_unpack _). vm_compute. exact I.
  - intros ix Hin. cbn in Hin.
    destruct Hin as [<- | [<- | [<- | []]]];
      apply (bool_decide_unpack _); vm_compute; exact I.
Defined.



(** ** The source columns of a $merge *)

Lemma RearrangeTargetListForMerge_loop_junk entries idx out idx' :
  RearrangeTargetListForMerge_loop entries idx true = Ok (out, idx') ->
  Forall (fun te => resjunk te = true) entries /\
  out = List.map shifted_junk_entry entries /\ idx' = idx.
Proof.
  revert out. induction entries as [| entry rest IH]; intros out Hok;
    cbn [RearrangeTargetListForMerge_loop] in Hok.
  - injection Hok as <- <-. auto.
  - destruct (resjunk entry) eqn:Hjunk; cbn [negb andb orb] in Hok;
      [| discriminate Hok].
    apply bindR_ok_inv in Hok as ([out1 idx1] & Hrest & Hok).
    injection Hok as <- <-. destruct (IH _ Hrest) as (Hall & -> & ->).
    split; [constructor; assumption |]. split; reflexivity.
Qed.

Lemma RearrangeTargetListForMerge_loop_split entries idx out idx' :
  RearrangeTargetListForMerge_loop entries idx false = Ok (out, idx') ->
  exists real junk,
    entries = (real ++ junk)%list /\
    Forall (fun te => resjunk te = false) real /\
    Forall (fun te => resjunk te = true) junk /\
    out = (real ++ List.map shifted_junk_entry junk)%list /\
    idx' = (idx + length real)%nat.
Proof.
  revert idx out. induction entries as [| entry rest IH]; intros idx out Hok;
    cbn [RearrangeTargetListForMerge_loop] in Hok.
  - injection Hok as <- <-. exists [], []. cbn. repeat split; auto; lia.
  - cbn [andb orb] in Hok. destruct (resjunk entry) eqn:Hjunk.
    + apply bindR_ok_inv in Hok as ([out1 idx1] & Hrest & Hok).
      injection Hok as <- <-.
      apply RearrangeTargetListForMerge_loop_junk in Hrest as (Hall & -> & ->).
      exists [], (entry :: rest). cbn. repeat split; auto; lia.
    + apply bindR_ok_inv in Hok as ([out1 idx1] & Hrest & Hok).
      injection Hok as <- <-.
      destruct (IH _ _ Hrest) as (real & junk & -> & Hreal & Hjunks & -> & ->).
      exists (entry :: real), junk. cbn. repeat split; auto; lia.
Qed.

Lemma column_numbers_S n : column_numbers (S n) = (column_numbers n ++ [Z.of_nat (S n)])%list.
Proof.
  unfold column_numbers. rewrite seq_S, List.map_app. reflexivity.
Qed.

Lemma RearrangeTargetListForMerge_ok_inv query targetColl isSourceAndTargetAreSame w
    query' attrNo w' :
  RearrangeTargetListForMerge query targetColl isSourceAndTargetAreSame w =
  (Ok (query', attrNo), w') ->
  isSourceAndTargetAreSame = false /\ w' = w.
Proof.
  unfold RearrangeTargetListForMerge. intros Hrun.
  destruct (targetList query) as [| first rest]; [discriminate Hrun |].
  destruct isSourceAndTargetAreSame; [discriminate Hrun |].
  apply bindM_ok_inv in Hrun as ([out idx] & w1 & Hloop & Hrun).
  unfold liftR in Hloop. apply pair_equal_spec in Hloop as [_ <-].
  injection Hrun as _ _ <-. auto.
Qed.

(** X7. When [RearrangeTargetListForMerge] succeeds, source and target
    differ and the world is untouched; the columns of the source query,
    with the first one wrapped in bson_dollar_merge_add_object_id, are real
    columns followed by junk columns; the result keeps the real columns,
    puts the target_shard_key_value column right after them, under the
    number it reports, and moves the junk columns one place to the right
    without their names.  Columns numbered 1, 2, ... stay so numbered. *)
Theorem RearrangeTargetListForMerge_columns (query : Query)
    (targetColl : MongoCollection) (isSourceAndTargetAreSame : bool) (w : World)
    (query' : Query) (attrNo : Z) (w' : World) :
  RearrangeTargetListForMerge query targetColl isSourceAndTargetAreSame w =
  (Ok (query', attrNo), w') ->
  isSourceAndTargetAreSame = false /\ w' = w /\
  exists first rest real junk,
    targetList query = first :: rest /\
    set_expr (makeFuncExpr BsonDollarMergeAddObjectIdFunctionOid BsonTypeId
                [expr first]) first :: rest = (real ++ junk)%list /\
    Forall (fun te => resjunk te = false) real /\
    Forall (fun te => resjunk te = true) junk /\
    attrNo = Z.of_nat (length real) + 1 /\
    targetList query' =
    (real ++ target_shard_key_entry targetColl attrNo ::
     List.map shifted_junk_entry junk)%list /\
    (List.map resno (targetList query) = column_numbers (length (targetList query)) ->
     List.map resno (targetList query') =
     column_numbers (S (length (targetList query)))).
Proof.
  unfold RearrangeTargetListForMerge. intros Hrun.
  destruct (targetList query) as [| first rest] eqn:Htl; [discriminate Hrun |].
  destruct isSourceAndTargetAreSame; [discriminate Hrun |].
  apply bindM_ok_inv in Hrun as ([out idx] & w1 & Hloop & Hrun).
  unfold liftR in Hloop. apply pair_equal_spec in Hloop as [Hloop <-].
  injection Hrun as <- <- <-.
  apply RearrangeTargetListForMerge_loop_split in Hloop
    as (real & junk & Hsplit & Hreal & Hjunk & -> & ->).
  split; [reflexivity |]. split; [reflexivity |].
  exists first, rest, real, junk.
  split; [reflexivity |]. split; [exact Hsplit |].
  split; [exact Hreal |]. split; [exact Hjunk |].
  cbn [Nat.add]. split; [reflexivity |].
  assert (Hinsert :
    list_insert_nth (real ++ List.map shifted_junk_entry junk) (length real)
      (target_shard_key_entry targetColl (Z.of_nat (length real) + 1)) =
    (real ++ target_shard_key_entry targetColl (Z.of_nat (length real) + 1) ::
     List.map shifted_junk_entry junk)%list).
  { unfold list_insert_nth.
    rewrite firstn_app, Nat.sub_diag, firstn_all, firstn_O, app_nil_r.
    rewrite skipn_app, Nat.sub_diag, skipn_all, skipn_O. reflexivity. }
  rewrite targetList_set_targetList.
  split; [exact Hinsert |].
  unfold target_shard_key_entry in Hinsert. rewrite Hinsert. clear Hinsert.
  intros Hnumbered.
  assert (Hresno : List.map resno (real ++ junk) =
                   column_numbers (length real + length junk)).
  { rewrite <- Hsplit. cbn [List.map length] in *.
    replace (length real + length junk)%nat with (S (length rest)).
    - destruct first. exact Hnumbered.
    - apply (f_equal (@length _)) in Hsplit. rewrite List.length_app in Hsplit.
      cbn [length] in Hsplit. lia. }
  unfold column_numbers in Hresno.
  rewrite List.map_app, seq_app, List.map_app in Hresno.
  apply app_inj_1 in Hresno as [Hr Hj];
    [| rewrite !List.length_map, length_seq; reflexivity].
  rewrite List.map_app. cbn [List.map makeTargetEntry resno length].
  rewrite Hr, List.map_map.
  assert (Hshift : List.map (fun te => resno (shifted_junk_entry te)) junk =
                   List.map (fun te => resno te + 1) junk).
  { apply List.map_ext. intros [e no name ref jk]. reflexivity. }
  rewrite Hshift, <- (List.map_map resno (fun z => z + 1)), Hj.
  unfold column_numbers.
  replace (S (S (length rest))) with (length real + S (length junk))%nat.
  2: { apply (f_equal (@length _)) in Hsplit. rewrite List.length_app in Hsplit.
       cbn [length] in Hsplit. lia. }
  rewrite seq_app, List.map_app. f_equal. cbn [seq List.map]. f_equal; [lia |].
  rewrite <- (seq_shift (length junk) (1 + length real)), !List.map_map.
  apply List.map_ext. intros n. lia.
Qed.

Lemma RearrangeTargetListForMerge_columns_witness :
  exists query' w',
    RearrangeTargetListForMerge (base_table_query demo_orders) demo_items false
      demo_world = (Ok (query', 2), w') /\
    List.map resno (targetList query') = column_numbers 2.
Proof.
  assert (Hrun : exists r,
            RearrangeTargetListForMerge (base_table_query demo_orders) demo_items false
              demo_world = r /\ is_ok (fst r) = true /\
            option_map snd (match fst r with Ok a => Some a | _ => None end) = Some 2)
    by (eexists; split; [reflexivity | split; vm_compute; reflexivity]).
  destruct Hrun as ([[[query' attrNo] | ? ? ?] w'] & Hr & Hok & Hattr);
    [| discriminate Hok].
  cbn in Hattr. injection Hattr as ->.
  exists query', w'. split; [exact Hr |].
  destruct (RearrangeTargetListForMerge_columns _ _ _ _ _ _ _ Hr)
    as (_ & _ & first & rest & real & junk & _ & _ & _ & _ & _ & _ & Hnum).
  apply Hnum. reflexivity.
Defined.

(** ** What a compiled $merge looks like *)

Lemma HandleMerge_target_ok args w target w' :
  HandleMerge_target args w = (Ok target, w') ->
  databaseName target = targetDB args /\
  collectionName target = targetCollection args /\
  shardKey target = None /\ viewDefinition target = None.
Proof.
  unfold HandleMerge_target. intros Hrun.
  apply bindM_ok_inv in Hrun as (found & w1 & Hfind & Hrun).
  unfold GetMongoCollectionOrViewByNameDatumWithLocalShard, traced in Hfind.
  apply pair_equal_spec in Hfind as [Hfind _].
  destruct found as [targetColl |].
  - injection Hfind as Hfind. apply find_some in Hfind as [_ Hname].
    apply andb_true_iff in Hname as [Hdb Hcoll].
    apply String.eqb_eq in Hdb, Hcoll.
    destruct (viewDefinition targetColl) eqn:Hview; [discriminate Hrun |].
    destruct (shardKey targetColl) eqn:Hshard; [discriminate Hrun |].
    apply bindM_ok_inv in Hrun as ([] & w2 & _ & Hrun).
    injection Hrun as <- <-. auto.
  - apply bindM_ok_inv in Hrun as (enabled & w2 & _ & Hrun).
    destruct enabled; [| discriminate Hrun].
    apply bindM_ok_inv in Hrun as ([] & w3 & _ & Hrun).
    unfold CreateCollectionForInsert, traced in Hrun.
    apply pair_equal_spec in Hrun as [Hrun _]. injection Hrun as <-.
    cbn. auto.
Qed.

Lemma VaildateMergeOnFieldValues_clock onValues collId w r w' :
  VaildateMergeOnFieldValues onValues collId w = (r, w') ->
  currentTimestamp w' = currentTimestamp w.
Proof.
  unfold VaildateMergeOnFieldValues. intros Hrun.
  match type of Hrun with
  | (if ?b then _ else _) _ = _ => destruct b
  end; [injection Hrun as <- <-; reflexivity |].
  unfold bindM in Hrun.
  destruct (negb (collId =? 0));
    unfold CollectionIdGetIndexes, traced, retM in Hrun; cbn beta iota in Hrun;
    match type of Hrun with
    | (if ?b then _ else _) _ = _ => destruct b
    end; injection Hrun as <- <-; reflexivity.
Qed.

Lemma HandleMerge_target_clock args w r w' :
  HandleMerge_target args w = (r, w') ->
  currentTimestamp w' = currentTimestamp w.
Proof.
  unfold HandleMerge_target. unfold bindM at 1.
  unfold GetMongoCollectionOrViewByNameDatumWithLocalShard, traced.
  intros Hrun.
  destruct (List.find _ _) as [targetColl |].
  - destruct (viewDefinition targetColl); [injection Hrun as <- <-; reflexivity |].
    destruct (shardKey targetColl); [injection Hrun as <- <-; reflexivity |].
    unfold bindM in Hrun.
    destruct (VaildateMergeOnFieldValues _ _ _) as [[[] | c f a] w1] eqn:Hvalid;
      apply VaildateMergeOnFieldValues_clock in Hvalid;
      injection Hrun as <- <-; exact Hvalid.
  - unfold bindM at 1, read_EnableMergeTargetCreation in Hrun.
    cbn [EnableMergeTargetCreation logged] in Hrun.
    destruct (EnableMergeTargetCreation w); [| injection Hrun as <- <-; reflexivity].
    unfold bindM in Hrun.
    destruct (VaildateMergeOnFieldValues _ _ _) as [[[] | c f a] w1] eqn:Hvalid;
      apply VaildateMergeOnFieldValues_clock in Hvalid;
      [| injection Hrun as <- <-; exact Hvalid].
    unfold CreateCollectionForInsert, traced in Hrun.
    injection Hrun as <- <-. exact Hvalid.
Qed.

(** What a successful run of [HandleMerge] over an existing source went
    through, and the plan it built. *)
Lemma HandleMerge_ok_inv (v : bson_value_t) (q : Query)
    (ctx : AggregationPipelineBuildContext) (w : World) (src : MongoCollection)
    (plan : Query) (ctx' : AggregationPipelineBuildContext) (w' : World) :
  HandleMerge v q ctx w = (Ok (plan, ctx'), w') ->
  mongoCollection ctx = Some src ->
  inTransactionBlock w = false /\ EnableMergeStage w = true /\
  Query_has_recursive_below q = false /\
  exists args target,
    ParseMergeStage v (namespaceName ctx) = Ok args /\
    databaseName target = targetDB args /\
    collectionName target = targetCollection args /\
    shardKey target = None /\ viewDefinition target = None /\
    collectionId target <> collectionId src /\
    commandType plan = CMD_MERGE /\ resultRelation plan = 1 /\
    (exists c1 sub c2,
       rtable plan =
       [RTE_RELATION (RelationOid ApiDataSchemaName (tableName target))
          RowExclusiveLock c1;
        RTE_SUBQUERY sub c2]) /\
    (exists notMatchedAction attrNo wa wb,
       matched notMatchedAction = false /\
       MakeActionWhenNotMatched (whenNotMatched args)
         (makeVar 2 1 BsonTypeId (-1) InvalidOid 0)
         (makeVar 2 attrNo INT8OID (-1) InvalidOid 0) target wa =
       (Ok notMatchedAction, wb) /\
       currentTimestamp wa = currentTimestamp w /\
       mergeActionList plan =
       [MakeActionWhenMatched (whenMatched args)
          (makeVar 2 1 BsonTypeId (-1) InvalidOid 0)
          (makeVar 1 2 BsonTypeId (-1) InvalidOid 0);
        notMatchedAction] /\
       jointree plan =
       Some (makeFromExpr [RangeTblRef 2]
               (Some (make_ands_explicit
                        (OpExpr PostgresInt4EqualOperatorOid InvalidOid BOOLOID
                           [makeVar 1 1 INT8OID (-1) InvalidOid 0;
                            makeVar 2 attrNo INT8OID (-1) InvalidOid 0] ::
                         List.map
                           (merge_on_condition (makeVar 2 1 BsonTypeId (-1) InvalidOid 0)
                              (makeVar 1 2 BsonTypeId (-1) InvalidOid 0))
                           (on_field_names (on args))))))).
Proof.
  unfold HandleMerge. intros Hrun Hsrc.
  apply bindM_ok_inv in Hrun as ([] & w1 & Hcount & Hrun).
  unfold ReportFeatureUsage in Hcount. injection Hcount as <-.
  apply bindM_ok_inv in Hrun as (versionOk & w2 & Hversion & Hrun).
  unfold IsClusterVersionAtleastThis in Hversion. cbn [clusterVersion] in Hversion.
  destruct (clusterVersion w) as [[major minor] patch].
  injection Hversion as <- <-.
  apply bindM_ok_inv in Hrun as (enabled & w3 & Henabled & Hrun).
  unfold read_EnableMergeStage in Henabled. cbn [EnableMergeStage] in Henabled.
  injection Henabled as <- <-.
  match type of Hrun with
  | (if negb (?b && _) then _ else _) _ = _ => destruct b; cbn [andb negb] in Hrun
  end; [| discriminate Hrun].
  destruct (EnableMergeStage w) eqn:Hstage; cbn [negb] in Hrun; [| discriminate Hrun].
  apply bindM_ok_inv in Hrun as (inTransaction & w4 & Htx & Hrun).
  unfold IsInTransactionBlock in Htx. cbn [inTransactionBlock] in Htx.
  injection Htx as <- <-.
  destruct (inTransactionBlock w) eqn:Htxn; [discriminate Hrun |].
  rewrite Hsrc in Hrun.
  apply bindM_ok_inv in Hrun as ([] & w5 & Hprev & Hrun).
  unfold ValidatePreviousStagesOfDollarMerge in Hprev.
  destruct (Query_has_recursive_below q) eqn:Hrec; [discriminate Hprev |].
  injection Hprev as <-.
  apply bindM_ok_inv in Hrun as (args & w6 & Hparse & Hrun).
  unfold liftR in Hparse. apply pair_equal_spec in Hparse as [Hparse <-].
  apply bindM_ok_inv in Hrun as (target & w7 & Htarget & Hrun).
  pose proof (HandleMerge_target_clock _ _ _ _ Htarget) as Hclock.
  cbn [currentTimestamp] in Hclock.
  apply HandleMerge_target_ok in Htarget as (Hdb & Hcoll & Hshard & Hview).
  split; [reflexivity |]. split; [reflexivity |]. split; [reflexivity |].
  exists args, target.
  split; [exact Hparse |]. split; [exact Hdb |]. split; [exact Hcoll |].
  split; [exact Hshard |]. split; [exact Hview |].
  rewrite Hshard in Hrun.
  apply bindM_ok_inv in Hrun as ([q1 attrNo] & w8 & Hrearrange & Hrun).
  apply RearrangeTargetListForMerge_ok_inv in Hrearrange as (Hsame & ->).
  apply Z.eqb_neq in Hsame.
  split; [exact Hsame |].
  apply bindM_ok_inv in Hrun as ([q2 ctx2] & w9 & Hmigrate & Hrun).
  apply bindM_ok_inv in Hrun as (q3 & w10 & Hadd & Hrun).
  apply bindM_ok_inv in Hrun as (notMatchedAction & w11 & Hnot & Hrun).
  apply bindM_ok_inv in Hrun as (q4 & w12 & Hjoin & Hrun).
  injection Hrun as <- <- <-.
  unfold MigrateQueryToSubQuery in Hmigrate.
  destruct (targetList q1) as [| tle rest]; [discriminate Hmigrate |].
  injection Hmigrate as <- <- <-.
  unfold AddTargetCollectionRTEDollarMerge in Hadd. cbn in Hadd.
  injection Hadd as <- <-.
  assert (Hflag : matched notMatchedAction = false).
  { unfold MakeActionWhenNotMatched in Hnot.
    destruct (whenNotMatched args); [| injection Hnot as <- _; reflexivity |];
      apply bindM_ok_inv in Hnot as (t & w13 & _ & Hnot);
      injection Hnot as <- _; reflexivity. }
  unfold WriteJoinConditionToQueryDollarMerge in Hjoin.
  assert (Hplan : commandType q4 = CMD_MERGE /\ resultRelation q4 = 1 /\
                  (exists c1 sub c2,
                     rtable q4 =
                     [RTE_RELATION (RelationOid ApiDataSchemaName (tableName target))
                        RowExclusiveLock c1;
                      RTE_SUBQUERY sub c2]) /\
                  mergeActionList q4 =
                  [MakeActionWhenMatched (whenMatched args)
                     (makeVar 2 1 BsonTypeId (-1) InvalidOid 0)
                     (makeVar 1 2 BsonTypeId (-1) InvalidOid 0);
                   notMatchedAction]).
  { destruct (on args); try discriminate Hjoin; injection Hjoin as <- <-;
      cbn; repeat split; eauto. }
  assert (Hjt : jointree q4 =
                Some (makeFromExpr [RangeTblRef 2]
                        (Some (make_ands_explicit
                                 (OpExpr PostgresInt4EqualOperatorOid InvalidOid BOOLOID
                                    [makeVar 1 1 INT8OID (-1) InvalidOid 0;
                                     makeVar 2 attrNo INT8OID (-1) InvalidOid 0] ::
                                  List.map
                                    (merge_on_condition
                                       (makeVar 2 1 BsonTypeId (-1) InvalidOid 0)
                                       (makeVar 1 2 BsonTypeId (-1) InvalidOid 0))
                                    (on_field_names (on args))))))).
  { destruct (on args); try discriminate Hjoin; injection Hjoin as <- <-;
      cbn [on_field_names]; rewrite ?List.map_map; reflexivity. }
  destruct Hplan as (Hcmd & Hrel & Hrt & Hacts).
  split; [exact Hcmd |]. split; [exact Hrel |]. split; [exact Hrt |].
  exists notMatchedAction, attrNo. do 2 eexists.
  split; [exact Hflag |]. split; [exact Hnot |]. split; [exact Hclock |].
  split; [exact Hacts | exact Hjt].
Qed.


(** X8. Whenever [HandleMerge] compiles a $merge over an existing source
    collection: the compilation is outside a transaction block and the
    stage is enabled; the input plan has no recursive query below its top;
    the target is the collection the specification names, it is neither a
    view nor sharded, and it is not the source; and the plan is a MERGE
    whose result relation is the first range-table entry, the data table of
    the target under a row-exclusive lock, whose second entry is the
    wrapped source query, and whose actions are one for matched rows
    followed by one for unmatched rows. *)
Theorem HandleMerge_compiles_only (v : bson_value_t) (q : Query)
    (ctx : AggregationPipelineBuildContext) (w : World) (src : MongoCollection)
    (plan : Query) (ctx' : AggregationPipelineBuildContext) (w' : World) :
  HandleMerge v q ctx w = (Ok (plan, ctx'), w') ->
  mongoCollection ctx = Some src ->
  inTransactionBlock w = false /\ EnableMergeStage w = true /\
  Query_has_recursive_below q = false /\
  exists args target,
    ParseMergeStage v (namespaceName ctx) = Ok args /\
    databaseName target = targetDB args /\
    collectionName target = targetCollection args /\
    shardKey target = None /\ viewDefinition target = None /\
    collectionId target <> collectionId src /\
    commandType plan = CMD_MERGE /\ resultRelation plan = 1 /\
    (exists c1 sub c2,
       rtable plan =
       [RTE_RELATION (RelationOid ApiDataSchemaName (tableName target))
          RowExclusiveLock c1;
        RTE_SUBQUERY sub c2]) /\
    List.map matched (mergeActionList plan) = [true; false].
Proof.
  intros Hrun Hsrc.
  destruct (HandleMerge_ok_inv _ _ _ _ _ _ _ _ Hrun Hsrc)
    as (Htx & Hstage & Hrec & args & target & Hparse & Hdb & Hcoll & Hshard & Hview &
        Hsame & Hcmd & Hrel & Hrt & notMatchedAction & attrNo & wa & wb & Hflag & _ & _ &
        Hacts & _).
  split; [exact Htx |]. split; [exact Hstage |]. split; [exact Hrec |].
  exists args, target. repeat (split; [assumption |]).
  rewrite Hacts. cbn [List.map]. rewrite Hflag.
  destruct (whenMatched args); reflexivity.
Qed.

Lemma HandleMerge_compiles_only_witness :
  exists plan ctx' w',
    HandleMerge demo_merge (base_table_query demo_orders)
      (top_context "db" "orders" (Some demo_orders)) demo_world =
    (Ok (plan, ctx'), w') /\
    commandType plan = CMD_MERGE /\ resultRelation plan = 1 /\
    List.map matched (mergeActionList plan) = [true; false].
Proof.
  assert (Hrun : exists r,
            HandleMerge demo_merge (base_table_query demo_orders)
              (top_context "db" "orders" (Some demo_orders)) demo_world = r /\
            is_ok (fst r) = true)
    by (eexists; split; [reflexivity | vm_compute; reflexivity]).
  destruct Hrun as ([[[plan ctx'] | ? ? ?] w'] & Hr & Hok); [| discriminate Hok].
  exists plan, ctx', w'. split; [exact Hr |].
  destruct (HandleMerge_compiles_only _ _ _ _ demo_orders _ _ _ Hr eq_refl)
    as (_ & _ & _ & args & target & _ & _ & _ & _ & _ & _ & Hcmd & Hrel & _ & Hacts).
  auto.
Defined.

(** ** $graphLookup before $merge *)

Lemma graphLookup_traversal_recursive rq tr :
  graphLookup_traversal rq = Some tr -> Query_has_recursive_below rq = true.
Proof.
  unfold graphLookup_traversal. intros Hread.
  destruct rq as [ct qs cst rr ha hs hd hr ctes rt jt mal tl dc sc so scr].
  cbn [rtable targetList] in Hread.
  destruct rt as [| [| dq c | | |] [| ? ?]]; try discriminate Hread.
  destruct tl as [| aggEntry [| ? ?]]; try discriminate Hread.
  destruct (cteList dq) as [| graphCte [| ? ?]]; try discriminate Hread.
  repeat match type of Hread with
         | match ?x with _ => _ end = Some _ =>
             destruct x eqn:?; try discriminate Hread
         end.
  match goal with
  | H : _ && hasRecursive dq && _ = true |- _ =>
      apply andb_true_iff in H as [H _]; apply andb_true_iff in H as [_ H];
      cbn [Query_has_recursive_below List.existsb RangeTblEntry_has_recursive];
      rewrite H
  end.
  cbn [orb]. rewrite !orb_true_r. reflexivity.
Qed.

Lemma graphLookup_subselect_recursive plan rq empty :
  graphLookup_subselect plan = Some (rq, empty) ->
  Query_has_recursive_below rq = true ->
  Query_has_recursive_below plan = true.
Proof.
  unfold graphLookup_subselect. intros Hread Hrq.
  destruct plan as [ct qs cst rr ha hs hd hr ctes rt jt mal tl dc sc so scr].
  cbn [cteList] in Hread.
  destruct ctes as [| baseCte [| stageCte [| ? ?]]]; try discriminate Hread.
  destruct stageCte as [name mat sq rec cnt cn cty ctm cc cyc].
  cbn [ctequery] in Hread.
  destruct sq as [stageQuery |]; [| discriminate Hread].
  destruct stageQuery
    as [ct' qs' cst' rr' ha' hs' hd' hr' ctes' rt' jt' mal' tl' dc' sc' so' scr'].
  cbn [targetList] in Hread.
  destruct tl' as [| t1 [| [e no nm ref jk] [| ? ?]]]; try discriminate Hread.
  cbn [expr] in Hread.
  repeat match type of Hread with
         | match ?x with _ => _ end = Some _ => destruct x; try discriminate Hread
         end.
  injection Hread as -> ->.
  cbn [Query_has_recursive_below List.existsb CommonTableExpr_has_recursive
       TargetEntry_has_recursive Expr_has_recursive].
  rewrite Hrq. rewrite ?orb_true_r. cbn [orb]. rewrite ?orb_true_r. reflexivity.
Qed.

(** X9. A plan [HandleGraphLookup] returns has a recursive query below its
    top, so [ValidatePreviousStagesOfDollarMerge] refuses it, and
    [HandleMerge] never compiles a $merge after a $graphLookup over an
    existing source collection: with the stage enabled and outside a
    transaction it fails with CommandNotSupported. *)
Theorem merge_after_graphLookup_fails `{Collaborators} (v : bson_value_t) (q : Query)
    (ctx : AggregationPipelineBuildContext) (w : World) (plan : Query)
    (ctx' : AggregationPipelineBuildContext) (w' : World) :
  HandleGraphLookup v q ctx w = (Ok (plan, ctx'), w') ->
  Query_has_recursive_below plan = true /\
  (forall w2,
     ValidatePreviousStagesOfDollarMerge plan w2 =
     (Err MongoCommandNotSupported
        "$graphLookup is not supported with $merge stage yet." [], w2)) /\
  (forall mergeSpec ctx2 w2 src,
     mongoCollection ctx2 = Some src ->
     is_ok (fst (HandleMerge mergeSpec plan ctx2 w2)) = false) /\
  (forall mergeSpec ctx2 w2 src,
     mongoCollection ctx2 = Some src ->
     fst (IsClusterVersionAtleastThis 1 19 0 w2) = Ok true ->
     EnableMergeStage w2 = true ->
     inTransactionBlock w2 = false ->
     fst (HandleMerge mergeSpec plan ctx2 w2) =
     Err MongoCommandNotSupported
       "$graphLookup is not supported with $merge stage yet." []).
Proof.
  intros Hrun.
  destruct (HandleGraphLookup_traversal _ _ _ _ _ _ _ Hrun)
    as (args & rq & _ & Hsub & Htr).
  assert (Hrec : Query_has_recursive_below plan = true).
  { eapply graphLookup_subselect_recursive; [exact Hsub |].
    eapply graphLookup_traversal_recursive. exact Htr. }
  split; [exact Hrec |]. split; [| split].
  - intros w2. unfold ValidatePreviousStagesOfDollarMerge. rewrite Hrec. reflexivity.
  - intros mergeSpec ctx2 w2 src Hsrc.
    destruct (HandleMerge mergeSpec plan ctx2 w2) as [[[plan2 ctx3] | c f a] w3] eqn:Hm;
      [| reflexivity].
    destruct (HandleMerge_ok_inv _ _ _ _ src _ _ _ Hm Hsrc) as (_ & _ & Hno & _).
    congruence.
  - intros mergeSpec ctx2 w2 src Hsrc Hver Hstage Htx.
    unfold HandleMerge. rewrite bindM_ReportFeatureUsage.
    unfold bindM at 1.
    assert (Hv : IsClusterVersionAtleastThis 1 19 0 (counted FEATURE_STAGE_MERGE w2) =
                 (Ok true, counted FEATURE_STAGE_MERGE w2)).
    { rewrite <- Hver. unfold IsClusterVersionAtleastThis.
      cbn [counted ReportFeatureUsage snd clusterVersion].
      destruct (clusterVersion w2) as [[a b] c]. reflexivity. }
    rewrite Hv. unfold bindM at 1, read_EnableMergeStage.
    cbn [counted ReportFeatureUsage snd EnableMergeStage]. rewrite Hstage.
    cbn [andb negb]. unfold bindM at 1, IsInTransactionBlock.
    cbn [inTransactionBlock]. rewrite Htx, Hsrc.
    unfold bindM at 1, ValidatePreviousStagesOfDollarMerge. rewrite Hrec.
    reflexivity.
Qed.

Lemma merge_after_graphLookup_fails_witness :
  exists plan ctx' w',
    @HandleGraphLookup (RefCollaborators 2) demo_graphLookup
      (base_table_query demo_orders) (top_context "db" "orders" (Some demo_orders))
      demo_world = (Ok (plan, ctx'), w') /\
    fst (HandleMerge demo_merge plan ctx' w') =
    Err MongoCommandNotSupported
      "$graphLookup is not supported with $merge stage yet." [].
Proof.
  assert (Hrun : exists r,
            @HandleGraphLookup (RefCollaborators 2) demo_graphLookup
              (base_table_query demo_orders)
              (top_context "db" "orders" (Some demo_orders)) demo_world = r /\
            is_ok (fst r) = true /\
            option_map (fun p => mongoCollection (snd p))
              (match fst r with Ok a => Some a | _ => None end) =
            Some (Some demo_orders) /\
            fst (IsClusterVersionAtleastThis 1 19 0 (snd r)) = Ok true /\
            EnableMergeStage (snd r) = true /\ inTransactionBlock (snd r) = false)
    by (eexists; split; [reflexivity | repeat split; vm_compute; reflexivity]).
  destruct Hrun as ([[[plan ctx'] | ? ? ?] w'] & Hr & Hok & Hctx & Hver & Hstage & Htx);
    [| discriminate Hok].
  cbn in Hctx, Hver, Hstage, Htx. injection Hctx as Hctx.
  exists plan, ctx', w'. split; [exact Hr |].
  exact (proj2 (proj2 (proj2
           (@merge_after_graphLookup_fails (RefCollaborators 2) _ _ _ _ _ _ _ Hr)))
           demo_merge ctx' w' demo_orders Hctx Hver Hstage Htx).
Defined.

(** ** The whenMatched function of a MERGE plan *)

Lemma filter_not_id_no_id (document : pgbson) :
  List.find (fun field => String.eqb (fst field) "_id")
    (List.filter (fun field => negb (String.eqb (fst field) "_id")) document) = None.
Proof.
  induction document as [| [key value] rest IH]; [reflexivity |].
  cbn [List.filter fst]. destruct (String.eqb key "_id") eqn:Hkey; cbn [negb];
    [exact IH |].
  cbn [List.find fst]. rewrite Hkey. exact IH.
Qed.

(** X10. When the whenMatched function returns a document for the action
    replace, that document is the _id of the target followed by the fields
    of the source other than _id, in their order: it has exactly one _id
    field, the target's own, which is not an array and has passed
    [ValidateIdField]; the _id of the source has no part in it; and its
    size is within the bound.  For every other action code the function
    raises an error. *)
Theorem when_matched_replace `{DocumentChecks} (sourceDocument targetDocument : pgbson)
    (action : Z) (finalDocument : pgbson) :
  command_bson_dollar_merge_handle_when_matched sourceDocument targetDocument action =
  Done finalDocument ->
  action = 0 /\
  (exists id rest,
     finalDocument = ("_id", id) :: rest /\
     rest = List.filter (fun field => negb (String.eqb (fst field) "_id")) sourceDocument /\
     List.find (fun field => String.eqb (fst field) "_id") rest = None /\
     match PgbsonInitIteratorAtPath_id targetDocument with
     | Some v =>
         id = v /\ bson_type_eqb (value_type v) BSON_TYPE_ARRAY = false /\
         ValidateIdField v = true
     | None => id = BsonEod
     end) /\
  PgbsonGetBsonSize finalDocument <= BSON_MAX_ALLOWED_SIZE /\
  forall otherSource,
    List.filter (fun field => negb (String.eqb (fst field) "_id")) otherSource =
    List.filter (fun field => negb (String.eqb (fst field) "_id")) sourceDocument ->
    command_bson_dollar_merge_handle_when_matched otherSource targetDocument action =
    Done finalDocument.
Proof.
  unfold command_bson_dollar_merge_handle_when_matched.
  cbn [WhenMatchedAction_value]. intros Hrun.
  destruct (Z.eqb_spec action 0) as [-> | Hne].
  2: { destruct (action =? 1); [discriminate Hrun |].
       destruct (action =? 3); [discriminate Hrun |].
       destruct ((action =? 4) || (action =? 5) || (action =? 2)); discriminate Hrun. }
  split; [reflexivity |].
  destruct (merge_replace sourceDocument targetDocument) as [doc | c f] eqn:Hreplace;
    [| discriminate Hrun].
  destruct (ValidateFinalPgbsonBeforeWriting (Some doc)) as [[] | c f] eqn:Hvalid;
    [| discriminate Hrun].
  injection Hrun as <-.
  assert (Hshape : exists id,
    doc = ("_id", id) ::
          List.filter (fun field => negb (String.eqb (fst field) "_id")) sourceDocument /\
    match PgbsonInitIteratorAtPath_id targetDocument with
    | Some v =>
        id = v /\ bson_type_eqb (value_type v) BSON_TYPE_ARRAY = false /\
        ValidateIdField v = true
    | None => id = BsonEod
    end).
  { unfold merge_replace in Hreplace.
    destruct (PgbsonInitIteratorAtPath_id targetDocument) as [v |];
      [| injection Hreplace as <-; eexists; split; reflexivity].
    destruct v; try discriminate Hreplace;
      match type of Hreplace with
      | (if negb ?b then _ else _) = _ =>
          destruct b eqn:Hcheck; [| discriminate Hreplace]
      end; injection Hreplace as <-; eexists; repeat split; auto. }
  destruct Hshape as (id & Hdoc & Hid).
  split; [| split].
  - exists id, (List.filter (fun field => negb (String.eqb (fst field) "_id")) sourceDocument).
    split; [exact Hdoc |]. split; [reflexivity |].
    split; [apply filter_not_id_no_id | exact Hid].
  - unfold ValidateFinalPgbsonBeforeWriting in Hvalid.
    destruct (PgbsonValidateInputBson (Some doc)); [| discriminate Hvalid].
    cbn [negb] in Hvalid.
    destruct (Z.ltb_spec BSON_MAX_ALLOWED_SIZE (PgbsonGetBsonSize doc));
      [discriminate Hvalid | lia].
  - intros otherSource Hsame. cbn [Z.eqb].
    assert (Hother : merge_replace otherSource targetDocument = Done doc)
      by (unfold merge_replace in *; rewrite Hsame; exact Hreplace).
    rewrite Hother, Hvalid. reflexivity.
Qed.

Lemma when_matched_replace_witness :
  let source := [("_id", BsonInt32 7); ("qty", BsonInt32 1)] in
  let target := [("_id", BsonInt32 9); ("qty", BsonInt32 0); ("old", BsonBool true)] in
  let final := [("_id", BsonInt32 9); ("qty", BsonInt32 1)] in
  @command_bson_dollar_merge_handle_when_matched lenient_checks source target 0 =
  Done final /\
  @command_bson_dollar_merge_handle_when_matched lenient_checks
    [("qty", BsonInt32 1); ("_id", BsonNull)] target 0 = Done final.
Proof.
  cbv zeta. split; [reflexivity |].
  apply (@when_matched_replace lenient_checks
           [("_id", BsonInt32 7); ("qty", BsonInt32 1)]
           [("_id", BsonInt32 9); ("qty", BsonInt32 0); ("old", BsonBool true)] 0
           [("_id", BsonInt32 9); ("qty", BsonInt32 1)] eq_refl).
  reflexivity.
Defined.

(** ** A compiled MERGE plan and the function it calls *)

Lemma ParseMergeStage_whenMatched (v : bson_value_t) (ns : string) (args : MergeArgs) :
  ParseMergeStage v ns = Ok args ->
  whenMatched args = WhenMatched_REPLACE \/
  whenMatched args = WhenMatched_KEEPEXISTING \/
  whenMatched args = WhenMatched_FAIL.
Proof.
  unfold ParseMergeStage. intros Hok.
  destruct v as [| s | fields | items | b | | z | z]; try discriminate Hok.
  - injection Hok as <-. left. reflexivity.
  - apply bindR_ok_inv in Hok as ([args1 isOn] & Hfields & Hok).
    apply ParseMergeStage_fields_invariant in Hfields as (_ & Hwm & _).
    2: { split; [discriminate |]. split; [left; reflexivity |].
         cbn. intros Hne. exfalso. apply Hne. reflexivity. }
    cbn beta iota in Hok.
    destruct (String.eqb (targetCollection args1) ""); [discriminate Hok |].
    destruct isOn; cbn in Hok; injection Hok as <-; exact Hwm.
Qed.

Lemma when_matched_replace_errors `{DocumentChecks} (sourceDocument targetDocument : pgbson)
    (code : RuntimeErrorCode) (fmt : string) :
  command_bson_dollar_merge_handle_when_matched sourceDocument targetDocument 0 =
  Raised code fmt ->
  code = MongoNotSingleValueField \/ code = MongoBsonObjectTooLarge \/
  exists callee, code = RaisedBy callee.
Proof.
  unfold command_bson_dollar_merge_handle_when_matched.
  cbn [Z.eqb WhenMatchedAction_value]. intros Hraised.
  destruct (merge_replace sourceDocument targetDocument) as [doc | c f] eqn:Hreplace.
  - destruct (ValidateFinalPgbsonBeforeWriting (Some doc)) as [[] | c f] eqn:Hvalid;
      [discriminate Hraised |].
    injection Hraised as -> ->.
    unfold ValidateFinalPgbsonBeforeWriting in Hvalid.
    destruct (negb _); [injection Hvalid as <- <-; eauto |].
    destruct (_ <? _); [injection Hvalid as <- <-; eauto | discriminate Hvalid].
  - injection Hraised as -> ->. unfold merge_replace in Hreplace.
    destruct (PgbsonInitIteratorAtPath_id targetDocument) as [[] |];
      try discriminate Hreplace;
      try (destruct (negb _); [| discriminate Hreplace]);
      injection Hreplace as <- <-; eauto.
Qed.

(** X11. The first action of a compiled $merge plan is the matched one:
    either it does nothing, or it is an update of the document column by
    the whenMatched function applied to the source document, the target
    document and the code of replace or of fail.  So the function, called
    by a compiled plan, never meets the codes it answers with an internal
    error or with command-not-supported. *)
Theorem merge_matched_action_code `{DocumentChecks} (v : bson_value_t) (q : Query)
    (ctx : AggregationPipelineBuildContext) (w : World) (src : MongoCollection)
    (plan : Query) (ctx' : AggregationPipelineBuildContext) (w' : World) :
  HandleMerge v q ctx w = (Ok (plan, ctx'), w') ->
  mongoCollection ctx = Some src ->
  exists matchedAction notMatchedAction,
    mergeActionList plan = [matchedAction; notMatchedAction] /\
    matched matchedAction = true /\ matched notMatchedAction = false /\
    ((ma_commandType matchedAction = CMD_NOTHING /\ ma_targetList matchedAction = [] /\
      matched_action_code matchedAction = None) \/
     (exists code,
        ma_commandType matchedAction = CMD_UPDATE /\
        matched_action_code matchedAction = Some code /\
        ma_targetList matchedAction =
        [makeTargetEntry
           (makeFuncExpr BsonDollarMergeHandleWhenMatchedFunctionOid BsonTypeId
              [makeVar 2 1 BsonTypeId (-1) InvalidOid 0;
               makeVar 1 2 BsonTypeId (-1) InvalidOid 0;
               Const INT4OID (DatumInt32 code)])
           MONGO_DATA_TABLE_DOCUMENT_VAR_ATTR_NUMBER (Some "document") false] /\
        (code = WhenMatchedAction_value WhenMatched_REPLACE \/
         code = WhenMatchedAction_value WhenMatched_FAIL) /\
        forall sourceDocument targetDocument fmt,
          command_bson_dollar_merge_handle_when_matched sourceDocument targetDocument code <>
          Raised (CompilerCode MongoInternalError) fmt /\
          command_bson_dollar_merge_handle_when_matched sourceDocument targetDocument code <>
          Raised (CompilerCode MongoCommandNotSupported) fmt)).
Proof.
  intros Hrun Hsrc.
  destruct (HandleMerge_ok_inv _ _ _ _ _ _ _ _ Hrun Hsrc)
    as (_ & _ & _ & args & target & Hparse & _ & _ & _ & _ & _ & _ & _ & _ &
        notMatchedAction & attrNo & wa & wb & Hnot & _ & _ & Hlist & _).
  apply ParseMergeStage_whenMatched in Hparse.
  eexists _, notMatchedAction. split; [exact Hlist |].
  destruct Hparse as [-> | [-> | ->]]; cbn [MakeActionWhenMatched].
  - split; [reflexivity |]. split; [exact Hnot |]. right. exists 0.
    repeat split; auto.
    all: intros Hraised; apply when_matched_replace_errors in Hraised;
      destruct Hraised as [Hc | [Hc | [callee Hc]]]; discriminate Hc.
  - split; [reflexivity |]. split; [exact Hnot |]. left. repeat split.
  - split; [reflexivity |]. split; [exact Hnot |]. right. exists 3.
    repeat split; auto; discriminate.
Qed.

Lemma merge_matched_action_code_witness :
  exists plan ctx' w' matchedAction notMatchedAction,
    HandleMerge demo_merge (base_table_query demo_orders)
      (top_context "db" "orders" (Some demo_orders)) demo_world =
    (Ok (plan, ctx'), w') /\
    mergeActionList plan = [matchedAction; notMatchedAction] /\
    matched matchedAction = true /\ matched notMatchedAction = false.
Proof.
  assert (Hrun : exists r,
            HandleMerge demo_merge (base_table_query demo_orders)
              (top_context "db" "orders" (Some demo_orders)) demo_world = r /\
            is_ok (fst r) = true)
    by (eexists; split; [reflexivity | vm_compute; reflexivity]).
  destruct Hrun as ([[[plan ctx'] | ? ? ?] w'] & Hr & Hok); [| discriminate Hok].
  destruct (@merge_matched_action_code lenient_checks _ _ _ _ demo_orders _ _ _ Hr eq_refl)
    as (matchedAction & notMatchedAction & Hlist & Hyes & Hno & _).
  exists plan, ctx', w', matchedAction, notMatchedAction. auto.
Defined.

(** X20. The second action of a compiled $merge plan is the one for
    unmatched rows.  For whenNotMatched discard it does nothing.  Otherwise
    it inserts four columns: the shard key value of the source row, the
    object id, the source document, and the creation time, which is the
    clock reading at compilation, under the column number the target
    records for it.  The object id is read from the _id of
    the source document for insert; for fail it is a call of the function
    that raises, so the first unmatched row aborts the statement. *)
Theorem merge_not_matched_action (v : bson_value_t) (q : Query)
    (ctx : AggregationPipelineBuildContext) (w : World) (src : MongoCollection)
    (plan : Query) (ctx' : AggregationPipelineBuildContext) (w' : World) :
  HandleMerge v q ctx w = (Ok (plan, ctx'), w') ->
  mongoCollection ctx = Some src ->
  exists args target matchedAction notMatchedAction attrNo,
    ParseMergeStage v (namespaceName ctx) = Ok args /\
    databaseName target = targetDB args /\
    collectionName target = targetCollection args /\
    mergeActionList plan = [matchedAction; notMatchedAction] /\
    matched notMatchedAction = false /\
    match whenNotMatched args with
    | WhenNotMatched_DISCARD =>
        ma_commandType notMatchedAction = CMD_NOTHING /\
        ma_targetList notMatchedAction = []
    | other =>
        ma_commandType notMatchedAction = CMD_INSERT /\
        List.map resname (ma_targetList notMatchedAction) =
        [Some "target_shard_key_value"; Some "object_id"; Some "document";
         Some "creation_time"] /\
        List.map resno (ma_targetList notMatchedAction) =
        [MONGO_DATA_TABLE_SHARD_KEY_VALUE_VAR_ATTR_NUMBER;
         MONGO_DATA_TABLE_OBJECT_ID_VAR_ATTR_NUMBER;
         MONGO_DATA_TABLE_DOCUMENT_VAR_ATTR_NUMBER;
         mongoDataCreationTimeVarAttrNumber target] /\
        List.map expr (ma_targetList notMatchedAction) =
        [makeVar 2 attrNo INT8OID (-1) InvalidOid 0;
         makeFuncExpr
           match other with
           | WhenNotMatched_INSERT => BsonGetValueFunctionOid
           | _ => BsonDollarMergeFailWhenNotMatchedFunctionOid
           end BsonTypeId
           [makeVar 2 1 BsonTypeId (-1) InvalidOid 0; MakeTextConst "_id"];
         makeVar 2 1 BsonTypeId (-1) InvalidOid 0;
         Const TIMESTAMPTZOID (DatumTimestampTz (currentTimestamp w))]
    end.
Proof.
  intros Hrun Hsrc.
  destruct (HandleMerge_ok_inv _ _ _ _ _ _ _ _ Hrun Hsrc)
    as (_ & _ & _ & args & target & Hparse & Hdb & Hcoll & _ & _ & _ & _ & _ & _ &
        notMatchedAction & attrNo & wa & wb & Hflag & Hmake & Hclock & Hlist & _).
  exists args, target. eexists _, notMatchedAction, attrNo.
  split; [exact Hparse |]. split; [exact Hdb |]. split; [exact Hcoll |].
  split; [exact Hlist |]. split; [exact Hflag |].
  unfold MakeActionWhenNotMatched in Hmake.
  destruct (whenNotMatched args).
  - apply bindM_ok_inv in Hmake as (t & w1 & Htime & Hmake).
    unfold GetCurrentTimestamp in Htime. injection Htime as <- <-.
    injection Hmake as <- _. rewrite Hclock. repeat split.
  - injection Hmake as <- _. split; reflexivity.
  - apply bindM_ok_inv in Hmake as (t & w1 & Htime & Hmake).
    unfold GetCurrentTimestamp in Htime. injection Htime as <- <-.
    injection Hmake as <- _. rewrite Hclock. repeat split.
Qed.

Lemma merge_not_matched_action_witness :
  exists plan ctx' w' matchedAction notMatchedAction,
    HandleMerge demo_merge (base_table_query demo_orders)
      (top_context "db" "orders" (Some demo_orders)) demo_world =
    (Ok (plan, ctx'), w') /\
    mergeActionList plan = [matchedAction; notMatchedAction] /\
    matched notMatchedAction = false.
Proof.
  assert (Hrun : exists r,
            HandleMerge demo_merge (base_table_query demo_orders)
              (top_context "db" "orders" (Some demo_orders)) demo_world = r /\
            is_ok (fst r) = true)
    by (eexists; split; [reflexivity | vm_compute; reflexivity]).
  destruct Hrun as ([[[plan ctx'] | ? ? ?] w'] & Hr & Hok); [| discriminate Hok].
  destruct (merge_not_matched_action _ _ _ _ demo_orders _ _ _ Hr eq_refl)
    as (args & target & matchedAction & notMatchedAction & attrNo & _ & _ & _ & Hlist &
        Hflag & _).
  exists plan, ctx', w', matchedAction, notMatchedAction. auto.
Defined.

(** ** The $graphLookup parser *)

Lemma graphLookup_field_ok name value s :
  graphLookup_field name value = Ok s ->
  value = BsonUtf8 s /\ starts_with_dollar s = false.
Proof.
  unfold graphLookup_field.
  destruct value as [| str | flds | items | b | | z | z]; try discriminate.
  destruct (starts_with_dollar str) eqn:Hd; [discriminate |].
  intros [= ->]. auto.
Qed.

Lemma ParseGraphLookupStage_fields_invariant fields args fromSpecified args' fromSpecified' :
  ParseGraphLookupStage_fields fields args fromSpecified = Ok (args', fromSpecified') ->
  graphLookup_args_invariant args fromSpecified ->
  graphLookup_args_invariant args' fromSpecified'.
Proof.
  revert args fromSpecified. induction fields as [| [key value] rest IH];
    intros args fromSpecified Hok Hinv; cbn [ParseGraphLookupStage_fields] in Hok.
  - injection Hok as <- <-. exact Hinv.
  - destruct Hinv as (Has & Hcf & Hct & Hdf & Hmax & Hrs & Hfrom).
    repeat match type of Hok with
    | (if String.eqb key ?k then _ else _) = _ => destruct (String.eqb key k)
    end.
    all: try discriminate Hok.
    all: try (apply bindR_ok_inv in Hok as (s & Hfield & Hok);
              apply graphLookup_field_ok in Hfield as [-> Hdollar]).
    all: try (apply (IH _ _ Hok); repeat split; cbn; auto; fail).
    + destruct value as [| str | flds | items | b | | z | z]; try discriminate Hok.
      apply (IH _ _ Hok). repeat split; cbn; auto. discriminate.
    + destruct (negb (BsonValueIsNumber value)); [discriminate Hok |].
      destruct (negb (IsBsonValueFixedInteger value)); [discriminate Hok |].
      destruct (Z.ltb_spec (BsonValueAsInt32 value) 0); [discriminate Hok |].
      apply (IH _ _ Hok). repeat split; cbn; auto.
    + destruct value as [| str | flds | items | b | | z | z]; try discriminate Hok.
      apply (IH _ _ Hok). repeat split; cbn; eauto.
Qed.

Lemma ParseGraphLookupStage_fields_frame fields args fromSpecified args' fromSpecified' :
  ParseGraphLookupStage_fields fields args fromSpecified = Ok (args', fromSpecified') ->
  graphLookup_args_frame (List.map fst fields) args fromSpecified args' fromSpecified' /\
  List.forallb (fun field => graphLookup_known_key (fst field)) fields = true.
Proof.
  revert args fromSpecified. induction fields as [| [key value] rest IH];
    intros args fromSpecified Hok; cbn [ParseGraphLookupStage_fields] in Hok.
  - injection Hok as <- <-. split; [| reflexivity]. repeat split; reflexivity.
  - cbn [List.map List.forallb fst]. unfold graphLookup_known_key at 1.
    repeat match type of Hok with
    | (if String.eqb key ?k then _ else _) = _ =>
        let Hk := fresh "Hk" in
        destruct (String.eqb key k) eqn:Hk;
        [apply String.eqb_eq in Hk; subst key |]
    end.
    all: try discriminate Hok.
    all: try (apply bindR_ok_inv in Hok as (s & Hfield & Hok)).
    all: try (destruct value as [| str | flds | items | b | | z | z];
              try discriminate Hok; [idtac]).
    all: try (destruct (negb (BsonValueIsNumber value)); [discriminate Hok |];
              destruct (negb (IsBsonValueFixedInteger value)); [discriminate Hok |];
              destruct (BsonValueAsInt32 value <? 0); [discriminate Hok |]).
    all: destruct (IH _ _ Hok) as [(F1 & F2 & F3 & F4 & F5 & F6 & F7 & F8 & F9) Hkeys];
      split; [| cbn; exact Hkeys].
    all: unfold graphLookup_args_frame; cbn [List.In] in *.
    all: repeat match goal with |- _ /\ _ => split end.
    all: try (rewrite F9; reflexivity).
    all: intros Hnot.
    all: try (exfalso; apply Hnot; left; reflexivity).
    all: first [ rewrite F1 by tauto | rewrite F2 by tauto | rewrite F3 by tauto
               | rewrite F4 by tauto
               | (destruct F5 as [F5a F5b]; [tauto |]; rewrite F5a, F5b)
               | rewrite F6 by tauto
               | rewrite F7 by tauto | rewrite F8 by tauto ];
      try split; reflexivity.
Qed.

(** X12. A $graphLookup specification [ParseGraphLookupStage] accepts is a
    document whose keys are all among the eight known ones and include as,
    from, startWith, connectFromField and connectToField.  The parsed as,
    from, connectFromField and connectToField are not empty; no field-path
    argument starts with a dollar sign; startWith has a value; maxDepth is
    not negative, and is INT32_MAX when the key is absent; depthField is
    empty when its key is absent; restrictSearchWithMatch is absent or a
    document; and the connect-from expression is the connectFromField path
    behind a dollar sign. *)
Theorem ParseGraphLookupStage_accepts (v : bson_value_t) (args : GraphLookupArgs) :
  ParseGraphLookupStage v = Ok args ->
  exists fields,
    v = BsonDocument fields /\
    List.forallb (fun field => graphLookup_known_key (fst field)) fields = true /\
    (forall key, List.In key graphLookup_required_keys ->
                 List.In key (List.map fst fields)) /\
    asField args <> "" /\ fromCollection args <> "" /\
    connectFromField args <> "" /\ connectToField args <> "" /\
    starts_with_dollar (asField args) = false /\
    starts_with_dollar (connectFromField args) = false /\
    starts_with_dollar (connectToField args) = false /\
    starts_with_dollar (depthField args) = false /\
    bson_type_eqb (value_type (inputExpression args)) BSON_TYPE_EOD = false /\
    0 <= maxDepth args /\
    (~ List.In "maxDepth" (List.map fst fields) -> maxDepth args = INT32_MAX) /\
    (~ List.In "depthField" (List.map fst fields) -> depthField args = "") /\
    (restrictSearch args = BsonEod \/ exists d, restrictSearch args = BsonDocument d) /\
    connectFromFieldExpression args =
    BsonUtf8 (String.append "$" (connectFromField args)).
Proof.
  unfold ParseGraphLookupStage. intros Hok.
  destruct v as [| s | fields | items | b | | z | z]; try discriminate Hok.
  exists fields. split; [reflexivity |].
  apply bindR_ok_inv in Hok as ([args1 fromSpecified] & Hfields & Hok).
  pose proof (ParseGraphLookupStage_fields_frame _ _ _ _ _ Hfields)
    as [(F1 & F2 & F3 & F4 & F5 & F6 & F7 & F8 & F9) Hkeys].
  apply ParseGraphLookupStage_fields_invariant in Hfields
    as (Has & Hcf & Hct & Hdf & Hmax & Hrs & Hfrom).
  2: { repeat split; cbn; auto. unfold INT32_MAX. lia. }
  cbn [fst snd] in Hok. unfold ParseGraphLookupStage_finish in Hok.
  destruct (String.eqb (asField args1) "") eqn:Eas; [discriminate Hok |].
  destruct fromSpecified; cbn [negb] in Hok; [| discriminate Hok].
  destruct (String.eqb (fromCollection args1) "") eqn:Efrom; [discriminate Hok |].
  destruct (bson_type_eqb (value_type (inputExpression args1)) BSON_TYPE_EOD) eqn:Estart;
    [discriminate Hok |].
  destruct (String.eqb (connectFromField args1) "") eqn:Ecf; [discriminate Hok |].
  destruct (String.eqb (connectToField args1) "") eqn:Ect; [discriminate Hok |].
  cbn [orb] in Hok. injection Hok as <-. cbn.
  apply String.eqb_neq in Eas, Efrom, Ecf, Ect.
  split; [exact Hkeys |]. split.
  { intros key Hin.
    destruct (List.in_dec string_dec key (List.map fst fields)) as [Hyes | Hno];
      [exact Hyes | exfalso].
    cbn in Hin. destruct Hin as [<- | [<- | [<- | [<- | [<- | []]]]]].
    - apply Eas. rewrite (F1 Hno). reflexivity.
    - destruct (F5 Hno) as [_ [=]].
    - rewrite (F2 Hno) in Estart. discriminate Estart.
    - apply Ecf. rewrite (F3 Hno). reflexivity.
    - apply Ect. rewrite (F4 Hno). reflexivity. }
  do 10 (split; [assumption |]).
  split; [exact F6 |]. split; [exact F7 |]. split; [exact Hrs | reflexivity].
Qed.

Lemma ParseGraphLookupStage_accepts_witness :
  exists args,
    ParseGraphLookupStage demo_graphLookup = Ok args /\
    asField args <> "" /\ fromCollection args <> "" /\
    0 <= maxDepth args /\
    connectFromFieldExpression args =
    BsonUtf8 (String.append "$" (connectFromField args)).
Proof.
  assert (Hrun : exists r, ParseGraphLookupStage demo_graphLookup = r /\ is_ok r = true)
    by (eexists; split; [reflexivity | vm_compute; reflexivity]).
  destruct Hrun as ([args | ? ? ?] & Hr & Hok); [| discriminate Hok].
  exists args. split; [exact Hr |].
  destruct (ParseGraphLookupStage_accepts _ _ Hr)
    as (fields & _ & _ & _ & Has & Hfrom & _ & _ & _ & _ & _ & _ & _ & Hmax & _ & _ & _ & Hexpr).
  auto.
Defined.

(** ** The $lookup parser *)

Lemma ParseLookupStage_pipeline_ok stages :
  ParseLookupStage_pipeline stages = Ok tt ->
  List.forallb single_field_stage stages && negb (has_stage lookup_forbidden stages) = true.
Proof.
  induction stages as [| stage rest IH]; intros Hok; [reflexivity |].
  cbn [ParseLookupStage_pipeline] in Hok.
  apply bindR_ok_inv in Hok as ([name arg] & Hstage & Hok).
  cbn [fst] in Hok.
  destruct (String.eqb name "$out" || String.eqb name "$merge") eqn:Hbad;
    [discriminate Hok |].
  apply IH in Hok. apply andb_true_iff in Hok as [Hwf Hnone].
  unfold GetPipelineStage in Hstage.
  destruct stage as [| s | [| [n a] [| more]] | items | b | | z | z];
    try discriminate Hstage.
  cbn in Hstage. injection Hstage as -> ->.
  cbn [List.forallb single_field_stage has_stage List.existsb stage_name].
  unfold lookup_forbidden at 1. rewrite Hbad, Hwf. cbn [andb orb].
  exact Hnone.
Qed.

Lemma ParseLookupStage_fields_invariant fields args args' :
  ParseLookupStage_fields fields args = Ok args' ->
  lookup_pipeline_accepted (pipeline args) = true ->
  lookup_pipeline_accepted (pipeline args') = true /\
  hasLookupMatch args' = hasLookupMatch args /\
  List.forallb (fun field => lookup_known_key (fst field)) fields = true /\
  (~ List.In "as" (List.map fst fields) -> lookupAs args' = lookupAs args) /\
  (~ List.In "from" (List.map fst fields) -> from args' = from args) /\
  (~ List.In "foreignField" (List.map fst fields) -> foreignField args' = foreignField args) /\
  (~ List.In "localField" (List.map fst fields) -> localField args' = localField args) /\
  (~ List.In "pipeline" (List.map fst fields) -> pipeline args' = pipeline args).
Proof.
  revert args. induction fields as [| [key value] rest IH];
    intros args Hok Hinv; cbn [ParseLookupStage_fields] in Hok.
  - injection Hok as <-. repeat split; auto.
  - cbn [List.map List.forallb fst]. unfold lookup_known_key at 1.
    repeat match type of Hok with
    | (if String.eqb key ?k then _ else _) = _ =>
        let Hk := fresh "Hk" in
        destruct (String.eqb key k) eqn:Hk;
        [apply String.eqb_eq in Hk; subst key |]
    end.
    all: try discriminate Hok.
    all: try (destruct value as [| str | flds | items | b | | z | z];
              try discriminate Hok; [idtac]).
    all: try (apply bindR_ok_inv in Hok as ([] & Htype & Hok);
              apply bindR_ok_inv in Hok as ([] & Hstages & Hok);
              cbn [bson_iter_values] in Hstages;
              apply ParseLookupStage_pipeline_ok in Hstages).
    all: apply IH in Hok; [| first [exact Hinv | exact Hstages]].
    all: destruct Hok as (Hp & Hm & Hkeys & F1 & F2 & F3 & F4 & F5).
    all: cbn [lookupAs from foreignField localField pipeline hasLookupMatch] in *.
    all: split; [exact Hp |]; split; [exact Hm |]; split; [exact Hkeys |].
    all: cbn [List.In]; repeat split; intros Hnot.
    all: try (exfalso; apply Hnot; left; reflexivity).
    all: first [apply F1 | apply F2 | apply F3 | apply F4 | apply F5]; tauto.
Qed.

(** X13. A $lookup specification [ParseLookupStage] accepts is a document
    whose keys are all among as, from, localField, foreignField and
    pipeline, with as among them and not empty.  localField and
    foreignField are both empty or both not, and the match flag is set
    exactly when they are not.  The pipeline is absent, or an array of
    single-field stage documents none of which is $out or $merge; without
    a pipeline, from and both fields are given. *)
Theorem ParseLookupStage_accepts (v : bson_value_t) (args : LookupArgs) :
  ParseLookupStage v = Ok args ->
  exists fields,
    v = BsonDocument fields /\
    List.forallb (fun field => lookup_known_key (fst field)) fields = true /\
    List.In "as" (List.map fst fields) /\ lookupAs args <> "" /\
    (foreignField args = "" <-> localField args = "") /\
    (hasLookupMatch args = true <-> foreignField args <> "") /\
    lookup_pipeline_accepted (pipeline args) = true /\
    (~ List.In "pipeline" (List.map fst fields) -> pipeline args = BsonEod) /\
    (pipeline args = BsonEod ->
     from args <> "" /\ foreignField args <> "" /\ localField args <> "" /\
     List.In "from" (List.map fst fields) /\
     List.In "foreignField" (List.map fst fields) /\
     List.In "localField" (List.map fst fields)).
Proof.
  unfold ParseLookupStage. intros Hok.
  destruct v as [| s | fields | items | b | | z | z]; try discriminate Hok.
  exists fields. split; [reflexivity |].
  apply bindR_ok_inv in Hok as (args1 & Hfields & Hok).
  cbn [bson_iter_fields] in Hfields.
  apply ParseLookupStage_fields_invariant in Hfields
    as (Hp & Hm & Hkeys & F1 & F2 & F3 & F4 & F5); [| reflexivity].
  cbn in Hm, F1, F2, F3, F4, F5.
  unfold ParseLookupStage_finish in Hok.
  destruct (String.eqb (lookupAs args1) "") eqn:Eas; [discriminate Hok |].
  apply String.eqb_neq in Eas.
  assert (Hshape :
    lookupAs args = lookupAs args1 /\ from args = from args1 /\
    foreignField args = foreignField args1 /\ localField args = localField args1 /\
    pipeline args = pipeline args1 /\
    hasLookupMatch args = negb (String.eqb (foreignField args1) "") /\
    String.eqb (foreignField args1) "" = String.eqb (localField args1) "" /\
    (bson_type_eqb (value_type (pipeline args1)) BSON_TYPE_EOD = true ->
     String.eqb (from args1) "" = false /\ String.eqb (foreignField args1) "" = false)).
  { destruct (bson_type_eqb (value_type (pipeline args1)) BSON_TYPE_EOD);
      destruct (String.eqb (from args1) ""); destruct (String.eqb (foreignField args1) "");
      destruct (String.eqb (localField args1) ""); cbn in Hok; try discriminate Hok;
      injection Hok as <-; cbn; rewrite ?Hm; repeat split; auto; discriminate. }
  destruct Hshape as (-> & -> & -> & -> & -> & -> & Hboth & Hnone).
  split; [exact Hkeys |]. split.
  { destruct (List.in_dec string_dec "as" (List.map fst fields)) as [Hyes | Hno];
      [exact Hyes | exfalso; apply Eas, F1, Hno]. }
  split; [exact Eas |]. split.
  { rewrite <- !String.eqb_eq. rewrite Hboth. tauto. }
  split.
  { rewrite negb_true_iff. rewrite <- String.eqb_neq. tauto. }
  split; [exact Hp |]. split; [exact F5 |].
  intros Heod. rewrite Heod in Hnone. destruct (Hnone eq_refl) as [Hfrom Hforeign].
  assert (Hlocal : String.eqb (localField args1) "" = false) by (rewrite <- Hboth; exact Hforeign).
  apply String.eqb_neq in Hfrom, Hforeign, Hlocal.
  repeat split; auto.
  - destruct (List.in_dec string_dec "from" (List.map fst fields)) as [Hyes | Hno];
      [exact Hyes | exfalso; apply Hfrom, F2, Hno].
  - destruct (List.in_dec string_dec "foreignField" (List.map fst fields)) as [Hyes | Hno];
      [exact Hyes | exfalso; apply Hforeign, F3, Hno].
  - destruct (List.in_dec string_dec "localField" (List.map fst fields)) as [Hyes | Hno];
      [exact Hyes | exfalso; apply Hlocal, F4, Hno].
Qed.

Lemma ParseLookupStage_accepts_witness :
  exists args,
    ParseLookupStage
      (BsonDocument [("from", BsonUtf8 "items"); ("localField", BsonUtf8 "sku");
                     ("foreignField", BsonUtf8 "sku"); ("as", BsonUtf8 "found")]) =
    Ok args /\
    lookupAs args <> "" /\ hasLookupMatch args = true /\ from args <> "".
Proof.
  assert (Hrun : exists r,
            ParseLookupStage
              (BsonDocument [("from", BsonUtf8 "items"); ("localField", BsonUtf8 "sku");
                             ("foreignField", BsonUtf8 "sku"); ("as", BsonUtf8 "found")]) =
            r /\ is_ok r = true /\
            option_map pipeline (match r with Ok a => Some a | _ => None end) =
            Some BsonEod)
    by (eexists; split; [reflexivity | split; vm_compute; reflexivity]).
  destruct Hrun as ([args | ? ? ?] & Hr & Hok & Hpipe); [| discriminate Hok].
  cbn in Hpipe. injection Hpipe as Hpipe.
  exists args. split; [exact Hr |].
  destruct (ParseLookupStage_accepts _ _ Hr)
    as (fields & _ & _ & _ & Has & _ & Hmatch & _ & _ & Hnone).
  destruct (Hnone Hpipe) as (Hfrom & Hforeign & _).
  split; [exact Has |]. split; [apply Hmatch; exact Hforeign | exact Hfrom].
Defined.

(** ** $unionWith *)

Lemma ParseUnionWith_fields_ok fields coll0 pipeline0 coll pipelineValue :
  ParseUnionWith_fields fields coll0 pipeline0 = Ok (coll, pipelineValue) ->
  (coll = coll0 \/ List.In ("coll", BsonUtf8 coll) fields) /\
  ((pipelineValue = pipeline0 /\ ~ List.In "pipeline" (List.map fst fields)) \/
   (exists stages, pipelineValue = BsonArray stages) /\
   List.In ("pipeline", pipelineValue) fields) /\
  List.forallb
    (fun field => String.eqb (fst field) "coll" || String.eqb (fst field) "pipeline")
    fields = true.
Proof.
  revert coll0 pipeline0. induction fields as [| [key value] rest IH];
    intros coll0 pipeline0 Hok; cbn [ParseUnionWith_fields] in Hok.
  - injection Hok as <- <-. cbn. tauto.
  - cbn [List.forallb List.map fst List.In].
    destruct (String.eqb key "coll") eqn:Hcoll.
    { apply String.eqb_eq in Hcoll. subst key.
      apply bindR_ok_inv in Hok as ([] & Htype & Hok).
      destruct value as [| s | flds | items | b | | z | z]; try discriminate Htype.
      apply IH in Hok as (Hc & Hp & Hkeys). split; [| split; [| exact Hkeys]].
      - destruct Hc as [-> | Hin]; auto.
      - destruct Hp as [[-> Hno] | [Harr Hin]]; [left | right; auto].
        split; [reflexivity |]. intros [[=] | Hin]. auto. }
    destruct (String.eqb key "pipeline") eqn:Hpipe; [| discriminate Hok].
    apply String.eqb_eq in Hpipe. subst key.
    apply bindR_ok_inv in Hok as ([] & Htype & Hok).
    destruct value as [| s | flds | items | b | | z | z]; try discriminate Htype.
    apply IH in Hok as (Hc & Hp & Hkeys). split; [| split; [| exact Hkeys]].
    + destruct Hc as [-> | Hin]; auto.
    + right. destruct Hp as [[-> Hno] | [Harr Hin]]; eauto.
Qed.

(** X14. What [ParseUnionWith] accepts: a string, taken as the collection
    with no pipeline (the empty string too); or a document with no key
    other than coll and pipeline, in which coll is a string field and not
    empty, and pipeline is absent or an array field.  The stages of the
    pipeline are not looked at. *)
Theorem ParseUnionWith_accepts (v : bson_value_t) (coll : string)
    (pipelineValue : bson_value_t) :
  ParseUnionWith v = Ok (coll, pipelineValue) ->
  (v = BsonUtf8 coll /\ pipelineValue = BsonEod) \/
  (exists fields,
     v = BsonDocument fields /\
     List.forallb
       (fun field => String.eqb (fst field) "coll" || String.eqb (fst field) "pipeline")
       fields = true /\
     coll <> "" /\ List.In ("coll", BsonUtf8 coll) fields /\
     ((pipelineValue = BsonEod /\ ~ List.In "pipeline" (List.map fst fields)) \/
      (exists stages, pipelineValue = BsonArray stages) /\
      List.In ("pipeline", pipelineValue) fields)).
Proof.
  unfold ParseUnionWith. intros Hok.
  destruct v as [| s | fields | items | b | | z | z]; try discriminate Hok.
  - injection Hok as <- <-. left. auto.
  - right. exists fields. split; [reflexivity |].
    apply bindR_ok_inv in Hok as ([coll1 pipeline1] & Hfields & Hok).
    cbn [fst] in Hok.
    destruct (String.eqb coll1 "") eqn:Hempty; [discriminate Hok |].
    injection Hok as <- <-. apply String.eqb_neq in Hempty.
    apply ParseUnionWith_fields_ok in Hfields as (Hc & Hp & Hkeys).
    split; [exact Hkeys |]. split; [exact Hempty |].
    split; [destruct Hc as [-> | Hin]; [contradiction | exact Hin] | exact Hp].
Qed.

Lemma ParseUnionWith_accepts_witness :
  ParseUnionWith (BsonUtf8 "") = Ok ("", BsonEod) /\
  exists fields,
    BsonDocument [("pipeline", BsonArray [BsonNull]); ("coll", BsonUtf8 "items")] =
    BsonDocument fields /\
    List.In ("coll", BsonUtf8 "items") fields /\
    List.In ("pipeline", BsonArray [BsonNull]) fields.
Proof.
  split; [reflexivity |].
  destruct (ParseUnionWith_accepts
              (BsonDocument [("pipeline", BsonArray [BsonNull]); ("coll", BsonUtf8 "items")])
              "items" (BsonArray [BsonNull]) eq_refl)
    as [[[=] _] | (fields & Hv & _ & _ & Hcoll & [[[=] _] | [_ Hpipe]])].
  exists fields. auto.
Defined.

Lemma ValidateUnionWithPipeline_stages_rejects stages :
  has_stage unionWith_forbidden stages = true ->
  is_ok (ValidateUnionWithPipeline_stages stages) = false /\
  (List.forallb single_field_stage stages = true ->
   exists fmt, ValidateUnionWithPipeline_stages stages = Err MongoLocation31441 fmt []).
Proof.
  induction stages as [| stage rest IH]; intros Hex; [discriminate Hex |].
  cbn [has_stage List.existsb] in Hex. cbn [ValidateUnionWithPipeline_stages List.forallb].
  destruct stage as [| s | [| [name arg] [| more]] | items | b | | z | z];
    cbn in Hex |- *; try (split; [reflexivity | discriminate]);
    try (destruct (IH Hex) as [_ _]; split; [reflexivity | discriminate]).
  unfold unionWith_forbidden in Hex.
  destruct (String.eqb name "$out"); [split; eauto |].
  destruct (String.eqb name "$merge"); [split; eauto |].
  cbn [orb] in Hex. exact (IH Hex).
Qed.

(** X15. A $unionWith whose pipeline holds a $out or $merge stage is
    never compiled: [HandleUnionWith] fails, with location 31441 when the
    base query of the other collection can be built and the stages are
    stage documents.  The refusal comes after that base query has been
    asked for, at one nesting level below, and before the sub-pipeline is
    handed to the stage dispatcher: the world is left as the base-query
    builder left it. *)
Theorem unionWith_rejects_output_stages `{Collaborators} (v : bson_value_t) (q : Query)
    (ctx : AggregationPipelineBuildContext) (w : World) (coll : string)
    (pipelineValue : bson_value_t) :
  ParseUnionWith v = Ok (coll, pipelineValue) ->
  has_stage unionWith_forbidden (bson_iter_values pipelineValue) = true ->
  let base :=
    GenerateBaseTableQuery (databaseNameDatum ctx) coll (derived_context ctx 1)
      (logged (CallGenerateBaseTableQuery (databaseNameDatum ctx) coll)
         (counted FEATURE_STAGE_UNIONWITH w)) in
  is_ok (fst (HandleUnionWith v q ctx w)) = false /\
  snd (HandleUnionWith v q ctx w) = snd base /\
  (is_ok (fst base) = true ->
   List.forallb single_field_stage (bson_iter_values pipelineValue) = true ->
   err_code (fst (HandleUnionWith v q ctx w)) = Some MongoLocation31441).
Proof.
  intros Hparse Hbad base.
  assert (Hne : bson_type_eqb (value_type pipelineValue) BSON_TYPE_EOD = false)
    by (destruct pipelineValue; try reflexivity; discriminate Hbad).
  destruct (ValidateUnionWithPipeline_stages_rejects _ Hbad) as [Hfail Hcode].
  assert (Hrun : exists c f a,
            HandleUnionWith v q ctx w = (Err c f a, snd base) /\
            (is_ok (fst base) = true ->
             List.forallb single_field_stage (bson_iter_values pipelineValue) = true ->
             c = MongoLocation31441)).
  { subst base. unfold HandleUnionWith, counted.
    unfold bindM at 1. unfold ReportFeatureUsage at 1.
    unfold bindM at 1. unfold liftR at 1. rewrite Hparse.
    rewrite Hne. cbn [negb].
    unfold bindM at 1. unfold bindM at 1. unfold traced at 1.
    unfold ReportFeatureUsage.
    destruct (GenerateBaseTableQuery _ _ _ _) as [[[rightQuery subCtx] | c f a] w1];
      [| exists c, f, a; split; [reflexivity | discriminate]].
    unfold bindM at 1. unfold liftR at 1. unfold ValidateUnionWithPipeline.
    destruct (ValidateUnionWithPipeline_stages (bson_iter_values pipelineValue))
      as [[] | c f a] eqn:Hvalid; [discriminate Hfail |].
    exists c, f, a. split; [reflexivity |]. intros _ Hwf.
    destruct (Hcode Hwf) as (fmt & [= -> _ _]). reflexivity. }
  destruct Hrun as (c & f & a & -> & Hc). cbn [fst snd is_ok err_code].
  split; [reflexivity |]. split; [reflexivity |].
  intros Hbase Hwf. rewrite (Hc Hbase Hwf). reflexivity.
Qed.

Lemma unionWith_rejects_output_stages_witness :
  let v :=
    BsonDocument [("coll", BsonUtf8 "items");
                  ("pipeline", BsonArray [BsonDocument [("$out", BsonUtf8 "copy")]])] in
  let r :=
    @HandleUnionWith (RefCollaborators 2) v (base_table_query demo_orders)
      (top_context "db" "orders" (Some demo_orders)) demo_world in
  is_ok (fst r) = false /\ err_code (fst r) = Some MongoLocation31441.
Proof.
  cbv zeta.
  destruct (@unionWith_rejects_output_stages (RefCollaborators 2)
              (BsonDocument [("coll", BsonUtf8 "items");
                             ("pipeline",
                              BsonArray [BsonDocument [("$out", BsonUtf8 "copy")]])])
              (base_table_query demo_orders)
              (top_context "db" "orders" (Some demo_orders)) demo_world
              "items" (BsonArray [BsonDocument [("$out", BsonUtf8 "copy")]])
              eq_refl eq_refl) as (Hfail & _ & Hcode).
  split; [exact Hfail |]. apply Hcode; vm_compute; reflexivity.
Defined.

(** ** The UNION ALL of the $facet branches *)

Lemma facet_setop_loop_full refs l r insertLeft :
  setop_union_all l = true -> setop_union_all r = true ->
  List.forallb setop_union_all refs = true ->
  exists l' r',
    facet_setop_loop refs (Some l) (Some r) insertLeft = (Some l', Some r') /\
    setop_union_all l' = true /\ setop_union_all r' = true /\
    Permutation (setop_leaves l' ++ setop_leaves r')
      (setop_leaves l ++ setop_leaves r ++ List.flat_map setop_leaves refs).
Proof.
  revert l r insertLeft. induction refs as [| ref rest IH];
    intros l r insertLeft Hl Hr Hrefs.
  - exists l, r. cbn. rewrite app_nil_r. auto.
  - cbn [List.forallb] in Hrefs. apply andb_true_iff in Hrefs as [Href Hrest].
    cbn [facet_setop_loop List.flat_map]. destruct insertLeft.
    + destruct (IH (SetOperationStmt SETOP_UNION true (Some l) (Some ref)
                      [BsonTypeId] [-1] [InvalidOid]) r false)
        as (l' & r' & Hloop & Hl' & Hr' & Hperm); auto.
      { cbn. rewrite Hl, Href. reflexivity. }
      exists l', r'. repeat split; auto. rewrite Hperm. cbn [setop_leaves].
      rewrite <- !app_assoc. apply Permutation_app_head.
      rewrite !app_assoc. apply Permutation_app_tail, Permutation_app_comm.
    + destruct (IH l (SetOperationStmt SETOP_UNION true (Some r) (Some ref)
                        [BsonTypeId] [-1] [InvalidOid]) true)
        as (l' & r' & Hloop & Hl' & Hr' & Hperm); auto.
      { cbn. rewrite Hr, Href. reflexivity. }
      exists l', r'. repeat split; auto. rewrite Hperm. cbn [setop_leaves].
      rewrite <- !app_assoc. reflexivity.
Qed.

(** X16. The set-operation tree [BuildFacetUnionAllQuery] builds over the
    branch references is a proper UNION ALL tree exactly when there are at
    least two references (with fewer, an argument of the root is missing);
    and then its leaves are the references, each one once. *)
Theorem facet_setop_tree_leaves (refs : list SetOpNode) :
  List.forallb setop_union_all refs = true ->
  (setop_union_all (facet_setop_tree refs) = true <-> (2 <= length refs)%nat) /\
  ((2 <= length refs)%nat ->
   Permutation (setop_leaves (facet_setop_tree refs))
     (List.flat_map setop_leaves refs)).
Proof.
  intros Hrefs. unfold facet_setop_tree.
  destruct refs as [| first [| second rest]].
  - cbn. split; [split; [discriminate | lia] | lia].
  - cbn. split; [split; [discriminate | lia] | lia].
  - cbn [List.forallb] in Hrefs.
    apply andb_true_iff in Hrefs as [Hfirst Hrefs].
    apply andb_true_iff in Hrefs as [Hsecond Hrest].
    cbn [facet_setop_loop].
    destruct (facet_setop_loop_full rest first second false Hfirst Hsecond Hrest)
      as (l' & r' & -> & Hl' & Hr' & Hperm).
    cbn [setop_union_all setop_leaves List.flat_map length].
    rewrite Hl', Hr'. split; [split; [lia | reflexivity] |].
    intros _. exact Hperm.
Qed.

Lemma facet_setop_tree_leaves_witness :
  Permutation
    (setop_leaves (facet_setop_tree (range_table_refs 0 5))) [1; 2; 3; 4; 5].
Proof.
  apply (facet_setop_tree_leaves (range_table_refs 0 5) eq_refl). cbn. lia.
Defined.

(** ** The plan of a $facet *)

Lemma ValidateFacet_branches_count fields n m :
  ValidateFacet_branches fields n = Ok m -> m = n + Z.of_nat (length fields).
Proof.
  revert n. induction fields as [| [key branch] rest IH]; intros n Hok;
    cbn [ValidateFacet_branches] in Hok.
  - injection Hok as <-. cbn. lia.
  - apply bindR_ok_inv in Hok as ([] & _ & Hok).
    apply bindR_ok_inv in Hok as ([] & _ & Hok).
    apply IH in Hok. cbn [length]. lia.
Qed.

Lemma ValidateFacet_ok v n :
  ValidateFacet v = Ok n ->
  exists fields, v = BsonDocument fields /\ n = Z.of_nat (length fields) /\ n <> 0.
Proof.
  unfold ValidateFacet. intros Hok.
  destruct v as [| s | fields | items | b | | z | z]; try discriminate Hok.
  apply bindR_ok_inv in Hok as (m & Hcount & Hok).
  apply ValidateFacet_branches_count in Hcount.
  destruct (Z.eqb_spec m 0); [discriminate Hok |]. injection Hok as <-.
  exists fields. cbn [bson_iter_fields] in Hcount. repeat split; [lia | assumption].
Qed.

Lemma CreateCteSelectQuery_cte cte prefix stageNumber levelsUp :
  snd (CreateCteSelectQuery cte prefix stageNumber levelsUp) =
  set_cterefcount (cterefcount cte + 1) cte.
Proof. reflexivity. Qed.

Lemma set_cterefcount_fields n cte :
  ctename (set_cterefcount n cte) = ctename cte /\
  ctequery (set_cterefcount n cte) = ctequery cte /\
  ctematerialized (set_cterefcount n cte) = ctematerialized cte /\
  cterefcount (set_cterefcount n cte) = n.
Proof. destruct cte. repeat split. Qed.

Lemma facet_branch_ok `{Collaborators} cte db sort nestedStage pathView branchPipeline w
    entry innerQuery cte' w' :
  facet_branch cte db sort nestedStage pathView branchPipeline w =
  (Ok (entry, innerQuery, cte'), w') ->
  cte' = set_cterefcount (cterefcount cte + 1) cte /\
  entry = MakeSubQueryRte innerQuery nestedStage 0 "facetinput" false.
Proof.
  unfold facet_branch. intros Hrun.
  pose proof (CreateCteSelectQuery_cte cte "facetsub" nestedStage 2) as Hcte.
  destruct (CreateCteSelectQuery cte "facetsub" nestedStage 2) as [baseQuery cte1].
  cbn [snd] in Hcte. subst cte1.
  apply bindM_ok_inv in Hrun as ([inner1 ctx1] & w1 & _ & Hrun).
  apply bindM_ok_inv in Hrun as ([inner2 ctx2] & w2 & _ & Hrun).
  injection Hrun as <- <- <- <-. split; reflexivity.
Qed.

Lemma facet_branches_ok `{Collaborators} fields cte db sort nestedStage rt refs first w
    rt' refs' first' cte' w' :
  facet_branches fields cte db sort nestedStage rt refs first w =
  (Ok (rt', refs', first', cte'), w') ->
  (exists new,
     rt' = (rt ++ new)%list /\ length new = length fields /\
     List.Forall (fun entry => match entry with RTE_SUBQUERY _ _ => True | _ => False end)
       new) /\
  refs' = (refs ++ range_table_refs (length rt) (length fields))%list /\
  ctename cte' = ctename cte /\ ctequery cte' = ctequery cte /\
  ctematerialized cte' = ctematerialized cte /\
  cterefcount cte' = cterefcount cte + Z.of_nat (length fields) /\
  match first with
  | Some _ => first' = first
  | None =>
      match fields with
      | [] => first' = None
      | _ :: _ => exists innerQuery, first' = Some (innerQuery, Z.of_nat (S (length rt)))
      end
  end.
Proof.
  revert cte nestedStage rt refs first w.
  induction fields as [| [pathView branchPipeline] rest IH];
    intros cte nestedStage rt refs first w Hrun; cbn [facet_branches] in Hrun.
  - injection Hrun as <- <- <- <- <-. unfold range_table_refs. cbn.
    rewrite app_nil_r, Z.add_0_r.
    split; [exists []; rewrite app_nil_r; auto |].
    repeat split; auto. destruct first; reflexivity.
  - apply bindM_ok_inv in Hrun as ([[entry innerQuery] cte1] & w1 & Hbranch & Hrun).
    apply facet_branch_ok in Hbranch as [-> ->].
    apply IH in Hrun
      as ((new & -> & Hlen & Hsub) & Hrefs & Hname & Hquery & Hmat & Hcount & Hfirst).
    destruct (set_cterefcount_fields (cterefcount cte + 1) cte)
      as (Ename & Equery & Emat & Ecount).
    rewrite length_app in Hrefs, Hfirst. cbn [length] in *.
    split.
    { eexists (_ :: new). rewrite <- app_assoc. split; [reflexivity |].
      split; [cbn; lia |]. constructor; [exact I | exact Hsub]. }
    split.
    { rewrite Hrefs, <- app_assoc, Nat.add_1_r. reflexivity. }
    split; [congruence |]. split; [congruence |]. split; [congruence |].
    split; [rewrite Hcount, Ecount; lia |].
    destruct first as [x |]; [exact Hfirst |].
    rewrite Hfirst, Nat.add_1_r. eexists. reflexivity.
Qed.

Lemma AddBsonObjectAggFunction_rtable q c w q' c' w' :
  AddBsonObjectAggFunction q c w = (Ok (q', c'), w') ->
  rtable q' = [MakeSubQueryRte q (stageNum c) 0 "agg" (expandTargetList c)].
Proof.
  unfold AddBsonObjectAggFunction, MigrateQueryToSubQuery. intros Hrun.
  destruct (targetList q) as [| tle rest] eqn:Htl; [discriminate Hrun |].
  unfold bindM, retM in Hrun. cbn in Hrun. injection Hrun as <- <- <-. reflexivity.
Qed.

Lemma BuildFacetUnionAllQuery_ok `{Collaborators} numStages fields cte source db sort w
    finalQuery cte' w' :
  BuildFacetUnionAllQuery numStages (BsonDocument fields) cte source db sort w =
  (Ok (finalQuery, cte'), w') ->
  numStages = Z.of_nat (length fields) -> numStages <> 0 ->
  ctename cte' = ctename cte /\ ctequery cte' = ctequery cte /\
  ctematerialized cte' = ctematerialized cte /\
  cterefcount cte' = cterefcount cte + numStages /\
  ((2 <= length fields)%nat ->
   length (rtable finalQuery) = length fields /\
   List.Forall (fun entry => match entry with RTE_SUBQUERY _ _ => True | _ => False end)
     (rtable finalQuery) /\
   setOperations finalQuery =
   Some (facet_setop_tree (range_table_refs 0 (length fields))) /\
   exists leftMost,
     targetList finalQuery =
     [makeTargetEntry (makeVar 1 (resno leftMost) BsonTypeId (-1) InvalidOid 0)
        (resno leftMost) (resname leftMost) false]).
Proof.
  unfold BuildFacetUnionAllQuery. intros Hrun Hn Hne.
  destruct (Z.eqb_spec numStages 1) as [H1 | H1].
  - destruct fields as [| [path branchPipeline] [| more rest]]; cbn [length] in Hn; try lia.
    cbn [TryGetBsonValueToPgbsonElement] in Hrun.
    pose proof (CreateCteSelectQuery_cte cte "facetsub" numStages 0) as Hcte.
    destruct (CreateCteSelectQuery cte "facetsub" numStages 0) as [baseQuery cte1].
    cbn [snd] in Hcte. subst cte1.
    apply bindM_ok_inv in Hrun as ([m1 c1] & w1 & _ & Hrun).
    apply bindM_ok_inv in Hrun as ([m2 c2] & w2 & _ & Hrun).
    injection Hrun as <- <- <-.
    destruct (set_cterefcount_fields (cterefcount cte + 1) cte) as (-> & -> & -> & ->).
    rewrite H1. do 4 (split; [reflexivity |]). cbn [length]. lia.
  - apply bindM_ok_inv in Hrun as ([[[rt refs] first] cte1] & w1 & Hloop & Hrun).
    cbn [bson_iter_fields] in Hloop.
    apply facet_branches_ok in Hloop
      as ((new & -> & Hlen & Hsub) & -> & Hname & Hquery & Hmat & Hcount & Hfirst).
    cbn [app length] in *.
    destruct fields as [| field rest]; [cbn in Hn; lia |].
    destruct Hfirst as (innerQuery & ->).
    destruct (targetList innerQuery) as [| leftMost others] eqn:Htl; [discriminate Hrun |].
    injection Hrun as <- <- <-.
    split; [exact Hname |]. split; [exact Hquery |]. split; [exact Hmat |].
    split; [rewrite Hcount, Hn; reflexivity |].
    intros _. split; [exact Hlen |]. split; [exact Hsub |]. split; [reflexivity |].
    exists leftMost. reflexivity.
Qed.

(** X17. The plan of a compiled $facet: the stage is at the top level of
    the pipeline; the specification is a document with at least one
    branch; the plan carries exactly one CTE, named facet_base, whose body
    is the input plan (unless that had several columns and was wrapped)
    and which is scanned once per branch; and the plan reads from one
    subquery.  With two branches or more that subquery has one subquery
    entry per branch and combines the entries 1 to n in the UNION ALL tree
    of [BuildFacetUnionAllQuery]. *)
Theorem facet_plan_shape `{Collaborators} (v : bson_value_t) (q : Query)
    (ctx : AggregationPipelineBuildContext) (w : World)
    (plan : Query) (ctx' : AggregationPipelineBuildContext) (w' : World) :
  HandleFacet v q ctx w = (Ok (plan, ctx'), w') ->
  nestedPipelineLevel ctx <= 0 /\
  exists fields cte body inner c,
    v = BsonDocument fields /\ fields <> [] /\
    cteList plan = [cte] /\ ctename cte = "facet_base" /\
    ctequery cte = Some body /\
    (has_multiple_projectors q = false -> body = q) /\
    cterefcount cte = Z.of_nat (length fields) /\
    rtable plan = [RTE_SUBQUERY inner c] /\
    ((2 <= length fields)%nat ->
     length (rtable inner) = length fields /\
     List.Forall (fun entry => match entry with RTE_SUBQUERY _ _ => True | _ => False end)
       (rtable inner) /\
     setOperations inner = Some (facet_setop_tree (range_table_refs 0 (length fields)))).
Proof.
  unfold HandleFacet. intros Hrun.
  apply bindM_ok_inv in Hrun as ([] & w1 & _ & Hrun).
  destruct (Z.ltb_spec 0 (nestedPipelineLevel ctx)) as [Hlevel | Hlevel];
    [discriminate Hrun |].
  split; [exact Hlevel |].
  apply bindM_ok_inv in Hrun as ([q1 ctx1] & w2 & Hwrap & Hrun).
  apply bindM_ok_inv in Hrun as (numStages & w3 & Hvalid & Hrun).
  unfold liftR in Hvalid. injection Hvalid as Hvalid <-.
  apply ValidateFacet_ok in Hvalid as (fields & -> & Hn & Hne).
  apply bindM_ok_inv in Hrun as ([finalQuery cte1] & w4 & Hbuild & Hrun).
  apply bindM_ok_inv in Hrun as ([final2 ctx2] & w5 & Hagg & Hrun).
  injection Hrun as <- <- <-.
  apply AddBsonObjectAggFunction_rtable in Hagg.
  apply BuildFacetUnionAllQuery_ok in Hbuild
    as (Hname & Hquery & Hmat & Hcount & Hmany); [| exact Hn | exact Hne].
  exists fields, cte1, q1. do 2 eexists.
  split; [reflexivity |]. split; [intros ->; apply Hne; exact Hn |].
  split; [destruct final2; reflexivity |].
  split; [rewrite Hname; reflexivity |].
  split; [rewrite Hquery; reflexivity |].
  split.
  { intros Hsingle. rewrite Hsingle in Hwrap. injection Hwrap as <- _ _. reflexivity. }
  split; [rewrite Hcount, Hn; cbn; lia |].
  split; [destruct final2; exact Hagg |].
  intros Hmore. destruct (Hmany Hmore) as (Hlen & Hsub & Hset & _). auto.
Qed.

Lemma facet_plan_shape_witness :
  exists plan ctx' w' cte inner c,
    @HandleFacet (RefCollaborators 2) demo_facet (base_table_query demo_orders)
      (top_context "db" "orders" (Some demo_orders)) demo_world =
    (Ok (plan, ctx'), w') /\
    cteList plan = [cte] /\ cterefcount cte = 2 /\
    rtable plan = [RTE_SUBQUERY inner c] /\
    length (rtable inner) = 2%nat.
Proof.
  assert (Hrun : exists r,
            @HandleFacet (RefCollaborators 2) demo_facet (base_table_query demo_orders)
              (top_context "db" "orders" (Some demo_orders)) demo_world = r /\
            is_ok (fst r) = true)
    by (eexists; split; [reflexivity | vm_compute; reflexivity]).
  destruct Hrun as ([[[plan ctx'] | ? ? ?] w'] & Hr & Hok); [| discriminate Hok].
  destruct (@facet_plan_shape (RefCollaborators 2) _ _ _ _ _ _ _ Hr)
    as (_ & fields & cte & body & inner & c & [= <-] & _ & Hcte & _ & _ & _ & Hcount &
        Hrt & Hmany).
  exists plan, ctx', w', cte, inner, c.
  destruct (Hmany ltac:(cbn; lia)) as (Hlen & _ & _). auto.
Defined.

(** ** $_internalInhibitOptimization *)


(** ** Names of databases and collections *)

Lemma StringViewContains_spec source character :
  StringViewContains source character = true <->
  List.In character (list_ascii_of_string source).
Proof.
  unfold StringViewContains. rewrite List.existsb_exists. split.
  - intros (x & Hin & Heq). apply Ascii.eqb_eq in Heq. subst. exact Hin.
  - intros Hin. exists character. split; [exact Hin | apply Ascii.eqb_refl].
Qed.

Lemma ValidateDatabaseCollection_database_characters_spec characters databaseView :
  match ValidateDatabaseCollection_database_characters characters databaseView with
  | Ok _ =>
      forall c, List.In c characters -> ~ List.In c (list_ascii_of_string databaseView)
  | Err code _ _ =>
      code = MongoInvalidNamespace /\
      exists c, List.In c characters /\ List.In c (list_ascii_of_string databaseView)
  end.
Proof.
  induction characters as [| character rest IH]; cbn; [tauto |].
  destruct (StringViewContains databaseView character) eqn:Hc.
  - apply StringViewContains_spec in Hc. split; [reflexivity | eauto].
  - destruct (ValidateDatabaseCollection_database_characters rest databaseView).
    + intros c [<- | Hin]; [| apply IH; exact Hin].
      rewrite <- StringViewContains_spec, Hc. discriminate.
    + destruct IH as [-> (c & Hin & Hocc)]. split; [reflexivity | eauto].
Qed.

Lemma ValidateDatabaseCollection_collection_characters_spec characters collectionView :
  match ValidateDatabaseCollection_collection_characters characters collectionView with
  | Ok _ =>
      forall c, List.In c characters -> ~ List.In c (list_ascii_of_string collectionView)
  | Err code _ _ =>
      code = MongoInvalidNamespace /\
      exists c, List.In c characters /\ List.In c (list_ascii_of_string collectionView)
  end.
Proof.
  induction characters as [| character rest IH]; cbn; [tauto |].
  destruct (StringViewContains collectionView character) eqn:Hc.
  - apply StringViewContains_spec in Hc. split; [reflexivity | eauto].
  - destruct (ValidateDatabaseCollection_collection_characters rest collectionView).
    + intros c [<- | Hin]; [| apply IH; exact Hin].
      rewrite <- StringViewContains_spec, Hc. discriminate.
    + destruct IH as [-> (c & Hin & Hocc)]. split; [reflexivity | eauto].
Qed.

Lemma ValidateCollectionNameForUnauthorizedSystemNs_loop_refuses names name db :
  List.In name names ->
  exists fmt args,
    ValidateCollectionNameForUnauthorizedSystemNs_loop names name db =
    Err MongoInvalidNamespace fmt args.
Proof.
  induction names as [| first rest IH]; intros Hin; [destruct Hin |].
  cbn. destruct (String.eqb name first) eqn:Heq; [eauto |].
  destruct Hin as [-> | Hin]; [rewrite String.eqb_refl in Heq; discriminate Heq |].
  exact (IH Hin).
Qed.

Lemma ValidateCollectionNameForValidSystemNamespace_loop_refuses names view db :
  (forall name, List.In name names -> List.In name NonWritableSystemCollectionNames) ->
  ValidateCollectionNameForValidSystemNamespace_loop names view db = Ok false \/
  exists fmt args,
    ValidateCollectionNameForValidSystemNamespace_loop names view db =
    Err MongoInvalidNamespace fmt args.
Proof.
  induction names as [| first rest IH]; intros Hsub; [left; reflexivity |].
  cbn [ValidateCollectionNameForValidSystemNamespace_loop].
  destruct (String.eqb (CreateStringFromStringView view) first) eqn:Heq.
  - right. apply String.eqb_eq in Heq. rewrite Heq.
    unfold ValidateCollectionNameForUnauthorizedSystemNs.
    destruct (ValidateCollectionNameForUnauthorizedSystemNs_loop_refuses
                NonWritableSystemCollectionNames first db) as (fmt & args & ->);
      [apply Hsub; left; reflexivity |].
    cbn. eauto.
  - apply IH. intros name Hin. apply Hsub. right. exact Hin.
Qed.

Lemma ValidateCollectionNameForValidSystemNamespace_spec view db :
  match ValidateCollectionNameForValidSystemNamespace view db with
  | Ok _ => String.prefix SystemPrefix view = false
  | Err code _ _ => code = MongoInvalidNamespace /\ String.prefix SystemPrefix view = true
  end.
Proof.
  unfold ValidateCollectionNameForValidSystemNamespace, StringViewStartsWithStringView.
  destruct (String.prefix SystemPrefix view); [| reflexivity].
  destruct (ValidateCollectionNameForValidSystemNamespace_loop_refuses
              ValidSystemCollectionNames view db) as [-> | (fmt & args & ->)];
    [intros name Hin; exact Hin | |]; cbn; auto.
Qed.

(** X19. [ValidateDatabaseCollection] accepts a database and collection
    name exactly when the database name is shorter than the bound and
    holds none of the characters slash, backslash, dot, space, double
    quote, dollar and NUL; the collection name is not empty, does not start
    with a dot and holds neither dollar nor NUL; the two names and the dot
    between them take at most 235 bytes; and the collection name does not
    start with system. (the four known system collections are refused as
    not writable, every other system name as invalid).  Every refusal is
    an invalid-namespace error. *)
Theorem ValidateDatabaseCollection_accepts (MAX_DATABASE_NAME_LENGTH : nat)
    (databaseView collectionView : string) :
  (ValidateDatabaseCollection MAX_DATABASE_NAME_LENGTH databaseView collectionView = Ok tt <->
   (String.length databaseView < MAX_DATABASE_NAME_LENGTH)%nat /\
   (forall c, List.In c CharactersNotAllowedInDatabaseNames ->
              ~ List.In c (list_ascii_of_string databaseView)) /\
   collectionView <> "" /\ StringViewStartsWith collectionView "."%char = false /\
   (forall c, List.In c CharactersNotAllowedInCollectionNames ->
              ~ List.In c (list_ascii_of_string collectionView)) /\
   (String.length databaseView + String.length collectionView + 1 <= 235)%nat /\
   String.prefix "system." collectionView = false) /\
  (is_ok (ValidateDatabaseCollection MAX_DATABASE_NAME_LENGTH databaseView collectionView) =
   false ->
   err_code (ValidateDatabaseCollection MAX_DATABASE_NAME_LENGTH databaseView collectionView) =
   Some MongoInvalidNamespace).
Proof.
  unfold ValidateDatabaseCollection.
  destruct (Nat.leb_spec MAX_DATABASE_NAME_LENGTH (String.length databaseView)) as [Hmax | Hmax].
  { split; [split; [discriminate | lia] | reflexivity]. }
  pose proof (ValidateDatabaseCollection_database_characters_spec
                CharactersNotAllowedInDatabaseNames databaseView) as Hdb.
  destruct (ValidateDatabaseCollection_database_characters
              CharactersNotAllowedInDatabaseNames databaseView) as [[] | code fmt args].
  2: { destruct Hdb as [-> (c & Hin & Hocc)]. cbn [bindR].
       split; [split; [discriminate |] | reflexivity].
       intros (_ & Hnone & _). exfalso. exact (Hnone c Hin Hocc). }
  cbn [bindR].
  destruct collectionView as [| first rest] eqn:Hview.
  { cbn. split; [split; [discriminate | intros (_ & _ & Hne & _); contradiction] |
                 reflexivity]. }
  rewrite <- Hview in *. replace (Nat.eqb (String.length collectionView) 0) with false
    by (subst collectionView; reflexivity).
  destruct (StringViewStartsWith collectionView ".") eqn:Hdot.
  { split; [split; [discriminate | intros (_ & _ & _ & [=] & _)] | reflexivity]. }
  pose proof (ValidateDatabaseCollection_collection_characters_spec
                CharactersNotAllowedInCollectionNames collectionView) as Hcoll.
  destruct (ValidateDatabaseCollection_collection_characters
              CharactersNotAllowedInCollectionNames collectionView) as [[] | code fmt args].
  2: { destruct Hcoll as [-> (c & Hin & Hocc)]. cbn [bindR].
       split; [split; [discriminate |] | reflexivity].
       intros (_ & _ & _ & _ & Hnone & _). exfalso. exact (Hnone c Hin Hocc). }
  cbn [bindR]. unfold MaxDatabaseCollectionLength.
  destruct (Nat.ltb_spec 235
              (String.length databaseView + String.length collectionView + 1)) as [Hlen | Hlen].
  { split; [split; [discriminate | lia] | reflexivity]. }
  pose proof (ValidateCollectionNameForValidSystemNamespace_spec collectionView databaseView)
    as Hsys.
  destruct (ValidateCollectionNameForValidSystemNamespace collectionView databaseView)
    as [[] | code fmt args].
  - split; [| discriminate]. split; [| reflexivity]. intros _.
    repeat split; auto. subst collectionView. discriminate.
  - destruct Hsys as [-> Hsys]. split; [| reflexivity].
    split; [discriminate |]. intros (_ & _ & _ & _ & _ & _ & Hno).
    unfold SystemPrefix in Hsys. rewrite Hsys in Hno. discriminate Hno.
Qed.

Lemma ValidateDatabaseCollection_accepts_witness :
  ValidateDatabaseCollection 64 "db" "orders" = Ok tt /\
  err_code (ValidateDatabaseCollection 64 "db" "system.views") =
  Some MongoInvalidNamespace.
Proof.
  split.
  - apply (ValidateDatabaseCollection_accepts 64 "db" "orders").
    split; [cbn; lia |]. split.
    { intros c Hin Hocc. cbn in Hin, Hocc.
      repeat destruct Hin as [<- | Hin]; try destruct Hin;
        repeat destruct Hocc as [[=] | Hocc]; destruct Hocc. }
    split; [discriminate |]. split; [reflexivity |]. split.
    { intros c Hin Hocc. cbn in Hin, Hocc.
      repeat destruct Hin as [<- | Hin]; try destruct Hin;
        repeat destruct Hocc as [[=] | Hocc]; destruct Hocc. }
    split; [cbn; lia | reflexivity].
  - apply (ValidateDatabaseCollection_accepts 64 "db" "system.views"). reflexivity.
Defined.

(** ** The join condition of a MERGE plan *)

Lemma ParseMergeStage_on_fields (v : bson_value_t) (ns : string) (args : MergeArgs) :
  ParseMergeStage v ns = Ok args ->
  on_is_field_list (on args) = true.
Proof.
  unfold ParseMergeStage. intros Hok.
  destruct v as [| s | fields | items | b | | z | z]; try discriminate Hok.
  - injection Hok as <-. reflexivity.
  - apply bindR_ok_inv in Hok as ([args1 isOn] & Hfields & Hok).
    apply ParseMergeStage_fields_invariant in Hfields as (Hon & _ & _).
    2: { split; [discriminate |]. split; [left; reflexivity |].
         cbn. intros Hne. exfalso. apply Hne. reflexivity. }
    cbn beta iota in Hok.
    destruct (String.eqb (targetCollection args1) ""); [discriminate Hok |].
    destruct isOn; cbn in Hok; injection Hok as <-; cbn; auto.
Qed.

(** X21. The join condition of a compiled $merge plan, over the wrapped
    source query alone, is the conjunction of the equality of the target's
    shard key value with the shard key column of the source and, for each
    [on] field in the order given, one call of bson_dollar_merge_join on
    the target document, the source document and the name of the field.
    There is at least one such call; so the condition is a conjunction, and
    the refusal [WriteJoinConditionToQueryDollarMerge] keeps for an [on]
    that is neither a string nor an array is never met. *)
Theorem merge_join_condition (v : bson_value_t) (q : Query)
    (ctx : AggregationPipelineBuildContext) (w : World) (src : MongoCollection)
    (plan : Query) (ctx' : AggregationPipelineBuildContext) (w' : World) :
  HandleMerge v q ctx w = (Ok (plan, ctx'), w') ->
  mongoCollection ctx = Some src ->
  exists args attrNo,
    ParseMergeStage v (namespaceName ctx) = Ok args /\
    on_field_names (on args) <> [] /\
    (forall name, on_single_field (on args) = Some name ->
                  on_field_names (on args) = [name]) /\
    jointree plan =
    Some (makeFromExpr [RangeTblRef 2]
            (Some (BoolExprAnd
                     (OpExpr PostgresInt4EqualOperatorOid InvalidOid BOOLOID
                        [makeVar 1 1 INT8OID (-1) InvalidOid 0;
                         makeVar 2 attrNo INT8OID (-1) InvalidOid 0] ::
                      List.map
                        (fun name =>
                           makeFuncExpr BsonDollarMergeJoinFunctionOid BOOLOID
                             [makeVar 1 2 BsonTypeId (-1) InvalidOid 0;
                              makeVar 2 1 BsonTypeId (-1) InvalidOid 0;
                              MakeTextConst name])
                        (on_field_names (on args)))))).
Proof.
  intros Hrun Hsrc.
  destruct (HandleMerge_ok_inv _ _ _ _ _ _ _ _ Hrun Hsrc)
    as (_ & _ & _ & args & target & Hparse & _ & _ & _ & _ & _ & _ & _ & _ &
        notMatchedAction & attrNo & wa & wb & _ & _ & _ & _ & Hjt).
  exists args, attrNo. split; [exact Hparse |].
  apply ParseMergeStage_on_fields in Hparse.
  assert (Hne : on_field_names (on args) <> []).
  { destruct (on args) as [| s | flds | [| first rest] | b | | z | z];
      try discriminate Hparse; discriminate. }
  split; [exact Hne |]. split.
  { intros name Hsingle.
    destruct (on args) as [| s | flds | [| [| s | | | | | |] [| second rest]] | b | | z | z];
      try discriminate Hsingle; injection Hsingle as <-; reflexivity. }
  rewrite Hjt. unfold merge_on_condition.
  destruct (on_field_names (on args)) as [| first rest]; [contradiction | reflexivity].
Qed.

Lemma merge_join_condition_witness :
  exists plan ctx' w' fromExpr,
    HandleMerge demo_merge (base_table_query demo_orders)
      (top_context "db" "orders" (Some demo_orders)) demo_world =
    (Ok (plan, ctx'), w') /\
    jointree plan = Some fromExpr /\ fromlist fromExpr = [RangeTblRef 2].
Proof.
  assert (Hrun : exists r,
            HandleMerge demo_merge (base_table_query demo_orders)
              (top_context "db" "orders" (Some demo_orders)) demo_world = r /\
            is_ok (fst r) = true)
    by (eexists; split; [reflexivity | vm_compute; reflexivity]).
  destruct Hrun as ([[[plan ctx'] | ? ? ?] w'] & Hr & Hok); [| discriminate Hok].
  destruct (merge_join_condition _ _ _ _ demo_orders _ _ _ Hr eq_refl)
    as (args & attrNo & _ & _ & _ & Hjt).
  exists plan, ctx', w'. eexists. split; [exact Hr |]. split; [exact Hjt | reflexivity].
Defined.

(** ** The plan of a $unionWith *)

Lemma ValidateUnionWithPipeline_stages_ok stages :
  ValidateUnionWithPipeline_stages stages = Ok tt ->
  List.forallb single_field_stage stages = true /\
  has_stage unionWith_forbidden stages = false.
Proof.
  induction stages as [| stage rest IH]; intros Hok; [split; reflexivity |].
  cbn [ValidateUnionWithPipeline_stages] in Hok.
  apply bindR_ok_inv in Hok as ([name arg] & Hstage & Hok). cbn [fst] in Hok.
  destruct (String.eqb name "$out") eqn:Hout; [discriminate Hok |].
  destruct (String.eqb name "$merge") eqn:Hmerge; [discriminate Hok |].
  destruct (IH Hok) as [Hwf Hnone].
  unfold GetPipelineStage in Hstage.
  destruct stage as [| s | [| [n a] [| more]] | items | b | | z | z];
    try discriminate Hstage.
  cbn in Hstage. injection Hstage as -> ->.
  cbn [List.forallb single_field_stage has_stage List.existsb stage_name].
  unfold unionWith_forbidden at 1. rewrite Hout, Hmerge, Hwf. split; [reflexivity |].
  exact Hnone.
Qed.

(** X22. A compiled $unionWith: its pipeline, if it has one, is an array
    of stage documents without $out and $merge; the plan reads from one
    subquery, which is the UNION ALL of two subquery entries, the input
    plan on the left and the plan of the other collection on the right;
    the column of the union carries the number and name of the first
    column of the input plan; and the context records one more level of
    nesting. *)
Theorem unionWith_plan_shape `{Collaborators} (v : bson_value_t) (q : Query)
    (ctx : AggregationPipelineBuildContext) (w : World)
    (plan : Query) (ctx' : AggregationPipelineBuildContext) (w' : World) :
  HandleUnionWith v q ctx w = (Ok (plan, ctx'), w') ->
  exists coll pipelineValue union c right first,
    ParseUnionWith v = Ok (coll, pipelineValue) /\
    List.forallb single_field_stage (bson_iter_values pipelineValue) = true /\
    has_stage unionWith_forbidden (bson_iter_values pipelineValue) = false /\
    rtable plan = [RTE_SUBQUERY union c] /\
    rtable union =
    [MakeSubQueryRte q (stageNum ctx) 0 "unionLeft" false;
     MakeSubQueryRte right (stageNum ctx) 0 "unionRight" false] /\
    setOperations union =
    Some (SetOperationStmt SETOP_UNION true (Some (SetOpRangeTblRef 1))
            (Some (SetOpRangeTblRef 2)) [BsonTypeId] [-1] [InvalidOid]) /\
    List.nth_error (targetList q) 0 = Some first /\
    targetList union =
    [makeTargetEntry (makeVar 1 (resno first) BsonTypeId (-1) InvalidOid 0)
       (resno first) (resname first) false] /\
    numNestedLevels ctx' = numNestedLevels ctx + 1.
Proof.
  unfold HandleUnionWith. intros Hrun.
  apply bindM_ok_inv in Hrun as ([] & w1 & _ & Hrun).
  apply bindM_ok_inv in Hrun as ([coll pipelineValue] & w2 & Hparse & Hrun).
  unfold liftR in Hparse. apply pair_equal_spec in Hparse as [Hparse _].
  apply bindM_ok_inv in Hrun as (right & w3 & Hright & Hrun).
  destruct (targetList q) as [| first rest] eqn:Htl; [discriminate Hrun |].
  unfold MigrateQueryToSubQuery in Hrun. cbn in Hrun. injection Hrun as <- <- <-.
  exists coll, pipelineValue. do 2 eexists. exists right, first.
  split; [exact Hparse |].
  assert (Hstages :
    List.forallb single_field_stage (bson_iter_values pipelineValue) = true /\
    has_stage unionWith_forbidden (bson_iter_values pipelineValue) = false).
  { destruct (bson_type_eqb (value_type pipelineValue) BSON_TYPE_EOD) eqn:Heod.
    - destruct pipelineValue; try discriminate Heod. split; reflexivity.
    - apply bindM_ok_inv in Hright as ([right1 sub1] & w4 & _ & Hright).
      cbn [negb] in Hright.
      apply bindM_ok_inv in Hright as ([] & w5 & Hvalid & Hright).
      unfold liftR in Hvalid. apply pair_equal_spec in Hvalid as [Hvalid _].
      apply ValidateUnionWithPipeline_stages_ok. exact Hvalid. }
  destruct Hstages as [Hwf Hnone].
  split; [exact Hwf |]. split; [exact Hnone |].
  split; [reflexivity |]. split; [reflexivity |]. split; [reflexivity |].
  split; [reflexivity |]. split; reflexivity.
Qed.

Lemma unionWith_plan_shape_witness :
  exists plan ctx' w' union c,
    @HandleUnionWith (RefCollaborators 2) (BsonUtf8 "items")
      (base_table_query demo_orders) (top_context "db" "orders" (Some demo_orders))
      demo_world = (Ok (plan, ctx'), w') /\
    rtable plan = [RTE_SUBQUERY union c] /\ length (rtable union) = 2%nat.
Proof.
  assert (Hrun : exists r,
            @HandleUnionWith (RefCollaborators 2) (BsonUtf8 "items")
              (base_table_query demo_orders)
              (top_context "db" "orders" (Some demo_orders)) demo_world = r /\
            is_ok (fst r) = true)
    by (eexists; split; [reflexivity | vm_compute; reflexivity]).
  destruct Hrun as ([[[plan ctx'] | ? ? ?] w'] & Hr & Hok); [| discriminate Hok].
  destruct (@unionWith_plan_shape (RefCollaborators 2) _ _ _ _ _ _ _ Hr)
    as (coll & pipelineValue & union & c & right & first & _ & _ & _ & Hrt & Hunion & _).
  exists plan, ctx', w', union, c. split; [exact Hr |]. split; [exact Hrt |].
  rewrite Hunion. reflexivity.
Defined.
